(** * Java syntax diagrams: rule registry, render adapter and coverage check

    A shallow embedding of the TypeScript sources

    - [src/features/grammar/java25Grammar.ts] (module [Java25]),
    - [src/features/grammar/javaGrammar.ts] (module [Java21]),
    - [src/shared/railroad/diagramToSvg.ts] (module [DiagramToSvg]),
    - [src/features/grammar/ebnfDefinitions.ts] (module [Ebnf]),
    - [src/components/RuleDiagram.tsx] (module [RuleDiagram]),
    - [src/app/App.tsx] (module [App]),
    - [scripts/check-grammar-coverage.mjs] (module [Coverage]),

    followed by the properties of the specification stated over it.  The
    package [@prantlf/railroad-diagrams] is a parameter (module [RR]).

    JavaScript strings are modelled by [string].  Every rule name and
    operator token of the grammar is ASCII, for which the byte order of
    [String.leb] is the code-unit order used by [Array.prototype.sort];
    [toLowerCase], [trim] and the regular-expression class [\s] are
    modelled on the ASCII range, and other characters are left as they
    are. *)

From Stdlib Require Import String Ascii List Bool Arith ZArith Lia DecimalString.
From Stdlib Require Import Sorting.Mergesort Sorting.Sorted Sorting.Permutation.
From Stdlib Require Import Relations.Relation_Definitions Classes.RelationClasses.
Import ListNotations.
Open Scope string_scope.
Set Warnings "-register-all".

(* ================================================================== *)
(** ** JavaScript strings                                              *)
(* ================================================================== *)

Module JsString.

(** [String.prototype.toLowerCase], on ASCII letters. *)
Definition lowerChar (c : ascii) : ascii :=
  let n := nat_of_ascii c in
  if (65 <=? n)%nat && (n <=? 90)%nat then ascii_of_nat (n + 32) else c.

Fixpoint toLowerCase (s : string) : string :=
  match s with
  | EmptyString => EmptyString
  | String c s' => String (lowerChar c) (toLowerCase s')
  end.

(** White space and line terminators of the ASCII range: TAB, LF, VT, FF,
    CR and SPACE.  This is what [trim] strips and what [\s] matches. *)
Definition isWhiteSpace (c : ascii) : bool :=
  let n := nat_of_ascii c in
  ((9 <=? n)%nat && (n <=? 13)%nat) || (n =? 32)%nat.

Fixpoint trimStart (s : string) : string :=
  match s with
  | EmptyString => EmptyString
  | String c s' => if isWhiteSpace c then trimStart s' else s
  end.

Fixpoint trimEnd (s : string) : string :=
  match s with
  | EmptyString => EmptyString
  | String c s' =>
      match trimEnd s' with
      | EmptyString => if isWhiteSpace c then EmptyString else String c EmptyString
      | r => String c r
      end
  end.

(** [String.prototype.trim]. *)
Definition trim (s : string) : string := trimEnd (trimStart s).

(** [s.includes(sub)]: [sub] occurs in [s] as a contiguous substring. *)
Fixpoint includes (s sub : string) : bool :=
  String.prefix sub s ||
  match s with
  | EmptyString => false
  | String _ s' => includes s' sub
  end.

(** Truthiness of a string: [!q] holds exactly for the empty string. *)
Definition isEmpty (s : string) : bool :=
  match s with EmptyString => true | _ => false end.

(** The declarative reading of "contains". *)
Definition Contains (s sub : string) : Prop :=
  exists a b, s = a ++ sub ++ b.

End JsString.

(* ================================================================== *)
(** ** JavaScript [Set] and [Map] keyed by strings                     *)
(* ================================================================== *)

(** A [Set<string>]: its elements in insertion order, without repetition. *)
Module JsSet.

Definition t := list string.

Definition empty : t := [].

Definition has (s : t) (x : string) : bool := existsb (String.eqb x) s.

Definition add (s : t) (x : string) : t :=
  if has s x then s else (s ++ [x])%list.

Definition size (s : t) : nat := List.length s.

(** [[...s]]: iteration follows insertion order. *)
Definition values (s : t) : list string := s.

(** [new Set(iterable)] and repeated [add]. *)
Definition addAll (s : t) (xs : list string) : t := fold_left add xs s.

End JsSet.

(** A [Map<string, V>]: its entries in insertion order, one per key. *)
Module JsMap.

Section WithValue.
Context {V : Type}.

Definition t := list (string * V).

Definition empty : t := [].

Fixpoint get (m : t) (k : string) : option V :=
  match m with
  | [] => None
  | (k', v) :: m' => if String.eqb k k' then Some v else get m' k
  end.

(** [m.set(k, v)]: an existing key keeps its position and takes the new
    value; a new key is appended. *)
Fixpoint set (m : t) (k : string) (v : V) : t :=
  match m with
  | [] => [(k, v)]
  | (k', v') :: m' =>
      if String.eqb k k' then (k', v) :: m' else (k', v') :: set m' k v
  end.

Definition has (m : t) (k : string) : bool :=
  match get m k with Some _ => true | None => false end.

(** [Array.from(m.keys())]. *)
Definition keys (m : t) : list string := map fst m.

End WithValue.

Arguments t : clear implicits.

End JsMap.

(** [Array.prototype.sort()] without a comparator, on strings: ascending
    code-unit order. *)
Module StringOrder <: Orders.TotalLeBool.
Definition t := string.
Definition leb := String.leb.
Definition leb_total :
  forall a1 a2, leb a1 a2 = true \/ leb a2 a1 = true := String.leb_total.
End StringOrder.

Module StringSort := Mergesort.Sort StringOrder.

Definition Array_sort (l : list string) : list string := StringSort.sort l.

(** Sorted lexicographically: every element is below, in [String.leb]
    order, all the elements that come after it. *)
Definition LexSorted (l : list string) : Prop :=
  StronglySorted (fun x y => String.leb x y = true) l.

(* ================================================================== *)
(** ** src/app/App.tsx                                                 *)
(* ================================================================== *)

Module App.
Import JsString.

(** [filterNames], with the component state [query] as an argument:
<<
  const q = query.trim().toLowerCase();
  if (!q) return names;
  return names.filter((n) => n.toLowerCase().includes(q));
>> *)
Definition filterNames (query : string) (names : list string) : list string :=
  let q := toLowerCase (trim query) in
  if isEmpty q then names
  else filter (fun n => includes (toLowerCase n) q) names.

End App.

(* ================================================================== *)
(** ** Exceptions and the trace of library invocations                 *)
(* ================================================================== *)

(** An exception as a [catch (e)] clause observes it, when the text of its
    message can be produced: an [Error] object, or any other value with a
    readable [message] or a working conversion to a string.  The package's
    constructors and members and Node's [readFileSync] throw values of this
    kind.  A value for which producing that text itself throws is not of
    this kind; [diagramToSvgString], which takes any input, has them as
    [DiagramToSvg.Caught]. *)
Record Thrown := mkThrown {
  isTypeError : bool;        (* [e instanceof TypeError] *)
  message : option string;   (* [e?.message], when neither null nor undefined *)
  asString : string          (* [String(e)] *)
}.

(** [new TypeError(msg)]. *)
Definition TypeError (msg : string) : Thrown :=
  mkThrown true (Some msg) ("TypeError: " ++ msg).

(** [new Error(msg)]. *)
Definition Error (msg : string) : Thrown :=
  mkThrown false (Some msg) ("Error: " ++ msg).

(** [e?.message ?? String(e)]  (and [String(e?.message ?? e)]). *)
Definition errorText (e : Thrown) : string :=
  match message e with
  | Some m => m
  | None => asString e
  end.

Inductive Result (A : Type) : Type :=
| Ok (a : A)
| Throw (e : Thrown).
Arguments Ok {A} a.
Arguments Throw {A} e.

(** The external package [@prantlf/railroad-diagrams]. *)
Module RR.

(** The ten node-kind constructors it exports. *)
Inductive Kind :=
| Diagram | Sequence | Choice | Optional | OneOrMore
| ZeroOrMore | Terminal | NonTerminal | Stack | Comment.

Definition kindName (k : Kind) : string :=
  match k with
  | Diagram => "Diagram" | Sequence => "Sequence" | Choice => "Choice"
  | Optional => "Optional" | OneOrMore => "OneOrMore"
  | ZeroOrMore => "ZeroOrMore" | Terminal => "Terminal"
  | NonTerminal => "NonTerminal" | Stack => "Stack" | Comment => "Comment"
  end.

Definition allKinds : list Kind :=
  [Diagram; Sequence; Choice; Optional; OneOrMore;
   ZeroOrMore; Terminal; NonTerminal; Stack; Comment].

(** The values that travel between the grammar modules and the package:
    [undefined], numbers (the default index of a [Choice]), strings, and
    the node objects the package builds; a node records the constructor
    that built it and the arguments it was built from. *)
Inductive Val :=
| VUndefined
| VNumber (n : Z)
| VString (s : string)
| VNode (k : Kind) (args : list Val).

(** An exported constructor, as JavaScript sees it: the text that
    [Function.prototype.toString] gives for it, what a plain call
    [fn(...args)] does and what [new fn(...args)] does. *)
Record Callee := mkCallee {
  source : string;
  call : list Val -> Result Val;
  construct : list Val -> Result Val
}.

(** What a member access followed by [typeof m === "function"] finds. *)
Inductive Member (A : Type) : Type :=
| NotAFunction
| Method (run : Result A)
| AccessThrows (e : Thrown).
Arguments NotAFunction {A}.
Arguments Method {A} run.
Arguments AccessThrows {A} e.

(** What [toSVG()] may hand back: a string, a DOM node (an object with a
    [nodeType]; [outerHTML] may be missing, and then [XMLSerializer] is
    asked), or anything else. *)
Inductive SvgValue :=
| SvgString (s : string)
| SvgElement (outerHTML : option string) (serializeToString : Result string)
| SvgOther.

(** The package: its ten exports and the two markup-producing members of
    the nodes it builds ([toString] already passed through [String]). *)
Record Library := mkLibrary {
  export : Kind -> Callee;
  toSVG : Kind -> list Val -> Member SvgValue;
  toString : Kind -> list Val -> Member string
}.

End RR.

(** One invocation of an export of the package. *)
Inductive Event :=
| Called (k : RR.Kind) (args : list RR.Val)        (* [fn(...args)] *)
| Constructed (k : RR.Kind) (args : list RR.Val).  (* [new fn(...args)] *)

(** Computations of the grammar modules: the invocations made so far, in
    order, and either a value or a thrown exception. *)
Definition M (A : Type) : Type := (list Event * Result A)%type.

Definition ret {A} (a : A) : M A := ([], Ok a).

Definition throw {A} (e : Thrown) : M A := ([], Throw e).

Definition bind {A B} (m : M A) (f : A -> M B) : M B :=
  match m with
  | (l, Ok a) => let (l', r) := f a in ((l ++ l')%list, r)
  | (l, Throw e) => (l, Throw e)
  end.

(** [try { m } catch (e) { h e }]. *)
Definition try_catch {A} (m : M A) (h : Thrown -> M A) : M A :=
  match m with
  | (l, Ok a) => (l, Ok a)
  | (l, Throw e) => let (l', r) := h e in ((l ++ l')%list, r)
  end.

Definition lift {A} (r : Result A) : M A := ([], r).

Declare Scope js_scope.
Delimit Scope js_scope with js.
Notation "x <- m ;; k" := (bind m (fun x => k))
  (at level 61, m at next level, right associativity) : js_scope.
Open Scope js_scope.

Definition trace {A} (m : M A) : list Event := fst m.
Definition outcome {A} (m : M A) : Result A := snd m.

(** Argument expressions are evaluated left to right before a call. *)
Fixpoint evalArgs (es : list (M RR.Val)) : M (list RR.Val) :=
  match es with
  | [] => ret []
  | e :: es' => v <- e ;; vs <- evalArgs es' ;; ret (v :: vs)
  end.

(** The call expression [f(e1, ..., en)]. *)
Definition apply_ (f : list RR.Val -> M RR.Val) (es : list (M RR.Val)) : M RR.Val :=
  args <- evalArgs es ;; f args.

(** String and number literals in argument position. *)
Definition str (s : string) : M RR.Val := ret (RR.VString s).
Definition num (n : Z) : M RR.Val := ret (RR.VNumber n).

Section Invocation.
Variable lib : RR.Library.

Definition invokeCall (k : RR.Kind) (args : list RR.Val) : M RR.Val :=
  ([Called k args], RR.call (RR.export lib k) args).

Definition invokeNew (k : RR.Kind) (args : list RR.Val) : M RR.Val :=
  ([Constructed k args], RR.construct (RR.export lib k) args).
End Invocation.

(** A diagram factory: [() => any]. *)
Definition DiagramFactory := unit -> M RR.Val.

(* ================================================================== *)
(** ** src/features/grammar/javaGrammar.ts                             *)
(* ================================================================== *)

Module Java21.
Import JsString.

Section WithLibrary.
Variable lib : RR.Library.

(** 
<<
function callOrNew(Ctor, ...args) {
  try { return Ctor(...args); }
  catch (e) {
    if (e instanceof TypeError && /without 'new'/.test(e.message))
      return new Ctor(...args);
    throw e;
  }
}
>> *)
Definition withoutNew (e : Thrown) : bool :=
  isTypeError e &&
  match message e with
  | Some m => includes m "without 'new'"
  | None => false
  end.

Definition callOrNew (Ctor : RR.Kind) (args : list RR.Val) : M RR.Val :=
  try_catch (invokeCall lib Ctor args)
    (fun e => if withoutNew e then invokeNew lib Ctor args else throw e).

(** Wrapped primitives. *)
Definition Diagram a := apply_ (callOrNew RR.Diagram) a.
Definition Sequence a := apply_ (callOrNew RR.Sequence) a.
Definition Choice a := apply_ (callOrNew RR.Choice) a.
Definition Optional a := apply_ (callOrNew RR.Optional) a.
Definition OneOrMore a := apply_ (callOrNew RR.OneOrMore) a.
Definition ZeroOrMore a := apply_ (callOrNew RR.ZeroOrMore) a.
Definition Terminal a := apply_ (callOrNew RR.Terminal) a.
Definition NonTerminal a := apply_ (callOrNew RR.NonTerminal) a.
Definition Stack a := apply_ (callOrNew RR.Stack) a.
Definition Comment a := apply_ (callOrNew RR.Comment) a.

Definition T (s : string) := Terminal [str s].
Definition NT (s : string) := NonTerminal [str s].

(** The wrapper the module defines for each export. *)
Definition wrapper (k : RR.Kind) : list (M RR.Val) -> M RR.Val :=
  match k with
  | RR.Diagram => Diagram | RR.Sequence => Sequence | RR.Choice => Choice
  | RR.Optional => Optional | RR.OneOrMore => OneOrMore
  | RR.ZeroOrMore => ZeroOrMore | RR.Terminal => Terminal
  | RR.NonTerminal => NonTerminal | RR.Stack => Stack
  | RR.Comment => Comment
  end.

(** precedence-chain helper: BASE ( (op) BASE )*
<<
function chain(base, ops) {
  return Sequence(NT(base),
    ZeroOrMore(Sequence(Choice(0, ...ops.map(T)), NT(base))));
}
>> *)
Definition chain (base : string) (ops : list string) : M RR.Val :=
  Sequence [NT base;
            ZeroOrMore [Sequence [Choice (num 0 :: map T ops); NT base]]].

(** The registry of this module is a [Map] filled at load time; the
    accessor is stated over whatever map that is.
<<
const factory = rules.get(name);
if (!factory) return Diagram(Comment(`No factory defined for ${name}`));
return factory();
>> *)
Definition createRuleDiagram (rules : JsMap.t DiagramFactory) (name : string)
  : M RR.Val :=
  match JsMap.get rules name with
  | None => Diagram [Comment [str ("No factory defined for " ++ name)]]
  | Some factory => factory tt
  end.

End WithLibrary.

End Java21.

(* ================================================================== *)
(** ** src/features/grammar/java25Grammar.ts                           *)
(* ================================================================== *)

Module Java25.
Import JsString.
Import RR.

(** [/^class\s/.test(text)]. *)
Definition startsWithClass (text : string) : bool :=
  match text with
  | String "c" (String "l" (String "a" (String "s" (String "s" (String c _))))) =>
      isWhiteSpace c
  | _ => false
  end.

(** [typeof fn === "function" && /^class\s/.test(Function.prototype.toString.call(fn))];
    every export of the package is a function. *)
Definition __isClass (fn : Callee) : bool := startsWithClass (source fn).

(** The messages after which [rr] retries with [new]. *)
Definition mustBeConstructed (msg : string) : bool :=
  includes msg "without 'new'" ||
  includes msg "Class constructor" ||
  includes msg "Cannot call a class as a function".

(** Section IDs and titles (for navigation). *)
Inductive SectionId :=
| lexical | types | names | packages | classes | interfaces | arrays | statements | expressions.

Definition SECTION_ORDER : list SectionId :=
  [lexical; types; names; packages; classes; interfaces; arrays; statements; expressions].

Definition SECTION_TITLES (s : SectionId) : string :=
  match s with
  | lexical => "§3 Lexical Structure"
  | types => "§4 Types, Values, and Variables"
  | names => "§6 Names"
  | packages => "§7 Packages and Modules"
  | classes => "§8 Classes"
  | interfaces => "§9 Interfaces"
  | arrays => "§10 Arrays"
  | statements => "§14 Blocks, Statements, and Patterns"
  | expressions => "§15 Expressions"
  end.

Definition SECTION_RULES (s : SectionId) : list string :=
  match s with
  | lexical =>
      ["Identifier"; "IdentifierChars"; "JavaLetter"; "JavaLetterOrDigit";
       "TypeIdentifier"; "UnqualifiedMethodIdentifier"; "Literal"]
  | types =>
      ["Type"; "PrimitiveType"; "NumericType"; "IntegralType";
       "FloatingPointType"; "ReferenceType"; "ClassOrInterfaceType";
       "ClassType"; "InterfaceType"; "TypeVariable"; "ArrayType"; "Dims";
       "TypeParameter"; "TypeParameterModifier"; "TypeBound";
       "AdditionalBound"; "TypeArguments"; "TypeArgumentList";
       "TypeArgument"; "Wildcard"; "WildcardBounds"]
  | names =>
      ["ModuleName"; "PackageName"; "TypeName"; "ExpressionName";
       "MethodName"; "PackageOrTypeName"; "AmbiguousName"]
  | packages =>
      ["CompilationUnit"; "OrdinaryCompilationUnit";
       "ModularCompilationUnit"; "PackageDeclaration"; "PackageModifier";
       "ImportDeclaration"; "SingleTypeImportDeclaration";
       "TypeImportOnDemandDeclaration"; "SingleStaticImportDeclaration";
       "StaticImportOnDemandDeclaration"; "SingleModuleImportDeclaration";
       "TopLevelClassOrInterfaceDeclaration"; "ModuleDeclaration";
       "ModuleDirective"; "RequiresModifier"]
  | classes =>
      ["ClassDeclaration"; "NormalClassDeclaration"; "ClassModifier";
       "TypeParameters"; "TypeParameterList"; "ClassExtends";
       "ClassImplements"; "InterfaceTypeList"; "ClassPermits"; "ClassBody";
       "ClassBodyDeclaration"; "ClassMemberDeclaration"; "FieldDeclaration";
       "FieldModifier"; "VariableDeclaratorList"; "VariableDeclarator";
       "VariableDeclaratorId"; "VariableInitializer"; "UnannType";
       "UnannPrimitiveType"; "UnannReferenceType";
       "UnannClassOrInterfaceType"; "UnannClassType"; "UnannInterfaceType";
       "UnannTypeVariable"; "UnannArrayType"; "MethodDeclaration";
       "MethodModifier"; "MethodHeader"; "Result"; "MethodDeclarator";
       "ReceiverParameter"; "FormalParameterList"; "FormalParameter";
       "VariableArityParameter"; "VariableModifier"; "Throws";
       "ExceptionTypeList"; "ExceptionType"; "MethodBody";
       "InstanceInitializer"; "StaticInitializer"; "ConstructorDeclaration";
       "ConstructorModifier"; "ConstructorDeclarator"; "SimpleTypeName";
       "ConstructorBody"; "ConstructorInvocation"; "EnumDeclaration";
       "EnumBody"; "EnumConstantList"; "EnumConstant";
       "EnumConstantModifier"; "EnumBodyDeclarations"; "RecordDeclaration";
       "RecordHeader"; "RecordComponentList"; "RecordComponent";
       "VariableArityRecordComponent"; "RecordComponentModifier";
       "RecordBody"; "RecordBodyDeclaration";
       "CompactConstructorDeclaration"]
  | interfaces =>
      ["InterfaceDeclaration"; "NormalInterfaceDeclaration";
       "InterfaceModifier"; "InterfaceExtends"; "InterfacePermits";
       "InterfaceBody"; "InterfaceMemberDeclaration"; "ConstantDeclaration";
       "ConstantModifier"; "InterfaceMethodDeclaration";
       "InterfaceMethodModifier"; "AnnotationInterfaceDeclaration";
       "AnnotationInterfaceBody"; "AnnotationInterfaceMemberDeclaration";
       "AnnotationInterfaceElementDeclaration";
       "AnnotationInterfaceElementModifier"; "DefaultValue"; "Annotation";
       "NormalAnnotation"; "ElementValuePairList"; "ElementValuePair";
       "ElementValue"; "ElementValueArrayInitializer"; "ElementValueList";
       "MarkerAnnotation"; "SingleElementAnnotation"]
  | arrays =>
      ["ArrayInitializer"; "VariableInitializerList"]
  | statements =>
      ["Block"; "BlockStatements"; "BlockStatement";
       "LocalClassOrInterfaceDeclaration";
       "LocalVariableDeclarationStatement"; "LocalVariableDeclaration";
       "LocalVariableType"; "Statement"; "StatementNoShortIf";
       "StatementWithoutTrailingSubstatement"; "EmptyStatement";
       "LabeledStatement"; "LabeledStatementNoShortIf";
       "ExpressionStatement"; "StatementExpression"; "IfThenStatement";
       "IfThenElseStatement"; "IfThenElseStatementNoShortIf";
       "AssertStatement"; "SwitchStatement"; "SwitchBlock"; "SwitchRule";
       "SwitchBlockStatementGroup"; "SwitchLabel"; "CaseConstant";
       "CasePattern"; "Guard"; "WhileStatement"; "WhileStatementNoShortIf";
       "DoStatement"; "ForStatement"; "ForStatementNoShortIf";
       "BasicForStatement"; "BasicForStatementNoShortIf"; "ForInit";
       "ForUpdate"; "StatementExpressionList"; "EnhancedForStatement";
       "EnhancedForStatementNoShortIf"; "BreakStatement"; "YieldStatement";
       "ContinueStatement"; "ReturnStatement"; "ThrowStatement";
       "SynchronizedStatement"; "TryStatement"; "Catches"; "CatchClause";
       "CatchFormalParameter"; "CatchType"; "Finally";
       "TryWithResourcesStatement"; "ResourceSpecification"; "ResourceList";
       "Resource"; "VariableAccess"; "Pattern"; "TypePattern";
       "RecordPattern"; "ComponentPatternList"; "ComponentPattern";
       "MatchAllPattern"]
  | expressions =>
      ["Primary"; "PrimaryNoNewArray"; "ClassLiteral";
       "ClassInstanceCreationExpression";
       "UnqualifiedClassInstanceCreationExpression";
       "ClassOrInterfaceTypeToInstantiate"; "TypeArgumentsOrDiamond";
       "ArrayCreationExpression";
       "ArrayCreationExpressionWithoutInitializer";
       "ArrayCreationExpressionWithInitializer"; "DimExprs"; "DimExpr";
       "ArrayAccess"; "FieldAccess"; "MethodInvocation"; "ArgumentList";
       "MethodReference"; "Expression"; "LambdaExpression";
       "LambdaParameters"; "LambdaParameterList"; "NormalLambdaParameter";
       "LambdaParameterType"; "ConciseLambdaParameter"; "LambdaBody";
       "AssignmentExpression"; "Assignment"; "LeftHandSide";
       "AssignmentOperator"; "ConditionalExpression";
       "ConditionalOrExpression"; "ConditionalAndExpression";
       "InclusiveOrExpression"; "ExclusiveOrExpression"; "AndExpression";
       "EqualityExpression"; "RelationalExpression"; "InstanceofExpression";
       "ShiftExpression"; "AdditiveExpression"; "MultiplicativeExpression";
       "UnaryExpression"; "PreIncrementExpression"; "PreDecrementExpression";
       "UnaryExpressionNotPlusMinus"; "PostfixExpression";
       "PostIncrementExpression"; "PostDecrementExpression";
       "CastExpression"; "SwitchExpression"]
  end.

Section WithLibrary.
Variable lib : Library.

(**
<<
const rr = (fn, ...args) => {
  if (__isClass(fn)) return new fn(...args);
  try { return fn(...args); }
  catch (err) {
    const msg = String(err?.message ?? err);
    if (msg.includes(...) || msg.includes(...) || msg.includes(...))
      return new fn(...args);
    throw err;
  }
};
>> *)
Definition rr (fn : Kind) (args : list Val) : M Val :=
  if __isClass (export lib fn) then invokeNew lib fn args
  else
    try_catch (invokeCall lib fn args)
      (fun err =>
         let msg := errorText err in
         if mustBeConstructed msg then invokeNew lib fn args else throw err).

Definition D items := apply_ (rr Diagram) items.
Definition Seq items := apply_ (rr Sequence) items.
Definition Ch items := apply_ (rr Choice) items.
Definition Opt items := apply_ (rr Optional) items.
Definition OOM items := apply_ (rr OneOrMore) items.
Definition ZOM items := apply_ (rr ZeroOrMore) items.
Definition Stk items := apply_ (rr Stack) items.
Definition Cmt (text : string) rest := apply_ (rr Comment) (str text :: rest).
Definition T (text : string) rest := apply_ (rr Terminal) (str text :: rest).
Definition NT (text : string) rest := apply_ (rr NonTerminal) (str text :: rest).

(** The shorthand the module defines for each export. *)
Definition wrapper (k : Kind) : list (M Val) -> M Val :=
  match k with
  | Diagram => D | Sequence => Seq | Choice => Ch | Optional => Opt
  | OneOrMore => OOM | ZeroOrMore => ZOM | Stack => Stk
  | Comment => apply_ (rr Comment)
  | Terminal => apply_ (rr Terminal)
  | NonTerminal => apply_ (rr NonTerminal)
  end.

(** The diagram factory map: [const rules = new Map()], followed by one
    [rules.set(name, () => ...)] per rule, in this order. *)
Definition registrations : list (string * DiagramFactory) := [
  (* §3 Lexical Structure *)
  ("Identifier", fun _ =>
    D [
      Seq [
        NT "IdentifierChars" [];
        Cmt "but not ReservedKeyword, BooleanLiteral, or NullLiteral" []]]);
  ("IdentifierChars", fun _ =>
    D [Seq [NT "JavaLetter" []; ZOM [NT "JavaLetterOrDigit" []]]]);
  ("JavaLetter", fun _ =>
    D [Cmt "any Unicode character that is a Java letter" []]);
  ("JavaLetterOrDigit", fun _ =>
    D [Cmt "any Unicode character that is a Java letter-or-digit" []]);
  ("TypeIdentifier", fun _ =>
    D [
      Seq [
        NT "Identifier" [];
        Cmt "but not permits, record, sealed, var, or yield" []]]);
  ("UnqualifiedMethodIdentifier", fun _ =>
    D [Seq [NT "Identifier" []; Cmt "but not yield" []]]);
  ("Literal", fun _ =>
    D [
      Ch [
        num 0;
        NT "IntegerLiteral" [];
        NT "FloatingPointLiteral" [];
        NT "BooleanLiteral" [];
        NT "CharacterLiteral" [];
        NT "StringLiteral" [];
        NT "TextBlock" [];
        NT "NullLiteral" []]]);
  (* §4 Types, Values, and Variables *)
  ("Type", fun _ =>
    D [Ch [num 0; NT "PrimitiveType" []; NT "ReferenceType" []]]);
  ("PrimitiveType", fun _ =>
    D [
      Ch [
        num 0;
        Seq [ZOM [NT "Annotation" []]; NT "NumericType" []];
        Seq [ZOM [NT "Annotation" []]; T "boolean" []]]]);
  ("NumericType", fun _ =>
    D [Ch [num 0; NT "IntegralType" []; NT "FloatingPointType" []]]);
  ("IntegralType", fun _ =>
    D [Ch [num 0; T "byte" []; T "short" []; T "int" []; T "long" []; T "char" []]]);
  ("FloatingPointType", fun _ =>
    D [Ch [num 0; T "float" []; T "double" []]]);
  ("ReferenceType", fun _ =>
    D [
      Ch [
        num 0;
        NT "ClassOrInterfaceType" [];
        NT "TypeVariable" [];
        NT "ArrayType" []]]);
  ("ClassOrInterfaceType", fun _ =>
    D [Ch [num 0; NT "ClassType" []; NT "InterfaceType" []]]);
  ("ClassType", fun _ =>
    D [
      Ch [
        num 0;
        Seq [
          ZOM [NT "Annotation" []];
          NT "TypeIdentifier" [];
          Opt [NT "TypeArguments" []]];
        Seq [
          NT "PackageName" [];
          T "." [];
          ZOM [NT "Annotation" []];
          NT "TypeIdentifier" [];
          Opt [NT "TypeArguments" []]];
        Seq [
          NT "ClassOrInterfaceType" [];
          T "." [];
          ZOM [NT "Annotation" []];
          NT "TypeIdentifier" [];
          Opt [NT "TypeArguments" []]]]]);
  ("InterfaceType", fun _ =>
    D [NT "ClassType" []]);
  ("TypeVariable", fun _ =>
    D [Seq [ZOM [NT "Annotation" []]; NT "TypeIdentifier" []]]);
  ("ArrayType", fun _ =>
    D [
      Ch [
        num 0;
        Seq [NT "PrimitiveType" []; NT "Dims" []];
        Seq [NT "ClassOrInterfaceType" []; NT "Dims" []];
        Seq [NT "TypeVariable" []; NT "Dims" []]]]);
  ("Dims", fun _ =>
    D [OOM [Seq [ZOM [NT "Annotation" []]; T "[" []; T "]" []]]]);
  ("TypeParameter", fun _ =>
    D [
      Seq [
        ZOM [NT "TypeParameterModifier" []];
        NT "TypeIdentifier" [];
        Opt [NT "TypeBound" []]]]);
  ("TypeParameterModifier", fun _ =>
    D [NT "Annotation" []]);
  ("TypeBound", fun _ =>
    D [
      Ch [
        num 0;
        Seq [T "extends" []; NT "TypeVariable" []];
        Seq [
          T "extends" [];
          NT "ClassOrInterfaceType" [];
          ZOM [NT "AdditionalBound" []]]]]);
  ("AdditionalBound", fun _ =>
    D [Seq [T "&" []; NT "InterfaceType" []]]);
  ("TypeArguments", fun _ =>
    D [Seq [T "<" []; NT "TypeArgumentList" []; T ">" []]]);
  ("TypeArgumentList", fun _ =>
    D [Seq [NT "TypeArgument" []; ZOM [Seq [T "," []; NT "TypeArgument" []]]]]);
  ("TypeArgument", fun _ =>
    D [Ch [num 0; NT "ReferenceType" []; NT "Wildcard" []]]);
  ("Wildcard", fun _ =>
    D [Seq [ZOM [NT "Annotation" []]; T "?" []; Opt [NT "WildcardBounds" []]]]);
  ("WildcardBounds", fun _ =>
    D [
      Ch [
        num 0;
        Seq [T "extends" []; NT "ReferenceType" []];
        Seq [T "super" []; NT "ReferenceType" []]]]);
  (* §6 Names *)
  ("ModuleName", fun _ =>
    D [Seq [NT "Identifier" []; ZOM [Seq [T "." []; NT "Identifier" []]]]]);
  ("PackageName", fun _ =>
    D [Seq [NT "Identifier" []; ZOM [Seq [T "." []; NT "Identifier" []]]]]);
  ("TypeName", fun _ =>
    D [
      Ch [
        num 0;
        NT "TypeIdentifier" [];
        Seq [NT "PackageOrTypeName" []; T "." []; NT "TypeIdentifier" []]]]);
  ("ExpressionName", fun _ =>
    D [
      Ch [
        num 0;
        NT "Identifier" [];
        Seq [NT "AmbiguousName" []; T "." []; NT "Identifier" []]]]);
  ("MethodName", fun _ =>
    D [NT "UnqualifiedMethodIdentifier" []]);
  ("PackageOrTypeName", fun _ =>
    D [Seq [NT "Identifier" []; ZOM [Seq [T "." []; NT "Identifier" []]]]]);
  ("AmbiguousName", fun _ =>
    D [Seq [NT "Identifier" []; ZOM [Seq [T "." []; NT "Identifier" []]]]]);
  (* §7 Packages and Modules *)
  ("CompilationUnit", fun _ =>
    D [
      Ch [
        num 0;
        NT "OrdinaryCompilationUnit" [];
        NT "CompactCompilationUnit" [];
        NT "ModularCompilationUnit" []]]);
  ("OrdinaryCompilationUnit", fun _ =>
    D [
      Seq [
        Opt [NT "PackageDeclaration" []];
        ZOM [NT "ImportDeclaration" []];
        ZOM [NT "TopLevelClassOrInterfaceDeclaration" []]]]);
  ("ModularCompilationUnit", fun _ =>
    D [Seq [ZOM [NT "ImportDeclaration" []]; NT "ModuleDeclaration" []]]);
  ("PackageDeclaration", fun _ =>
    D [
      Seq [
        ZOM [NT "PackageModifier" []];
        T "package" [];
        NT "Identifier" [];
        ZOM [Seq [T "." []; NT "Identifier" []]];
        T ";" []]]);
  ("PackageModifier", fun _ =>
    D [NT "Annotation" []]);
  ("ImportDeclaration", fun _ =>
    D [
      Ch [
        num 0;
        NT "SingleTypeImportDeclaration" [];
        NT "TypeImportOnDemandDeclaration" [];
        NT "SingleStaticImportDeclaration" [];
        NT "StaticImportOnDemandDeclaration" [];
        NT "SingleModuleImportDeclaration" []]]);
  ("SingleTypeImportDeclaration", fun _ =>
    D [Seq [T "import" []; NT "TypeName" []; T ";" []]]);
  ("TypeImportOnDemandDeclaration", fun _ =>
    D [Seq [T "import" []; NT "PackageOrTypeName" []; T "." []; T "*" []; T ";" []]]);
  ("SingleStaticImportDeclaration", fun _ =>
    D [
      Seq [
        T "import" [];
        T "static" [];
        NT "TypeName" [];
        T "." [];
        NT "Identifier" [];
        T ";" []]]);
  ("StaticImportOnDemandDeclaration", fun _ =>
    D [
      Seq [
        T "import" [];
        T "static" [];
        NT "TypeName" [];
        T "." [];
        T "*" [];
        T ";" []]]);
  ("SingleModuleImportDeclaration", fun _ =>
    D [Seq [T "import" []; T "module" []; NT "ModuleName" []; T ";" []]]);
  ("TopLevelClassOrInterfaceDeclaration", fun _ =>
    D [Ch [num 0; NT "ClassDeclaration" []; NT "InterfaceDeclaration" []; T ";" []]]);
  ("ModuleDeclaration", fun _ =>
    D [
      Seq [
        ZOM [NT "Annotation" []];
        Opt [T "open" []];
        T "module" [];
        NT "Identifier" [];
        ZOM [Seq [T "." []; NT "Identifier" []]];
        T "{" [];
        ZOM [NT "ModuleDirective" []];
        T "}" []]]);
  ("ModuleDirective", fun _ =>
    D [
      Ch [
        num 0;
        Seq [
          T "requires" [];
          ZOM [NT "RequiresModifier" []];
          NT "ModuleName" [];
          T ";" []];
        Seq [
          T "exports" [];
          NT "PackageName" [];
          Opt [
            Seq [
              T "to" [];
              NT "ModuleName" [];
              ZOM [Seq [T "," []; NT "ModuleName" []]]]];
          T ";" []];
        Seq [
          T "opens" [];
          NT "PackageName" [];
          Opt [
            Seq [
              T "to" [];
              NT "ModuleName" [];
              ZOM [Seq [T "," []; NT "ModuleName" []]]]];
          T ";" []];
        Seq [T "uses" []; NT "TypeName" []; T ";" []];
        Seq [
          T "provides" [];
          NT "TypeName" [];
          T "with" [];
          NT "TypeName" [];
          ZOM [Seq [T "," []; NT "TypeName" []]];
          T ";" []]]]);
  ("RequiresModifier", fun _ =>
    D [Ch [num 0; T "transitive" []; T "static" []]]);
  (* §8 Classes *)
  ("ClassDeclaration", fun _ =>
    D [
      Ch [
        num 0;
        NT "NormalClassDeclaration" [];
        NT "EnumDeclaration" [];
        NT "RecordDeclaration" []]]);
  ("NormalClassDeclaration", fun _ =>
    D [
      Seq [
        ZOM [NT "ClassModifier" []];
        T "class" [];
        NT "TypeIdentifier" [];
        Opt [NT "TypeParameters" []];
        Opt [NT "ClassExtends" []];
        Opt [NT "ClassImplements" []];
        Opt [NT "ClassPermits" []];
        NT "ClassBody" []]]);
  ("ClassModifier", fun _ =>
    D [
      Ch [
        num 0;
        NT "Annotation" [];
        T "public" [];
        T "protected" [];
        T "private" [];
        T "abstract" [];
        T "static" [];
        T "final" [];
        T "sealed" [];
        T "non-sealed" [];
        T "strictfp" []]]);
  ("TypeParameters", fun _ =>
    D [Seq [T "<" []; NT "TypeParameterList" []; T ">" []]]);
  ("TypeParameterList", fun _ =>
    D [Seq [NT "TypeParameter" []; ZOM [Seq [T "," []; NT "TypeParameter" []]]]]);
  ("ClassExtends", fun _ =>
    D [Seq [T "extends" []; NT "ClassType" []]]);
  ("ClassImplements", fun _ =>
    D [Seq [T "implements" []; NT "InterfaceTypeList" []]]);
  ("InterfaceTypeList", fun _ =>
    D [Seq [NT "InterfaceType" []; ZOM [Seq [T "," []; NT "InterfaceType" []]]]]);
  ("ClassPermits", fun _ =>
    D [
      Seq [T "permits" []; NT "TypeName" []; ZOM [Seq [T "," []; NT "TypeName" []]]]]);
  ("ClassBody", fun _ =>
    D [Seq [T "{" []; ZOM [NT "ClassBodyDeclaration" []]; T "}" []]]);
  ("ClassBodyDeclaration", fun _ =>
    D [
      Ch [
        num 0;
        NT "ClassMemberDeclaration" [];
        NT "InstanceInitializer" [];
        NT "StaticInitializer" [];
        NT "ConstructorDeclaration" []]]);
  ("ClassMemberDeclaration", fun _ =>
    D [
      Ch [
        num 0;
        NT "FieldDeclaration" [];
        NT "MethodDeclaration" [];
        NT "ClassDeclaration" [];
        NT "InterfaceDeclaration" [];
        T ";" []]]);
  ("FieldDeclaration", fun _ =>
    D [
      Seq [
        ZOM [NT "FieldModifier" []];
        NT "UnannType" [];
        NT "VariableDeclaratorList" [];
        T ";" []]]);
  ("FieldModifier", fun _ =>
    D [
      Ch [
        num 0;
        NT "Annotation" [];
        T "public" [];
        T "protected" [];
        T "private" [];
        T "static" [];
        T "final" [];
        T "transient" [];
        T "volatile" []]]);
  ("VariableDeclaratorList", fun _ =>
    D [
      Seq [
        NT "VariableDeclarator" [];
        ZOM [Seq [T "," []; NT "VariableDeclarator" []]]]]);
  ("VariableDeclarator", fun _ =>
    D [
      Seq [
        NT "VariableDeclaratorId" [];
        Opt [Seq [T "=" []; NT "VariableInitializer" []]]]]);
  ("VariableDeclaratorId", fun _ =>
    D [Ch [num 0; Seq [NT "Identifier" []; Opt [NT "Dims" []]]; T "_" []]]);
  ("VariableInitializer", fun _ =>
    D [Ch [num 0; NT "Expression" []; NT "ArrayInitializer" []]]);
  ("UnannType", fun _ =>
    D [Ch [num 0; NT "UnannPrimitiveType" []; NT "UnannReferenceType" []]]);
  ("UnannPrimitiveType", fun _ =>
    D [Ch [num 0; NT "NumericType" []; T "boolean" []]]);
  ("UnannReferenceType", fun _ =>
    D [
      Ch [
        num 0;
        NT "UnannClassOrInterfaceType" [];
        NT "UnannTypeVariable" [];
        NT "UnannArrayType" []]]);
  ("UnannClassOrInterfaceType", fun _ =>
    D [Ch [num 0; NT "UnannClassType" []; NT "UnannInterfaceType" []]]);
  ("UnannClassType", fun _ =>
    D [
      Ch [
        num 0;
        Seq [NT "TypeIdentifier" []; Opt [NT "TypeArguments" []]];
        Seq [
          NT "PackageName" [];
          T "." [];
          ZOM [NT "Annotation" []];
          NT "TypeIdentifier" [];
          Opt [NT "TypeArguments" []]];
        Seq [
          NT "UnannClassOrInterfaceType" [];
          T "." [];
          ZOM [NT "Annotation" []];
          NT "TypeIdentifier" [];
          Opt [NT "TypeArguments" []]]]]);
  ("UnannInterfaceType", fun _ =>
    D [NT "UnannClassType" []]);
  ("UnannTypeVariable", fun _ =>
    D [NT "TypeIdentifier" []]);
  ("UnannArrayType", fun _ =>
    D [
      Ch [
        num 0;
        Seq [NT "UnannPrimitiveType" []; NT "Dims" []];
        Seq [NT "UnannClassOrInterfaceType" []; NT "Dims" []];
        Seq [NT "UnannTypeVariable" []; NT "Dims" []]]]);
  ("MethodDeclaration", fun _ =>
    D [Seq [ZOM [NT "MethodModifier" []]; NT "MethodHeader" []; NT "MethodBody" []]]);
  ("MethodModifier", fun _ =>
    D [
      Ch [
        num 0;
        NT "Annotation" [];
        T "public" [];
        T "protected" [];
        T "private" [];
        T "abstract" [];
        T "static" [];
        T "final" [];
        T "synchronized" [];
        T "native" [];
        T "strictfp" []]]);
  ("MethodHeader", fun _ =>
    D [
      Ch [
        num 0;
        Seq [NT "Result" []; NT "MethodDeclarator" []; Opt [NT "Throws" []]];
        Seq [
          NT "TypeParameters" [];
          ZOM [NT "Annotation" []];
          NT "Result" [];
          NT "MethodDeclarator" [];
          Opt [NT "Throws" []]]]]);
  ("Result", fun _ =>
    D [Ch [num 0; NT "UnannType" []; T "void" []]]);
  ("MethodDeclarator", fun _ =>
    D [
      Seq [
        NT "Identifier" [];
        T "(" [];
        Opt [Seq [NT "ReceiverParameter" []; T "," []]];
        Opt [NT "FormalParameterList" []];
        T ")" [];
        Opt [NT "Dims" []]]]);
  ("ReceiverParameter", fun _ =>
    D [
      Seq [
        ZOM [NT "Annotation" []];
        NT "UnannType" [];
        Opt [Seq [NT "Identifier" []; T "." []]];
        T "this" []]]);
  ("FormalParameterList", fun _ =>
    D [Seq [NT "FormalParameter" []; ZOM [Seq [T "," []; NT "FormalParameter" []]]]]);
  ("FormalParameter", fun _ =>
    D [
      Ch [
        num 0;
        Seq [
          ZOM [NT "VariableModifier" []];
          NT "UnannType" [];
          NT "VariableDeclaratorId" []];
        NT "VariableArityParameter" []]]);
  ("VariableArityParameter", fun _ =>
    D [
      Seq [
        ZOM [NT "VariableModifier" []];
        NT "UnannType" [];
        ZOM [NT "Annotation" []];
        T "..." [];
        NT "Identifier" []]]);
  ("VariableModifier", fun _ =>
    D [Ch [num 0; NT "Annotation" []; T "final" []]]);
  ("Throws", fun _ =>
    D [Seq [T "throws" []; NT "ExceptionTypeList" []]]);
  ("ExceptionTypeList", fun _ =>
    D [Seq [NT "ExceptionType" []; ZOM [Seq [T "," []; NT "ExceptionType" []]]]]);
  ("ExceptionType", fun _ =>
    D [Ch [num 0; NT "ClassType" []; NT "TypeVariable" []]]);
  ("MethodBody", fun _ =>
    D [Ch [num 0; NT "Block" []; T ";" []]]);
  ("InstanceInitializer", fun _ =>
    D [NT "Block" []]);
  ("StaticInitializer", fun _ =>
    D [Seq [T "static" []; NT "Block" []]]);
  ("ConstructorDeclaration", fun _ =>
    D [
      Seq [
        ZOM [NT "ConstructorModifier" []];
        NT "ConstructorDeclarator" [];
        Opt [NT "Throws" []];
        NT "ConstructorBody" []]]);
  ("ConstructorModifier", fun _ =>
    D [
      Ch [
        num 0;
        NT "Annotation" [];
        T "public" [];
        T "protected" [];
        T "private" []]]);
  ("ConstructorDeclarator", fun _ =>
    D [
      Seq [
        Opt [NT "TypeParameters" []];
        NT "SimpleTypeName" [];
        T "(" [];
        Opt [Seq [NT "ReceiverParameter" []; T "," []]];
        Opt [NT "FormalParameterList" []];
        T ")" []]]);
  ("SimpleTypeName", fun _ =>
    D [NT "TypeIdentifier" []]);
  ("ConstructorBody", fun _ =>
    D [
      Ch [
        num 0;
        Seq [
          T "{" [];
          Opt [NT "BlockStatements" []];
          NT "ConstructorInvocation" [];
          Opt [NT "BlockStatements" []];
          T "}" []];
        Seq [T "{" []; Opt [NT "BlockStatements" []]; T "}" []]]]);
  ("ConstructorInvocation", fun _ =>
    D [
      Ch [
        num 0;
        Seq [
          Opt [NT "TypeArguments" []];
          T "this" [];
          T "(" [];
          Opt [NT "ArgumentList" []];
          T ")" [];
          T ";" []];
        Seq [
          Opt [NT "TypeArguments" []];
          T "super" [];
          T "(" [];
          Opt [NT "ArgumentList" []];
          T ")" [];
          T ";" []];
        Seq [
          NT "ExpressionName" [];
          T "." [];
          Opt [NT "TypeArguments" []];
          T "super" [];
          T "(" [];
          Opt [NT "ArgumentList" []];
          T ")" [];
          T ";" []];
        Seq [
          NT "Primary" [];
          T "." [];
          Opt [NT "TypeArguments" []];
          T "super" [];
          T "(" [];
          Opt [NT "ArgumentList" []];
          T ")" [];
          T ";" []]]]);
  ("EnumDeclaration", fun _ =>
    D [
      Seq [
        ZOM [NT "ClassModifier" []];
        T "enum" [];
        NT "TypeIdentifier" [];
        Opt [NT "ClassImplements" []];
        NT "EnumBody" []]]);
  ("EnumBody", fun _ =>
    D [
      Seq [
        T "{" [];
        Opt [NT "EnumConstantList" []];
        Opt [T "," []];
        Opt [NT "EnumBodyDeclarations" []];
        T "}" []]]);
  ("EnumConstantList", fun _ =>
    D [Seq [NT "EnumConstant" []; ZOM [Seq [T "," []; NT "EnumConstant" []]]]]);
  ("EnumConstant", fun _ =>
    D [
      Seq [
        ZOM [NT "EnumConstantModifier" []];
        NT "Identifier" [];
        Opt [Seq [T "(" []; Opt [NT "ArgumentList" []]; T ")" []]];
        Opt [NT "ClassBody" []]]]);
  ("EnumConstantModifier", fun _ =>
    D [NT "Annotation" []]);
  ("EnumBodyDeclarations", fun _ =>
    D [Seq [T ";" []; ZOM [NT "ClassBodyDeclaration" []]]]);
  ("RecordDeclaration", fun _ =>
    D [
      Seq [
        ZOM [NT "ClassModifier" []];
        T "record" [];
        NT "TypeIdentifier" [];
        Opt [NT "TypeParameters" []];
        NT "RecordHeader" [];
        Opt [NT "ClassImplements" []];
        NT "RecordBody" []]]);
  ("RecordHeader", fun _ =>
    D [Seq [T "(" []; Opt [NT "RecordComponentList" []]; T ")" []]]);
  ("RecordComponentList", fun _ =>
    D [Seq [NT "RecordComponent" []; ZOM [Seq [T "," []; NT "RecordComponent" []]]]]);
  ("RecordComponent", fun _ =>
    D [
      Ch [
        num 0;
        Seq [
          ZOM [NT "RecordComponentModifier" []];
          NT "UnannType" [];
          NT "Identifier" []];
        NT "VariableArityRecordComponent" []]]);
  ("VariableArityRecordComponent", fun _ =>
    D [
      Seq [
        ZOM [NT "RecordComponentModifier" []];
        NT "UnannType" [];
        ZOM [NT "Annotation" []];
        T "..." [];
        NT "Identifier" []]]);
  ("RecordComponentModifier", fun _ =>
    D [NT "Annotation" []]);
  ("RecordBody", fun _ =>
    D [Seq [T "{" []; ZOM [NT "RecordBodyDeclaration" []]; T "}" []]]);
  ("RecordBodyDeclaration", fun _ =>
    D [
      Ch [
        num 0;
        NT "ClassBodyDeclaration" [];
        NT "CompactConstructorDeclaration" []]]);
  ("CompactConstructorDeclaration", fun _ =>
    D [
      Seq [
        ZOM [NT "ConstructorModifier" []];
        NT "SimpleTypeName" [];
        NT "ConstructorBody" []]]);
  (* §9 Interfaces *)
  ("InterfaceDeclaration", fun _ =>
    D [
      Ch [
        num 0;
        NT "NormalInterfaceDeclaration" [];
        NT "AnnotationInterfaceDeclaration" []]]);
  ("NormalInterfaceDeclaration", fun _ =>
    D [
      Seq [
        ZOM [NT "InterfaceModifier" []];
        T "interface" [];
        NT "TypeIdentifier" [];
        Opt [NT "TypeParameters" []];
        Opt [NT "InterfaceExtends" []];
        Opt [NT "InterfacePermits" []];
        NT "InterfaceBody" []]]);
  ("InterfaceModifier", fun _ =>
    D [
      Ch [
        num 0;
        NT "Annotation" [];
        T "public" [];
        T "protected" [];
        T "private" [];
        T "abstract" [];
        T "static" [];
        T "sealed" [];
        T "non-sealed" [];
        T "strictfp" []]]);
  ("InterfaceExtends", fun _ =>
    D [Seq [T "extends" []; NT "InterfaceTypeList" []]]);
  ("InterfacePermits", fun _ =>
    D [
      Seq [T "permits" []; NT "TypeName" []; ZOM [Seq [T "," []; NT "TypeName" []]]]]);
  ("InterfaceBody", fun _ =>
    D [Seq [T "{" []; ZOM [NT "InterfaceMemberDeclaration" []]; T "}" []]]);
  ("InterfaceMemberDeclaration", fun _ =>
    D [
      Ch [
        num 0;
        NT "ConstantDeclaration" [];
        NT "InterfaceMethodDeclaration" [];
        NT "ClassDeclaration" [];
        NT "InterfaceDeclaration" [];
        T ";" []]]);
  ("ConstantDeclaration", fun _ =>
    D [
      Seq [
        ZOM [NT "ConstantModifier" []];
        NT "UnannType" [];
        NT "VariableDeclaratorList" [];
        T ";" []]]);
  ("ConstantModifier", fun _ =>
    D [Ch [num 0; NT "Annotation" []; T "public" []; T "static" []; T "final" []]]);
  ("InterfaceMethodDeclaration", fun _ =>
    D [
      Seq [
        ZOM [NT "InterfaceMethodModifier" []];
        NT "MethodHeader" [];
        NT "MethodBody" []]]);
  ("InterfaceMethodModifier", fun _ =>
    D [
      Ch [
        num 0;
        NT "Annotation" [];
        T "public" [];
        T "private" [];
        T "abstract" [];
        T "default" [];
        T "static" [];
        T "strictfp" []]]);
  ("AnnotationInterfaceDeclaration", fun _ =>
    D [
      Seq [
        ZOM [NT "InterfaceModifier" []];
        T "@" [];
        T "interface" [];
        NT "TypeIdentifier" [];
        NT "AnnotationInterfaceBody" []]]);
  ("AnnotationInterfaceBody", fun _ =>
    D [Seq [T "{" []; ZOM [NT "AnnotationInterfaceMemberDeclaration" []]; T "}" []]]);
  ("AnnotationInterfaceMemberDeclaration", fun _ =>
    D [
      Ch [
        num 0;
        NT "AnnotationInterfaceElementDeclaration" [];
        NT "ConstantDeclaration" [];
        NT "ClassDeclaration" [];
        NT "InterfaceDeclaration" [];
        T ";" []]]);
  ("AnnotationInterfaceElementDeclaration", fun _ =>
    D [
      Seq [
        ZOM [NT "AnnotationInterfaceElementModifier" []];
        NT "UnannType" [];
        NT "Identifier" [];
        T "(" [];
        T ")" [];
        Opt [NT "Dims" []];
        Opt [NT "DefaultValue" []];
        T ";" []]]);
  ("AnnotationInterfaceElementModifier", fun _ =>
    D [Ch [num 0; NT "Annotation" []; T "public" []; T "abstract" []]]);
  ("DefaultValue", fun _ =>
    D [Seq [T "default" []; NT "ElementValue" []]]);
  ("Annotation", fun _ =>
    D [
      Ch [
        num 0;
        NT "NormalAnnotation" [];
        NT "MarkerAnnotation" [];
        NT "SingleElementAnnotation" []]]);
  ("NormalAnnotation", fun _ =>
    D [
      Seq [
        T "@" [];
        NT "TypeName" [];
        T "(" [];
        Opt [NT "ElementValuePairList" []];
        T ")" []]]);
  ("ElementValuePairList", fun _ =>
    D [
      Seq [NT "ElementValuePair" []; ZOM [Seq [T "," []; NT "ElementValuePair" []]]]]);
  ("ElementValuePair", fun _ =>
    D [Seq [NT "Identifier" []; T "=" []; NT "ElementValue" []]]);
  ("ElementValue", fun _ =>
    D [
      Ch [
        num 0;
        NT "ConditionalExpression" [];
        NT "ElementValueArrayInitializer" [];
        NT "Annotation" []]]);
  ("ElementValueArrayInitializer", fun _ =>
    D [Seq [T "{" []; Opt [NT "ElementValueList" []]; Opt [T "," []]; T "}" []]]);
  ("ElementValueList", fun _ =>
    D [Seq [NT "ElementValue" []; ZOM [Seq [T "," []; NT "ElementValue" []]]]]);
  ("MarkerAnnotation", fun _ =>
    D [Seq [T "@" []; NT "TypeName" []]]);
  ("SingleElementAnnotation", fun _ =>
    D [Seq [T "@" []; NT "TypeName" []; T "(" []; NT "ElementValue" []; T ")" []]]);
  (* §10 Arrays *)
  ("ArrayInitializer", fun _ =>
    D [
      Seq [
        T "{" [];
        Opt [NT "VariableInitializerList" []];
        Opt [T "," []];
        T "}" []]]);
  ("VariableInitializerList", fun _ =>
    D [
      Seq [
        NT "VariableInitializer" [];
        ZOM [Seq [T "," []; NT "VariableInitializer" []]]]]);
  (* §14 Blocks, Statements, and Patterns *)
  ("Block", fun _ =>
    D [Seq [T "{" []; Opt [NT "BlockStatements" []]; T "}" []]]);
  ("BlockStatements", fun _ =>
    D [OOM [NT "BlockStatement" []]]);
  ("BlockStatement", fun _ =>
    D [
      Ch [
        num 0;
        NT "LocalClassOrInterfaceDeclaration" [];
        NT "LocalVariableDeclarationStatement" [];
        NT "Statement" []]]);
  ("LocalClassOrInterfaceDeclaration", fun _ =>
    D [Ch [num 0; NT "ClassDeclaration" []; NT "NormalInterfaceDeclaration" []]]);
  ("LocalVariableDeclarationStatement", fun _ =>
    D [Seq [NT "LocalVariableDeclaration" []; T ";" []]]);
  ("LocalVariableDeclaration", fun _ =>
    D [
      Seq [
        ZOM [NT "VariableModifier" []];
        NT "LocalVariableType" [];
        NT "VariableDeclaratorList" []]]);
  ("LocalVariableType", fun _ =>
    D [Ch [num 0; NT "UnannType" []; T "var" []]]);
  ("Statement", fun _ =>
    D [
      Ch [
        num 0;
        NT "StatementWithoutTrailingSubstatement" [];
        NT "LabeledStatement" [];
        NT "IfThenStatement" [];
        NT "IfThenElseStatement" [];
        NT "WhileStatement" [];
        NT "ForStatement" []]]);
  ("StatementNoShortIf", fun _ =>
    D [
      Ch [
        num 0;
        NT "StatementWithoutTrailingSubstatement" [];
        NT "LabeledStatementNoShortIf" [];
        NT "IfThenElseStatementNoShortIf" [];
        NT "WhileStatementNoShortIf" [];
        NT "ForStatementNoShortIf" []]]);
  ("StatementWithoutTrailingSubstatement", fun _ =>
    D [
      Ch [
        num 0;
        NT "Block" [];
        NT "EmptyStatement" [];
        NT "ExpressionStatement" [];
        NT "AssertStatement" [];
        NT "SwitchStatement" [];
        NT "DoStatement" [];
        NT "BreakStatement" [];
        NT "ContinueStatement" [];
        NT "ReturnStatement" [];
        NT "SynchronizedStatement" [];
        NT "ThrowStatement" [];
        NT "TryStatement" [];
        NT "YieldStatement" []]]);
  ("EmptyStatement", fun _ =>
    D [T ";" []]);
  ("LabeledStatement", fun _ =>
    D [Seq [NT "Identifier" []; T ":" []; NT "Statement" []]]);
  ("LabeledStatementNoShortIf", fun _ =>
    D [Seq [NT "Identifier" []; T ":" []; NT "StatementNoShortIf" []]]);
  ("ExpressionStatement", fun _ =>
    D [Seq [NT "StatementExpression" []; T ";" []]]);
  ("StatementExpression", fun _ =>
    D [
      Ch [
        num 0;
        NT "Assignment" [];
        NT "PreIncrementExpression" [];
        NT "PreDecrementExpression" [];
        NT "PostIncrementExpression" [];
        NT "PostDecrementExpression" [];
        NT "MethodInvocation" [];
        NT "ClassInstanceCreationExpression" []]]);
  ("IfThenStatement", fun _ =>
    D [Seq [T "if" []; T "(" []; NT "Expression" []; T ")" []; NT "Statement" []]]);
  ("IfThenElseStatement", fun _ =>
    D [
      Seq [
        T "if" [];
        T "(" [];
        NT "Expression" [];
        T ")" [];
        NT "StatementNoShortIf" [];
        T "else" [];
        NT "Statement" []]]);
  ("IfThenElseStatementNoShortIf", fun _ =>
    D [
      Seq [
        T "if" [];
        T "(" [];
        NT "Expression" [];
        T ")" [];
        NT "StatementNoShortIf" [];
        T "else" [];
        NT "StatementNoShortIf" []]]);
  ("AssertStatement", fun _ =>
    D [
      Ch [
        num 0;
        Seq [T "assert" []; NT "Expression" []; T ";" []];
        Seq [
          T "assert" [];
          NT "Expression" [];
          T ":" [];
          NT "Expression" [];
          T ";" []]]]);
  ("SwitchStatement", fun _ =>
    D [
      Seq [
        T "switch" [];
        T "(" [];
        NT "Expression" [];
        T ")" [];
        NT "SwitchBlock" []]]);
  ("SwitchBlock", fun _ =>
    D [
      Ch [
        num 0;
        Seq [T "{" []; OOM [NT "SwitchRule" []]; T "}" []];
        Seq [
          T "{" [];
          ZOM [NT "SwitchBlockStatementGroup" []];
          ZOM [Seq [NT "SwitchLabel" []; T ":" []]];
          T "}" []]]]);
  ("SwitchRule", fun _ =>
    D [
      Ch [
        num 0;
        Seq [NT "SwitchLabel" []; T "->" []; NT "Expression" []; T ";" []];
        Seq [NT "SwitchLabel" []; T "->" []; NT "Block" []];
        Seq [NT "SwitchLabel" []; T "->" []; NT "ThrowStatement" []]]]);
  ("SwitchBlockStatementGroup", fun _ =>
    D [
      Seq [
        NT "SwitchLabel" [];
        T ":" [];
        ZOM [Seq [NT "SwitchLabel" []; T ":" []]];
        NT "BlockStatements" []]]);
  ("SwitchLabel", fun _ =>
    D [
      Ch [
        num 0;
        Seq [
          T "case" [];
          NT "CaseConstant" [];
          ZOM [Seq [T "," []; NT "CaseConstant" []]]];
        Seq [T "case" []; T "null" []; Opt [Seq [T "," []; T "default" []]]];
        Seq [
          T "case" [];
          NT "CasePattern" [];
          ZOM [Seq [T "," []; NT "CasePattern" []]];
          Opt [NT "Guard" []]];
        T "default" []]]);
  ("CaseConstant", fun _ =>
    D [NT "ConditionalExpression" []]);
  ("CasePattern", fun _ =>
    D [NT "Pattern" []]);
  ("Guard", fun _ =>
    D [Seq [T "when" []; NT "Expression" []]]);
  ("WhileStatement", fun _ =>
    D [
      Seq [T "while" []; T "(" []; NT "Expression" []; T ")" []; NT "Statement" []]]);
  ("WhileStatementNoShortIf", fun _ =>
    D [
      Seq [
        T "while" [];
        T "(" [];
        NT "Expression" [];
        T ")" [];
        NT "StatementNoShortIf" []]]);
  ("DoStatement", fun _ =>
    D [
      Seq [
        T "do" [];
        NT "Statement" [];
        T "while" [];
        T "(" [];
        NT "Expression" [];
        T ")" [];
        T ";" []]]);
  ("ForStatement", fun _ =>
    D [Ch [num 0; NT "BasicForStatement" []; NT "EnhancedForStatement" []]]);
  ("ForStatementNoShortIf", fun _ =>
    D [
      Ch [
        num 0;
        NT "BasicForStatementNoShortIf" [];
        NT "EnhancedForStatementNoShortIf" []]]);
  ("BasicForStatement", fun _ =>
    D [
      Seq [
        T "for" [];
        T "(" [];
        Opt [NT "ForInit" []];
        T ";" [];
        Opt [NT "Expression" []];
        T ";" [];
        Opt [NT "ForUpdate" []];
        T ")" [];
        NT "Statement" []]]);
  ("BasicForStatementNoShortIf", fun _ =>
    D [
      Seq [
        T "for" [];
        T "(" [];
        Opt [NT "ForInit" []];
        T ";" [];
        Opt [NT "Expression" []];
        T ";" [];
        Opt [NT "ForUpdate" []];
        T ")" [];
        NT "StatementNoShortIf" []]]);
  ("ForInit", fun _ =>
    D [
      Ch [num 0; NT "StatementExpressionList" []; NT "LocalVariableDeclaration" []]]);
  ("ForUpdate", fun _ =>
    D [NT "StatementExpressionList" []]);
  ("StatementExpressionList", fun _ =>
    D [
      Seq [
        NT "StatementExpression" [];
        ZOM [Seq [T "," []; NT "StatementExpression" []]]]]);
  ("EnhancedForStatement", fun _ =>
    D [
      Seq [
        T "for" [];
        T "(" [];
        NT "LocalVariableDeclaration" [];
        T ":" [];
        NT "Expression" [];
        T ")" [];
        NT "Statement" []]]);
  ("EnhancedForStatementNoShortIf", fun _ =>
    D [
      Seq [
        T "for" [];
        T "(" [];
        NT "LocalVariableDeclaration" [];
        T ":" [];
        NT "Expression" [];
        T ")" [];
        NT "StatementNoShortIf" []]]);
  ("BreakStatement", fun _ =>
    D [Seq [T "break" []; Opt [NT "Identifier" []]; T ";" []]]);
  ("YieldStatement", fun _ =>
    D [Seq [T "yield" []; NT "Expression" []; T ";" []]]);
  ("ContinueStatement", fun _ =>
    D [Seq [T "continue" []; Opt [NT "Identifier" []]; T ";" []]]);
  ("ReturnStatement", fun _ =>
    D [Seq [T "return" []; Opt [NT "Expression" []]; T ";" []]]);
  ("ThrowStatement", fun _ =>
    D [Seq [T "throw" []; NT "Expression" []; T ";" []]]);
  ("SynchronizedStatement", fun _ =>
    D [
      Seq [
        T "synchronized" [];
        T "(" [];
        NT "Expression" [];
        T ")" [];
        NT "Block" []]]);
  ("TryStatement", fun _ =>
    D [
      Ch [
        num 0;
        Seq [T "try" []; NT "Block" []; NT "Catches" []];
        Seq [T "try" []; NT "Block" []; Opt [NT "Catches" []]; NT "Finally" []];
        NT "TryWithResourcesStatement" []]]);
  ("Catches", fun _ =>
    D [OOM [NT "CatchClause" []]]);
  ("CatchClause", fun _ =>
    D [
      Seq [
        T "catch" [];
        T "(" [];
        NT "CatchFormalParameter" [];
        T ")" [];
        NT "Block" []]]);
  ("CatchFormalParameter", fun _ =>
    D [
      Seq [
        ZOM [NT "VariableModifier" []];
        NT "CatchType" [];
        NT "VariableDeclaratorId" []]]);
  ("CatchType", fun _ =>
    D [Seq [NT "UnannClassType" []; ZOM [Seq [T "|" []; NT "ClassType" []]]]]);
  ("Finally", fun _ =>
    D [Seq [T "finally" []; NT "Block" []]]);
  ("TryWithResourcesStatement", fun _ =>
    D [
      Seq [
        T "try" [];
        NT "ResourceSpecification" [];
        NT "Block" [];
        Opt [NT "Catches" []];
        Opt [NT "Finally" []]]]);
  ("ResourceSpecification", fun _ =>
    D [Seq [T "(" []; NT "ResourceList" []; Opt [T ";" []]; T ")" []]]);
  ("ResourceList", fun _ =>
    D [Seq [NT "Resource" []; ZOM [Seq [T ";" []; NT "Resource" []]]]]);
  ("Resource", fun _ =>
    D [Ch [num 0; NT "LocalVariableDeclaration" []; NT "VariableAccess" []]]);
  ("VariableAccess", fun _ =>
    D [Ch [num 0; NT "ExpressionName" []; NT "FieldAccess" []]]);
  ("Pattern", fun _ =>
    D [Ch [num 0; NT "TypePattern" []; NT "RecordPattern" []]]);
  ("TypePattern", fun _ =>
    D [NT "LocalVariableDeclaration" []]);
  ("RecordPattern", fun _ =>
    D [
      Seq [
        NT "ReferenceType" [];
        T "(" [];
        Opt [NT "ComponentPatternList" []];
        T ")" []]]);
  ("ComponentPatternList", fun _ =>
    D [
      Seq [NT "ComponentPattern" []; ZOM [Seq [T "," []; NT "ComponentPattern" []]]]]);
  ("ComponentPattern", fun _ =>
    D [Ch [num 0; NT "Pattern" []; NT "MatchAllPattern" []]]);
  ("MatchAllPattern", fun _ =>
    D [T "_" []]);
  (* §15 Expressions *)
  ("Primary", fun _ =>
    D [Ch [num 0; NT "PrimaryNoNewArray" []; NT "ArrayCreationExpression" []]]);
  ("PrimaryNoNewArray", fun _ =>
    D [
      Ch [
        num 0;
        NT "Literal" [];
        NT "ClassLiteral" [];
        T "this" [];
        Seq [NT "TypeName" []; T "." []; T "this" []];
        Seq [T "(" []; NT "Expression" []; T ")" []];
        NT "ClassInstanceCreationExpression" [];
        NT "FieldAccess" [];
        NT "ArrayAccess" [];
        NT "MethodInvocation" [];
        NT "MethodReference" []]]);
  ("ClassLiteral", fun _ =>
    D [
      Ch [
        num 0;
        Seq [
          NT "TypeName" [];
          ZOM [Seq [T "[" []; T "]" []]];
          T "." [];
          T "class" []];
        Seq [
          NT "NumericType" [];
          ZOM [Seq [T "[" []; T "]" []]];
          T "." [];
          T "class" []];
        Seq [T "boolean" []; ZOM [Seq [T "[" []; T "]" []]]; T "." []; T "class" []];
        Seq [T "void" []; T "." []; T "class" []]]]);
  ("ClassInstanceCreationExpression", fun _ =>
    D [
      Ch [
        num 0;
        NT "UnqualifiedClassInstanceCreationExpression" [];
        Seq [
          NT "ExpressionName" [];
          T "." [];
          NT "UnqualifiedClassInstanceCreationExpression" []];
        Seq [
          NT "Primary" [];
          T "." [];
          NT "UnqualifiedClassInstanceCreationExpression" []]]]);
  ("UnqualifiedClassInstanceCreationExpression", fun _ =>
    D [
      Seq [
        T "new" [];
        Opt [NT "TypeArguments" []];
        NT "ClassOrInterfaceTypeToInstantiate" [];
        T "(" [];
        Opt [NT "ArgumentList" []];
        T ")" [];
        Opt [NT "ClassBody" []]]]);
  ("ClassOrInterfaceTypeToInstantiate", fun _ =>
    D [
      Seq [
        ZOM [NT "Annotation" []];
        NT "Identifier" [];
        ZOM [Seq [T "." []; ZOM [NT "Annotation" []]; NT "Identifier" []]];
        Opt [NT "TypeArgumentsOrDiamond" []]]]);
  ("TypeArgumentsOrDiamond", fun _ =>
    D [Ch [num 0; NT "TypeArguments" []; Seq [T "<" []; T ">" []]]]);
  ("ArrayCreationExpression", fun _ =>
    D [
      Ch [
        num 0;
        NT "ArrayCreationExpressionWithoutInitializer" [];
        NT "ArrayCreationExpressionWithInitializer" []]]);
  ("ArrayCreationExpressionWithoutInitializer", fun _ =>
    D [
      Ch [
        num 0;
        Seq [
          T "new" [];
          NT "PrimitiveType" [];
          NT "DimExprs" [];
          Opt [NT "Dims" []]];
        Seq [
          T "new" [];
          NT "ClassOrInterfaceType" [];
          NT "DimExprs" [];
          Opt [NT "Dims" []]]]]);
  ("ArrayCreationExpressionWithInitializer", fun _ =>
    D [
      Ch [
        num 0;
        Seq [
          T "new" [];
          NT "PrimitiveType" [];
          NT "Dims" [];
          NT "ArrayInitializer" []];
        Seq [
          T "new" [];
          NT "ClassOrInterfaceType" [];
          NT "Dims" [];
          NT "ArrayInitializer" []]]]);
  ("DimExprs", fun _ =>
    D [OOM [NT "DimExpr" []]]);
  ("DimExpr", fun _ =>
    D [Seq [ZOM [NT "Annotation" []]; T "[" []; NT "Expression" []; T "]" []]]);
  ("ArrayAccess", fun _ =>
    D [
      Ch [
        num 0;
        Seq [NT "ExpressionName" []; T "[" []; NT "Expression" []; T "]" []];
        Seq [NT "PrimaryNoNewArray" []; T "[" []; NT "Expression" []; T "]" []];
        Seq [
          NT "ArrayCreationExpressionWithInitializer" [];
          T "[" [];
          NT "Expression" [];
          T "]" []]]]);
  ("FieldAccess", fun _ =>
    D [
      Ch [
        num 0;
        Seq [NT "Primary" []; T "." []; NT "Identifier" []];
        Seq [T "super" []; T "." []; NT "Identifier" []];
        Seq [NT "TypeName" []; T "." []; T "super" []; T "." []; NT "Identifier" []]]]);
  ("MethodInvocation", fun _ =>
    D [
      Ch [
        num 0;
        Seq [NT "MethodName" []; T "(" []; Opt [NT "ArgumentList" []]; T ")" []];
        Seq [
          NT "TypeName" [];
          T "." [];
          Opt [NT "TypeArguments" []];
          NT "Identifier" [];
          T "(" [];
          Opt [NT "ArgumentList" []];
          T ")" []];
        Seq [
          NT "ExpressionName" [];
          T "." [];
          Opt [NT "TypeArguments" []];
          NT "Identifier" [];
          T "(" [];
          Opt [NT "ArgumentList" []];
          T ")" []];
        Seq [
          NT "Primary" [];
          T "." [];
          Opt [NT "TypeArguments" []];
          NT "Identifier" [];
          T "(" [];
          Opt [NT "ArgumentList" []];
          T ")" []];
        Seq [
          T "super" [];
          T "." [];
          Opt [NT "TypeArguments" []];
          NT "Identifier" [];
          T "(" [];
          Opt [NT "ArgumentList" []];
          T ")" []];
        Seq [
          NT "TypeName" [];
          T "." [];
          T "super" [];
          T "." [];
          Opt [NT "TypeArguments" []];
          NT "Identifier" [];
          T "(" [];
          Opt [NT "ArgumentList" []];
          T ")" []]]]);
  ("ArgumentList", fun _ =>
    D [Seq [NT "Expression" []; ZOM [Seq [T "," []; NT "Expression" []]]]]);
  ("MethodReference", fun _ =>
    D [
      Ch [
        num 0;
        Seq [
          NT "ExpressionName" [];
          T "::" [];
          Opt [NT "TypeArguments" []];
          NT "Identifier" []];
        Seq [
          NT "Primary" [];
          T "::" [];
          Opt [NT "TypeArguments" []];
          NT "Identifier" []];
        Seq [
          NT "ReferenceType" [];
          T "::" [];
          Opt [NT "TypeArguments" []];
          NT "Identifier" []];
        Seq [
          T "super" [];
          T "::" [];
          Opt [NT "TypeArguments" []];
          NT "Identifier" []];
        Seq [
          NT "TypeName" [];
          T "." [];
          T "super" [];
          T "::" [];
          Opt [NT "TypeArguments" []];
          NT "Identifier" []];
        Seq [NT "ClassType" []; T "::" []; Opt [NT "TypeArguments" []]; T "new" []];
        Seq [NT "ArrayType" []; T "::" []; T "new" []]]]);
  ("Expression", fun _ =>
    D [Ch [num 0; NT "LambdaExpression" []; NT "AssignmentExpression" []]]);
  ("LambdaExpression", fun _ =>
    D [Seq [NT "LambdaParameters" []; T "->" []; NT "LambdaBody" []]]);
  ("LambdaParameters", fun _ =>
    D [
      Ch [
        num 0;
        Seq [T "(" []; Opt [NT "LambdaParameterList" []]; T ")" []];
        NT "ConciseLambdaParameter" []]]);
  ("LambdaParameterList", fun _ =>
    D [
      Ch [
        num 0;
        Seq [
          NT "NormalLambdaParameter" [];
          ZOM [Seq [T "," []; NT "NormalLambdaParameter" []]]];
        Seq [
          NT "ConciseLambdaParameter" [];
          ZOM [Seq [T "," []; NT "ConciseLambdaParameter" []]]]]]);
  ("NormalLambdaParameter", fun _ =>
    D [
      Ch [
        num 0;
        Seq [
          ZOM [NT "VariableModifier" []];
          NT "LambdaParameterType" [];
          NT "VariableDeclaratorId" []];
        NT "VariableArityParameter" []]]);
  ("LambdaParameterType", fun _ =>
    D [Ch [num 0; NT "UnannType" []; T "var" []]]);
  ("ConciseLambdaParameter", fun _ =>
    D [Ch [num 0; NT "Identifier" []; T "_" []]]);
  ("LambdaBody", fun _ =>
    D [Ch [num 0; NT "Expression" []; NT "Block" []]]);
  ("AssignmentExpression", fun _ =>
    D [Ch [num 0; NT "ConditionalExpression" []; NT "Assignment" []]]);
  ("Assignment", fun _ =>
    D [Seq [NT "LeftHandSide" []; NT "AssignmentOperator" []; NT "Expression" []]]);
  ("LeftHandSide", fun _ =>
    D [Ch [num 0; NT "ExpressionName" []; NT "FieldAccess" []; NT "ArrayAccess" []]]);
  ("AssignmentOperator", fun _ =>
    D [
      Ch [
        num 0;
        T "=" [];
        T "*=" [];
        T "/=" [];
        T "%=" [];
        T "+=" [];
        T "-=" [];
        T "<<=" [];
        T ">>=" [];
        T ">>>=" [];
        T "&=" [];
        T "^=" [];
        T "|=" []]]);
  ("ConditionalExpression", fun _ =>
    D [
      Ch [
        num 0;
        NT "ConditionalOrExpression" [];
        Seq [
          NT "ConditionalOrExpression" [];
          T "?" [];
          NT "Expression" [];
          T ":" [];
          NT "ConditionalExpression" []];
        Seq [
          NT "ConditionalOrExpression" [];
          T "?" [];
          NT "Expression" [];
          T ":" [];
          NT "LambdaExpression" []]]]);
  ("ConditionalOrExpression", fun _ =>
    D [
      Seq [
        NT "ConditionalAndExpression" [];
        ZOM [Seq [T "||" []; NT "ConditionalAndExpression" []]]]]);
  ("ConditionalAndExpression", fun _ =>
    D [
      Seq [
        NT "InclusiveOrExpression" [];
        ZOM [Seq [T "&&" []; NT "InclusiveOrExpression" []]]]]);
  ("InclusiveOrExpression", fun _ =>
    D [
      Seq [
        NT "ExclusiveOrExpression" [];
        ZOM [Seq [T "|" []; NT "ExclusiveOrExpression" []]]]]);
  ("ExclusiveOrExpression", fun _ =>
    D [Seq [NT "AndExpression" []; ZOM [Seq [T "^" []; NT "AndExpression" []]]]]);
  ("AndExpression", fun _ =>
    D [
      Seq [
        NT "EqualityExpression" [];
        ZOM [Seq [T "&" []; NT "EqualityExpression" []]]]]);
  ("EqualityExpression", fun _ =>
    D [
      Seq [
        NT "RelationalExpression" [];
        ZOM [
          Ch [
            num 0;
            Seq [T "==" []; NT "RelationalExpression" []];
            Seq [T "!=" []; NT "RelationalExpression" []]]]]]);
  ("RelationalExpression", fun _ =>
    D [
      Ch [
        num 0;
        NT "ShiftExpression" [];
        Seq [NT "RelationalExpression" []; T "<" []; NT "ShiftExpression" []];
        Seq [NT "RelationalExpression" []; T ">" []; NT "ShiftExpression" []];
        Seq [NT "RelationalExpression" []; T "<=" []; NT "ShiftExpression" []];
        Seq [NT "RelationalExpression" []; T ">=" []; NT "ShiftExpression" []];
        NT "InstanceofExpression" []]]);
  ("InstanceofExpression", fun _ =>
    D [
      Ch [
        num 0;
        Seq [NT "RelationalExpression" []; T "instanceof" []; NT "ReferenceType" []];
        Seq [NT "RelationalExpression" []; T "instanceof" []; NT "Pattern" []]]]);
  ("ShiftExpression", fun _ =>
    D [
      Seq [
        NT "AdditiveExpression" [];
        ZOM [
          Ch [
            num 0;
            Seq [T "<<" []; NT "AdditiveExpression" []];
            Seq [T ">>" []; NT "AdditiveExpression" []];
            Seq [T ">>>" []; NT "AdditiveExpression" []]]]]]);
  ("AdditiveExpression", fun _ =>
    D [
      Seq [
        NT "MultiplicativeExpression" [];
        ZOM [
          Ch [
            num 0;
            Seq [T "+" []; NT "MultiplicativeExpression" []];
            Seq [T "-" []; NT "MultiplicativeExpression" []]]]]]);
  ("MultiplicativeExpression", fun _ =>
    D [
      Seq [
        NT "UnaryExpression" [];
        ZOM [
          Ch [
            num 0;
            Seq [T "*" []; NT "UnaryExpression" []];
            Seq [T "/" []; NT "UnaryExpression" []];
            Seq [T "%" []; NT "UnaryExpression" []]]]]]);
  ("UnaryExpression", fun _ =>
    D [
      Ch [
        num 0;
        NT "PreIncrementExpression" [];
        NT "PreDecrementExpression" [];
        Seq [T "+" []; NT "UnaryExpression" []];
        Seq [T "-" []; NT "UnaryExpression" []];
        NT "UnaryExpressionNotPlusMinus" []]]);
  ("PreIncrementExpression", fun _ =>
    D [Seq [T "++" []; NT "UnaryExpression" []]]);
  ("PreDecrementExpression", fun _ =>
    D [Seq [T "--" []; NT "UnaryExpression" []]]);
  ("UnaryExpressionNotPlusMinus", fun _ =>
    D [
      Ch [
        num 0;
        NT "PostfixExpression" [];
        Seq [T "~" []; NT "UnaryExpression" []];
        Seq [T "!" []; NT "UnaryExpression" []];
        NT "CastExpression" [];
        NT "SwitchExpression" []]]);
  ("PostfixExpression", fun _ =>
    D [
      Ch [
        num 0;
        NT "Primary" [];
        NT "ExpressionName" [];
        NT "PostIncrementExpression" [];
        NT "PostDecrementExpression" []]]);
  ("PostIncrementExpression", fun _ =>
    D [Seq [NT "PostfixExpression" []; T "++" []]]);
  ("PostDecrementExpression", fun _ =>
    D [Seq [NT "PostfixExpression" []; T "--" []]]);
  ("CastExpression", fun _ =>
    D [
      Ch [
        num 0;
        Seq [T "(" []; NT "PrimitiveType" []; T ")" []; NT "UnaryExpression" []];
        Seq [
          T "(" [];
          NT "ReferenceType" [];
          ZOM [NT "AdditionalBound" []];
          T ")" [];
          NT "UnaryExpressionNotPlusMinus" []];
        Seq [
          T "(" [];
          NT "ReferenceType" [];
          ZOM [NT "AdditionalBound" []];
          T ")" [];
          NT "LambdaExpression" []]]]);
  ("SwitchExpression", fun _ =>
    D [
      Seq [
        T "switch" [];
        T "(" [];
        NT "Expression" [];
        T ")" [];
        NT "SwitchBlock" []]])
].

Definition rules : JsMap.t DiagramFactory :=
  fold_left (fun m r => JsMap.set m (fst r) (snd r)) registrations JsMap.empty.

(** Creates a railroad diagram for the given rule name.
    Returns undefined if no diagram factory exists for that name.
<<
const factory = rules.get(name);
return factory ? factory() : undefined;
>> *)
Definition createRuleDiagram (name : string) : M Val :=
  match JsMap.get rules name with
  | Some factory => factory tt
  | None => ret VUndefined
  end.

(** Get all diagram rule names for grammar coverage checking. *)
Definition getDiagramRuleNames : list string := JsMap.keys rules.

End WithLibrary.

End Java25.

(* ================================================================== *)
(** ** src/shared/railroad/diagramToSvg.ts                             *)
(* ================================================================== *)

Module DiagramToSvg.
Import RR.

(** Whatever the [catch (e)] clause of [diagramToSvgString] may receive.
    The clause builds the text [e?.message ?? String(e)] inside a template
    literal.  For most values that text exists (it is [errorText]); for
    some, building it throws in turn: reading [message] may throw, a
    [message] that is a Symbol does not convert inside a template literal,
    and [String(e)] throws for an object without a usable [toString], such
    as [Object.create(null)]. *)
Inductive Caught :=
| Printable (e : Thrown)          (* the text is [errorText e] *)
| Unprintable (raised : Thrown).  (* building the text throws [raised] *)

(** One step inside the [try] block: it yields a value or throws. *)
Inductive Attempt (A : Type) : Type :=
| Yields (a : A)
| Fails (c : Caught).
Arguments Yields {A} a.
Arguments Fails {A} c.

(** What a member access followed by [typeof m === "function"] finds on
    an arbitrary input: no function, a function with what calling it
    does, or an access that throws. *)
Inductive Slot (A : Type) : Type :=
| NoFunction
| Function (run : Attempt A)
| Trap (c : Caught).
Arguments NoFunction {A}.
Arguments Function {A} run.
Arguments Trap {A} c.

(** What [toSVG()] may hand back: a string; an object with a [nodeType],
    whose [outerHTML] is read (it may be missing, and then
    [XMLSerializer] is asked); an object on which the test
    ["nodeType" in svg] itself throws; or anything else. *)
Inductive Svg :=
| SvgText (s : string)
| SvgNode (outerHTML : Attempt (option string)) (serializeToString : Attempt string)
| SvgTrap (c : Caught)
| SvgElse.

(** The argument [diagram: any], by what the function observes of it: its
    truthiness and its members [toSVG] and [toString] (the latter with its
    result already passed through [String]). *)
Inductive JsAny :=
| Falsy
| Truthy (toSVG : Slot Svg) (toString : Slot string).

Definition emptyDiagram : string := "<!-- empty diagram -->".
Definition unexpectedValue : string := "<!-- toSVG() returned unexpected value -->".
Definition unsupported : string := "<!-- Diagram does not support toSVG/toString -->".

(** [`<!-- Render error: ${e?.message ?? String(e)} -->`], when the text
    can be built. *)
Definition renderError (e : Thrown) : string :=
  "<!-- Render error: " ++ errorText e ++ " -->".

(** The body of the [try] block. *)
Definition tryBody (toSVG : Slot Svg) (toString : Slot string)
  : Attempt string :=
  match toSVG with
  | Trap c => Fails c
  | Function run =>
      match run with
      | Fails c => Fails c
      | Yields (SvgText svg) => Yields svg
      | Yields (SvgNode (Fails c) _) => Fails c
      | Yields (SvgNode (Yields (Some html)) _) => Yields html
      | Yields (SvgNode (Yields None) serialized) => serialized
      | Yields (SvgTrap c) => Fails c
      | Yields SvgElse => Yields unexpectedValue
      end
  | NoFunction =>
      match toString with
      | Trap c => Fails c
      | Function run => run
      | NoFunction => Yields unsupported
      end
  end.

(** The [catch] block: it returns the render-error comment, unless
    building the text of the error throws; nothing catches that. *)
Definition catchBlock (c : Caught) : Result string :=
  match c with
  | Printable e => Ok (renderError e)
  | Unprintable raised => Throw raised
  end.

Definition diagramToSvgString (diagram : JsAny) : Result string :=
  match diagram with
  | Falsy => Ok emptyDiagram
  | Truthy toSVG toString =>
      match tryBody toSVG toString with
      | Yields svg => Ok svg
      | Fails c => catchBlock c
      end
  end.

(** [String(n)] for an integer. *)
Definition numberToString (n : Z) : string :=
  DecimalString.NilZero.string_of_int (Z.to_int n).

(** The members of a node of the package, as an input of
    [diagramToSvgString]: what they throw is of the kind [Thrown]. *)
Definition attempt {A B} (f : A -> B) (r : Result A) : Attempt B :=
  match r with
  | Ok a => Yields (f a)
  | Throw e => Fails (Printable e)
  end.

Definition slot {A B} (f : A -> B) (m : Member A) : Slot B :=
  match m with
  | NotAFunction => NoFunction
  | Method run => Function (attempt f run)
  | AccessThrows e => Trap (Printable e)
  end.

Definition svgOf (v : SvgValue) : Svg :=
  match v with
  | SvgString s => SvgText s
  | SvgElement html serialized =>
      SvgNode (Yields html) (attempt (fun xml => xml) serialized)
  | SvgOther => SvgElse
  end.

Definition node (toSVG : Member SvgValue) (toString : Member string) : JsAny :=
  Truthy (slot svgOf toSVG) (slot (fun text => text) toString).

(** How a value coming back from the grammar module looks to
    [diagramToSvgString]: [undefined], [0] and the empty string are falsy;
    a number or a string has no [toSVG] and converts itself by [toString];
    a node has the members the package gave it. *)
Definition view (lib : Library) (v : Val) : JsAny :=
  match v with
  | VUndefined => Falsy
  | VNumber n =>
      if (n =? 0)%Z then Falsy
      else Truthy NoFunction (Function (Yields (numberToString n)))
  | VString s =>
      if JsString.isEmpty s then Falsy
      else Truthy NoFunction (Function (Yields s))
  | VNode k args => node (toSVG lib k args) (toString lib k args)
  end.

End DiagramToSvg.

(* ================================================================== *)
(** ** src/components/RuleDiagram.tsx                                  *)
(* ================================================================== *)

(** The [svg] memo of the component:
<<
    const diagram = createRuleDiagram(name);
    return diagramToSvgString(diagram);
>>
    once over the Java 25 registry and once, in the older component, over
    the registry of javaGrammar.ts. *)
Module RuleDiagram.
Import DiagramToSvg.

Definition svg (lib : RR.Library) (name : string) : M string :=
  diagram <- Java25.createRuleDiagram lib name ;;
  lift (diagramToSvgString (view lib diagram)).

Definition svg21 (lib : RR.Library) (rules : JsMap.t DiagramFactory)
  (name : string) : M string :=
  diagram <- Java21.createRuleDiagram lib rules name ;;
  lift (diagramToSvgString (view lib diagram)).

End RuleDiagram.

(* ================================================================== *)
(** ** scripts/check-grammar-coverage.mjs                              *)
(* ================================================================== *)

Module Coverage.
Import JsString.

(** The class [Q] of the patterns below: a double or a single quote. *)
Definition isQuote (c : ascii) : bool :=
  Ascii.eqb c "034"%char || Ascii.eqb c "'"%char.

Definition isLineTerminator (c : ascii) : bool :=
  Ascii.eqb c "010"%char || Ascii.eqb c "013"%char.

(** A literal piece of a pattern: what follows it in [s]. *)
Fixpoint literal (lit s : string) : option string :=
  match lit, s with
  | EmptyString, _ => Some s
  | String a lit', String b s' =>
      if Ascii.eqb a b then literal lit' s' else None
  | String _ _, EmptyString => None
  end.

(** [\s*]: how many characters it takes, and what follows. *)
Fixpoint whiteSpaces (s : string) : nat * string :=
  match s with
  | String c s' =>
      if isWhiteSpace c then
        let (n, r) := whiteSpaces s' in (S n, r)
      else (0, s)
  | EmptyString => (0, s)
  end.

(** The greedy run of characters other than quotes, and what follows. *)
Fixpoint nonQuotes (s : string) : string * string :=
  match s with
  | String c s' =>
      if isQuote c then (EmptyString, s)
      else let (run, r) := nonQuotes s' in (String c run, r)
  | EmptyString => (EmptyString, s)
  end.

(** [\s*Q([^Q]+)Q], where [Q] is the class of the two quote characters:
    the group, the length of the match and what follows.  Each piece is
    greedy and no shorter choice can succeed, so there is nothing to
    backtrack into. *)
Definition quotedName (s : string) : option (string * nat * string) :=
  let (n, r) := whiteSpaces s in
  match r with
  | String q r1 =>
      if isQuote q then
        match nonQuotes r1 with
        | (EmptyString, _) => None
        | (name, String q' r2) =>
            if isQuote q' then Some (name, n + 1 + String.length name + 1, r2)
            else None
        | (_, EmptyString) => None
        end
      else None
  | EmptyString => None
  end.

(** [/rules\.set\(\s*Q([^Q]+)Q/g] tried at one position. *)
Definition diagramRulePattern (lineStart : bool) (s : string)
  : option (string * nat) :=
  match literal "rules.set(" s with
  | Some r =>
      match quotedName r with
      | Some (name, n, _) => Some (name, 10 + n)
      | None => None
      end
  | None => None
  end.

(** [/^\s*Q([^Q]+)Q\s*:/gm] tried at one position; [^] needs the start
    of the text or of a line. *)
Definition ebnfRulePattern (lineStart : bool) (s : string)
  : option (string * nat) :=
  if lineStart then
    match quotedName s with
    | Some (name, n, r) =>
        let (m, r') := whiteSpaces r in
        match r' with
        | String ":" _ => Some (name, n + m + 1)
        | _ => None
        end
    | None => None
    end
  else None.

(** The loop
<<
  while ((match = rulePattern.exec(content)) !== null) { ... match[1] ... }
>>
    of a global pattern: each [exec] finds the leftmost match starting at
    [lastIndex] or later and moves [lastIndex] to its end.  [skip] counts
    the characters still covered by the previous match, [lineStart] tells
    whether the previous character ended a line. *)
Fixpoint execAll (re : bool -> string -> option (string * nat))
  (skip : nat) (lineStart : bool) (s : string) : list string :=
  match s with
  | EmptyString => []
  | String c s' =>
      let next := isLineTerminator c in
      match skip with
      | S k => execAll re k next s'
      | O =>
          match re lineStart s with
          | Some (name, len) => name :: execAll re (Nat.pred len) next s'
          | None => execAll re 0 next s'
          end
      end
  end.

(** Extract rule names from java25Grammar.ts by parsing rules.set() calls. *)
Definition extractDiagramRules (content : string) : JsSet.t :=
  JsSet.addAll JsSet.empty (execAll diagramRulePattern 0 true content).

(** Extract rule names from ebnfDefinitions.ts by parsing EBNF_DEFINITIONS keys. *)
Definition extractEbnfRules (content : string) : JsSet.t :=
  JsSet.addAll JsSet.empty (execAll ebnfRulePattern 0 true content).

(** Find mismatches:
<<
  const missingEbnf = [...diagramRules].filter(r => !ebnfRules.has(r)).sort();
  const missingDiagram = [...ebnfRules].filter(r => !diagramRules.has(r)).sort();
>> *)
Definition missingEbnf (diagramRules ebnfRules : JsSet.t) : list string :=
  Array_sort (filter (fun r => negb (JsSet.has ebnfRules r)) (JsSet.values diagramRules)).

Definition missingDiagram (diagramRules ebnfRules : JsSet.t) : list string :=
  Array_sort (filter (fun r => negb (JsSet.has diagramRules r)) (JsSet.values ebnfRules)).

(** What the process leaves behind: the lines written with [console.log]
    and [console.error], and the code given to [process.exit]. *)
Inductive Line :=
| Log (text : string)
| Err (text : string).

Record Run := mkRun {
  output : list Line;
  exitCode : Z
}.

Definition nl : string := String "010"%char EmptyString.

Definition natToString (n : nat) : string :=
  DecimalString.NilZero.string_of_uint (Nat.to_uint n).

Definition bullets (names : list string) : list Line :=
  map (fun r => Log ("   - " ++ r)) names.

(** [main] after both files were read. *)
Definition report (diagramRules ebnfRules : JsSet.t) : Run :=
  let missingEbnf := missingEbnf diagramRules ebnfRules in
  let missingDiagram := missingDiagram diagramRules ebnfRules in
  let part1 :=
    match missingEbnf with
    | [] => []
    | _ => (Log "⚠️  Rules with DIAGRAM but NO EBNF definition:"
              :: bullets missingEbnf ++ [Log ""])%list
    end in
  let part2 :=
    match missingDiagram with
    | [] => []
    | _ => (Log "⚠️  Rules with EBNF but NO DIAGRAM factory:"
              :: bullets missingDiagram ++ [Log ""])%list
    end in
  let hasErrors :=
    negb (Nat.eqb (List.length missingEbnf) 0) ||
    negb (Nat.eqb (List.length missingDiagram) 0) in
  if hasErrors then
    mkRun (part1 ++ part2 ++
           [Log "❌ Grammar coverage check FAILED";
            Log ("   Please ensure every rule has both a diagram factory and EBNF definition." ++ nl)])%list
          1
  else
    mkRun (part1 ++ part2 ++
           [Log "✅ Grammar coverage check PASSED";
            Log ("   All rules have matching diagram factories and EBNF definitions." ++ nl)])%list
          0.

Definition grammarPath : string := "src/features/grammar/java25Grammar.ts".
Definition ebnfPath : string := "src/features/grammar/ebnfDefinitions.ts".

(** [`${err.message}`]. *)
Definition messageText (e : Thrown) : string :=
  match message e with
  | Some m => m
  | None => "undefined"
  end.

Definition prepend (ls : list Line) (r : Run) : Run :=
  mkRun (ls ++ output r) (exitCode r).

(** [main], given what [readFileSync(path, 'utf8')] does. *)
Definition main (readFileSync : string -> Result string) : Run :=
  prepend [Log ("🔍 Checking grammar coverage..." ++ nl)]
    match readFileSync grammarPath with
    | Throw err =>
        mkRun [Err ("❌ Failed to read java25Grammar.ts: " ++ messageText err)] 1
    | Ok content =>
        let diagramRules := extractDiagramRules content in
        prepend [Log ("📊 Found " ++ natToString (JsSet.size diagramRules)
                        ++ " diagram rules in java25Grammar.ts")]
          match readFileSync ebnfPath with
          | Throw err =>
              mkRun [Err ("❌ Failed to read ebnfDefinitions.ts: " ++ messageText err)] 1
          | Ok content' =>
              let ebnfRules := extractEbnfRules content' in
              prepend [Log ("📝 Found " ++ natToString (JsSet.size ebnfRules)
                              ++ " EBNF definitions in ebnfDefinitions.ts");
                       Log ""]
                (report diagramRules ebnfRules)
          end
    end.

End Coverage.

(* ================================================================== *)
(** ** The diagram trees of the specification and the package contract *)
(* ================================================================== *)

(** The node kinds of the data model, as the trees the package builds:
    [Choice] takes its default index first, leaves carry their text. *)
Module DiagramNode.
Import RR.

Definition Terminal (text : string) : Val := VNode RR.Terminal [VString text].
Definition NonTerminal (text : string) : Val := VNode RR.NonTerminal [VString text].
Definition Comment (text : string) : Val := VNode RR.Comment [VString text].
Definition Sequence (items : list Val) : Val := VNode RR.Sequence items.
Definition Stack (items : list Val) : Val := VNode RR.Stack items.
Definition Choice (defaultIndex : Z) (items : list Val) : Val :=
  VNode RR.Choice (VNumber defaultIndex :: items).
Definition Optional (item : Val) : Val := VNode RR.Optional [item].
Definition OneOrMore (item : Val) : Val := VNode RR.OneOrMore [item].
Definition ZeroOrMore (item : Val) : Val := VNode RR.ZeroOrMore [item].
Definition Diagram (root : Val) : Val := VNode RR.Diagram [root].

End DiagramNode.

(** What the grammar modules rely on from the package.  The package is not
    part of this repository; the comments of both grammar modules name the
    two shapes it has shipped in. *)
Module Contract.
Import RR.

(** Arguments a constructor accepts: a [Choice] wants a default index that
    selects one of its alternatives; the other kinds are structural. *)
Definition validArgs (k : Kind) (args : list Val) : bool :=
  match k with
  | Choice =>
      match args with
      | VNumber i :: items =>
          (0 <=? i)%Z && (i <? Z.of_nat (List.length items))%Z
      | _ => false
      end
  | _ => true
  end.

(** The message of the [TypeError] raised by calling an ES class. *)
Definition classCallMessage (k : Kind) : string :=
  "Class constructor " ++ kindName k ++ " cannot be invoked without 'new'".

(** An export that is a factory function. *)
Record FactoryFunction (k : Kind) (fn : Callee) : Prop := {
  factory_source : Java25.__isClass fn = false;
  factory_call :
    forall args, validArgs k args = true -> call fn args = Ok (VNode k args)
}.

(** An export that is an ES class. *)
Record EsClass (k : Kind) (fn : Callee) : Prop := {
  class_source : Java25.__isClass fn = true;
  class_call : forall args, call fn args = Throw (TypeError (classCallMessage k));
  class_new :
    forall args, validArgs k args = true -> construct fn args = Ok (VNode k args)
}.

Definition EitherShape (lib : Library) : Prop :=
  forall k, FactoryFunction k (export lib k) \/ EsClass k (export lib k).

(** The markup a node hands over when its markup-producing member works:
    the string of [toSVG], the serialization of the element it returns,
    or, without a [toSVG], the string of [toString]. *)
Definition markupOf (toSVG : Member SvgValue) (toString : Member string)
  : option string :=
  match toSVG with
  | Method (Ok (SvgString svg)) => Some svg
  | Method (Ok (SvgElement (Some html) _)) => Some html
  | Method (Ok (SvgElement None (Ok xml))) => Some xml
  | NotAFunction =>
      match toString with
      | Method (Ok text) => Some text
      | _ => None
      end
  | _ => None
  end.

(** The markup of a completed diagram is never the empty string. *)
Definition MarkupNotEmpty (lib : Library) : Prop :=
  forall args,
    markupOf (toSVG lib Diagram args) (toString lib Diagram args)
    <> Some EmptyString.

End Contract.

(** Two instances of the package, one per shape. *)
Module Packages.
Import RR.

(** A rendering of a tree, standing in for the drawing the package does. *)
Fixpoint markup (v : Val) : string :=
  match v with
  | VUndefined => "undefined"
  | VNumber n => DiagramToSvg.numberToString n
  | VString s => s
  | VNode k args =>
      "<" ++ kindName k ++ ">"
        ++ fold_right (fun a acc => markup a ++ acc) "" args
        ++ "</" ++ kindName k ++ ">"
  end.

(** Factory functions; [toSVG] returns a string. *)
Definition functions : Library :=
  mkLibrary
    (fun k => mkCallee ("function " ++ kindName k ++ "(...items) { }")
                (fun args => if Contract.validArgs k args
                             then Ok (VNode k args)
                             else Throw (Error "invalid arguments"))
                (fun args => if Contract.validArgs k args
                             then Ok (VNode k args)
                             else Throw (Error "invalid arguments")))
    (fun k args => Method (Ok (SvgString (markup (VNode k args)))))
    (fun k args => Method (Ok (markup (VNode k args)))).

(** ES classes; [toSVG] returns an element. *)
Definition classes : Library :=
  mkLibrary
    (fun k => mkCallee ("class " ++ kindName k ++ " extends FakeSVG { }")
                (fun _ => Throw (TypeError (Contract.classCallMessage k)))
                (fun args => if Contract.validArgs k args
                             then Ok (VNode k args)
                             else Throw (Error "invalid arguments")))
    (fun k args =>
       Method (Ok (SvgElement (Some (markup (VNode k args)))
                     (Ok (markup (VNode k args))))))
    (fun k args => Method (Ok (markup (VNode k args)))).

End Packages.

(* ================================================================== *)
(** ** src/features/grammar/ebnfDefinitions.ts                         *)
(* ================================================================== *)

(** In the line lists of this module and the next, the character [#] stands
    for the double quote; [#] itself occurs in neither source file. *)
Definition unhash (s : string) : string :=
  string_of_list_ascii
    (map (fun c => if Ascii.eqb c "#"%char then "034"%char else c)
       (list_ascii_of_string s)).

(** Lines, each ended by a line feed. *)
Fixpoint unlines (ls : list string) : string :=
  match ls with
  | [] => EmptyString
  | l :: ls' => l ++ String "010"%char (unlines ls')
  end.

Module Ebnf.

(** A template literal: its lines, joined by line feeds. *)
Fixpoint joinLines (ls : list string) : string :=
  match ls with
  | [] => EmptyString
  | [l] => l
  | l :: ls' => l ++ String "010"%char (joinLines ls')
  end.

Definition template (ls : list string) : string := unhash (joinLines ls).

(** The properties of the object literal, in source order. *)
Definition entries : list (string * string) := [
  (* §3 Lexical Structure *)
  ("Identifier", template [
     "Identifier:";
     "    IdentifierChars but not a ReservedKeyword or BooleanLiteral or NullLiteral"]);
  ("IdentifierChars", template [
     "IdentifierChars:";
     "    JavaLetter {JavaLetterOrDigit}"]);
  ("JavaLetter", template [
     "JavaLetter:";
     "    any Unicode character that is a #Java letter#"]);
  ("JavaLetterOrDigit", template [
     "JavaLetterOrDigit:";
     "    any Unicode character that is a #Java letter-or-digit#"]);
  ("TypeIdentifier", template [
     "TypeIdentifier:";
     "    Identifier but not permits, record, sealed, var, or yield"]);
  ("UnqualifiedMethodIdentifier", template [
     "UnqualifiedMethodIdentifier:";
     "    Identifier but not yield"]);
  ("Literal", template [
     "Literal:";
     "    IntegerLiteral";
     "    FloatingPointLiteral";
     "    BooleanLiteral";
     "    CharacterLiteral";
     "    StringLiteral";
     "    TextBlock";
     "    NullLiteral"]);
  (* §4 Types, Values, and Variables *)
  ("Type", template [
     "Type:";
     "    PrimitiveType";
     "    ReferenceType"]);
  ("PrimitiveType", template [
     "PrimitiveType:";
     "    {Annotation} NumericType";
     "    {Annotation} boolean"]);
  ("NumericType", template [
     "NumericType:";
     "    IntegralType";
     "    FloatingPointType"]);
  ("IntegralType", template [
     "IntegralType:";
     "    (one of) byte short int long char"]);
  ("FloatingPointType", template [
     "FloatingPointType:";
     "    (one of) float double"]);
  ("ReferenceType", template [
     "ReferenceType:";
     "    ClassOrInterfaceType";
     "    TypeVariable";
     "    ArrayType"]);
  ("ClassOrInterfaceType", template [
     "ClassOrInterfaceType:";
     "    ClassType";
     "    InterfaceType"]);
  ("ClassType", template [
     "ClassType:";
     "    {Annotation} TypeIdentifier [TypeArguments]";
     "    PackageName . {Annotation} TypeIdentifier [TypeArguments]";
     "    ClassOrInterfaceType . {Annotation} TypeIdentifier [TypeArguments]"]);
  ("InterfaceType", template [
     "InterfaceType:";
     "    ClassType"]);
  ("TypeVariable", template [
     "TypeVariable:";
     "    {Annotation} TypeIdentifier"]);
  ("ArrayType", template [
     "ArrayType:";
     "    PrimitiveType Dims";
     "    ClassOrInterfaceType Dims";
     "    TypeVariable Dims"]);
  ("Dims", template [
     "Dims:";
     "    {Annotation} [ ] {{Annotation} [ ]}"]);
  ("TypeParameter", template [
     "TypeParameter:";
     "    {TypeParameterModifier} TypeIdentifier [TypeBound]"]);
  ("TypeParameterModifier", template [
     "TypeParameterModifier:";
     "    Annotation"]);
  ("TypeBound", template [
     "TypeBound:";
     "    extends TypeVariable";
     "    extends ClassOrInterfaceType {AdditionalBound}"]);
  ("AdditionalBound", template [
     "AdditionalBound:";
     "    & InterfaceType"]);
  ("TypeArguments", template [
     "TypeArguments:";
     "    < TypeArgumentList >"]);
  ("TypeArgumentList", template [
     "TypeArgumentList:";
     "    TypeArgument {, TypeArgument}"]);
  ("TypeArgument", template [
     "TypeArgument:";
     "    ReferenceType";
     "    Wildcard"]);
  ("Wildcard", template [
     "Wildcard:";
     "    {Annotation} ? [WildcardBounds]"]);
  ("WildcardBounds", template [
     "WildcardBounds:";
     "    extends ReferenceType";
     "    super ReferenceType"]);
  (* §6 Names *)
  ("ModuleName", template [
     "ModuleName:";
     "    Identifier";
     "    ModuleName . Identifier"]);
  ("PackageName", template [
     "PackageName:";
     "    Identifier";
     "    PackageName . Identifier"]);
  ("TypeName", template [
     "TypeName:";
     "    TypeIdentifier";
     "    PackageOrTypeName . TypeIdentifier"]);
  ("ExpressionName", template [
     "ExpressionName:";
     "    Identifier";
     "    AmbiguousName . Identifier"]);
  ("MethodName", template [
     "MethodName:";
     "    UnqualifiedMethodIdentifier"]);
  ("PackageOrTypeName", template [
     "PackageOrTypeName:";
     "    Identifier";
     "    PackageOrTypeName . Identifier"]);
  ("AmbiguousName", template [
     "AmbiguousName:";
     "    Identifier";
     "    AmbiguousName . Identifier"]);
  (* §7 Packages and Modules *)
  ("CompilationUnit", template [
     "CompilationUnit:";
     "    OrdinaryCompilationUnit";
     "    CompactCompilationUnit";
     "    ModularCompilationUnit"]);
  ("OrdinaryCompilationUnit", template [
     "OrdinaryCompilationUnit:";
     "    [PackageDeclaration] {ImportDeclaration} {TopLevelClassOrInterfaceDeclaration}"]);
  ("ModularCompilationUnit", template [
     "ModularCompilationUnit:";
     "    {ImportDeclaration} ModuleDeclaration"]);
  ("PackageDeclaration", template [
     "PackageDeclaration:";
     "    {PackageModifier} package Identifier {. Identifier} ;"]);
  ("PackageModifier", template [
     "PackageModifier:";
     "    Annotation"]);
  ("ImportDeclaration", template [
     "ImportDeclaration:";
     "    SingleTypeImportDeclaration";
     "    TypeImportOnDemandDeclaration";
     "    SingleStaticImportDeclaration";
     "    StaticImportOnDemandDeclaration";
     "    SingleModuleImportDeclaration"]);
  ("SingleTypeImportDeclaration", template [
     "SingleTypeImportDeclaration:";
     "    import TypeName ;"]);
  ("TypeImportOnDemandDeclaration", template [
     "TypeImportOnDemandDeclaration:";
     "    import PackageOrTypeName . * ;"]);
  ("SingleStaticImportDeclaration", template [
     "SingleStaticImportDeclaration:";
     "    import static TypeName . Identifier ;"]);
  ("StaticImportOnDemandDeclaration", template [
     "StaticImportOnDemandDeclaration:";
     "    import static TypeName . * ;"]);
  ("SingleModuleImportDeclaration", template [
     "SingleModuleImportDeclaration:";
     "    import module ModuleName ;"]);
  ("TopLevelClassOrInterfaceDeclaration", template [
     "TopLevelClassOrInterfaceDeclaration:";
     "    ClassDeclaration";
     "    InterfaceDeclaration";
     "    ;"]);
  ("ModuleDeclaration", template [
     "ModuleDeclaration:";
     "    {Annotation} [open] module Identifier {. Identifier} { {ModuleDirective} }"]);
  ("ModuleDirective", template [
     "ModuleDirective:";
     "    requires {RequiresModifier} ModuleName ;";
     "    exports PackageName [to ModuleName {, ModuleName}] ;";
     "    opens PackageName [to ModuleName {, ModuleName}] ;";
     "    uses TypeName ;";
     "    provides TypeName with TypeName {, TypeName} ;"]);
  ("RequiresModifier", template [
     "RequiresModifier:";
     "    (one of) transitive static"]);
  (* §8 Classes *)
  ("ClassDeclaration", template [
     "ClassDeclaration:";
     "    NormalClassDeclaration";
     "    EnumDeclaration";
     "    RecordDeclaration"]);
  ("NormalClassDeclaration", template [
     "NormalClassDeclaration:";
     "    {ClassModifier} class TypeIdentifier [TypeParameters] [ClassExtends] [ClassImplements] [ClassPermits] ClassBody"]);
  ("ClassModifier", template [
     "ClassModifier:";
     "    (one of) Annotation public protected private";
     "    abstract static final sealed non-sealed strictfp"]);
  ("TypeParameters", template [
     "TypeParameters:";
     "    < TypeParameterList >"]);
  ("TypeParameterList", template [
     "TypeParameterList:";
     "    TypeParameter {, TypeParameter}"]);
  ("ClassExtends", template [
     "ClassExtends:";
     "    extends ClassType"]);
  ("ClassImplements", template [
     "ClassImplements:";
     "    implements InterfaceTypeList"]);
  ("InterfaceTypeList", template [
     "InterfaceTypeList:";
     "    InterfaceType {, InterfaceType}"]);
  ("ClassPermits", template [
     "ClassPermits:";
     "    permits TypeName {, TypeName}"]);
  ("ClassBody", template [
     "ClassBody:";
     "    { {ClassBodyDeclaration} }"]);
  ("ClassBodyDeclaration", template [
     "ClassBodyDeclaration:";
     "    ClassMemberDeclaration";
     "    InstanceInitializer";
     "    StaticInitializer";
     "    ConstructorDeclaration"]);
  ("ClassMemberDeclaration", template [
     "ClassMemberDeclaration:";
     "    FieldDeclaration";
     "    MethodDeclaration";
     "    ClassDeclaration";
     "    InterfaceDeclaration";
     "    ;"]);
  ("FieldDeclaration", template [
     "FieldDeclaration:";
     "    {FieldModifier} UnannType VariableDeclaratorList ;"]);
  ("FieldModifier", template [
     "FieldModifier:";
     "    (one of) Annotation public protected private";
     "    static final transient volatile"]);
  ("VariableDeclaratorList", template [
     "VariableDeclaratorList:";
     "    VariableDeclarator {, VariableDeclarator}"]);
  ("VariableDeclarator", template [
     "VariableDeclarator:";
     "    VariableDeclaratorId [= VariableInitializer]"]);
  ("VariableDeclaratorId", template [
     "VariableDeclaratorId:";
     "    Identifier [Dims]";
     "    _"]);
  ("VariableInitializer", template [
     "VariableInitializer:";
     "    Expression";
     "    ArrayInitializer"]);
  ("UnannType", template [
     "UnannType:";
     "    UnannPrimitiveType";
     "    UnannReferenceType"]);
  ("UnannPrimitiveType", template [
     "UnannPrimitiveType:";
     "    NumericType";
     "    boolean"]);
  ("UnannReferenceType", template [
     "UnannReferenceType:";
     "    UnannClassOrInterfaceType";
     "    UnannTypeVariable";
     "    UnannArrayType"]);
  ("UnannClassOrInterfaceType", template [
     "UnannClassOrInterfaceType:";
     "    UnannClassType";
     "    UnannInterfaceType"]);
  ("UnannClassType", template [
     "UnannClassType:";
     "    TypeIdentifier [TypeArguments]";
     "    PackageName . {Annotation} TypeIdentifier [TypeArguments]";
     "    UnannClassOrInterfaceType . {Annotation} TypeIdentifier [TypeArguments]"]);
  ("UnannInterfaceType", template [
     "UnannInterfaceType:";
     "    UnannClassType"]);
  ("UnannTypeVariable", template [
     "UnannTypeVariable:";
     "    TypeIdentifier"]);
  ("UnannArrayType", template [
     "UnannArrayType:";
     "    UnannPrimitiveType Dims";
     "    UnannClassOrInterfaceType Dims";
     "    UnannTypeVariable Dims"]);
  ("MethodDeclaration", template [
     "MethodDeclaration:";
     "    {MethodModifier} MethodHeader MethodBody"]);
  ("MethodModifier", template [
     "MethodModifier:";
     "    (one of) Annotation public protected private";
     "    abstract static final synchronized native strictfp"]);
  ("MethodHeader", template [
     "MethodHeader:";
     "    Result MethodDeclarator [Throws]";
     "    TypeParameters {Annotation} Result MethodDeclarator [Throws]"]);
  ("Result", template [
     "Result:";
     "    UnannType";
     "    void"]);
  ("MethodDeclarator", template [
     "MethodDeclarator:";
     "    Identifier ( [ReceiverParameter ,] [FormalParameterList] ) [Dims]"]);
  ("ReceiverParameter", template [
     "ReceiverParameter:";
     "    {Annotation} UnannType [Identifier .] this"]);
  ("FormalParameterList", template [
     "FormalParameterList:";
     "    FormalParameter {, FormalParameter}"]);
  ("FormalParameter", template [
     "FormalParameter:";
     "    {VariableModifier} UnannType VariableDeclaratorId";
     "    VariableArityParameter"]);
  ("VariableArityParameter", template [
     "VariableArityParameter:";
     "    {VariableModifier} UnannType {Annotation} ... Identifier"]);
  ("VariableModifier", template [
     "VariableModifier:";
     "    Annotation";
     "    final"]);
  ("Throws", template [
     "Throws:";
     "    throws ExceptionTypeList"]);
  ("ExceptionTypeList", template [
     "ExceptionTypeList:";
     "    ExceptionType {, ExceptionType}"]);
  ("ExceptionType", template [
     "ExceptionType:";
     "    ClassType";
     "    TypeVariable"]);
  ("MethodBody", template [
     "MethodBody:";
     "    Block";
     "    ;"]);
  ("InstanceInitializer", template [
     "InstanceInitializer:";
     "    Block"]);
  ("StaticInitializer", template [
     "StaticInitializer:";
     "    static Block"]);
  ("ConstructorDeclaration", template [
     "ConstructorDeclaration:";
     "    {ConstructorModifier} ConstructorDeclarator [Throws] ConstructorBody"]);
  ("ConstructorModifier", template [
     "ConstructorModifier:";
     "    (one of) Annotation public protected private"]);
  ("ConstructorDeclarator", template [
     "ConstructorDeclarator:";
     "    [TypeParameters] SimpleTypeName ( [ReceiverParameter ,] [FormalParameterList] )"]);
  ("SimpleTypeName", template [
     "SimpleTypeName:";
     "    TypeIdentifier"]);
  ("ConstructorBody", template [
     "ConstructorBody:";
     "    { [BlockStatements] ConstructorInvocation [BlockStatements] }";
     "    { [BlockStatements] }"]);
  ("ConstructorInvocation", template [
     "ConstructorInvocation:";
     "    [TypeArguments] this ( [ArgumentList] ) ;";
     "    [TypeArguments] super ( [ArgumentList] ) ;";
     "    ExpressionName . [TypeArguments] super ( [ArgumentList] ) ;";
     "    Primary . [TypeArguments] super ( [ArgumentList] ) ;"]);
  ("EnumDeclaration", template [
     "EnumDeclaration:";
     "    {ClassModifier} enum TypeIdentifier [ClassImplements] EnumBody"]);
  ("EnumBody", template [
     "EnumBody:";
     "    { [EnumConstantList] [,] [EnumBodyDeclarations] }"]);
  ("EnumConstantList", template [
     "EnumConstantList:";
     "    EnumConstant {, EnumConstant}"]);
  ("EnumConstant", template [
     "EnumConstant:";
     "    {EnumConstantModifier} Identifier [( [ArgumentList] )] [ClassBody]"]);
  ("EnumConstantModifier", template [
     "EnumConstantModifier:";
     "    Annotation"]);
  ("EnumBodyDeclarations", template [
     "EnumBodyDeclarations:";
     "    ; {ClassBodyDeclaration}"]);
  ("RecordDeclaration", template [
     "RecordDeclaration:";
     "    {ClassModifier} record TypeIdentifier [TypeParameters] RecordHeader [ClassImplements] RecordBody"]);
  ("RecordHeader", template [
     "RecordHeader:";
     "    ( [RecordComponentList] )"]);
  ("RecordComponentList", template [
     "RecordComponentList:";
     "    RecordComponent {, RecordComponent}"]);
  ("RecordComponent", template [
     "RecordComponent:";
     "    {RecordComponentModifier} UnannType Identifier";
     "    VariableArityRecordComponent"]);
  ("VariableArityRecordComponent", template [
     "VariableArityRecordComponent:";
     "    {RecordComponentModifier} UnannType {Annotation} ... Identifier"]);
  ("RecordComponentModifier", template [
     "RecordComponentModifier:";
     "    Annotation"]);
  ("RecordBody", template [
     "RecordBody:";
     "    { {RecordBodyDeclaration} }"]);
  ("RecordBodyDeclaration", template [
     "RecordBodyDeclaration:";
     "    ClassBodyDeclaration";
     "    CompactConstructorDeclaration"]);
  ("CompactConstructorDeclaration", template [
     "CompactConstructorDeclaration:";
     "    {ConstructorModifier} SimpleTypeName ConstructorBody"]);
  (* §9 Interfaces *)
  ("InterfaceDeclaration", template [
     "InterfaceDeclaration:";
     "    NormalInterfaceDeclaration";
     "    AnnotationInterfaceDeclaration"]);
  ("NormalInterfaceDeclaration", template [
     "NormalInterfaceDeclaration:";
     "    {InterfaceModifier} interface TypeIdentifier [TypeParameters] [InterfaceExtends] [InterfacePermits] InterfaceBody"]);
  ("InterfaceModifier", template [
     "InterfaceModifier:";
     "    (one of) Annotation public protected private";
     "    abstract static sealed non-sealed strictfp"]);
  ("InterfaceExtends", template [
     "InterfaceExtends:";
     "    extends InterfaceTypeList"]);
  ("InterfacePermits", template [
     "InterfacePermits:";
     "    permits TypeName {, TypeName}"]);
  ("InterfaceBody", template [
     "InterfaceBody:";
     "    { {InterfaceMemberDeclaration} }"]);
  ("InterfaceMemberDeclaration", template [
     "InterfaceMemberDeclaration:";
     "    ConstantDeclaration";
     "    InterfaceMethodDeclaration";
     "    ClassDeclaration";
     "    InterfaceDeclaration";
     "    ;"]);
  ("ConstantDeclaration", template [
     "ConstantDeclaration:";
     "    {ConstantModifier} UnannType VariableDeclaratorList ;"]);
  ("ConstantModifier", template [
     "ConstantModifier:";
     "    (one of) Annotation public";
     "    static final"]);
  ("InterfaceMethodDeclaration", template [
     "InterfaceMethodDeclaration:";
     "    {InterfaceMethodModifier} MethodHeader MethodBody"]);
  ("InterfaceMethodModifier", template [
     "InterfaceMethodModifier:";
     "    (one of) Annotation public private";
     "    abstract default static strictfp"]);
  ("AnnotationInterfaceDeclaration", template [
     "AnnotationInterfaceDeclaration:";
     "    {InterfaceModifier} @ interface TypeIdentifier AnnotationInterfaceBody"]);
  ("AnnotationInterfaceBody", template [
     "AnnotationInterfaceBody:";
     "    { {AnnotationInterfaceMemberDeclaration} }"]);
  ("AnnotationInterfaceMemberDeclaration", template [
     "AnnotationInterfaceMemberDeclaration:";
     "    AnnotationInterfaceElementDeclaration";
     "    ConstantDeclaration";
     "    ClassDeclaration";
     "    InterfaceDeclaration";
     "    ;"]);
  ("AnnotationInterfaceElementDeclaration", template [
     "AnnotationInterfaceElementDeclaration:";
     "    {AnnotationInterfaceElementModifier} UnannType Identifier ( ) [Dims] [DefaultValue] ;"]);
  ("AnnotationInterfaceElementModifier", template [
     "AnnotationInterfaceElementModifier:";
     "    (one of) Annotation public";
     "    abstract"]);
  ("DefaultValue", template [
     "DefaultValue:";
     "    default ElementValue"]);
  ("Annotation", template [
     "Annotation:";
     "    NormalAnnotation";
     "    MarkerAnnotation";
     "    SingleElementAnnotation"]);
  ("NormalAnnotation", template [
     "NormalAnnotation:";
     "    @ TypeName ( [ElementValuePairList] )"]);
  ("ElementValuePairList", template [
     "ElementValuePairList:";
     "    ElementValuePair {, ElementValuePair}"]);
  ("ElementValuePair", template [
     "ElementValuePair:";
     "    Identifier = ElementValue"]);
  ("ElementValue", template [
     "ElementValue:";
     "    ConditionalExpression";
     "    ElementValueArrayInitializer";
     "    Annotation"]);
  ("ElementValueArrayInitializer", template [
     "ElementValueArrayInitializer:";
     "    { [ElementValueList] [,] }"]);
  ("ElementValueList", template [
     "ElementValueList:";
     "    ElementValue {, ElementValue}"]);
  ("MarkerAnnotation", template [
     "MarkerAnnotation:";
     "    @ TypeName"]);
  ("SingleElementAnnotation", template [
     "SingleElementAnnotation:";
     "    @ TypeName ( ElementValue )"]);
  (* §10 Arrays *)
  ("ArrayInitializer", template [
     "ArrayInitializer:";
     "    { [VariableInitializerList] [,] }"]);
  ("VariableInitializerList", template [
     "VariableInitializerList:";
     "    VariableInitializer {, VariableInitializer}"]);
  (* §14 Blocks, Statements, and Patterns *)
  ("Block", template [
     "Block:";
     "    { [BlockStatements] }"]);
  ("BlockStatements", template [
     "BlockStatements:";
     "    BlockStatement {BlockStatement}"]);
  ("BlockStatement", template [
     "BlockStatement:";
     "    LocalClassOrInterfaceDeclaration";
     "    LocalVariableDeclarationStatement";
     "    Statement"]);
  ("LocalClassOrInterfaceDeclaration", template [
     "LocalClassOrInterfaceDeclaration:";
     "    ClassDeclaration";
     "    NormalInterfaceDeclaration"]);
  ("LocalVariableDeclarationStatement", template [
     "LocalVariableDeclarationStatement:";
     "    LocalVariableDeclaration ;"]);
  ("LocalVariableDeclaration", template [
     "LocalVariableDeclaration:";
     "    {VariableModifier} LocalVariableType VariableDeclaratorList"]);
  ("LocalVariableType", template [
     "LocalVariableType:";
     "    UnannType";
     "    var"]);
  ("Statement", template [
     "Statement:";
     "    StatementWithoutTrailingSubstatement";
     "    LabeledStatement";
     "    IfThenStatement";
     "    IfThenElseStatement";
     "    WhileStatement";
     "    ForStatement"]);
  ("StatementNoShortIf", template [
     "StatementNoShortIf:";
     "    StatementWithoutTrailingSubstatement";
     "    LabeledStatementNoShortIf";
     "    IfThenElseStatementNoShortIf";
     "    WhileStatementNoShortIf";
     "    ForStatementNoShortIf"]);
  ("StatementWithoutTrailingSubstatement", template [
     "StatementWithoutTrailingSubstatement:";
     "    Block";
     "    EmptyStatement";
     "    ExpressionStatement";
     "    AssertStatement";
     "    SwitchStatement";
     "    DoStatement";
     "    BreakStatement";
     "    ContinueStatement";
     "    ReturnStatement";
     "    SynchronizedStatement";
     "    ThrowStatement";
     "    TryStatement";
     "    YieldStatement"]);
  ("EmptyStatement", template [
     "EmptyStatement:";
     "    ;"]);
  ("LabeledStatement", template [
     "LabeledStatement:";
     "    Identifier : Statement"]);
  ("LabeledStatementNoShortIf", template [
     "LabeledStatementNoShortIf:";
     "    Identifier : StatementNoShortIf"]);
  ("ExpressionStatement", template [
     "ExpressionStatement:";
     "    StatementExpression ;"]);
  ("StatementExpression", template [
     "StatementExpression:";
     "    Assignment";
     "    PreIncrementExpression";
     "    PreDecrementExpression";
     "    PostIncrementExpression";
     "    PostDecrementExpression";
     "    MethodInvocation";
     "    ClassInstanceCreationExpression"]);
  ("IfThenStatement", template [
     "IfThenStatement:";
     "    if ( Expression ) Statement"]);
  ("IfThenElseStatement", template [
     "IfThenElseStatement:";
     "    if ( Expression ) StatementNoShortIf else Statement"]);
  ("IfThenElseStatementNoShortIf", template [
     "IfThenElseStatementNoShortIf:";
     "    if ( Expression ) StatementNoShortIf else StatementNoShortIf"]);
  ("AssertStatement", template [
     "AssertStatement:";
     "    assert Expression ;";
     "    assert Expression : Expression ;"]);
  ("SwitchStatement", template [
     "SwitchStatement:";
     "    switch ( Expression ) SwitchBlock"]);
  ("SwitchBlock", template [
     "SwitchBlock:";
     "    { SwitchRule {SwitchRule} }";
     "    { {SwitchBlockStatementGroup} {SwitchLabel :} }"]);
  ("SwitchRule", template [
     "SwitchRule:";
     "    SwitchLabel -> Expression ;";
     "    SwitchLabel -> Block";
     "    SwitchLabel -> ThrowStatement"]);
  ("SwitchBlockStatementGroup", template [
     "SwitchBlockStatementGroup:";
     "    SwitchLabel : {SwitchLabel :} BlockStatements"]);
  ("SwitchLabel", template [
     "SwitchLabel:";
     "    case CaseConstant {, CaseConstant}";
     "    case null [, default]";
     "    case CasePattern {, CasePattern} [Guard]";
     "    default"]);
  ("CaseConstant", template [
     "CaseConstant:";
     "    ConditionalExpression"]);
  ("CasePattern", template [
     "CasePattern:";
     "    Pattern"]);
  ("Guard", template [
     "Guard:";
     "    when Expression"]);
  ("WhileStatement", template [
     "WhileStatement:";
     "    while ( Expression ) Statement"]);
  ("WhileStatementNoShortIf", template [
     "WhileStatementNoShortIf:";
     "    while ( Expression ) StatementNoShortIf"]);
  ("DoStatement", template [
     "DoStatement:";
     "    do Statement while ( Expression ) ;"]);
  ("ForStatement", template [
     "ForStatement:";
     "    BasicForStatement";
     "    EnhancedForStatement"]);
  ("ForStatementNoShortIf", template [
     "ForStatementNoShortIf:";
     "    BasicForStatementNoShortIf";
     "    EnhancedForStatementNoShortIf"]);
  ("BasicForStatement", template [
     "BasicForStatement:";
     "    for ( [ForInit] ; [Expression] ; [ForUpdate] ) Statement"]);
  ("BasicForStatementNoShortIf", template [
     "BasicForStatementNoShortIf:";
     "    for ( [ForInit] ; [Expression] ; [ForUpdate] ) StatementNoShortIf"]);
  ("ForInit", template [
     "ForInit:";
     "    StatementExpressionList";
     "    LocalVariableDeclaration"]);
  ("ForUpdate", template [
     "ForUpdate:";
     "    StatementExpressionList"]);
  ("StatementExpressionList", template [
     "StatementExpressionList:";
     "    StatementExpression {, StatementExpression}"]);
  ("EnhancedForStatement", template [
     "EnhancedForStatement:";
     "    for ( LocalVariableDeclaration : Expression ) Statement"]);
  ("EnhancedForStatementNoShortIf", template [
     "EnhancedForStatementNoShortIf:";
     "    for ( LocalVariableDeclaration : Expression ) StatementNoShortIf"]);
  ("BreakStatement", template [
     "BreakStatement:";
     "    break [Identifier] ;"]);
  ("YieldStatement", template [
     "YieldStatement:";
     "    yield Expression ;"]);
  ("ContinueStatement", template [
     "ContinueStatement:";
     "    continue [Identifier] ;"]);
  ("ReturnStatement", template [
     "ReturnStatement:";
     "    return [Expression] ;"]);
  ("ThrowStatement", template [
     "ThrowStatement:";
     "    throw Expression ;"]);
  ("SynchronizedStatement", template [
     "SynchronizedStatement:";
     "    synchronized ( Expression ) Block"]);
  ("TryStatement", template [
     "TryStatement:";
     "    try Block Catches";
     "    try Block [Catches] Finally";
     "    TryWithResourcesStatement"]);
  ("Catches", template [
     "Catches:";
     "    CatchClause {CatchClause}"]);
  ("CatchClause", template [
     "CatchClause:";
     "    catch ( CatchFormalParameter ) Block"]);
  ("CatchFormalParameter", template [
     "CatchFormalParameter:";
     "    {VariableModifier} CatchType VariableDeclaratorId"]);
  ("CatchType", template [
     "CatchType:";
     "    UnannClassType {| ClassType}"]);
  ("Finally", template [
     "Finally:";
     "    finally Block"]);
  ("TryWithResourcesStatement", template [
     "TryWithResourcesStatement:";
     "    try ResourceSpecification Block [Catches] [Finally]"]);
  ("ResourceSpecification", template [
     "ResourceSpecification:";
     "    ( ResourceList [;] )"]);
  ("ResourceList", template [
     "ResourceList:";
     "    Resource {; Resource}"]);
  ("Resource", template [
     "Resource:";
     "    LocalVariableDeclaration";
     "    VariableAccess"]);
  ("VariableAccess", template [
     "VariableAccess:";
     "    ExpressionName";
     "    FieldAccess"]);
  ("Pattern", template [
     "Pattern:";
     "    TypePattern";
     "    RecordPattern"]);
  ("TypePattern", template [
     "TypePattern:";
     "    LocalVariableDeclaration"]);
  ("RecordPattern", template [
     "RecordPattern:";
     "    ReferenceType ( [ComponentPatternList] )"]);
  ("ComponentPatternList", template [
     "ComponentPatternList:";
     "    ComponentPattern {, ComponentPattern}"]);
  ("ComponentPattern", template [
     "ComponentPattern:";
     "    Pattern";
     "    MatchAllPattern"]);
  ("MatchAllPattern", template [
     "MatchAllPattern:";
     "    _"]);
  (* §15 Expressions *)
  ("Primary", template [
     "Primary:";
     "    PrimaryNoNewArray";
     "    ArrayCreationExpression"]);
  ("PrimaryNoNewArray", template [
     "PrimaryNoNewArray:";
     "    Literal";
     "    ClassLiteral";
     "    this";
     "    TypeName . this";
     "    ( Expression )";
     "    ClassInstanceCreationExpression";
     "    FieldAccess";
     "    ArrayAccess";
     "    MethodInvocation";
     "    MethodReference"]);
  ("ClassLiteral", template [
     "ClassLiteral:";
     "    TypeName {[ ]} . class";
     "    NumericType {[ ]} . class";
     "    boolean {[ ]} . class";
     "    void . class"]);
  ("ClassInstanceCreationExpression", template [
     "ClassInstanceCreationExpression:";
     "    UnqualifiedClassInstanceCreationExpression";
     "    ExpressionName . UnqualifiedClassInstanceCreationExpression";
     "    Primary . UnqualifiedClassInstanceCreationExpression"]);
  ("UnqualifiedClassInstanceCreationExpression", template [
     "UnqualifiedClassInstanceCreationExpression:";
     "    new [TypeArguments] ClassOrInterfaceTypeToInstantiate ( [ArgumentList] ) [ClassBody]"]);
  ("ClassOrInterfaceTypeToInstantiate", template [
     "ClassOrInterfaceTypeToInstantiate:";
     "    {Annotation} Identifier {. {Annotation} Identifier} [TypeArgumentsOrDiamond]"]);
  ("TypeArgumentsOrDiamond", template [
     "TypeArgumentsOrDiamond:";
     "    TypeArguments";
     "    <>"]);
  ("ArrayCreationExpression", template [
     "ArrayCreationExpression:";
     "    ArrayCreationExpressionWithoutInitializer";
     "    ArrayCreationExpressionWithInitializer"]);
  ("ArrayCreationExpressionWithoutInitializer", template [
     "ArrayCreationExpressionWithoutInitializer:";
     "    new PrimitiveType DimExprs [Dims]";
     "    new ClassOrInterfaceType DimExprs [Dims]"]);
  ("ArrayCreationExpressionWithInitializer", template [
     "ArrayCreationExpressionWithInitializer:";
     "    new PrimitiveType Dims ArrayInitializer";
     "    new ClassOrInterfaceType Dims ArrayInitializer"]);
  ("DimExprs", template [
     "DimExprs:";
     "    DimExpr {DimExpr}"]);
  ("DimExpr", template [
     "DimExpr:";
     "    {Annotation} [ Expression ]"]);
  ("ArrayAccess", template [
     "ArrayAccess:";
     "    ExpressionName [ Expression ]";
     "    PrimaryNoNewArray [ Expression ]";
     "    ArrayCreationExpressionWithInitializer [ Expression ]"]);
  ("FieldAccess", template [
     "FieldAccess:";
     "    Primary . Identifier";
     "    super . Identifier";
     "    TypeName . super . Identifier"]);
  ("MethodInvocation", template [
     "MethodInvocation:";
     "    MethodName ( [ArgumentList] )";
     "    TypeName . [TypeArguments] Identifier ( [ArgumentList] )";
     "    ExpressionName . [TypeArguments] Identifier ( [ArgumentList] )";
     "    Primary . [TypeArguments] Identifier ( [ArgumentList] )";
     "    super . [TypeArguments] Identifier ( [ArgumentList] )";
     "    TypeName . super . [TypeArguments] Identifier ( [ArgumentList] )"]);
  ("ArgumentList", template [
     "ArgumentList:";
     "    Expression {, Expression}"]);
  ("MethodReference", template [
     "MethodReference:";
     "    ExpressionName :: [TypeArguments] Identifier";
     "    Primary :: [TypeArguments] Identifier";
     "    ReferenceType :: [TypeArguments] Identifier";
     "    super :: [TypeArguments] Identifier";
     "    TypeName . super :: [TypeArguments] Identifier";
     "    ClassType :: [TypeArguments] new";
     "    ArrayType :: new"]);
  ("Expression", template [
     "Expression:";
     "    LambdaExpression";
     "    AssignmentExpression"]);
  ("LambdaExpression", template [
     "LambdaExpression:";
     "    LambdaParameters -> LambdaBody"]);
  ("LambdaParameters", template [
     "LambdaParameters:";
     "    ( [LambdaParameterList] )";
     "    ConciseLambdaParameter"]);
  ("LambdaParameterList", template [
     "LambdaParameterList:";
     "    NormalLambdaParameter {, NormalLambdaParameter}";
     "    ConciseLambdaParameter {, ConciseLambdaParameter}"]);
  ("NormalLambdaParameter", template [
     "NormalLambdaParameter:";
     "    {VariableModifier} LambdaParameterType VariableDeclaratorId";
     "    VariableArityParameter"]);
  ("LambdaParameterType", template [
     "LambdaParameterType:";
     "    UnannType";
     "    var"]);
  ("ConciseLambdaParameter", template [
     "ConciseLambdaParameter:";
     "    Identifier";
     "    _"]);
  ("LambdaBody", template [
     "LambdaBody:";
     "    Expression";
     "    Block"]);
  ("AssignmentExpression", template [
     "AssignmentExpression:";
     "    ConditionalExpression";
     "    Assignment"]);
  ("Assignment", template [
     "Assignment:";
     "    LeftHandSide AssignmentOperator Expression"]);
  ("LeftHandSide", template [
     "LeftHandSide:";
     "    ExpressionName";
     "    FieldAccess";
     "    ArrayAccess"]);
  ("AssignmentOperator", template [
     "AssignmentOperator:";
     "    (one of) =  *=  /=  %=  +=  -=  <<=  >>=  >>>=  &=  ^=  |="]);
  ("ConditionalExpression", template [
     "ConditionalExpression:";
     "    ConditionalOrExpression";
     "    ConditionalOrExpression ? Expression : ConditionalExpression";
     "    ConditionalOrExpression ? Expression : LambdaExpression"]);
  ("ConditionalOrExpression", template [
     "ConditionalOrExpression:";
     "    ConditionalAndExpression";
     "    ConditionalOrExpression || ConditionalAndExpression"]);
  ("ConditionalAndExpression", template [
     "ConditionalAndExpression:";
     "    InclusiveOrExpression";
     "    ConditionalAndExpression && InclusiveOrExpression"]);
  ("InclusiveOrExpression", template [
     "InclusiveOrExpression:";
     "    ExclusiveOrExpression";
     "    InclusiveOrExpression | ExclusiveOrExpression"]);
  ("ExclusiveOrExpression", template [
     "ExclusiveOrExpression:";
     "    AndExpression";
     "    ExclusiveOrExpression ^ AndExpression"]);
  ("AndExpression", template [
     "AndExpression:";
     "    EqualityExpression";
     "    AndExpression & EqualityExpression"]);
  ("EqualityExpression", template [
     "EqualityExpression:";
     "    RelationalExpression";
     "    EqualityExpression == RelationalExpression";
     "    EqualityExpression != RelationalExpression"]);
  ("RelationalExpression", template [
     "RelationalExpression:";
     "    ShiftExpression";
     "    RelationalExpression < ShiftExpression";
     "    RelationalExpression > ShiftExpression";
     "    RelationalExpression <= ShiftExpression";
     "    RelationalExpression >= ShiftExpression";
     "    InstanceofExpression"]);
  ("InstanceofExpression", template [
     "InstanceofExpression:";
     "    RelationalExpression instanceof ReferenceType";
     "    RelationalExpression instanceof Pattern"]);
  ("ShiftExpression", template [
     "ShiftExpression:";
     "    AdditiveExpression";
     "    ShiftExpression << AdditiveExpression";
     "    ShiftExpression >> AdditiveExpression";
     "    ShiftExpression >>> AdditiveExpression"]);
  ("AdditiveExpression", template [
     "AdditiveExpression:";
     "    MultiplicativeExpression";
     "    AdditiveExpression + MultiplicativeExpression";
     "    AdditiveExpression - MultiplicativeExpression"]);
  ("MultiplicativeExpression", template [
     "MultiplicativeExpression:";
     "    UnaryExpression";
     "    MultiplicativeExpression * UnaryExpression";
     "    MultiplicativeExpression / UnaryExpression";
     "    MultiplicativeExpression % UnaryExpression"]);
  ("UnaryExpression", template [
     "UnaryExpression:";
     "    PreIncrementExpression";
     "    PreDecrementExpression";
     "    + UnaryExpression";
     "    - UnaryExpression";
     "    UnaryExpressionNotPlusMinus"]);
  ("PreIncrementExpression", template [
     "PreIncrementExpression:";
     "    ++ UnaryExpression"]);
  ("PreDecrementExpression", template [
     "PreDecrementExpression:";
     "    -- UnaryExpression"]);
  ("UnaryExpressionNotPlusMinus", template [
     "UnaryExpressionNotPlusMinus:";
     "    PostfixExpression";
     "    ~ UnaryExpression";
     "    ! UnaryExpression";
     "    CastExpression";
     "    SwitchExpression"]);
  ("PostfixExpression", template [
     "PostfixExpression:";
     "    Primary";
     "    ExpressionName";
     "    PostIncrementExpression";
     "    PostDecrementExpression"]);
  ("PostIncrementExpression", template [
     "PostIncrementExpression:";
     "    PostfixExpression ++"]);
  ("PostDecrementExpression", template [
     "PostDecrementExpression:";
     "    PostfixExpression --"]);
  ("CastExpression", template [
     "CastExpression:";
     "    ( PrimitiveType ) UnaryExpression";
     "    ( ReferenceType {AdditionalBound} ) UnaryExpressionNotPlusMinus";
     "    ( ReferenceType {AdditionalBound} ) LambdaExpression"]);
  ("SwitchExpression", template [
     "SwitchExpression:";
     "    switch ( Expression ) SwitchBlock"])
].

(** EBNF definitions keyed by rule name. *)
Definition EBNF_DEFINITIONS : JsMap.t string :=
  fold_left (fun m p => JsMap.set m (fst p) (snd p)) entries JsMap.empty.

(** Get all EBNF rule names for grammar coverage checking:
    [Object.keys(EBNF_DEFINITIONS)]. *)
Definition getEbnfRuleNames : list string := JsMap.keys EBNF_DEFINITIONS.

End Ebnf.

(* ================================================================== *)
(** ** The two files the coverage script reads                         *)
(* ================================================================== *)

Module SourceText.

(** src/features/grammar/java25Grammar.ts, line by line. *)
Definition java25Grammar_ts : string :=
  unhash (unlines [
    "/**";
    " * Java 25 Grammar – Railroad Diagram Factories";
    " *";
    " * This file defines diagram factories for each Java 25 grammar rule.";
    " * Based on Java Language Specification SE 25, Chapter 19.";
    " *";
    " * Each rule is a factory function: () => D(...).";
    " * Use createRuleDiagram(name) to get the diagram object.";
    " */";
    "";
    "import {";
    "  Diagram,";
    "  Sequence,";
    "  Choice,";
    "  Optional,";
    "  OneOrMore,";
    "  ZeroOrMore,";
    "  Terminal,";
    "  NonTerminal,";
    "  Stack,";
    "  Comment,";
    "} from #@prantlf/railroad-diagrams/lib/index.mjs#;";
    "";
    "// Shorthand helpers";
    "// NOTE: @prantlf/railroad-diagrams has shipped both factory-function and ES-class APIs";
    "// across versions/build targets. Calling a class without `new` throws:";
    "//   #Class constructor X cannot be invoked without 'new'#";
    "// This wrapper supports either shape at runtime.";
    "const __isClass = (fn: any): fn is new (...args: any[]) => any =>";
    "  typeof fn === #function# && /^class\s/.test(Function.prototype.toString.call(fn));";
    "";
    "const rr = (fn: any, ...args: any[]) => {";
    "  if (__isClass(fn)) return new fn(...args);";
    "";
    "  try {";
    "    return fn(...args);";
    "  } catch (err: any) {";
    "    const msg = String(err?.message ?? err);";
    "    if (";
    "      msg.includes(#without 'new'#) ||";
    "      msg.includes(#Class constructor#) ||";
    "      msg.includes(#Cannot call a class as a function#)";
    "    ) {";
    "      return new fn(...args);";
    "    }";
    "    throw err;";
    "  }";
    "};";
    "";
    "const D = (...items: any[]) => rr(Diagram, ...items);";
    "const Seq = (...items: any[]) => rr(Sequence, ...items);";
    "const Ch = (...items: any[]) => rr(Choice, ...items);";
    "const Opt = (...items: any[]) => rr(Optional, ...items);";
    "const OOM = (...items: any[]) => rr(OneOrMore, ...items);";
    "const ZOM = (...items: any[]) => rr(ZeroOrMore, ...items);";
    "const Stk = (...items: any[]) => rr(Stack, ...items);";
    "const Cmt = (text: string, ...rest: any[]) => rr(Comment, text, ...rest);";
    "const T = (text: string, ...rest: any[]) => rr(Terminal, text, ...rest);";
    "const NT = (text: string, ...rest: any[]) => rr(NonTerminal, text, ...rest);";
    "";
    "// ============================================================";
    "";
    "// Section IDs and titles (for navigation)";
    "// ============================================================";
    "";
    "export type SectionId =";
    "  | #lexical#";
    "  | #types#";
    "  | #names#";
    "  | #packages#";
    "  | #classes#";
    "  | #interfaces#";
    "  | #arrays#";
    "  | #statements#";
    "  | #expressions#;";
    "";
    "export const SECTION_ORDER: SectionId[] = [";
    "  #lexical#,";
    "  #types#,";
    "  #names#,";
    "  #packages#,";
    "  #classes#,";
    "  #interfaces#,";
    "  #arrays#,";
    "  #statements#,";
    "  #expressions#,";
    "];";
    "";
    "export const SECTION_TITLES: Record<SectionId, string> = {";
    "  lexical: #§3 Lexical Structure#,";
    "  types: #§4 Types, Values, and Variables#,";
    "  names: #§6 Names#,";
    "  packages: #§7 Packages and Modules#,";
    "  classes: #§8 Classes#,";
    "  interfaces: #§9 Interfaces#,";
    "  arrays: #§10 Arrays#,";
    "  statements: #§14 Blocks, Statements, and Patterns#,";
    "  expressions: #§15 Expressions#,";
    "};";
    "";
    "export const SECTION_RULES: Record<SectionId, string[]> = {";
    "  lexical: [";
    "    #Identifier#,";
    "    #IdentifierChars#,";
    "    #JavaLetter#,";
    "    #JavaLetterOrDigit#,";
    "    #TypeIdentifier#,";
    "    #UnqualifiedMethodIdentifier#,";
    "    #Literal#,";
    "  ],";
    "  types: [";
    "    #Type#,";
    "    #PrimitiveType#,";
    "    #NumericType#,";
    "    #IntegralType#,";
    "    #FloatingPointType#,";
    "    #ReferenceType#,";
    "    #ClassOrInterfaceType#,";
    "    #ClassType#,";
    "    #InterfaceType#,";
    "    #TypeVariable#,";
    "    #ArrayType#,";
    "    #Dims#,";
    "    #TypeParameter#,";
    "    #TypeParameterModifier#,";
    "    #TypeBound#,";
    "    #AdditionalBound#,";
    "    #TypeArguments#,";
    "    #TypeArgumentList#,";
    "    #TypeArgument#,";
    "    #Wildcard#,";
    "    #WildcardBounds#,";
    "  ],";
    "  names: [";
    "    #ModuleName#,";
    "    #PackageName#,";
    "    #TypeName#,";
    "    #ExpressionName#,";
    "    #MethodName#,";
    "    #PackageOrTypeName#,";
    "    #AmbiguousName#,";
    "  ],";
    "  packages: [";
    "    #CompilationUnit#,";
    "    #OrdinaryCompilationUnit#,";
    "    #ModularCompilationUnit#,";
    "    #PackageDeclaration#,";
    "    #PackageModifier#,";
    "    #ImportDeclaration#,";
    "    #SingleTypeImportDeclaration#,";
    "    #TypeImportOnDemandDeclaration#,";
    "    #SingleStaticImportDeclaration#,";
    "    #StaticImportOnDemandDeclaration#,";
    "    #SingleModuleImportDeclaration#,";
    "    #TopLevelClassOrInterfaceDeclaration#,";
    "    #ModuleDeclaration#,";
    "    #ModuleDirective#,";
    "    #RequiresModifier#,";
    "  ],";
    "  classes: [";
    "    #ClassDeclaration#,";
    "    #NormalClassDeclaration#,";
    "    #ClassModifier#,";
    "    #TypeParameters#,";
    "    #TypeParameterList#,";
    "    #ClassExtends#,";
    "    #ClassImplements#,";
    "    #InterfaceTypeList#,";
    "    #ClassPermits#,";
    "    #ClassBody#,";
    "    #ClassBodyDeclaration#,";
    "    #ClassMemberDeclaration#,";
    "    #FieldDeclaration#,";
    "    #FieldModifier#,";
    "    #VariableDeclaratorList#,";
    "    #VariableDeclarator#,";
    "    #VariableDeclaratorId#,";
    "    #VariableInitializer#,";
    "    #UnannType#,";
    "    #UnannPrimitiveType#,";
    "    #UnannReferenceType#,";
    "    #UnannClassOrInterfaceType#,";
    "    #UnannClassType#,";
    "    #UnannInterfaceType#,";
    "    #UnannTypeVariable#,";
    "    #UnannArrayType#,";
    "    #MethodDeclaration#,";
    "    #MethodModifier#,";
    "    #MethodHeader#,";
    "    #Result#,";
    "    #MethodDeclarator#,";
    "    #ReceiverParameter#,";
    "    #FormalParameterList#,";
    "    #FormalParameter#,";
    "    #VariableArityParameter#,";
    "    #VariableModifier#,";
    "    #Throws#,";
    "    #ExceptionTypeList#,";
    "    #ExceptionType#,";
    "    #MethodBody#,";
    "    #InstanceInitializer#,";
    "    #StaticInitializer#,";
    "    #ConstructorDeclaration#,";
    "    #ConstructorModifier#,";
    "    #ConstructorDeclarator#,";
    "    #SimpleTypeName#,";
    "    #ConstructorBody#,";
    "    #ConstructorInvocation#,";
    "    #EnumDeclaration#,";
    "    #EnumBody#,";
    "    #EnumConstantList#,";
    "    #EnumConstant#,";
    "    #EnumConstantModifier#,";
    "    #EnumBodyDeclarations#,";
    "    #RecordDeclaration#,";
    "    #RecordHeader#,";
    "    #RecordComponentList#,";
    "    #RecordComponent#,";
    "    #VariableArityRecordComponent#,";
    "    #RecordComponentModifier#,";
    "    #RecordBody#,";
    "    #RecordBodyDeclaration#,";
    "    #CompactConstructorDeclaration#,";
    "  ],";
    "  interfaces: [";
    "    #InterfaceDeclaration#,";
    "    #NormalInterfaceDeclaration#,";
    "    #InterfaceModifier#,";
    "    #InterfaceExtends#,";
    "    #InterfacePermits#,";
    "    #InterfaceBody#,";
    "    #InterfaceMemberDeclaration#,";
    "    #ConstantDeclaration#,";
    "    #ConstantModifier#,";
    "    #InterfaceMethodDeclaration#,";
    "    #InterfaceMethodModifier#,";
    "    #AnnotationInterfaceDeclaration#,";
    "    #AnnotationInterfaceBody#,";
    "    #AnnotationInterfaceMemberDeclaration#,";
    "    #AnnotationInterfaceElementDeclaration#,";
    "    #AnnotationInterfaceElementModifier#,";
    "    #DefaultValue#,";
    "    #Annotation#,";
    "    #NormalAnnotation#,";
    "    #ElementValuePairList#,";
    "    #ElementValuePair#,";
    "    #ElementValue#,";
    "    #ElementValueArrayInitializer#,";
    "    #ElementValueList#,";
    "    #MarkerAnnotation#,";
    "    #SingleElementAnnotation#,";
    "  ],";
    "  arrays: [";
    "    #ArrayInitializer#,";
    "    #VariableInitializerList#,";
    "  ],";
    "  statements: [";
    "    #Block#,";
    "    #BlockStatements#,";
    "    #BlockStatement#,";
    "    #LocalClassOrInterfaceDeclaration#,";
    "    #LocalVariableDeclarationStatement#,";
    "    #LocalVariableDeclaration#,";
    "    #LocalVariableType#,";
    "    #Statement#,";
    "    #StatementNoShortIf#,";
    "    #StatementWithoutTrailingSubstatement#,";
    "    #EmptyStatement#,";
    "    #LabeledStatement#,";
    "    #LabeledStatementNoShortIf#,";
    "    #ExpressionStatement#,";
    "    #StatementExpression#,";
    "    #IfThenStatement#,";
    "    #IfThenElseStatement#,";
    "    #IfThenElseStatementNoShortIf#,";
    "    #AssertStatement#,";
    "    #SwitchStatement#,";
    "    #SwitchBlock#,";
    "    #SwitchRule#,";
    "    #SwitchBlockStatementGroup#,";
    "    #SwitchLabel#,";
    "    #CaseConstant#,";
    "    #CasePattern#,";
    "    #Guard#,";
    "    #WhileStatement#,";
    "    #WhileStatementNoShortIf#,";
    "    #DoStatement#,";
    "    #ForStatement#,";
    "    #ForStatementNoShortIf#,";
    "    #BasicForStatement#,";
    "    #BasicForStatementNoShortIf#,";
    "    #ForInit#,";
    "    #ForUpdate#,";
    "    #StatementExpressionList#,";
    "    #EnhancedForStatement#,";
    "    #EnhancedForStatementNoShortIf#,";
    "    #BreakStatement#,";
    "    #YieldStatement#,";
    "    #ContinueStatement#,";
    "    #ReturnStatement#,";
    "    #ThrowStatement#,";
    "    #SynchronizedStatement#,";
    "    #TryStatement#,";
    "    #Catches#,";
    "    #CatchClause#,";
    "    #CatchFormalParameter#,";
    "    #CatchType#,";
    "    #Finally#,";
    "    #TryWithResourcesStatement#,";
    "    #ResourceSpecification#,";
    "    #ResourceList#,";
    "    #Resource#,";
    "    #VariableAccess#,";
    "    #Pattern#,";
    "    #TypePattern#,";
    "    #RecordPattern#,";
    "    #ComponentPatternList#,";
    "    #ComponentPattern#,";
    "    #MatchAllPattern#,";
    "  ],";
    "  expressions: [";
    "    #Primary#,";
    "    #PrimaryNoNewArray#,";
    "    #ClassLiteral#,";
    "    #ClassInstanceCreationExpression#,";
    "    #UnqualifiedClassInstanceCreationExpression#,";
    "    #ClassOrInterfaceTypeToInstantiate#,";
    "    #TypeArgumentsOrDiamond#,";
    "    #ArrayCreationExpression#,";
    "    #ArrayCreationExpressionWithoutInitializer#,";
    "    #ArrayCreationExpressionWithInitializer#,";
    "    #DimExprs#,";
    "    #DimExpr#,";
    "    #ArrayAccess#,";
    "    #FieldAccess#,";
    "    #MethodInvocation#,";
    "    #ArgumentList#,";
    "    #MethodReference#,";
    "    #Expression#,";
    "    #LambdaExpression#,";
    "    #LambdaParameters#,";
    "    #LambdaParameterList#,";
    "    #NormalLambdaParameter#,";
    "    #LambdaParameterType#,";
    "    #ConciseLambdaParameter#,";
    "    #LambdaBody#,";
    "    #AssignmentExpression#,";
    "    #Assignment#,";
    "    #LeftHandSide#,";
    "    #AssignmentOperator#,";
    "    #ConditionalExpression#,";
    "    #ConditionalOrExpression#,";
    "    #ConditionalAndExpression#,";
    "    #InclusiveOrExpression#,";
    "    #ExclusiveOrExpression#,";
    "    #AndExpression#,";
    "    #EqualityExpression#,";
    "    #RelationalExpression#,";
    "    #InstanceofExpression#,";
    "    #ShiftExpression#,";
    "    #AdditiveExpression#,";
    "    #MultiplicativeExpression#,";
    "    #UnaryExpression#,";
    "    #PreIncrementExpression#,";
    "    #PreDecrementExpression#,";
    "    #UnaryExpressionNotPlusMinus#,";
    "    #PostfixExpression#,";
    "    #PostIncrementExpression#,";
    "    #PostDecrementExpression#,";
    "    #CastExpression#,";
    "    #SwitchExpression#,";
    "  ],";
    "};";
    "";
    "// ============================================================";
    "// Diagram factory map";
    "// ============================================================";
    "";
    "type DiagramFactory = () => any;";
    "const rules = new Map<string, DiagramFactory>();";
    "";
    "// ------------------------------------------------------------";
    "// §3 Lexical Structure";
    "// ------------------------------------------------------------";
    "";
    "rules.set(#Identifier#, () =>";
    "  D(";
    "    Seq(";
    "      NT(#IdentifierChars#),";
    "      Cmt(#but not ReservedKeyword, BooleanLiteral, or NullLiteral#)";
    "    )";
    "  )";
    ");";
    "";
    "rules.set(#IdentifierChars#, () =>";
    "  D(";
    "    Seq(NT(#JavaLetter#), ZOM(NT(#JavaLetterOrDigit#)))";
    "  )";
    ");";
    "";
    "rules.set(#JavaLetter#, () =>";
    "  D(Cmt(#any Unicode character that is a Java letter#))";
    ");";
    "";
    "rules.set(#JavaLetterOrDigit#, () =>";
    "  D(Cmt(#any Unicode character that is a Java letter-or-digit#))";
    ");";
    "";
    "rules.set(#TypeIdentifier#, () =>";
    "  D(";
    "    Seq(";
    "      NT(#Identifier#),";
    "      Cmt(#but not permits, record, sealed, var, or yield#)";
    "    )";
    "  )";
    ");";
    "";
    "rules.set(#UnqualifiedMethodIdentifier#, () =>";
    "  D(";
    "    Seq(NT(#Identifier#), Cmt(#but not yield#))";
    "  )";
    ");";
    "";
    "rules.set(#Literal#, () =>";
    "  D(";
    "    Ch(0,";
    "      NT(#IntegerLiteral#),";
    "      NT(#FloatingPointLiteral#),";
    "      NT(#BooleanLiteral#),";
    "      NT(#CharacterLiteral#),";
    "      NT(#StringLiteral#),";
    "      NT(#TextBlock#),";
    "      NT(#NullLiteral#)";
    "    )";
    "  )";
    ");";
    "";
    "// ------------------------------------------------------------";
    "// §4 Types, Values, and Variables";
    "// ------------------------------------------------------------";
    "";
    "rules.set(#Type#, () =>";
    "  D(Ch(0, NT(#PrimitiveType#), NT(#ReferenceType#)))";
    ");";
    "";
    "rules.set(#PrimitiveType#, () =>";
    "  D(";
    "    Ch(0,";
    "      Seq(ZOM(NT(#Annotation#)), NT(#NumericType#)),";
    "      Seq(ZOM(NT(#Annotation#)), T(#boolean#))";
    "    )";
    "  )";
    ");";
    "";
    "rules.set(#NumericType#, () =>";
    "  D(Ch(0, NT(#IntegralType#), NT(#FloatingPointType#)))";
    ");";
    "";
    "rules.set(#IntegralType#, () =>";
    "  D(Ch(0, T(#byte#), T(#short#), T(#int#), T(#long#), T(#char#)))";
    ");";
    "";
    "rules.set(#FloatingPointType#, () =>";
    "  D(Ch(0, T(#float#), T(#double#)))";
    ");";
    "";
    "rules.set(#ReferenceType#, () =>";
    "  D(Ch(0, NT(#ClassOrInterfaceType#), NT(#TypeVariable#), NT(#ArrayType#)))";
    ");";
    "";
    "rules.set(#ClassOrInterfaceType#, () =>";
    "  D(Ch(0, NT(#ClassType#), NT(#InterfaceType#)))";
    ");";
    "";
    "rules.set(#ClassType#, () =>";
    "  D(";
    "    Ch(0,";
    "      Seq(ZOM(NT(#Annotation#)), NT(#TypeIdentifier#), Opt(NT(#TypeArguments#))),";
    "      Seq(NT(#PackageName#), T(#.#), ZOM(NT(#Annotation#)), NT(#TypeIdentifier#), Opt(NT(#TypeArguments#))),";
    "      Seq(NT(#ClassOrInterfaceType#), T(#.#), ZOM(NT(#Annotation#)), NT(#TypeIdentifier#), Opt(NT(#TypeArguments#)))";
    "    )";
    "  )";
    ");";
    "";
    "rules.set(#InterfaceType#, () =>";
    "  D(NT(#ClassType#))";
    ");";
    "";
    "rules.set(#TypeVariable#, () =>";
    "  D(Seq(ZOM(NT(#Annotation#)), NT(#TypeIdentifier#)))";
    ");";
    "";
    "rules.set(#ArrayType#, () =>";
    "  D(";
    "    Ch(0,";
    "      Seq(NT(#PrimitiveType#), NT(#Dims#)),";
    "      Seq(NT(#ClassOrInterfaceType#), NT(#Dims#)),";
    "      Seq(NT(#TypeVariable#), NT(#Dims#))";
    "    )";
    "  )";
    ");";
    "";
    "rules.set(#Dims#, () =>";
    "  D(";
    "    OOM(Seq(ZOM(NT(#Annotation#)), T(#[#), T(#]#)))";
    "  )";
    ");";
    "";
    "rules.set(#TypeParameter#, () =>";
    "  D(";
    "    Seq(ZOM(NT(#TypeParameterModifier#)), NT(#TypeIdentifier#), Opt(NT(#TypeBound#)))";
    "  )";
    ");";
    "";
    "rules.set(#TypeParameterModifier#, () =>";
    "  D(NT(#Annotation#))";
    ");";
    "";
    "rules.set(#TypeBound#, () =>";
    "  D(";
    "    Ch(0,";
    "      Seq(T(#extends#), NT(#TypeVariable#)),";
    "      Seq(T(#extends#), NT(#ClassOrInterfaceType#), ZOM(NT(#AdditionalBound#)))";
    "    )";
    "  )";
    ");";
    "";
    "rules.set(#AdditionalBound#, () =>";
    "  D(Seq(T(#&#), NT(#InterfaceType#)))";
    ");";
    "";
    "rules.set(#TypeArguments#, () =>";
    "  D(Seq(T(#<#), NT(#TypeArgumentList#), T(#>#)))";
    ");";
    "";
    "rules.set(#TypeArgumentList#, () =>";
    "  D(Seq(NT(#TypeArgument#), ZOM(Seq(T(#,#), NT(#TypeArgument#)))))";
    ");";
    "";
    "rules.set(#TypeArgument#, () =>";
    "  D(Ch(0, NT(#ReferenceType#), NT(#Wildcard#)))";
    ");";
    "";
    "rules.set(#Wildcard#, () =>";
    "  D(Seq(ZOM(NT(#Annotation#)), T(#?#), Opt(NT(#WildcardBounds#))))";
    ");";
    "";
    "rules.set(#WildcardBounds#, () =>";
    "  D(";
    "    Ch(0,";
    "      Seq(T(#extends#), NT(#ReferenceType#)),";
    "      Seq(T(#super#), NT(#ReferenceType#))";
    "    )";
    "  )";
    ");";
    "";
    "// ------------------------------------------------------------";
    "// §6 Names";
    "// ------------------------------------------------------------";
    "";
    "rules.set(#ModuleName#, () =>";
    "  D(Seq(NT(#Identifier#), ZOM(Seq(T(#.#), NT(#Identifier#)))))";
    ");";
    "";
    "rules.set(#PackageName#, () =>";
    "  D(Seq(NT(#Identifier#), ZOM(Seq(T(#.#), NT(#Identifier#)))))";
    ");";
    "";
    "rules.set(#TypeName#, () =>";
    "  D(";
    "    Ch(0,";
    "      NT(#TypeIdentifier#),";
    "      Seq(NT(#PackageOrTypeName#), T(#.#), NT(#TypeIdentifier#))";
    "    )";
    "  )";
    ");";
    "";
    "rules.set(#ExpressionName#, () =>";
    "  D(";
    "    Ch(0,";
    "      NT(#Identifier#),";
    "      Seq(NT(#AmbiguousName#), T(#.#), NT(#Identifier#))";
    "    )";
    "  )";
    ");";
    "";
    "rules.set(#MethodName#, () =>";
    "  D(NT(#UnqualifiedMethodIdentifier#))";
    ");";
    "";
    "rules.set(#PackageOrTypeName#, () =>";
    "  D(Seq(NT(#Identifier#), ZOM(Seq(T(#.#), NT(#Identifier#)))))";
    ");";
    "";
    "rules.set(#AmbiguousName#, () =>";
    "  D(Seq(NT(#Identifier#), ZOM(Seq(T(#.#), NT(#Identifier#)))))";
    ");";
    "";
    "// ------------------------------------------------------------";
    "// §7 Packages and Modules";
    "// ------------------------------------------------------------";
    "";
    "rules.set(#CompilationUnit#, () =>";
    "  D(";
    "    Ch(0,";
    "      NT(#OrdinaryCompilationUnit#),";
    "      NT(#CompactCompilationUnit#),";
    "      NT(#ModularCompilationUnit#)";
    "    )";
    "  )";
    ");";
    "";
    "rules.set(#OrdinaryCompilationUnit#, () =>";
    "  D(";
    "    Seq(";
    "      Opt(NT(#PackageDeclaration#)),";
    "      ZOM(NT(#ImportDeclaration#)),";
    "      ZOM(NT(#TopLevelClassOrInterfaceDeclaration#))";
    "    )";
    "  )";
    ");";
    "";
    "rules.set(#ModularCompilationUnit#, () =>";
    "  D(Seq(ZOM(NT(#ImportDeclaration#)), NT(#ModuleDeclaration#)))";
    ");";
    "";
    "rules.set(#PackageDeclaration#, () =>";
    "  D(";
    "    Seq(";
    "      ZOM(NT(#PackageModifier#)),";
    "      T(#package#),";
    "      NT(#Identifier#),";
    "      ZOM(Seq(T(#.#), NT(#Identifier#))),";
    "      T(#;#)";
    "    )";
    "  )";
    ");";
    "";
    "rules.set(#PackageModifier#, () =>";
    "  D(NT(#Annotation#))";
    ");";
    "";
    "rules.set(#ImportDeclaration#, () =>";
    "  D(";
    "    Ch(0,";
    "      NT(#SingleTypeImportDeclaration#),";
    "      NT(#TypeImportOnDemandDeclaration#),";
    "      NT(#SingleStaticImportDeclaration#),";
    "      NT(#StaticImportOnDemandDeclaration#),";
    "      NT(#SingleModuleImportDeclaration#)";
    "    )";
    "  )";
    ");";
    "";
    "rules.set(#SingleTypeImportDeclaration#, () =>";
    "  D(Seq(T(#import#), NT(#TypeName#), T(#;#)))";
    ");";
    "";
    "rules.set(#TypeImportOnDemandDeclaration#, () =>";
    "  D(Seq(T(#import#), NT(#PackageOrTypeName#), T(#.#), T(#*#), T(#;#)))";
    ");";
    "";
    "rules.set(#SingleStaticImportDeclaration#, () =>";
    "  D(Seq(T(#import#), T(#static#), NT(#TypeName#), T(#.#), NT(#Identifier#), T(#;#)))";
    ");";
    "";
    "rules.set(#StaticImportOnDemandDeclaration#, () =>";
    "  D(Seq(T(#import#), T(#static#), NT(#TypeName#), T(#.#), T(#*#), T(#;#)))";
    ");";
    "";
    "rules.set(#SingleModuleImportDeclaration#, () =>";
    "  D(Seq(T(#import#), T(#module#), NT(#ModuleName#), T(#;#)))";
    ");";
    "";
    "rules.set(#TopLevelClassOrInterfaceDeclaration#, () =>";
    "  D(Ch(0, NT(#ClassDeclaration#), NT(#InterfaceDeclaration#), T(#;#)))";
    ");";
    "";
    "rules.set(#ModuleDeclaration#, () =>";
    "  D(";
    "    Seq(";
    "      ZOM(NT(#Annotation#)),";
    "      Opt(T(#open#)),";
    "      T(#module#),";
    "      NT(#Identifier#),";
    "      ZOM(Seq(T(#.#), NT(#Identifier#))),";
    "      T(#{#),";
    "      ZOM(NT(#ModuleDirective#)),";
    "      T(#}#)";
    "    )";
    "  )";
    ");";
    "";
    "rules.set(#ModuleDirective#, () =>";
    "  D(";
    "    Ch(0,";
    "      Seq(T(#requires#), ZOM(NT(#RequiresModifier#)), NT(#ModuleName#), T(#;#)),";
    "      Seq(T(#exports#), NT(#PackageName#), Opt(Seq(T(#to#), NT(#ModuleName#), ZOM(Seq(T(#,#), NT(#ModuleName#))))), T(#;#)),";
    "      Seq(T(#opens#), NT(#PackageName#), Opt(Seq(T(#to#), NT(#ModuleName#), ZOM(Seq(T(#,#), NT(#ModuleName#))))), T(#;#)),";
    "      Seq(T(#uses#), NT(#TypeName#), T(#;#)),";
    "      Seq(T(#provides#), NT(#TypeName#), T(#with#), NT(#TypeName#), ZOM(Seq(T(#,#), NT(#TypeName#))), T(#;#))";
    "    )";
    "  )";
    ");";
    "";
    "rules.set(#RequiresModifier#, () =>";
    "  D(Ch(0, T(#transitive#), T(#static#)))";
    ");";
    "";
    "// ------------------------------------------------------------";
    "// §8 Classes";
    "// ------------------------------------------------------------";
    "";
    "rules.set(#ClassDeclaration#, () =>";
    "  D(Ch(0, NT(#NormalClassDeclaration#), NT(#EnumDeclaration#), NT(#RecordDeclaration#)))";
    ");";
    "";
    "rules.set(#NormalClassDeclaration#, () =>";
    "  D(";
    "    Seq(";
    "      ZOM(NT(#ClassModifier#)),";
    "      T(#class#),";
    "      NT(#TypeIdentifier#),";
    "      Opt(NT(#TypeParameters#)),";
    "      Opt(NT(#ClassExtends#)),";
    "      Opt(NT(#ClassImplements#)),";
    "      Opt(NT(#ClassPermits#)),";
    "      NT(#ClassBody#)";
    "    )";
    "  )";
    ");";
    "";
    "rules.set(#ClassModifier#, () =>";
    "  D(";
    "    Ch(0,";
    "      NT(#Annotation#),";
    "      T(#public#),";
    "      T(#protected#),";
    "      T(#private#),";
    "      T(#abstract#),";
    "      T(#static#),";
    "      T(#final#),";
    "      T(#sealed#),";
    "      T(#non-sealed#),";
    "      T(#strictfp#)";
    "    )";
    "  )";
    ");";
    "";
    "rules.set(#TypeParameters#, () =>";
    "  D(Seq(T(#<#), NT(#TypeParameterList#), T(#>#)))";
    ");";
    "";
    "rules.set(#TypeParameterList#, () =>";
    "  D(Seq(NT(#TypeParameter#), ZOM(Seq(T(#,#), NT(#TypeParameter#)))))";
    ");";
    "";
    "rules.set(#ClassExtends#, () =>";
    "  D(Seq(T(#extends#), NT(#ClassType#)))";
    ");";
    "";
    "rules.set(#ClassImplements#, () =>";
    "  D(Seq(T(#implements#), NT(#InterfaceTypeList#)))";
    ");";
    "";
    "rules.set(#InterfaceTypeList#, () =>";
    "  D(Seq(NT(#InterfaceType#), ZOM(Seq(T(#,#), NT(#InterfaceType#)))))";
    ");";
    "";
    "rules.set(#ClassPermits#, () =>";
    "  D(Seq(T(#permits#), NT(#TypeName#), ZOM(Seq(T(#,#), NT(#TypeName#)))))";
    ");";
    "";
    "rules.set(#ClassBody#, () =>";
    "  D(Seq(T(#{#), ZOM(NT(#ClassBodyDeclaration#)), T(#}#)))";
    ");";
    "";
    "rules.set(#ClassBodyDeclaration#, () =>";
    "  D(";
    "    Ch(0,";
    "      NT(#ClassMemberDeclaration#),";
    "      NT(#InstanceInitializer#),";
    "      NT(#StaticInitializer#),";
    "      NT(#ConstructorDeclaration#)";
    "    )";
    "  )";
    ");";
    "";
    "rules.set(#ClassMemberDeclaration#, () =>";
    "  D(";
    "    Ch(0,";
    "      NT(#FieldDeclaration#),";
    "      NT(#MethodDeclaration#),";
    "      NT(#ClassDeclaration#),";
    "      NT(#InterfaceDeclaration#),";
    "      T(#;#)";
    "    )";
    "  )";
    ");";
    "";
    "rules.set(#FieldDeclaration#, () =>";
    "  D(Seq(ZOM(NT(#FieldModifier#)), NT(#UnannType#), NT(#VariableDeclaratorList#), T(#;#)))";
    ");";
    "";
    "rules.set(#FieldModifier#, () =>";
    "  D(";
    "    Ch(0,";
    "      NT(#Annotation#),";
    "      T(#public#),";
    "      T(#protected#),";
    "      T(#private#),";
    "      T(#static#),";
    "      T(#final#),";
    "      T(#transient#),";
    "      T(#volatile#)";
    "    )";
    "  )";
    ");";
    "";
    "rules.set(#VariableDeclaratorList#, () =>";
    "  D(Seq(NT(#VariableDeclarator#), ZOM(Seq(T(#,#), NT(#VariableDeclarator#)))))";
    ");";
    "";
    "rules.set(#VariableDeclarator#, () =>";
    "  D(Seq(NT(#VariableDeclaratorId#), Opt(Seq(T(#=#), NT(#VariableInitializer#)))))";
    ");";
    "";
    "rules.set(#VariableDeclaratorId#, () =>";
    "  D(Ch(0, Seq(NT(#Identifier#), Opt(NT(#Dims#))), T(#_#)))";
    ");";
    "";
    "rules.set(#VariableInitializer#, () =>";
    "  D(Ch(0, NT(#Expression#), NT(#ArrayInitializer#)))";
    ");";
    "";
    "rules.set(#UnannType#, () =>";
    "  D(Ch(0, NT(#UnannPrimitiveType#), NT(#UnannReferenceType#)))";
    ");";
    "";
    "rules.set(#UnannPrimitiveType#, () =>";
    "  D(Ch(0, NT(#NumericType#), T(#boolean#)))";
    ");";
    "";
    "rules.set(#UnannReferenceType#, () =>";
    "  D(Ch(0, NT(#UnannClassOrInterfaceType#), NT(#UnannTypeVariable#), NT(#UnannArrayType#)))";
    ");";
    "";
    "rules.set(#UnannClassOrInterfaceType#, () =>";
    "  D(Ch(0, NT(#UnannClassType#), NT(#UnannInterfaceType#)))";
    ");";
    "";
    "rules.set(#UnannClassType#, () =>";
    "  D(";
    "    Ch(0,";
    "      Seq(NT(#TypeIdentifier#), Opt(NT(#TypeArguments#))),";
    "      Seq(NT(#PackageName#), T(#.#), ZOM(NT(#Annotation#)), NT(#TypeIdentifier#), Opt(NT(#TypeArguments#))),";
    "      Seq(NT(#UnannClassOrInterfaceType#), T(#.#), ZOM(NT(#Annotation#)), NT(#TypeIdentifier#), Opt(NT(#TypeArguments#)))";
    "    )";
    "  )";
    ");";
    "";
    "rules.set(#UnannInterfaceType#, () =>";
    "  D(NT(#UnannClassType#))";
    ");";
    "";
    "rules.set(#UnannTypeVariable#, () =>";
    "  D(NT(#TypeIdentifier#))";
    ");";
    "";
    "rules.set(#UnannArrayType#, () =>";
    "  D(";
    "    Ch(0,";
    "      Seq(NT(#UnannPrimitiveType#), NT(#Dims#)),";
    "      Seq(NT(#UnannClassOrInterfaceType#), NT(#Dims#)),";
    "      Seq(NT(#UnannTypeVariable#), NT(#Dims#))";
    "    )";
    "  )";
    ");";
    "";
    "rules.set(#MethodDeclaration#, () =>";
    "  D(Seq(ZOM(NT(#MethodModifier#)), NT(#MethodHeader#), NT(#MethodBody#)))";
    ");";
    "";
    "rules.set(#MethodModifier#, () =>";
    "  D(";
    "    Ch(0,";
    "      NT(#Annotation#),";
    "      T(#public#),";
    "      T(#protected#),";
    "      T(#private#),";
    "      T(#abstract#),";
    "      T(#static#),";
    "      T(#final#),";
    "      T(#synchronized#),";
    "      T(#native#),";
    "      T(#strictfp#)";
    "    )";
    "  )";
    ");";
    "";
    "rules.set(#MethodHeader#, () =>";
    "  D(";
    "    Ch(0,";
    "      Seq(NT(#Result#), NT(#MethodDeclarator#), Opt(NT(#Throws#))),";
    "      Seq(NT(#TypeParameters#), ZOM(NT(#Annotation#)), NT(#Result#), NT(#MethodDeclarator#), Opt(NT(#Throws#)))";
    "    )";
    "  )";
    ");";
    "";
    "rules.set(#Result#, () =>";
    "  D(Ch(0, NT(#UnannType#), T(#void#)))";
    ");";
    "";
    "rules.set(#MethodDeclarator#, () =>";
    "  D(";
    "    Seq(";
    "      NT(#Identifier#),";
    "      T(#(#),";
    "      Opt(Seq(NT(#ReceiverParameter#), T(#,#))),";
    "      Opt(NT(#FormalParameterList#)),";
    "      T(#)#),";
    "      Opt(NT(#Dims#))";
    "    )";
    "  )";
    ");";
    "";
    "rules.set(#ReceiverParameter#, () =>";
    "  D(Seq(ZOM(NT(#Annotation#)), NT(#UnannType#), Opt(Seq(NT(#Identifier#), T(#.#))), T(#this#)))";
    ");";
    "";
    "rules.set(#FormalParameterList#, () =>";
    "  D(Seq(NT(#FormalParameter#), ZOM(Seq(T(#,#), NT(#FormalParameter#)))))";
    ");";
    "";
    "rules.set(#FormalParameter#, () =>";
    "  D(";
    "    Ch(0,";
    "      Seq(ZOM(NT(#VariableModifier#)), NT(#UnannType#), NT(#VariableDeclaratorId#)),";
    "      NT(#VariableArityParameter#)";
    "    )";
    "  )";
    ");";
    "";
    "rules.set(#VariableArityParameter#, () =>";
    "  D(Seq(ZOM(NT(#VariableModifier#)), NT(#UnannType#), ZOM(NT(#Annotation#)), T(#...#), NT(#Identifier#)))";
    ");";
    "";
    "rules.set(#VariableModifier#, () =>";
    "  D(Ch(0, NT(#Annotation#), T(#final#)))";
    ");";
    "";
    "rules.set(#Throws#, () =>";
    "  D(Seq(T(#throws#), NT(#ExceptionTypeList#)))";
    ");";
    "";
    "rules.set(#ExceptionTypeList#, () =>";
    "  D(Seq(NT(#ExceptionType#), ZOM(Seq(T(#,#), NT(#ExceptionType#)))))";
    ");";
    "";
    "rules.set(#ExceptionType#, () =>";
    "  D(Ch(0, NT(#ClassType#), NT(#TypeVariable#)))";
    ");";
    "";
    "rules.set(#MethodBody#, () =>";
    "  D(Ch(0, NT(#Block#), T(#;#)))";
    ");";
    "";
    "rules.set(#InstanceInitializer#, () =>";
    "  D(NT(#Block#))";
    ");";
    "";
    "rules.set(#StaticInitializer#, () =>";
    "  D(Seq(T(#static#), NT(#Block#)))";
    ");";
    "";
    "rules.set(#ConstructorDeclaration#, () =>";
    "  D(Seq(ZOM(NT(#ConstructorModifier#)), NT(#ConstructorDeclarator#), Opt(NT(#Throws#)), NT(#ConstructorBody#)))";
    ");";
    "";
    "rules.set(#ConstructorModifier#, () =>";
    "  D(Ch(0, NT(#Annotation#), T(#public#), T(#protected#), T(#private#)))";
    ");";
    "";
    "rules.set(#ConstructorDeclarator#, () =>";
    "  D(";
    "    Seq(";
    "      Opt(NT(#TypeParameters#)),";
    "      NT(#SimpleTypeName#),";
    "      T(#(#),";
    "      Opt(Seq(NT(#ReceiverParameter#), T(#,#))),";
    "      Opt(NT(#FormalParameterList#)),";
    "      T(#)#)";
    "    )";
    "  )";
    ");";
    "";
    "rules.set(#SimpleTypeName#, () =>";
    "  D(NT(#TypeIdentifier#))";
    ");";
    "";
    "rules.set(#ConstructorBody#, () =>";
    "  D(";
    "    Ch(0,";
    "      Seq(T(#{#), Opt(NT(#BlockStatements#)), NT(#ConstructorInvocation#), Opt(NT(#BlockStatements#)), T(#}#)),";
    "      Seq(T(#{#), Opt(NT(#BlockStatements#)), T(#}#))";
    "    )";
    "  )";
    ");";
    "";
    "rules.set(#ConstructorInvocation#, () =>";
    "  D(";
    "    Ch(0,";
    "      Seq(Opt(NT(#TypeArguments#)), T(#this#), T(#(#), Opt(NT(#ArgumentList#)), T(#)#), T(#;#)),";
    "      Seq(Opt(NT(#TypeArguments#)), T(#super#), T(#(#), Opt(NT(#ArgumentList#)), T(#)#), T(#;#)),";
    "      Seq(NT(#ExpressionName#), T(#.#), Opt(NT(#TypeArguments#)), T(#super#), T(#(#), Opt(NT(#ArgumentList#)), T(#)#), T(#;#)),";
    "      Seq(NT(#Primary#), T(#.#), Opt(NT(#TypeArguments#)), T(#super#), T(#(#), Opt(NT(#ArgumentList#)), T(#)#), T(#;#))";
    "    )";
    "  )";
    ");";
    "";
    "rules.set(#EnumDeclaration#, () =>";
    "  D(Seq(ZOM(NT(#ClassModifier#)), T(#enum#), NT(#TypeIdentifier#), Opt(NT(#ClassImplements#)), NT(#EnumBody#)))";
    ");";
    "";
    "rules.set(#EnumBody#, () =>";
    "  D(Seq(T(#{#), Opt(NT(#EnumConstantList#)), Opt(T(#,#)), Opt(NT(#EnumBodyDeclarations#)), T(#}#)))";
    ");";
    "";
    "rules.set(#EnumConstantList#, () =>";
    "  D(Seq(NT(#EnumConstant#), ZOM(Seq(T(#,#), NT(#EnumConstant#)))))";
    ");";
    "";
    "rules.set(#EnumConstant#, () =>";
    "  D(Seq(ZOM(NT(#EnumConstantModifier#)), NT(#Identifier#), Opt(Seq(T(#(#), Opt(NT(#ArgumentList#)), T(#)#))), Opt(NT(#ClassBody#))))";
    ");";
    "";
    "rules.set(#EnumConstantModifier#, () =>";
    "  D(NT(#Annotation#))";
    ");";
    "";
    "rules.set(#EnumBodyDeclarations#, () =>";
    "  D(Seq(T(#;#), ZOM(NT(#ClassBodyDeclaration#))))";
    ");";
    "";
    "rules.set(#RecordDeclaration#, () =>";
    "  D(";
    "    Seq(";
    "      ZOM(NT(#ClassModifier#)),";
    "      T(#record#),";
    "      NT(#TypeIdentifier#),";
    "      Opt(NT(#TypeParameters#)),";
    "      NT(#RecordHeader#),";
    "      Opt(NT(#ClassImplements#)),";
    "      NT(#RecordBody#)";
    "    )";
    "  )";
    ");";
    "";
    "rules.set(#RecordHeader#, () =>";
    "  D(Seq(T(#(#), Opt(NT(#RecordComponentList#)), T(#)#)))";
    ");";
    "";
    "rules.set(#RecordComponentList#, () =>";
    "  D(Seq(NT(#RecordComponent#), ZOM(Seq(T(#,#), NT(#RecordComponent#)))))";
    ");";
    "";
    "rules.set(#RecordComponent#, () =>";
    "  D(";
    "    Ch(0,";
    "      Seq(ZOM(NT(#RecordComponentModifier#)), NT(#UnannType#), NT(#Identifier#)),";
    "      NT(#VariableArityRecordComponent#)";
    "    )";
    "  )";
    ");";
    "";
    "rules.set(#VariableArityRecordComponent#, () =>";
    "  D(Seq(ZOM(NT(#RecordComponentModifier#)), NT(#UnannType#), ZOM(NT(#Annotation#)), T(#...#), NT(#Identifier#)))";
    ");";
    "";
    "rules.set(#RecordComponentModifier#, () =>";
    "  D(NT(#Annotation#))";
    ");";
    "";
    "rules.set(#RecordBody#, () =>";
    "  D(Seq(T(#{#), ZOM(NT(#RecordBodyDeclaration#)), T(#}#)))";
    ");";
    "";
    "rules.set(#RecordBodyDeclaration#, () =>";
    "  D(Ch(0, NT(#ClassBodyDeclaration#), NT(#CompactConstructorDeclaration#)))";
    ");";
    "";
    "rules.set(#CompactConstructorDeclaration#, () =>";
    "  D(Seq(ZOM(NT(#ConstructorModifier#)), NT(#SimpleTypeName#), NT(#ConstructorBody#)))";
    ");";
    "";
    "// ------------------------------------------------------------";
    "// §9 Interfaces";
    "// ------------------------------------------------------------";
    "";
    "rules.set(#InterfaceDeclaration#, () =>";
    "  D(Ch(0, NT(#NormalInterfaceDeclaration#), NT(#AnnotationInterfaceDeclaration#)))";
    ");";
    "";
    "rules.set(#NormalInterfaceDeclaration#, () =>";
    "  D(";
    "    Seq(";
    "      ZOM(NT(#InterfaceModifier#)),";
    "      T(#interface#),";
    "      NT(#TypeIdentifier#),";
    "      Opt(NT(#TypeParameters#)),";
    "      Opt(NT(#InterfaceExtends#)),";
    "      Opt(NT(#InterfacePermits#)),";
    "      NT(#InterfaceBody#)";
    "    )";
    "  )";
    ");";
    "";
    "rules.set(#InterfaceModifier#, () =>";
    "  D(";
    "    Ch(0,";
    "      NT(#Annotation#),";
    "      T(#public#),";
    "      T(#protected#),";
    "      T(#private#),";
    "      T(#abstract#),";
    "      T(#static#),";
    "      T(#sealed#),";
    "      T(#non-sealed#),";
    "      T(#strictfp#)";
    "    )";
    "  )";
    ");";
    "";
    "rules.set(#InterfaceExtends#, () =>";
    "  D(Seq(T(#extends#), NT(#InterfaceTypeList#)))";
    ");";
    "";
    "rules.set(#InterfacePermits#, () =>";
    "  D(Seq(T(#permits#), NT(#TypeName#), ZOM(Seq(T(#,#), NT(#TypeName#)))))";
    ");";
    "";
    "rules.set(#InterfaceBody#, () =>";
    "  D(Seq(T(#{#), ZOM(NT(#InterfaceMemberDeclaration#)), T(#}#)))";
    ");";
    "";
    "rules.set(#InterfaceMemberDeclaration#, () =>";
    "  D(";
    "    Ch(0,";
    "      NT(#ConstantDeclaration#),";
    "      NT(#InterfaceMethodDeclaration#),";
    "      NT(#ClassDeclaration#),";
    "      NT(#InterfaceDeclaration#),";
    "      T(#;#)";
    "    )";
    "  )";
    ");";
    "";
    "rules.set(#ConstantDeclaration#, () =>";
    "  D(Seq(ZOM(NT(#ConstantModifier#)), NT(#UnannType#), NT(#VariableDeclaratorList#), T(#;#)))";
    ");";
    "";
    "rules.set(#ConstantModifier#, () =>";
    "  D(Ch(0, NT(#Annotation#), T(#public#), T(#static#), T(#final#)))";
    ");";
    "";
    "rules.set(#InterfaceMethodDeclaration#, () =>";
    "  D(Seq(ZOM(NT(#InterfaceMethodModifier#)), NT(#MethodHeader#), NT(#MethodBody#)))";
    ");";
    "";
    "rules.set(#InterfaceMethodModifier#, () =>";
    "  D(Ch(0, NT(#Annotation#), T(#public#), T(#private#), T(#abstract#), T(#default#), T(#static#), T(#strictfp#)))";
    ");";
    "";
    "rules.set(#AnnotationInterfaceDeclaration#, () =>";
    "  D(Seq(ZOM(NT(#InterfaceModifier#)), T(#@#), T(#interface#), NT(#TypeIdentifier#), NT(#AnnotationInterfaceBody#)))";
    ");";
    "";
    "rules.set(#AnnotationInterfaceBody#, () =>";
    "  D(Seq(T(#{#), ZOM(NT(#AnnotationInterfaceMemberDeclaration#)), T(#}#)))";
    ");";
    "";
    "rules.set(#AnnotationInterfaceMemberDeclaration#, () =>";
    "  D(";
    "    Ch(0,";
    "      NT(#AnnotationInterfaceElementDeclaration#),";
    "      NT(#ConstantDeclaration#),";
    "      NT(#ClassDeclaration#),";
    "      NT(#InterfaceDeclaration#),";
    "      T(#;#)";
    "    )";
    "  )";
    ");";
    "";
    "rules.set(#AnnotationInterfaceElementDeclaration#, () =>";
    "  D(";
    "    Seq(";
    "      ZOM(NT(#AnnotationInterfaceElementModifier#)),";
    "      NT(#UnannType#),";
    "      NT(#Identifier#),";
    "      T(#(#),";
    "      T(#)#),";
    "      Opt(NT(#Dims#)),";
    "      Opt(NT(#DefaultValue#)),";
    "      T(#;#)";
    "    )";
    "  )";
    ");";
    "";
    "rules.set(#AnnotationInterfaceElementModifier#, () =>";
    "  D(Ch(0, NT(#Annotation#), T(#public#), T(#abstract#)))";
    ");";
    "";
    "rules.set(#DefaultValue#, () =>";
    "  D(Seq(T(#default#), NT(#ElementValue#)))";
    ");";
    "";
    "rules.set(#Annotation#, () =>";
    "  D(Ch(0, NT(#NormalAnnotation#), NT(#MarkerAnnotation#), NT(#SingleElementAnnotation#)))";
    ");";
    "";
    "rules.set(#NormalAnnotation#, () =>";
    "  D(Seq(T(#@#), NT(#TypeName#), T(#(#), Opt(NT(#ElementValuePairList#)), T(#)#)))";
    ");";
    "";
    "rules.set(#ElementValuePairList#, () =>";
    "  D(Seq(NT(#ElementValuePair#), ZOM(Seq(T(#,#), NT(#ElementValuePair#)))))";
    ");";
    "";
    "rules.set(#ElementValuePair#, () =>";
    "  D(Seq(NT(#Identifier#), T(#=#), NT(#ElementValue#)))";
    ");";
    "";
    "rules.set(#ElementValue#, () =>";
    "  D(Ch(0, NT(#ConditionalExpression#), NT(#ElementValueArrayInitializer#), NT(#Annotation#)))";
    ");";
    "";
    "rules.set(#ElementValueArrayInitializer#, () =>";
    "  D(Seq(T(#{#), Opt(NT(#ElementValueList#)), Opt(T(#,#)), T(#}#)))";
    ");";
    "";
    "rules.set(#ElementValueList#, () =>";
    "  D(Seq(NT(#ElementValue#), ZOM(Seq(T(#,#), NT(#ElementValue#)))))";
    ");";
    "";
    "rules.set(#MarkerAnnotation#, () =>";
    "  D(Seq(T(#@#), NT(#TypeName#)))";
    ");";
    "";
    "rules.set(#SingleElementAnnotation#, () =>";
    "  D(Seq(T(#@#), NT(#TypeName#), T(#(#), NT(#ElementValue#), T(#)#)))";
    ");";
    "";
    "// ------------------------------------------------------------";
    "// §10 Arrays";
    "// ------------------------------------------------------------";
    "";
    "rules.set(#ArrayInitializer#, () =>";
    "  D(Seq(T(#{#), Opt(NT(#VariableInitializerList#)), Opt(T(#,#)), T(#}#)))";
    ");";
    "";
    "rules.set(#VariableInitializerList#, () =>";
    "  D(Seq(NT(#VariableInitializer#), ZOM(Seq(T(#,#), NT(#VariableInitializer#)))))";
    ");";
    "";
    "// ------------------------------------------------------------";
    "// §14 Blocks, Statements, and Patterns";
    "// ------------------------------------------------------------";
    "";
    "rules.set(#Block#, () =>";
    "  D(Seq(T(#{#), Opt(NT(#BlockStatements#)), T(#}#)))";
    ");";
    "";
    "rules.set(#BlockStatements#, () =>";
    "  D(OOM(NT(#BlockStatement#)))";
    ");";
    "";
    "rules.set(#BlockStatement#, () =>";
    "  D(Ch(0, NT(#LocalClassOrInterfaceDeclaration#), NT(#LocalVariableDeclarationStatement#), NT(#Statement#)))";
    ");";
    "";
    "rules.set(#LocalClassOrInterfaceDeclaration#, () =>";
    "  D(Ch(0, NT(#ClassDeclaration#), NT(#NormalInterfaceDeclaration#)))";
    ");";
    "";
    "rules.set(#LocalVariableDeclarationStatement#, () =>";
    "  D(Seq(NT(#LocalVariableDeclaration#), T(#;#)))";
    ");";
    "";
    "rules.set(#LocalVariableDeclaration#, () =>";
    "  D(Seq(ZOM(NT(#VariableModifier#)), NT(#LocalVariableType#), NT(#VariableDeclaratorList#)))";
    ");";
    "";
    "rules.set(#LocalVariableType#, () =>";
    "  D(Ch(0, NT(#UnannType#), T(#var#)))";
    ");";
    "";
    "rules.set(#Statement#, () =>";
    "  D(";
    "    Ch(0,";
    "      NT(#StatementWithoutTrailingSubstatement#),";
    "      NT(#LabeledStatement#),";
    "      NT(#IfThenStatement#),";
    "      NT(#IfThenElseStatement#),";
    "      NT(#WhileStatement#),";
    "      NT(#ForStatement#)";
    "    )";
    "  )";
    ");";
    "";
    "rules.set(#StatementNoShortIf#, () =>";
    "  D(";
    "    Ch(0,";
    "      NT(#StatementWithoutTrailingSubstatement#),";
    "      NT(#LabeledStatementNoShortIf#),";
    "      NT(#IfThenElseStatementNoShortIf#),";
    "      NT(#WhileStatementNoShortIf#),";
    "      NT(#ForStatementNoShortIf#)";
    "    )";
    "  )";
    ");";
    "";
    "rules.set(#StatementWithoutTrailingSubstatement#, () =>";
    "  D(";
    "    Ch(0,";
    "      NT(#Block#),";
    "      NT(#EmptyStatement#),";
    "      NT(#ExpressionStatement#),";
    "      NT(#AssertStatement#),";
    "      NT(#SwitchStatement#),";
    "      NT(#DoStatement#),";
    "      NT(#BreakStatement#),";
    "      NT(#ContinueStatement#),";
    "      NT(#ReturnStatement#),";
    "      NT(#SynchronizedStatement#),";
    "      NT(#ThrowStatement#),";
    "      NT(#TryStatement#),";
    "      NT(#YieldStatement#)";
    "    )";
    "  )";
    ");";
    "";
    "rules.set(#EmptyStatement#, () =>";
    "  D(T(#;#))";
    ");";
    "";
    "rules.set(#LabeledStatement#, () =>";
    "  D(Seq(NT(#Identifier#), T(#:#), NT(#Statement#)))";
    ");";
    "";
    "rules.set(#LabeledStatementNoShortIf#, () =>";
    "  D(Seq(NT(#Identifier#), T(#:#), NT(#StatementNoShortIf#)))";
    ");";
    "";
    "rules.set(#ExpressionStatement#, () =>";
    "  D(Seq(NT(#StatementExpression#), T(#;#)))";
    ");";
    "";
    "rules.set(#StatementExpression#, () =>";
    "  D(";
    "    Ch(0,";
    "      NT(#Assignment#),";
    "      NT(#PreIncrementExpression#),";
    "      NT(#PreDecrementExpression#),";
    "      NT(#PostIncrementExpression#),";
    "      NT(#PostDecrementExpression#),";
    "      NT(#MethodInvocation#),";
    "      NT(#ClassInstanceCreationExpression#)";
    "    )";
    "  )";
    ");";
    "";
    "rules.set(#IfThenStatement#, () =>";
    "  D(Seq(T(#if#), T(#(#), NT(#Expression#), T(#)#), NT(#Statement#)))";
    ");";
    "";
    "rules.set(#IfThenElseStatement#, () =>";
    "  D(Seq(T(#if#), T(#(#), NT(#Expression#), T(#)#), NT(#StatementNoShortIf#), T(#else#), NT(#Statement#)))";
    ");";
    "";
    "rules.set(#IfThenElseStatementNoShortIf#, () =>";
    "  D(Seq(T(#if#), T(#(#), NT(#Expression#), T(#)#), NT(#StatementNoShortIf#), T(#else#), NT(#StatementNoShortIf#)))";
    ");";
    "";
    "rules.set(#AssertStatement#, () =>";
    "  D(";
    "    Ch(0,";
    "      Seq(T(#assert#), NT(#Expression#), T(#;#)),";
    "      Seq(T(#assert#), NT(#Expression#), T(#:#), NT(#Expression#), T(#;#))";
    "    )";
    "  )";
    ");";
    "";
    "rules.set(#SwitchStatement#, () =>";
    "  D(Seq(T(#switch#), T(#(#), NT(#Expression#), T(#)#), NT(#SwitchBlock#)))";
    ");";
    "";
    "rules.set(#SwitchBlock#, () =>";
    "  D(";
    "    Ch(0,";
    "      Seq(T(#{#), OOM(NT(#SwitchRule#)), T(#}#)),";
    "      Seq(T(#{#), ZOM(NT(#SwitchBlockStatementGroup#)), ZOM(Seq(NT(#SwitchLabel#), T(#:#))), T(#}#))";
    "    )";
    "  )";
    ");";
    "";
    "rules.set(#SwitchRule#, () =>";
    "  D(";
    "    Ch(0,";
    "      Seq(NT(#SwitchLabel#), T(#->#), NT(#Expression#), T(#;#)),";
    "      Seq(NT(#SwitchLabel#), T(#->#), NT(#Block#)),";
    "      Seq(NT(#SwitchLabel#), T(#->#), NT(#ThrowStatement#))";
    "    )";
    "  )";
    ");";
    "";
    "rules.set(#SwitchBlockStatementGroup#, () =>";
    "  D(Seq(NT(#SwitchLabel#), T(#:#), ZOM(Seq(NT(#SwitchLabel#), T(#:#))), NT(#BlockStatements#)))";
    ");";
    "";
    "rules.set(#SwitchLabel#, () =>";
    "  D(";
    "    Ch(0,";
    "      Seq(T(#case#), NT(#CaseConstant#), ZOM(Seq(T(#,#), NT(#CaseConstant#)))),";
    "      Seq(T(#case#), T(#null#), Opt(Seq(T(#,#), T(#default#)))),";
    "      Seq(T(#case#), NT(#CasePattern#), ZOM(Seq(T(#,#), NT(#CasePattern#))), Opt(NT(#Guard#))),";
    "      T(#default#)";
    "    )";
    "  )";
    ");";
    "";
    "rules.set(#CaseConstant#, () =>";
    "  D(NT(#ConditionalExpression#))";
    ");";
    "";
    "rules.set(#CasePattern#, () =>";
    "  D(NT(#Pattern#))";
    ");";
    "";
    "rules.set(#Guard#, () =>";
    "  D(Seq(T(#when#), NT(#Expression#)))";
    ");";
    "";
    "rules.set(#WhileStatement#, () =>";
    "  D(Seq(T(#while#), T(#(#), NT(#Expression#), T(#)#), NT(#Statement#)))";
    ");";
    "";
    "rules.set(#WhileStatementNoShortIf#, () =>";
    "  D(Seq(T(#while#), T(#(#), NT(#Expression#), T(#)#), NT(#StatementNoShortIf#)))";
    ");";
    "";
    "rules.set(#DoStatement#, () =>";
    "  D(Seq(T(#do#), NT(#Statement#), T(#while#), T(#(#), NT(#Expression#), T(#)#), T(#;#)))";
    ");";
    "";
    "rules.set(#ForStatement#, () =>";
    "  D(Ch(0, NT(#BasicForStatement#), NT(#EnhancedForStatement#)))";
    ");";
    "";
    "rules.set(#ForStatementNoShortIf#, () =>";
    "  D(Ch(0, NT(#BasicForStatementNoShortIf#), NT(#EnhancedForStatementNoShortIf#)))";
    ");";
    "";
    "rules.set(#BasicForStatement#, () =>";
    "  D(Seq(T(#for#), T(#(#), Opt(NT(#ForInit#)), T(#;#), Opt(NT(#Expression#)), T(#;#), Opt(NT(#ForUpdate#)), T(#)#), NT(#Statement#)))";
    ");";
    "";
    "rules.set(#BasicForStatementNoShortIf#, () =>";
    "  D(Seq(T(#for#), T(#(#), Opt(NT(#ForInit#)), T(#;#), Opt(NT(#Expression#)), T(#;#), Opt(NT(#ForUpdate#)), T(#)#), NT(#StatementNoShortIf#)))";
    ");";
    "";
    "rules.set(#ForInit#, () =>";
    "  D(Ch(0, NT(#StatementExpressionList#), NT(#LocalVariableDeclaration#)))";
    ");";
    "";
    "rules.set(#ForUpdate#, () =>";
    "  D(NT(#StatementExpressionList#))";
    ");";
    "";
    "rules.set(#StatementExpressionList#, () =>";
    "  D(Seq(NT(#StatementExpression#), ZOM(Seq(T(#,#), NT(#StatementExpression#)))))";
    ");";
    "";
    "rules.set(#EnhancedForStatement#, () =>";
    "  D(Seq(T(#for#), T(#(#), NT(#LocalVariableDeclaration#), T(#:#), NT(#Expression#), T(#)#), NT(#Statement#)))";
    ");";
    "";
    "rules.set(#EnhancedForStatementNoShortIf#, () =>";
    "  D(Seq(T(#for#), T(#(#), NT(#LocalVariableDeclaration#), T(#:#), NT(#Expression#), T(#)#), NT(#StatementNoShortIf#)))";
    ");";
    "";
    "rules.set(#BreakStatement#, () =>";
    "  D(Seq(T(#break#), Opt(NT(#Identifier#)), T(#;#)))";
    ");";
    "";
    "rules.set(#YieldStatement#, () =>";
    "  D(Seq(T(#yield#), NT(#Expression#), T(#;#)))";
    ");";
    "";
    "rules.set(#ContinueStatement#, () =>";
    "  D(Seq(T(#continue#), Opt(NT(#Identifier#)), T(#;#)))";
    ");";
    "";
    "rules.set(#ReturnStatement#, () =>";
    "  D(Seq(T(#return#), Opt(NT(#Expression#)), T(#;#)))";
    ");";
    "";
    "rules.set(#ThrowStatement#, () =>";
    "  D(Seq(T(#throw#), NT(#Expression#), T(#;#)))";
    ");";
    "";
    "rules.set(#SynchronizedStatement#, () =>";
    "  D(Seq(T(#synchronized#), T(#(#), NT(#Expression#), T(#)#), NT(#Block#)))";
    ");";
    "";
    "rules.set(#TryStatement#, () =>";
    "  D(";
    "    Ch(0,";
    "      Seq(T(#try#), NT(#Block#), NT(#Catches#)),";
    "      Seq(T(#try#), NT(#Block#), Opt(NT(#Catches#)), NT(#Finally#)),";
    "      NT(#TryWithResourcesStatement#)";
    "    )";
    "  )";
    ");";
    "";
    "rules.set(#Catches#, () =>";
    "  D(OOM(NT(#CatchClause#)))";
    ");";
    "";
    "rules.set(#CatchClause#, () =>";
    "  D(Seq(T(#catch#), T(#(#), NT(#CatchFormalParameter#), T(#)#), NT(#Block#)))";
    ");";
    "";
    "rules.set(#CatchFormalParameter#, () =>";
    "  D(Seq(ZOM(NT(#VariableModifier#)), NT(#CatchType#), NT(#VariableDeclaratorId#)))";
    ");";
    "";
    "rules.set(#CatchType#, () =>";
    "  D(Seq(NT(#UnannClassType#), ZOM(Seq(T(#|#), NT(#ClassType#)))))";
    ");";
    "";
    "rules.set(#Finally#, () =>";
    "  D(Seq(T(#finally#), NT(#Block#)))";
    ");";
    "";
    "rules.set(#TryWithResourcesStatement#, () =>";
    "  D(Seq(T(#try#), NT(#ResourceSpecification#), NT(#Block#), Opt(NT(#Catches#)), Opt(NT(#Finally#))))";
    ");";
    "";
    "rules.set(#ResourceSpecification#, () =>";
    "  D(Seq(T(#(#), NT(#ResourceList#), Opt(T(#;#)), T(#)#)))";
    ");";
    "";
    "rules.set(#ResourceList#, () =>";
    "  D(Seq(NT(#Resource#), ZOM(Seq(T(#;#), NT(#Resource#)))))";
    ");";
    "";
    "rules.set(#Resource#, () =>";
    "  D(Ch(0, NT(#LocalVariableDeclaration#), NT(#VariableAccess#)))";
    ");";
    "";
    "rules.set(#VariableAccess#, () =>";
    "  D(Ch(0, NT(#ExpressionName#), NT(#FieldAccess#)))";
    ");";
    "";
    "rules.set(#Pattern#, () =>";
    "  D(Ch(0, NT(#TypePattern#), NT(#RecordPattern#)))";
    ");";
    "";
    "rules.set(#TypePattern#, () =>";
    "  D(NT(#LocalVariableDeclaration#))";
    ");";
    "";
    "rules.set(#RecordPattern#, () =>";
    "  D(Seq(NT(#ReferenceType#), T(#(#), Opt(NT(#ComponentPatternList#)), T(#)#)))";
    ");";
    "";
    "rules.set(#ComponentPatternList#, () =>";
    "  D(Seq(NT(#ComponentPattern#), ZOM(Seq(T(#,#), NT(#ComponentPattern#)))))";
    ");";
    "";
    "rules.set(#ComponentPattern#, () =>";
    "  D(Ch(0, NT(#Pattern#), NT(#MatchAllPattern#)))";
    ");";
    "";
    "rules.set(#MatchAllPattern#, () =>";
    "  D(T(#_#))";
    ");";
    "";
    "// ------------------------------------------------------------";
    "// §15 Expressions";
    "// ------------------------------------------------------------";
    "";
    "rules.set(#Primary#, () =>";
    "  D(Ch(0, NT(#PrimaryNoNewArray#), NT(#ArrayCreationExpression#)))";
    ");";
    "";
    "rules.set(#PrimaryNoNewArray#, () =>";
    "  D(";
    "    Ch(0,";
    "      NT(#Literal#),";
    "      NT(#ClassLiteral#),";
    "      T(#this#),";
    "      Seq(NT(#TypeName#), T(#.#), T(#this#)),";
    "      Seq(T(#(#), NT(#Expression#), T(#)#)),";
    "      NT(#ClassInstanceCreationExpression#),";
    "      NT(#FieldAccess#),";
    "      NT(#ArrayAccess#),";
    "      NT(#MethodInvocation#),";
    "      NT(#MethodReference#)";
    "    )";
    "  )";
    ");";
    "";
    "rules.set(#ClassLiteral#, () =>";
    "  D(";
    "    Ch(0,";
    "      Seq(NT(#TypeName#), ZOM(Seq(T(#[#), T(#]#))), T(#.#), T(#class#)),";
    "      Seq(NT(#NumericType#), ZOM(Seq(T(#[#), T(#]#))), T(#.#), T(#class#)),";
    "      Seq(T(#boolean#), ZOM(Seq(T(#[#), T(#]#))), T(#.#), T(#class#)),";
    "      Seq(T(#void#), T(#.#), T(#class#))";
    "    )";
    "  )";
    ");";
    "";
    "rules.set(#ClassInstanceCreationExpression#, () =>";
    "  D(";
    "    Ch(0,";
    "      NT(#UnqualifiedClassInstanceCreationExpression#),";
    "      Seq(NT(#ExpressionName#), T(#.#), NT(#UnqualifiedClassInstanceCreationExpression#)),";
    "      Seq(NT(#Primary#), T(#.#), NT(#UnqualifiedClassInstanceCreationExpression#))";
    "    )";
    "  )";
    ");";
    "";
    "rules.set(#UnqualifiedClassInstanceCreationExpression#, () =>";
    "  D(Seq(T(#new#), Opt(NT(#TypeArguments#)), NT(#ClassOrInterfaceTypeToInstantiate#), T(#(#), Opt(NT(#ArgumentList#)), T(#)#), Opt(NT(#ClassBody#))))";
    ");";
    "";
    "rules.set(#ClassOrInterfaceTypeToInstantiate#, () =>";
    "  D(";
    "    Seq(";
    "      ZOM(NT(#Annotation#)),";
    "      NT(#Identifier#),";
    "      ZOM(Seq(T(#.#), ZOM(NT(#Annotation#)), NT(#Identifier#))),";
    "      Opt(NT(#TypeArgumentsOrDiamond#))";
    "    )";
    "  )";
    ");";
    "";
    "rules.set(#TypeArgumentsOrDiamond#, () =>";
    "  D(Ch(0, NT(#TypeArguments#), Seq(T(#<#), T(#>#))))";
    ");";
    "";
    "rules.set(#ArrayCreationExpression#, () =>";
    "  D(Ch(0, NT(#ArrayCreationExpressionWithoutInitializer#), NT(#ArrayCreationExpressionWithInitializer#)))";
    ");";
    "";
    "rules.set(#ArrayCreationExpressionWithoutInitializer#, () =>";
    "  D(";
    "    Ch(0,";
    "      Seq(T(#new#), NT(#PrimitiveType#), NT(#DimExprs#), Opt(NT(#Dims#))),";
    "      Seq(T(#new#), NT(#ClassOrInterfaceType#), NT(#DimExprs#), Opt(NT(#Dims#)))";
    "    )";
    "  )";
    ");";
    "";
    "rules.set(#ArrayCreationExpressionWithInitializer#, () =>";
    "  D(";
    "    Ch(0,";
    "      Seq(T(#new#), NT(#PrimitiveType#), NT(#Dims#), NT(#ArrayInitializer#)),";
    "      Seq(T(#new#), NT(#ClassOrInterfaceType#), NT(#Dims#), NT(#ArrayInitializer#))";
    "    )";
    "  )";
    ");";
    "";
    "rules.set(#DimExprs#, () =>";
    "  D(OOM(NT(#DimExpr#)))";
    ");";
    "";
    "rules.set(#DimExpr#, () =>";
    "  D(Seq(ZOM(NT(#Annotation#)), T(#[#), NT(#Expression#), T(#]#)))";
    ");";
    "";
    "rules.set(#ArrayAccess#, () =>";
    "  D(";
    "    Ch(0,";
    "      Seq(NT(#ExpressionName#), T(#[#), NT(#Expression#), T(#]#)),";
    "      Seq(NT(#PrimaryNoNewArray#), T(#[#), NT(#Expression#), T(#]#)),";
    "      Seq(NT(#ArrayCreationExpressionWithInitializer#), T(#[#), NT(#Expression#), T(#]#))";
    "    )";
    "  )";
    ");";
    "";
    "rules.set(#FieldAccess#, () =>";
    "  D(";
    "    Ch(0,";
    "      Seq(NT(#Primary#), T(#.#), NT(#Identifier#)),";
    "      Seq(T(#super#), T(#.#), NT(#Identifier#)),";
    "      Seq(NT(#TypeName#), T(#.#), T(#super#), T(#.#), NT(#Identifier#))";
    "    )";
    "  )";
    ");";
    "";
    "rules.set(#MethodInvocation#, () =>";
    "  D(";
    "    Ch(0,";
    "      Seq(NT(#MethodName#), T(#(#), Opt(NT(#ArgumentList#)), T(#)#)),";
    "      Seq(NT(#TypeName#), T(#.#), Opt(NT(#TypeArguments#)), NT(#Identifier#), T(#(#), Opt(NT(#ArgumentList#)), T(#)#)),";
    "      Seq(NT(#ExpressionName#), T(#.#), Opt(NT(#TypeArguments#)), NT(#Identifier#), T(#(#), Opt(NT(#ArgumentList#)), T(#)#)),";
    "      Seq(NT(#Primary#), T(#.#), Opt(NT(#TypeArguments#)), NT(#Identifier#), T(#(#), Opt(NT(#ArgumentList#)), T(#)#)),";
    "      Seq(T(#super#), T(#.#), Opt(NT(#TypeArguments#)), NT(#Identifier#), T(#(#), Opt(NT(#ArgumentList#)), T(#)#)),";
    "      Seq(NT(#TypeName#), T(#.#), T(#super#), T(#.#), Opt(NT(#TypeArguments#)), NT(#Identifier#), T(#(#), Opt(NT(#ArgumentList#)), T(#)#))";
    "    )";
    "  )";
    ");";
    "";
    "rules.set(#ArgumentList#, () =>";
    "  D(Seq(NT(#Expression#), ZOM(Seq(T(#,#), NT(#Expression#)))))";
    ");";
    "";
    "rules.set(#MethodReference#, () =>";
    "  D(";
    "    Ch(0,";
    "      Seq(NT(#ExpressionName#), T(#::#), Opt(NT(#TypeArguments#)), NT(#Identifier#)),";
    "      Seq(NT(#Primary#), T(#::#), Opt(NT(#TypeArguments#)), NT(#Identifier#)),";
    "      Seq(NT(#ReferenceType#), T(#::#), Opt(NT(#TypeArguments#)), NT(#Identifier#)),";
    "      Seq(T(#super#), T(#::#), Opt(NT(#TypeArguments#)), NT(#Identifier#)),";
    "      Seq(NT(#TypeName#), T(#.#), T(#super#), T(#::#), Opt(NT(#TypeArguments#)), NT(#Identifier#)),";
    "      Seq(NT(#ClassType#), T(#::#), Opt(NT(#TypeArguments#)), T(#new#)),";
    "      Seq(NT(#ArrayType#), T(#::#), T(#new#))";
    "    )";
    "  )";
    ");";
    "";
    "rules.set(#Expression#, () =>";
    "  D(Ch(0, NT(#LambdaExpression#), NT(#AssignmentExpression#)))";
    ");";
    "";
    "rules.set(#LambdaExpression#, () =>";
    "  D(Seq(NT(#LambdaParameters#), T(#->#), NT(#LambdaBody#)))";
    ");";
    "";
    "rules.set(#LambdaParameters#, () =>";
    "  D(Ch(0, Seq(T(#(#), Opt(NT(#LambdaParameterList#)), T(#)#)), NT(#ConciseLambdaParameter#)))";
    ");";
    "";
    "rules.set(#LambdaParameterList#, () =>";
    "  D(";
    "    Ch(0,";
    "      Seq(NT(#NormalLambdaParameter#), ZOM(Seq(T(#,#), NT(#NormalLambdaParameter#)))),";
    "      Seq(NT(#ConciseLambdaParameter#), ZOM(Seq(T(#,#), NT(#ConciseLambdaParameter#))))";
    "    )";
    "  )";
    ");";
    "";
    "rules.set(#NormalLambdaParameter#, () =>";
    "  D(";
    "    Ch(0,";
    "      Seq(ZOM(NT(#VariableModifier#)), NT(#LambdaParameterType#), NT(#VariableDeclaratorId#)),";
    "      NT(#VariableArityParameter#)";
    "    )";
    "  )";
    ");";
    "";
    "rules.set(#LambdaParameterType#, () =>";
    "  D(Ch(0, NT(#UnannType#), T(#var#)))";
    ");";
    "";
    "rules.set(#ConciseLambdaParameter#, () =>";
    "  D(Ch(0, NT(#Identifier#), T(#_#)))";
    ");";
    "";
    "rules.set(#LambdaBody#, () =>";
    "  D(Ch(0, NT(#Expression#), NT(#Block#)))";
    ");";
    "";
    "rules.set(#AssignmentExpression#, () =>";
    "  D(Ch(0, NT(#ConditionalExpression#), NT(#Assignment#)))";
    ");";
    "";
    "rules.set(#Assignment#, () =>";
    "  D(Seq(NT(#LeftHandSide#), NT(#AssignmentOperator#), NT(#Expression#)))";
    ");";
    "";
    "rules.set(#LeftHandSide#, () =>";
    "  D(Ch(0, NT(#ExpressionName#), NT(#FieldAccess#), NT(#ArrayAccess#)))";
    ");";
    "";
    "rules.set(#AssignmentOperator#, () =>";
    "  D(Ch(0, T(#=#), T(#*=#), T(#/=#), T(#%=#), T(#+=#), T(#-=#), T(#<<=#), T(#>>=#), T(#>>>=#), T(#&=#), T(#^=#), T(#|=#)))";
    ");";
    "";
    "rules.set(#ConditionalExpression#, () =>";
    "  D(";
    "    Ch(0,";
    "      NT(#ConditionalOrExpression#),";
    "      Seq(NT(#ConditionalOrExpression#), T(#?#), NT(#Expression#), T(#:#), NT(#ConditionalExpression#)),";
    "      Seq(NT(#ConditionalOrExpression#), T(#?#), NT(#Expression#), T(#:#), NT(#LambdaExpression#))";
    "    )";
    "  )";
    ");";
    "";
    "rules.set(#ConditionalOrExpression#, () =>";
    "  D(Seq(NT(#ConditionalAndExpression#), ZOM(Seq(T(#||#), NT(#ConditionalAndExpression#)))))";
    ");";
    "";
    "rules.set(#ConditionalAndExpression#, () =>";
    "  D(Seq(NT(#InclusiveOrExpression#), ZOM(Seq(T(#&&#), NT(#InclusiveOrExpression#)))))";
    ");";
    "";
    "rules.set(#InclusiveOrExpression#, () =>";
    "  D(Seq(NT(#ExclusiveOrExpression#), ZOM(Seq(T(#|#), NT(#ExclusiveOrExpression#)))))";
    ");";
    "";
    "rules.set(#ExclusiveOrExpression#, () =>";
    "  D(Seq(NT(#AndExpression#), ZOM(Seq(T(#^#), NT(#AndExpression#)))))";
    ");";
    "";
    "rules.set(#AndExpression#, () =>";
    "  D(Seq(NT(#EqualityExpression#), ZOM(Seq(T(#&#), NT(#EqualityExpression#)))))";
    ");";
    "";
    "rules.set(#EqualityExpression#, () =>";
    "  D(Seq(NT(#RelationalExpression#), ZOM(Ch(0, Seq(T(#==#), NT(#RelationalExpression#)), Seq(T(#!=#), NT(#RelationalExpression#))))))";
    ");";
    "";
    "rules.set(#RelationalExpression#, () =>";
    "  D(";
    "    Ch(0,";
    "      NT(#ShiftExpression#),";
    "      Seq(NT(#RelationalExpression#), T(#<#), NT(#ShiftExpression#)),";
    "      Seq(NT(#RelationalExpression#), T(#>#), NT(#ShiftExpression#)),";
    "      Seq(NT(#RelationalExpression#), T(#<=#), NT(#ShiftExpression#)),";
    "      Seq(NT(#RelationalExpression#), T(#>=#), NT(#ShiftExpression#)),";
    "      NT(#InstanceofExpression#)";
    "    )";
    "  )";
    ");";
    "";
    "rules.set(#InstanceofExpression#, () =>";
    "  D(";
    "    Ch(0,";
    "      Seq(NT(#RelationalExpression#), T(#instanceof#), NT(#ReferenceType#)),";
    "      Seq(NT(#RelationalExpression#), T(#instanceof#), NT(#Pattern#))";
    "    )";
    "  )";
    ");";
    "";
    "rules.set(#ShiftExpression#, () =>";
    "  D(Seq(NT(#AdditiveExpression#), ZOM(Ch(0, Seq(T(#<<#), NT(#AdditiveExpression#)), Seq(T(#>>#), NT(#AdditiveExpression#)), Seq(T(#>>>#), NT(#AdditiveExpression#))))))";
    ");";
    "";
    "rules.set(#AdditiveExpression#, () =>";
    "  D(Seq(NT(#MultiplicativeExpression#), ZOM(Ch(0, Seq(T(#+#), NT(#MultiplicativeExpression#)), Seq(T(#-#), NT(#MultiplicativeExpression#))))))";
    ");";
    "";
    "rules.set(#MultiplicativeExpression#, () =>";
    "  D(Seq(NT(#UnaryExpression#), ZOM(Ch(0, Seq(T(#*#), NT(#UnaryExpression#)), Seq(T(#/#), NT(#UnaryExpression#)), Seq(T(#%#), NT(#UnaryExpression#))))))";
    ");";
    "";
    "rules.set(#UnaryExpression#, () =>";
    "  D(";
    "    Ch(0,";
    "      NT(#PreIncrementExpression#),";
    "      NT(#PreDecrementExpression#),";
    "      Seq(T(#+#), NT(#UnaryExpression#)),";
    "      Seq(T(#-#), NT(#UnaryExpression#)),";
    "      NT(#UnaryExpressionNotPlusMinus#)";
    "    )";
    "  )";
    ");";
    "";
    "rules.set(#PreIncrementExpression#, () =>";
    "  D(Seq(T(#++#), NT(#UnaryExpression#)))";
    ");";
    "";
    "rules.set(#PreDecrementExpression#, () =>";
    "  D(Seq(T(#--#), NT(#UnaryExpression#)))";
    ");";
    "";
    "rules.set(#UnaryExpressionNotPlusMinus#, () =>";
    "  D(";
    "    Ch(0,";
    "      NT(#PostfixExpression#),";
    "      Seq(T(#~#), NT(#UnaryExpression#)),";
    "      Seq(T(#!#), NT(#UnaryExpression#)),";
    "      NT(#CastExpression#),";
    "      NT(#SwitchExpression#)";
    "    )";
    "  )";
    ");";
    "";
    "rules.set(#PostfixExpression#, () =>";
    "  D(Ch(0, NT(#Primary#), NT(#ExpressionName#), NT(#PostIncrementExpression#), NT(#PostDecrementExpression#)))";
    ");";
    "";
    "rules.set(#PostIncrementExpression#, () =>";
    "  D(Seq(NT(#PostfixExpression#), T(#++#)))";
    ");";
    "";
    "rules.set(#PostDecrementExpression#, () =>";
    "  D(Seq(NT(#PostfixExpression#), T(#--#)))";
    ");";
    "";
    "rules.set(#CastExpression#, () =>";
    "  D(";
    "    Ch(0,";
    "      Seq(T(#(#), NT(#PrimitiveType#), T(#)#), NT(#UnaryExpression#)),";
    "      Seq(T(#(#), NT(#ReferenceType#), ZOM(NT(#AdditionalBound#)), T(#)#), NT(#UnaryExpressionNotPlusMinus#)),";
    "      Seq(T(#(#), NT(#ReferenceType#), ZOM(NT(#AdditionalBound#)), T(#)#), NT(#LambdaExpression#))";
    "    )";
    "  )";
    ");";
    "";
    "rules.set(#SwitchExpression#, () =>";
    "  D(Seq(T(#switch#), T(#(#), NT(#Expression#), T(#)#), NT(#SwitchBlock#)))";
    ");";
    "";
    "// ============================================================";
    "// Public API";
    "// ============================================================";
    "";
    "/**";
    " * Creates a railroad diagram for the given rule name.";
    " * Returns undefined if no diagram factory exists for that name.";
    " */";
    "export function createRuleDiagram(name: string): any {";
    "  const factory = rules.get(name);";
    "  return factory ? factory() : undefined;";
    "}";
    "";
    "/**";
    " * Get all diagram rule names for grammar coverage checking.";
    " */";
    "export function getDiagramRuleNames(): string[] {";
    "  return Array.from(rules.keys());";
    "}"
  ]).

(** src/features/grammar/ebnfDefinitions.ts, line by line. *)
Definition ebnfDefinitions_ts : string :=
  unhash (unlines [
    "/**";
    " * EBNF Definitions for Java 25 Grammar";
    " * ";
    " * This file contains the textual EBNF representation of each grammar rule,";
    " * displayed below the corresponding railroad diagram.";
    " * ";
    " * Based on Java Language Specification SE 25, Chapter 19.";
    " * ";
    " * Naming convention: Rule names use kebab-case (e.g., #class-declaration#)";
    " * to match the diagram factory keys in java25Grammar.ts.";
    " */";
    "";
    "/** Union type of all rule names for type safety */";
    "export type RuleName = keyof typeof EBNF_DEFINITIONS;";
    "";
    "/**";
    " * EBNF definitions keyed by rule name.";
    " * Each value is a multi-line string showing the grammar production.";
    " */";
    "export const EBNF_DEFINITIONS: Record<string, string> = {";
    "  // ============================================================";
    "  // §3 Lexical Structure";
    "  // ============================================================";
    "";
    "  #Identifier#: `Identifier:";
    "    IdentifierChars but not a ReservedKeyword or BooleanLiteral or NullLiteral`,";
    "";
    "  #IdentifierChars#: `IdentifierChars:";
    "    JavaLetter {JavaLetterOrDigit}`,";
    "";
    "  #JavaLetter#: `JavaLetter:";
    "    any Unicode character that is a #Java letter#`,";
    "";
    "  #JavaLetterOrDigit#: `JavaLetterOrDigit:";
    "    any Unicode character that is a #Java letter-or-digit#`,";
    "";
    "  #TypeIdentifier#: `TypeIdentifier:";
    "    Identifier but not permits, record, sealed, var, or yield`,";
    "";
    "  #UnqualifiedMethodIdentifier#: `UnqualifiedMethodIdentifier:";
    "    Identifier but not yield`,";
    "";
    "  #Literal#: `Literal:";
    "    IntegerLiteral";
    "    FloatingPointLiteral";
    "    BooleanLiteral";
    "    CharacterLiteral";
    "    StringLiteral";
    "    TextBlock";
    "    NullLiteral`,";
    "";
    "  // ============================================================";
    "  // §4 Types, Values, and Variables";
    "  // ============================================================";
    "";
    "  #Type#: `Type:";
    "    PrimitiveType";
    "    ReferenceType`,";
    "";
    "  #PrimitiveType#: `PrimitiveType:";
    "    {Annotation} NumericType";
    "    {Annotation} boolean`,";
    "";
    "  #NumericType#: `NumericType:";
    "    IntegralType";
    "    FloatingPointType`,";
    "";
    "  #IntegralType#: `IntegralType:";
    "    (one of) byte short int long char`,";
    "";
    "  #FloatingPointType#: `FloatingPointType:";
    "    (one of) float double`,";
    "";
    "  #ReferenceType#: `ReferenceType:";
    "    ClassOrInterfaceType";
    "    TypeVariable";
    "    ArrayType`,";
    "";
    "  #ClassOrInterfaceType#: `ClassOrInterfaceType:";
    "    ClassType";
    "    InterfaceType`,";
    "";
    "  #ClassType#: `ClassType:";
    "    {Annotation} TypeIdentifier [TypeArguments]";
    "    PackageName . {Annotation} TypeIdentifier [TypeArguments]";
    "    ClassOrInterfaceType . {Annotation} TypeIdentifier [TypeArguments]`,";
    "";
    "  #InterfaceType#: `InterfaceType:";
    "    ClassType`,";
    "";
    "  #TypeVariable#: `TypeVariable:";
    "    {Annotation} TypeIdentifier`,";
    "";
    "  #ArrayType#: `ArrayType:";
    "    PrimitiveType Dims";
    "    ClassOrInterfaceType Dims";
    "    TypeVariable Dims`,";
    "";
    "  #Dims#: `Dims:";
    "    {Annotation} [ ] {{Annotation} [ ]}`,";
    "";
    "  #TypeParameter#: `TypeParameter:";
    "    {TypeParameterModifier} TypeIdentifier [TypeBound]`,";
    "";
    "  #TypeParameterModifier#: `TypeParameterModifier:";
    "    Annotation`,";
    "";
    "  #TypeBound#: `TypeBound:";
    "    extends TypeVariable";
    "    extends ClassOrInterfaceType {AdditionalBound}`,";
    "";
    "  #AdditionalBound#: `AdditionalBound:";
    "    & InterfaceType`,";
    "";
    "  #TypeArguments#: `TypeArguments:";
    "    < TypeArgumentList >`,";
    "";
    "  #TypeArgumentList#: `TypeArgumentList:";
    "    TypeArgument {, TypeArgument}`,";
    "";
    "  #TypeArgument#: `TypeArgument:";
    "    ReferenceType";
    "    Wildcard`,";
    "";
    "  #Wildcard#: `Wildcard:";
    "    {Annotation} ? [WildcardBounds]`,";
    "";
    "  #WildcardBounds#: `WildcardBounds:";
    "    extends ReferenceType";
    "    super ReferenceType`,";
    "";
    "  // ============================================================";
    "  // §6 Names";
    "  // ============================================================";
    "";
    "  #ModuleName#: `ModuleName:";
    "    Identifier";
    "    ModuleName . Identifier`,";
    "";
    "  #PackageName#: `PackageName:";
    "    Identifier";
    "    PackageName . Identifier`,";
    "";
    "  #TypeName#: `TypeName:";
    "    TypeIdentifier";
    "    PackageOrTypeName . TypeIdentifier`,";
    "";
    "  #ExpressionName#: `ExpressionName:";
    "    Identifier";
    "    AmbiguousName . Identifier`,";
    "";
    "  #MethodName#: `MethodName:";
    "    UnqualifiedMethodIdentifier`,";
    "";
    "  #PackageOrTypeName#: `PackageOrTypeName:";
    "    Identifier";
    "    PackageOrTypeName . Identifier`,";
    "";
    "  #AmbiguousName#: `AmbiguousName:";
    "    Identifier";
    "    AmbiguousName . Identifier`,";
    "";
    "  // ============================================================";
    "  // §7 Packages and Modules";
    "  // ============================================================";
    "";
    "  #CompilationUnit#: `CompilationUnit:";
    "    OrdinaryCompilationUnit";
    "    CompactCompilationUnit";
    "    ModularCompilationUnit`,";
    "";
    "  #OrdinaryCompilationUnit#: `OrdinaryCompilationUnit:";
    "    [PackageDeclaration] {ImportDeclaration} {TopLevelClassOrInterfaceDeclaration}`,";
    "";
    "  #ModularCompilationUnit#: `ModularCompilationUnit:";
    "    {ImportDeclaration} ModuleDeclaration`,";
    "";
    "  #PackageDeclaration#: `PackageDeclaration:";
    "    {PackageModifier} package Identifier {. Identifier} ;`,";
    "";
    "  #PackageModifier#: `PackageModifier:";
    "    Annotation`,";
    "";
    "  #ImportDeclaration#: `ImportDeclaration:";
    "    SingleTypeImportDeclaration";
    "    TypeImportOnDemandDeclaration";
    "    SingleStaticImportDeclaration";
    "    StaticImportOnDemandDeclaration";
    "    SingleModuleImportDeclaration`,";
    "";
    "  #SingleTypeImportDeclaration#: `SingleTypeImportDeclaration:";
    "    import TypeName ;`,";
    "";
    "  #TypeImportOnDemandDeclaration#: `TypeImportOnDemandDeclaration:";
    "    import PackageOrTypeName . * ;`,";
    "";
    "  #SingleStaticImportDeclaration#: `SingleStaticImportDeclaration:";
    "    import static TypeName . Identifier ;`,";
    "";
    "  #StaticImportOnDemandDeclaration#: `StaticImportOnDemandDeclaration:";
    "    import static TypeName . * ;`,";
    "";
    "  #SingleModuleImportDeclaration#: `SingleModuleImportDeclaration:";
    "    import module ModuleName ;`,";
    "";
    "  #TopLevelClassOrInterfaceDeclaration#: `TopLevelClassOrInterfaceDeclaration:";
    "    ClassDeclaration";
    "    InterfaceDeclaration";
    "    ;`,";
    "";
    "  #ModuleDeclaration#: `ModuleDeclaration:";
    "    {Annotation} [open] module Identifier {. Identifier} { {ModuleDirective} }`,";
    "";
    "  #ModuleDirective#: `ModuleDirective:";
    "    requires {RequiresModifier} ModuleName ;";
    "    exports PackageName [to ModuleName {, ModuleName}] ;";
    "    opens PackageName [to ModuleName {, ModuleName}] ;";
    "    uses TypeName ;";
    "    provides TypeName with TypeName {, TypeName} ;`,";
    "";
    "  #RequiresModifier#: `RequiresModifier:";
    "    (one of) transitive static`,";
    "";
    "  // ============================================================";
    "  // §8 Classes";
    "  // ============================================================";
    "";
    "  #ClassDeclaration#: `ClassDeclaration:";
    "    NormalClassDeclaration";
    "    EnumDeclaration";
    "    RecordDeclaration`,";
    "";
    "  #NormalClassDeclaration#: `NormalClassDeclaration:";
    "    {ClassModifier} class TypeIdentifier [TypeParameters] [ClassExtends] [ClassImplements] [ClassPermits] ClassBody`,";
    "";
    "  #ClassModifier#: `ClassModifier:";
    "    (one of) Annotation public protected private";
    "    abstract static final sealed non-sealed strictfp`,";
    "";
    "  #TypeParameters#: `TypeParameters:";
    "    < TypeParameterList >`,";
    "";
    "  #TypeParameterList#: `TypeParameterList:";
    "    TypeParameter {, TypeParameter}`,";
    "";
    "  #ClassExtends#: `ClassExtends:";
    "    extends ClassType`,";
    "";
    "  #ClassImplements#: `ClassImplements:";
    "    implements InterfaceTypeList`,";
    "";
    "  #InterfaceTypeList#: `InterfaceTypeList:";
    "    InterfaceType {, InterfaceType}`,";
    "";
    "  #ClassPermits#: `ClassPermits:";
    "    permits TypeName {, TypeName}`,";
    "";
    "  #ClassBody#: `ClassBody:";
    "    { {ClassBodyDeclaration} }`,";
    "";
    "  #ClassBodyDeclaration#: `ClassBodyDeclaration:";
    "    ClassMemberDeclaration";
    "    InstanceInitializer";
    "    StaticInitializer";
    "    ConstructorDeclaration`,";
    "";
    "  #ClassMemberDeclaration#: `ClassMemberDeclaration:";
    "    FieldDeclaration";
    "    MethodDeclaration";
    "    ClassDeclaration";
    "    InterfaceDeclaration";
    "    ;`,";
    "";
    "  #FieldDeclaration#: `FieldDeclaration:";
    "    {FieldModifier} UnannType VariableDeclaratorList ;`,";
    "";
    "  #FieldModifier#: `FieldModifier:";
    "    (one of) Annotation public protected private";
    "    static final transient volatile`,";
    "";
    "  #VariableDeclaratorList#: `VariableDeclaratorList:";
    "    VariableDeclarator {, VariableDeclarator}`,";
    "";
    "  #VariableDeclarator#: `VariableDeclarator:";
    "    VariableDeclaratorId [= VariableInitializer]`,";
    "";
    "  #VariableDeclaratorId#: `VariableDeclaratorId:";
    "    Identifier [Dims]";
    "    _`,";
    "";
    "  #VariableInitializer#: `VariableInitializer:";
    "    Expression";
    "    ArrayInitializer`,";
    "";
    "  #UnannType#: `UnannType:";
    "    UnannPrimitiveType";
    "    UnannReferenceType`,";
    "";
    "  #UnannPrimitiveType#: `UnannPrimitiveType:";
    "    NumericType";
    "    boolean`,";
    "";
    "  #UnannReferenceType#: `UnannReferenceType:";
    "    UnannClassOrInterfaceType";
    "    UnannTypeVariable";
    "    UnannArrayType`,";
    "";
    "  #UnannClassOrInterfaceType#: `UnannClassOrInterfaceType:";
    "    UnannClassType";
    "    UnannInterfaceType`,";
    "";
    "  #UnannClassType#: `UnannClassType:";
    "    TypeIdentifier [TypeArguments]";
    "    PackageName . {Annotation} TypeIdentifier [TypeArguments]";
    "    UnannClassOrInterfaceType . {Annotation} TypeIdentifier [TypeArguments]`,";
    "";
    "  #UnannInterfaceType#: `UnannInterfaceType:";
    "    UnannClassType`,";
    "";
    "  #UnannTypeVariable#: `UnannTypeVariable:";
    "    TypeIdentifier`,";
    "";
    "  #UnannArrayType#: `UnannArrayType:";
    "    UnannPrimitiveType Dims";
    "    UnannClassOrInterfaceType Dims";
    "    UnannTypeVariable Dims`,";
    "";
    "  #MethodDeclaration#: `MethodDeclaration:";
    "    {MethodModifier} MethodHeader MethodBody`,";
    "";
    "  #MethodModifier#: `MethodModifier:";
    "    (one of) Annotation public protected private";
    "    abstract static final synchronized native strictfp`,";
    "";
    "  #MethodHeader#: `MethodHeader:";
    "    Result MethodDeclarator [Throws]";
    "    TypeParameters {Annotation} Result MethodDeclarator [Throws]`,";
    "";
    "  #Result#: `Result:";
    "    UnannType";
    "    void`,";
    "";
    "  #MethodDeclarator#: `MethodDeclarator:";
    "    Identifier ( [ReceiverParameter ,] [FormalParameterList] ) [Dims]`,";
    "";
    "  #ReceiverParameter#: `ReceiverParameter:";
    "    {Annotation} UnannType [Identifier .] this`,";
    "";
    "  #FormalParameterList#: `FormalParameterList:";
    "    FormalParameter {, FormalParameter}`,";
    "";
    "  #FormalParameter#: `FormalParameter:";
    "    {VariableModifier} UnannType VariableDeclaratorId";
    "    VariableArityParameter`,";
    "";
    "  #VariableArityParameter#: `VariableArityParameter:";
    "    {VariableModifier} UnannType {Annotation} ... Identifier`,";
    "";
    "  #VariableModifier#: `VariableModifier:";
    "    Annotation";
    "    final`,";
    "";
    "  #Throws#: `Throws:";
    "    throws ExceptionTypeList`,";
    "";
    "  #ExceptionTypeList#: `ExceptionTypeList:";
    "    ExceptionType {, ExceptionType}`,";
    "";
    "  #ExceptionType#: `ExceptionType:";
    "    ClassType";
    "    TypeVariable`,";
    "";
    "  #MethodBody#: `MethodBody:";
    "    Block";
    "    ;`,";
    "";
    "  #InstanceInitializer#: `InstanceInitializer:";
    "    Block`,";
    "";
    "  #StaticInitializer#: `StaticInitializer:";
    "    static Block`,";
    "";
    "  #ConstructorDeclaration#: `ConstructorDeclaration:";
    "    {ConstructorModifier} ConstructorDeclarator [Throws] ConstructorBody`,";
    "";
    "  #ConstructorModifier#: `ConstructorModifier:";
    "    (one of) Annotation public protected private`,";
    "";
    "  #ConstructorDeclarator#: `ConstructorDeclarator:";
    "    [TypeParameters] SimpleTypeName ( [ReceiverParameter ,] [FormalParameterList] )`,";
    "";
    "  #SimpleTypeName#: `SimpleTypeName:";
    "    TypeIdentifier`,";
    "";
    "  #ConstructorBody#: `ConstructorBody:";
    "    { [BlockStatements] ConstructorInvocation [BlockStatements] }";
    "    { [BlockStatements] }`,";
    "";
    "  #ConstructorInvocation#: `ConstructorInvocation:";
    "    [TypeArguments] this ( [ArgumentList] ) ;";
    "    [TypeArguments] super ( [ArgumentList] ) ;";
    "    ExpressionName . [TypeArguments] super ( [ArgumentList] ) ;";
    "    Primary . [TypeArguments] super ( [ArgumentList] ) ;`,";
    "";
    "  #EnumDeclaration#: `EnumDeclaration:";
    "    {ClassModifier} enum TypeIdentifier [ClassImplements] EnumBody`,";
    "";
    "  #EnumBody#: `EnumBody:";
    "    { [EnumConstantList] [,] [EnumBodyDeclarations] }`,";
    "";
    "  #EnumConstantList#: `EnumConstantList:";
    "    EnumConstant {, EnumConstant}`,";
    "";
    "  #EnumConstant#: `EnumConstant:";
    "    {EnumConstantModifier} Identifier [( [ArgumentList] )] [ClassBody]`,";
    "";
    "  #EnumConstantModifier#: `EnumConstantModifier:";
    "    Annotation`,";
    "";
    "  #EnumBodyDeclarations#: `EnumBodyDeclarations:";
    "    ; {ClassBodyDeclaration}`,";
    "";
    "  #RecordDeclaration#: `RecordDeclaration:";
    "    {ClassModifier} record TypeIdentifier [TypeParameters] RecordHeader [ClassImplements] RecordBody`,";
    "";
    "  #RecordHeader#: `RecordHeader:";
    "    ( [RecordComponentList] )`,";
    "";
    "  #RecordComponentList#: `RecordComponentList:";
    "    RecordComponent {, RecordComponent}`,";
    "";
    "  #RecordComponent#: `RecordComponent:";
    "    {RecordComponentModifier} UnannType Identifier";
    "    VariableArityRecordComponent`,";
    "";
    "  #VariableArityRecordComponent#: `VariableArityRecordComponent:";
    "    {RecordComponentModifier} UnannType {Annotation} ... Identifier`,";
    "";
    "  #RecordComponentModifier#: `RecordComponentModifier:";
    "    Annotation`,";
    "";
    "  #RecordBody#: `RecordBody:";
    "    { {RecordBodyDeclaration} }`,";
    "";
    "  #RecordBodyDeclaration#: `RecordBodyDeclaration:";
    "    ClassBodyDeclaration";
    "    CompactConstructorDeclaration`,";
    "";
    "  #CompactConstructorDeclaration#: `CompactConstructorDeclaration:";
    "    {ConstructorModifier} SimpleTypeName ConstructorBody`,";
    "";
    "  // ============================================================";
    "  // §9 Interfaces";
    "  // ============================================================";
    "";
    "  #InterfaceDeclaration#: `InterfaceDeclaration:";
    "    NormalInterfaceDeclaration";
    "    AnnotationInterfaceDeclaration`,";
    "";
    "  #NormalInterfaceDeclaration#: `NormalInterfaceDeclaration:";
    "    {InterfaceModifier} interface TypeIdentifier [TypeParameters] [InterfaceExtends] [InterfacePermits] InterfaceBody`,";
    "";
    "  #InterfaceModifier#: `InterfaceModifier:";
    "    (one of) Annotation public protected private";
    "    abstract static sealed non-sealed strictfp`,";
    "";
    "  #InterfaceExtends#: `InterfaceExtends:";
    "    extends InterfaceTypeList`,";
    "";
    "  #InterfacePermits#: `InterfacePermits:";
    "    permits TypeName {, TypeName}`,";
    "";
    "  #InterfaceBody#: `InterfaceBody:";
    "    { {InterfaceMemberDeclaration} }`,";
    "";
    "  #InterfaceMemberDeclaration#: `InterfaceMemberDeclaration:";
    "    ConstantDeclaration";
    "    InterfaceMethodDeclaration";
    "    ClassDeclaration";
    "    InterfaceDeclaration";
    "    ;`,";
    "";
    "  #ConstantDeclaration#: `ConstantDeclaration:";
    "    {ConstantModifier} UnannType VariableDeclaratorList ;`,";
    "";
    "  #ConstantModifier#: `ConstantModifier:";
    "    (one of) Annotation public";
    "    static final`,";
    "";
    "  #InterfaceMethodDeclaration#: `InterfaceMethodDeclaration:";
    "    {InterfaceMethodModifier} MethodHeader MethodBody`,";
    "";
    "  #InterfaceMethodModifier#: `InterfaceMethodModifier:";
    "    (one of) Annotation public private";
    "    abstract default static strictfp`,";
    "";
    "  #AnnotationInterfaceDeclaration#: `AnnotationInterfaceDeclaration:";
    "    {InterfaceModifier} @ interface TypeIdentifier AnnotationInterfaceBody`,";
    "";
    "  #AnnotationInterfaceBody#: `AnnotationInterfaceBody:";
    "    { {AnnotationInterfaceMemberDeclaration} }`,";
    "";
    "  #AnnotationInterfaceMemberDeclaration#: `AnnotationInterfaceMemberDeclaration:";
    "    AnnotationInterfaceElementDeclaration";
    "    ConstantDeclaration";
    "    ClassDeclaration";
    "    InterfaceDeclaration";
    "    ;`,";
    "";
    "  #AnnotationInterfaceElementDeclaration#: `AnnotationInterfaceElementDeclaration:";
    "    {AnnotationInterfaceElementModifier} UnannType Identifier ( ) [Dims] [DefaultValue] ;`,";
    "";
    "  #AnnotationInterfaceElementModifier#: `AnnotationInterfaceElementModifier:";
    "    (one of) Annotation public";
    "    abstract`,";
    "";
    "  #DefaultValue#: `DefaultValue:";
    "    default ElementValue`,";
    "";
    "  #Annotation#: `Annotation:";
    "    NormalAnnotation";
    "    MarkerAnnotation";
    "    SingleElementAnnotation`,";
    "";
    "  #NormalAnnotation#: `NormalAnnotation:";
    "    @ TypeName ( [ElementValuePairList] )`,";
    "";
    "  #ElementValuePairList#: `ElementValuePairList:";
    "    ElementValuePair {, ElementValuePair}`,";
    "";
    "  #ElementValuePair#: `ElementValuePair:";
    "    Identifier = ElementValue`,";
    "";
    "  #ElementValue#: `ElementValue:";
    "    ConditionalExpression";
    "    ElementValueArrayInitializer";
    "    Annotation`,";
    "";
    "  #ElementValueArrayInitializer#: `ElementValueArrayInitializer:";
    "    { [ElementValueList] [,] }`,";
    "";
    "  #ElementValueList#: `ElementValueList:";
    "    ElementValue {, ElementValue}`,";
    "";
    "  #MarkerAnnotation#: `MarkerAnnotation:";
    "    @ TypeName`,";
    "";
    "  #SingleElementAnnotation#: `SingleElementAnnotation:";
    "    @ TypeName ( ElementValue )`,";
    "";
    "  // ============================================================";
    "  // §10 Arrays";
    "  // ============================================================";
    "";
    "  #ArrayInitializer#: `ArrayInitializer:";
    "    { [VariableInitializerList] [,] }`,";
    "";
    "  #VariableInitializerList#: `VariableInitializerList:";
    "    VariableInitializer {, VariableInitializer}`,";
    "";
    "  // ============================================================";
    "  // §14 Blocks, Statements, and Patterns";
    "  // ============================================================";
    "";
    "  #Block#: `Block:";
    "    { [BlockStatements] }`,";
    "";
    "  #BlockStatements#: `BlockStatements:";
    "    BlockStatement {BlockStatement}`,";
    "";
    "  #BlockStatement#: `BlockStatement:";
    "    LocalClassOrInterfaceDeclaration";
    "    LocalVariableDeclarationStatement";
    "    Statement`,";
    "";
    "  #LocalClassOrInterfaceDeclaration#: `LocalClassOrInterfaceDeclaration:";
    "    ClassDeclaration";
    "    NormalInterfaceDeclaration`,";
    "";
    "  #LocalVariableDeclarationStatement#: `LocalVariableDeclarationStatement:";
    "    LocalVariableDeclaration ;`,";
    "";
    "  #LocalVariableDeclaration#: `LocalVariableDeclaration:";
    "    {VariableModifier} LocalVariableType VariableDeclaratorList`,";
    "";
    "  #LocalVariableType#: `LocalVariableType:";
    "    UnannType";
    "    var`,";
    "";
    "  #Statement#: `Statement:";
    "    StatementWithoutTrailingSubstatement";
    "    LabeledStatement";
    "    IfThenStatement";
    "    IfThenElseStatement";
    "    WhileStatement";
    "    ForStatement`,";
    "";
    "  #StatementNoShortIf#: `StatementNoShortIf:";
    "    StatementWithoutTrailingSubstatement";
    "    LabeledStatementNoShortIf";
    "    IfThenElseStatementNoShortIf";
    "    WhileStatementNoShortIf";
    "    ForStatementNoShortIf`,";
    "";
    "  #StatementWithoutTrailingSubstatement#: `StatementWithoutTrailingSubstatement:";
    "    Block";
    "    EmptyStatement";
    "    ExpressionStatement";
    "    AssertStatement";
    "    SwitchStatement";
    "    DoStatement";
    "    BreakStatement";
    "    ContinueStatement";
    "    ReturnStatement";
    "    SynchronizedStatement";
    "    ThrowStatement";
    "    TryStatement";
    "    YieldStatement`,";
    "";
    "  #EmptyStatement#: `EmptyStatement:";
    "    ;`,";
    "";
    "  #LabeledStatement#: `LabeledStatement:";
    "    Identifier : Statement`,";
    "";
    "  #LabeledStatementNoShortIf#: `LabeledStatementNoShortIf:";
    "    Identifier : StatementNoShortIf`,";
    "";
    "  #ExpressionStatement#: `ExpressionStatement:";
    "    StatementExpression ;`,";
    "";
    "  #StatementExpression#: `StatementExpression:";
    "    Assignment";
    "    PreIncrementExpression";
    "    PreDecrementExpression";
    "    PostIncrementExpression";
    "    PostDecrementExpression";
    "    MethodInvocation";
    "    ClassInstanceCreationExpression`,";
    "";
    "  #IfThenStatement#: `IfThenStatement:";
    "    if ( Expression ) Statement`,";
    "";
    "  #IfThenElseStatement#: `IfThenElseStatement:";
    "    if ( Expression ) StatementNoShortIf else Statement`,";
    "";
    "  #IfThenElseStatementNoShortIf#: `IfThenElseStatementNoShortIf:";
    "    if ( Expression ) StatementNoShortIf else StatementNoShortIf`,";
    "";
    "  #AssertStatement#: `AssertStatement:";
    "    assert Expression ;";
    "    assert Expression : Expression ;`,";
    "";
    "  #SwitchStatement#: `SwitchStatement:";
    "    switch ( Expression ) SwitchBlock`,";
    "";
    "  #SwitchBlock#: `SwitchBlock:";
    "    { SwitchRule {SwitchRule} }";
    "    { {SwitchBlockStatementGroup} {SwitchLabel :} }`,";
    "";
    "  #SwitchRule#: `SwitchRule:";
    "    SwitchLabel -> Expression ;";
    "    SwitchLabel -> Block";
    "    SwitchLabel -> ThrowStatement`,";
    "";
    "  #SwitchBlockStatementGroup#: `SwitchBlockStatementGroup:";
    "    SwitchLabel : {SwitchLabel :} BlockStatements`,";
    "";
    "  #SwitchLabel#: `SwitchLabel:";
    "    case CaseConstant {, CaseConstant}";
    "    case null [, default]";
    "    case CasePattern {, CasePattern} [Guard]";
    "    default`,";
    "";
    "  #CaseConstant#: `CaseConstant:";
    "    ConditionalExpression`,";
    "";
    "  #CasePattern#: `CasePattern:";
    "    Pattern`,";
    "";
    "  #Guard#: `Guard:";
    "    when Expression`,";
    "";
    "  #WhileStatement#: `WhileStatement:";
    "    while ( Expression ) Statement`,";
    "";
    "  #WhileStatementNoShortIf#: `WhileStatementNoShortIf:";
    "    while ( Expression ) StatementNoShortIf`,";
    "";
    "  #DoStatement#: `DoStatement:";
    "    do Statement while ( Expression ) ;`,";
    "";
    "  #ForStatement#: `ForStatement:";
    "    BasicForStatement";
    "    EnhancedForStatement`,";
    "";
    "  #ForStatementNoShortIf#: `ForStatementNoShortIf:";
    "    BasicForStatementNoShortIf";
    "    EnhancedForStatementNoShortIf`,";
    "";
    "  #BasicForStatement#: `BasicForStatement:";
    "    for ( [ForInit] ; [Expression] ; [ForUpdate] ) Statement`,";
    "";
    "  #BasicForStatementNoShortIf#: `BasicForStatementNoShortIf:";
    "    for ( [ForInit] ; [Expression] ; [ForUpdate] ) StatementNoShortIf`,";
    "";
    "  #ForInit#: `ForInit:";
    "    StatementExpressionList";
    "    LocalVariableDeclaration`,";
    "";
    "  #ForUpdate#: `ForUpdate:";
    "    StatementExpressionList`,";
    "";
    "  #StatementExpressionList#: `StatementExpressionList:";
    "    StatementExpression {, StatementExpression}`,";
    "";
    "  #EnhancedForStatement#: `EnhancedForStatement:";
    "    for ( LocalVariableDeclaration : Expression ) Statement`,";
    "";
    "  #EnhancedForStatementNoShortIf#: `EnhancedForStatementNoShortIf:";
    "    for ( LocalVariableDeclaration : Expression ) StatementNoShortIf`,";
    "";
    "  #BreakStatement#: `BreakStatement:";
    "    break [Identifier] ;`,";
    "";
    "  #YieldStatement#: `YieldStatement:";
    "    yield Expression ;`,";
    "";
    "  #ContinueStatement#: `ContinueStatement:";
    "    continue [Identifier] ;`,";
    "";
    "  #ReturnStatement#: `ReturnStatement:";
    "    return [Expression] ;`,";
    "";
    "  #ThrowStatement#: `ThrowStatement:";
    "    throw Expression ;`,";
    "";
    "  #SynchronizedStatement#: `SynchronizedStatement:";
    "    synchronized ( Expression ) Block`,";
    "";
    "  #TryStatement#: `TryStatement:";
    "    try Block Catches";
    "    try Block [Catches] Finally";
    "    TryWithResourcesStatement`,";
    "";
    "  #Catches#: `Catches:";
    "    CatchClause {CatchClause}`,";
    "";
    "  #CatchClause#: `CatchClause:";
    "    catch ( CatchFormalParameter ) Block`,";
    "";
    "  #CatchFormalParameter#: `CatchFormalParameter:";
    "    {VariableModifier} CatchType VariableDeclaratorId`,";
    "";
    "  #CatchType#: `CatchType:";
    "    UnannClassType {| ClassType}`,";
    "";
    "  #Finally#: `Finally:";
    "    finally Block`,";
    "";
    "  #TryWithResourcesStatement#: `TryWithResourcesStatement:";
    "    try ResourceSpecification Block [Catches] [Finally]`,";
    "";
    "  #ResourceSpecification#: `ResourceSpecification:";
    "    ( ResourceList [;] )`,";
    "";
    "  #ResourceList#: `ResourceList:";
    "    Resource {; Resource}`,";
    "";
    "  #Resource#: `Resource:";
    "    LocalVariableDeclaration";
    "    VariableAccess`,";
    "";
    "  #VariableAccess#: `VariableAccess:";
    "    ExpressionName";
    "    FieldAccess`,";
    "";
    "  #Pattern#: `Pattern:";
    "    TypePattern";
    "    RecordPattern`,";
    "";
    "  #TypePattern#: `TypePattern:";
    "    LocalVariableDeclaration`,";
    "";
    "  #RecordPattern#: `RecordPattern:";
    "    ReferenceType ( [ComponentPatternList] )`,";
    "";
    "  #ComponentPatternList#: `ComponentPatternList:";
    "    ComponentPattern {, ComponentPattern}`,";
    "";
    "  #ComponentPattern#: `ComponentPattern:";
    "    Pattern";
    "    MatchAllPattern`,";
    "";
    "  #MatchAllPattern#: `MatchAllPattern:";
    "    _`,";
    "";
    "  // ============================================================";
    "  // §15 Expressions";
    "  // ============================================================";
    "";
    "  #Primary#: `Primary:";
    "    PrimaryNoNewArray";
    "    ArrayCreationExpression`,";
    "";
    "  #PrimaryNoNewArray#: `PrimaryNoNewArray:";
    "    Literal";
    "    ClassLiteral";
    "    this";
    "    TypeName . this";
    "    ( Expression )";
    "    ClassInstanceCreationExpression";
    "    FieldAccess";
    "    ArrayAccess";
    "    MethodInvocation";
    "    MethodReference`,";
    "";
    "  #ClassLiteral#: `ClassLiteral:";
    "    TypeName {[ ]} . class";
    "    NumericType {[ ]} . class";
    "    boolean {[ ]} . class";
    "    void . class`,";
    "";
    "  #ClassInstanceCreationExpression#: `ClassInstanceCreationExpression:";
    "    UnqualifiedClassInstanceCreationExpression";
    "    ExpressionName . UnqualifiedClassInstanceCreationExpression";
    "    Primary . UnqualifiedClassInstanceCreationExpression`,";
    "";
    "  #UnqualifiedClassInstanceCreationExpression#: `UnqualifiedClassInstanceCreationExpression:";
    "    new [TypeArguments] ClassOrInterfaceTypeToInstantiate ( [ArgumentList] ) [ClassBody]`,";
    "";
    "  #ClassOrInterfaceTypeToInstantiate#: `ClassOrInterfaceTypeToInstantiate:";
    "    {Annotation} Identifier {. {Annotation} Identifier} [TypeArgumentsOrDiamond]`,";
    "";
    "  #TypeArgumentsOrDiamond#: `TypeArgumentsOrDiamond:";
    "    TypeArguments";
    "    <>`,";
    "";
    "  #ArrayCreationExpression#: `ArrayCreationExpression:";
    "    ArrayCreationExpressionWithoutInitializer";
    "    ArrayCreationExpressionWithInitializer`,";
    "";
    "  #ArrayCreationExpressionWithoutInitializer#: `ArrayCreationExpressionWithoutInitializer:";
    "    new PrimitiveType DimExprs [Dims]";
    "    new ClassOrInterfaceType DimExprs [Dims]`,";
    "";
    "  #ArrayCreationExpressionWithInitializer#: `ArrayCreationExpressionWithInitializer:";
    "    new PrimitiveType Dims ArrayInitializer";
    "    new ClassOrInterfaceType Dims ArrayInitializer`,";
    "";
    "  #DimExprs#: `DimExprs:";
    "    DimExpr {DimExpr}`,";
    "";
    "  #DimExpr#: `DimExpr:";
    "    {Annotation} [ Expression ]`,";
    "";
    "  #ArrayAccess#: `ArrayAccess:";
    "    ExpressionName [ Expression ]";
    "    PrimaryNoNewArray [ Expression ]";
    "    ArrayCreationExpressionWithInitializer [ Expression ]`,";
    "";
    "  #FieldAccess#: `FieldAccess:";
    "    Primary . Identifier";
    "    super . Identifier";
    "    TypeName . super . Identifier`,";
    "";
    "  #MethodInvocation#: `MethodInvocation:";
    "    MethodName ( [ArgumentList] )";
    "    TypeName . [TypeArguments] Identifier ( [ArgumentList] )";
    "    ExpressionName . [TypeArguments] Identifier ( [ArgumentList] )";
    "    Primary . [TypeArguments] Identifier ( [ArgumentList] )";
    "    super . [TypeArguments] Identifier ( [ArgumentList] )";
    "    TypeName . super . [TypeArguments] Identifier ( [ArgumentList] )`,";
    "";
    "  #ArgumentList#: `ArgumentList:";
    "    Expression {, Expression}`,";
    "";
    "  #MethodReference#: `MethodReference:";
    "    ExpressionName :: [TypeArguments] Identifier";
    "    Primary :: [TypeArguments] Identifier";
    "    ReferenceType :: [TypeArguments] Identifier";
    "    super :: [TypeArguments] Identifier";
    "    TypeName . super :: [TypeArguments] Identifier";
    "    ClassType :: [TypeArguments] new";
    "    ArrayType :: new`,";
    "";
    "  #Expression#: `Expression:";
    "    LambdaExpression";
    "    AssignmentExpression`,";
    "";
    "  #LambdaExpression#: `LambdaExpression:";
    "    LambdaParameters -> LambdaBody`,";
    "";
    "  #LambdaParameters#: `LambdaParameters:";
    "    ( [LambdaParameterList] )";
    "    ConciseLambdaParameter`,";
    "";
    "  #LambdaParameterList#: `LambdaParameterList:";
    "    NormalLambdaParameter {, NormalLambdaParameter}";
    "    ConciseLambdaParameter {, ConciseLambdaParameter}`,";
    "";
    "  #NormalLambdaParameter#: `NormalLambdaParameter:";
    "    {VariableModifier} LambdaParameterType VariableDeclaratorId";
    "    VariableArityParameter`,";
    "";
    "  #LambdaParameterType#: `LambdaParameterType:";
    "    UnannType";
    "    var`,";
    "";
    "  #ConciseLambdaParameter#: `ConciseLambdaParameter:";
    "    Identifier";
    "    _`,";
    "";
    "  #LambdaBody#: `LambdaBody:";
    "    Expression";
    "    Block`,";
    "";
    "  #AssignmentExpression#: `AssignmentExpression:";
    "    ConditionalExpression";
    "    Assignment`,";
    "";
    "  #Assignment#: `Assignment:";
    "    LeftHandSide AssignmentOperator Expression`,";
    "";
    "  #LeftHandSide#: `LeftHandSide:";
    "    ExpressionName";
    "    FieldAccess";
    "    ArrayAccess`,";
    "";
    "  #AssignmentOperator#: `AssignmentOperator:";
    "    (one of) =  *=  /=  %=  +=  -=  <<=  >>=  >>>=  &=  ^=  |=`,";
    "";
    "  #ConditionalExpression#: `ConditionalExpression:";
    "    ConditionalOrExpression";
    "    ConditionalOrExpression ? Expression : ConditionalExpression";
    "    ConditionalOrExpression ? Expression : LambdaExpression`,";
    "";
    "  #ConditionalOrExpression#: `ConditionalOrExpression:";
    "    ConditionalAndExpression";
    "    ConditionalOrExpression || ConditionalAndExpression`,";
    "";
    "  #ConditionalAndExpression#: `ConditionalAndExpression:";
    "    InclusiveOrExpression";
    "    ConditionalAndExpression && InclusiveOrExpression`,";
    "";
    "  #InclusiveOrExpression#: `InclusiveOrExpression:";
    "    ExclusiveOrExpression";
    "    InclusiveOrExpression | ExclusiveOrExpression`,";
    "";
    "  #ExclusiveOrExpression#: `ExclusiveOrExpression:";
    "    AndExpression";
    "    ExclusiveOrExpression ^ AndExpression`,";
    "";
    "  #AndExpression#: `AndExpression:";
    "    EqualityExpression";
    "    AndExpression & EqualityExpression`,";
    "";
    "  #EqualityExpression#: `EqualityExpression:";
    "    RelationalExpression";
    "    EqualityExpression == RelationalExpression";
    "    EqualityExpression != RelationalExpression`,";
    "";
    "  #RelationalExpression#: `RelationalExpression:";
    "    ShiftExpression";
    "    RelationalExpression < ShiftExpression";
    "    RelationalExpression > ShiftExpression";
    "    RelationalExpression <= ShiftExpression";
    "    RelationalExpression >= ShiftExpression";
    "    InstanceofExpression`,";
    "";
    "  #InstanceofExpression#: `InstanceofExpression:";
    "    RelationalExpression instanceof ReferenceType";
    "    RelationalExpression instanceof Pattern`,";
    "";
    "  #ShiftExpression#: `ShiftExpression:";
    "    AdditiveExpression";
    "    ShiftExpression << AdditiveExpression";
    "    ShiftExpression >> AdditiveExpression";
    "    ShiftExpression >>> AdditiveExpression`,";
    "";
    "  #AdditiveExpression#: `AdditiveExpression:";
    "    MultiplicativeExpression";
    "    AdditiveExpression + MultiplicativeExpression";
    "    AdditiveExpression - MultiplicativeExpression`,";
    "";
    "  #MultiplicativeExpression#: `MultiplicativeExpression:";
    "    UnaryExpression";
    "    MultiplicativeExpression * UnaryExpression";
    "    MultiplicativeExpression / UnaryExpression";
    "    MultiplicativeExpression % UnaryExpression`,";
    "";
    "  #UnaryExpression#: `UnaryExpression:";
    "    PreIncrementExpression";
    "    PreDecrementExpression";
    "    + UnaryExpression";
    "    - UnaryExpression";
    "    UnaryExpressionNotPlusMinus`,";
    "";
    "  #PreIncrementExpression#: `PreIncrementExpression:";
    "    ++ UnaryExpression`,";
    "";
    "  #PreDecrementExpression#: `PreDecrementExpression:";
    "    -- UnaryExpression`,";
    "";
    "  #UnaryExpressionNotPlusMinus#: `UnaryExpressionNotPlusMinus:";
    "    PostfixExpression";
    "    ~ UnaryExpression";
    "    ! UnaryExpression";
    "    CastExpression";
    "    SwitchExpression`,";
    "";
    "  #PostfixExpression#: `PostfixExpression:";
    "    Primary";
    "    ExpressionName";
    "    PostIncrementExpression";
    "    PostDecrementExpression`,";
    "";
    "  #PostIncrementExpression#: `PostIncrementExpression:";
    "    PostfixExpression ++`,";
    "";
    "  #PostDecrementExpression#: `PostDecrementExpression:";
    "    PostfixExpression --`,";
    "";
    "  #CastExpression#: `CastExpression:";
    "    ( PrimitiveType ) UnaryExpression";
    "    ( ReferenceType {AdditionalBound} ) UnaryExpressionNotPlusMinus";
    "    ( ReferenceType {AdditionalBound} ) LambdaExpression`,";
    "";
    "  #SwitchExpression#: `SwitchExpression:";
    "    switch ( Expression ) SwitchBlock`,";
    "};";
    "";
    "/**";
    " * Gets the EBNF definition for a given rule name.";
    " * Returns undefined if not found.";
    " */";
    "export function getEbnfDefinition(name: string): string | undefined {";
    "  return EBNF_DEFINITIONS[name];";
    "}";
    "";
    "/**";
    " * Get all EBNF rule names for grammar coverage checking.";
    " */";
    "export function getEbnfRuleNames(): string[] {";
    "  return Object.keys(EBNF_DEFINITIONS);";
    "}"
  ]).

(** [readFileSync] over the working tree as it is. *)
Definition readFileSync (path : string) : Result string :=
  if String.eqb path Coverage.grammarPath then Ok java25Grammar_ts
  else if String.eqb path Coverage.ebnfPath then Ok ebnfDefinitions_ts
  else Throw (Error ("ENOENT: no such file or directory, open '" ++ path ++ "'")).

End SourceText.

(** The concrete scenario of the specification: one rule [A] with a diagram
    factory and an EBNF text, and the same with the EBNF entry removed. *)
Module Scenario.

Definition grammar_ts : string :=
unhash (unlines [
  "rules.set(#A#, () => Diagram(Terminal(#x#)));"
]).

Definition ebnf_ts : string :=
unhash (unlines [
  "export const EBNF_DEFINITIONS = {";
  "  #A#: `A: x`,";
  "};"
]).

Definition ebnf_without_A_ts : string :=
unhash (unlines [
  "export const EBNF_DEFINITIONS = {";
  "};"
]).

Definition files (grammar ebnf : string) (path : string) : Result string :=
if String.eqb path Coverage.grammarPath then Ok grammar
else if String.eqb path Coverage.ebnfPath then Ok ebnf
else Throw (Error "ENOENT").

End Scenario.

(* ================================================================== *)
(** ** Vocabulary of the proofs                                        *)
(* ================================================================== *)

(** Every character of [s] satisfies [p]. *)
Fixpoint allChars (p : ascii -> bool) (s : string) : bool :=
  match s with
  | EmptyString => true
  | String c s' => p c && allChars p s'
  end.

(** The first and the last character of [s], when it has one, satisfy [p]. *)
Definition startsWith (p : ascii -> bool) (s : string) : bool :=
  match s with
  | EmptyString => false
  | String c _ => p c
  end.

Fixpoint endsWith (p : ascii -> bool) (s : string) : bool :=
  match s with
  | EmptyString => false
  | String c EmptyString => p c
  | String _ s' => endsWith p s'
  end.

(** [s] begins with a match of [\s*Q([^Q]+)Q]: white space, a quote, the
    non-empty quote-free [name], a quote; [n] characters in all, then [r]. *)
Definition QuotedAt (s name : string) (n : nat) (r : string) : Prop :=
  exists ws q q',
    s = ws ++ String q (name ++ String q' r)
    /\ allChars JsString.isWhiteSpace ws = true
    /\ Coverage.isQuote q = true
    /\ Coverage.isQuote q' = true
    /\ name <> EmptyString
    /\ allChars (fun c => negb (Coverage.isQuote c)) name = true
    /\ n = String.length ws + 1 + String.length name + 1.

(** An argument expression evaluates to the value [v]. *)
Definition Builds (e : M RR.Val) (v : RR.Val) : Prop := outcome e = Ok v.

(** An argument expression invokes the package, or is a plain value. *)
Definition Audible (e : M RR.Val) : Prop :=
  trace e <> [] \/ exists v, e = ret v.

(* ================================================================== *)
(** ** src/features/grammar/javaGrammar.ts: registry and section index *)
(* ================================================================== *)

Module Java21Registry.

Inductive SectionId :=
| lexical | types | names | packages | classes | interfaces | arrays | statements | expressions.

Definition SECTION_ORDER : list SectionId :=
[lexical; types; names; packages; classes; interfaces; arrays; statements; expressions].

Definition SECTION_TITLES (s : SectionId) : string :=
match s with
| lexical => "§3 Lexical Structure"
| types => "§4 Types, Values, and Variables"
| names => "§6 Names"
| packages => "§7 Packages and Modules"
| classes => "§8 Classes"
| interfaces => "§9 Interfaces"
| arrays => "§10 Arrays"
| statements => "§14 Blocks, Statements, and Patterns"
| expressions => "§15 Expressions"
end.

Definition SECTION_RULES (s : SectionId) : list string :=
match s with
| lexical =>
    ["Identifier"; "IdentifierChars"; "JavaLetter"; "JavaLetterOrDigit";
     "TypeIdentifier"; "UnqualifiedMethodIdentifier"; "Literal"]
| types =>
    ["Type"; "PrimitiveType"; "NumericType"; "IntegralType";
     "FloatingPointType"; "ReferenceType"; "ClassOrInterfaceType";
     "ClassType"; "InterfaceType"; "TypeVariable"; "ArrayType"; "Dims";
     "TypeParameter"; "TypeParameterModifier"; "TypeBound";
     "AdditionalBound"; "TypeArguments"; "TypeArgumentList";
     "TypeArgument"; "Wildcard"; "WildcardBounds"]
| names =>
    ["ModuleName"; "PackageName"; "TypeName"; "ExpressionName";
     "MethodName"; "PackageOrTypeName"; "AmbiguousName"]
| packages =>
    ["CompilationUnit"; "OrdinaryCompilationUnit";
     "ModularCompilationUnit"; "PackageDeclaration"; "PackageModifier";
     "ImportDeclaration"; "SingleTypeImportDeclaration";
     "TypeImportOnDemandDeclaration"; "SingleStaticImportDeclaration";
     "StaticImportOnDemandDeclaration";
     "TopLevelClassOrInterfaceDeclaration"; "ModuleDeclaration";
     "ModuleDirective"; "RequiresModifier"]
| classes =>
    ["ClassDeclaration"; "NormalClassDeclaration"; "ClassModifier";
     "TypeParameters"; "TypeParameterList"; "ClassExtends";
     "ClassImplements"; "InterfaceTypeList"; "ClassPermits"; "ClassBody";
     "ClassBodyDeclaration"; "ClassMemberDeclaration"; "FieldDeclaration";
     "FieldModifier"; "VariableDeclaratorList"; "VariableDeclarator";
     "VariableDeclaratorId"; "VariableInitializer"; "UnannType";
     "UnannPrimitiveType"; "UnannReferenceType";
     "UnannClassOrInterfaceType"; "UnannClassType"; "UnannInterfaceType";
     "UnannTypeVariable"; "UnannArrayType"; "MethodDeclaration";
     "MethodModifier"; "MethodHeader"; "Result"; "MethodDeclarator";
     "ReceiverParameter"; "FormalParameterList"; "FormalParameter";
     "VariableArityParameter"; "VariableModifier"; "Throws";
     "ExceptionTypeList"; "ExceptionType"; "MethodBody";
     "InstanceInitializer"; "StaticInitializer"; "ConstructorDeclaration";
     "ConstructorModifier"; "ConstructorDeclarator"; "SimpleTypeName";
     "ConstructorBody"; "ConstructorInvocation"; "EnumDeclaration";
     "EnumBody"; "EnumConstantList"; "EnumConstant";
     "EnumConstantModifier"; "EnumBodyDeclarations"; "RecordDeclaration";
     "RecordHeader"; "RecordComponentList"; "RecordComponent";
     "VariableArityRecordComponent"; "RecordComponentModifier";
     "RecordBody"; "RecordBodyDeclaration";
     "CompactConstructorDeclaration"]
| interfaces =>
    ["InterfaceDeclaration"; "NormalInterfaceDeclaration";
     "InterfaceModifier"; "InterfaceExtends"; "InterfacePermits";
     "InterfaceBody"; "InterfaceMemberDeclaration"; "ConstantDeclaration";
     "ConstantModifier"; "InterfaceMethodDeclaration";
     "InterfaceMethodModifier"; "AnnotationInterfaceDeclaration";
     "AnnotationInterfaceBody"; "AnnotationInterfaceMemberDeclaration";
     "AnnotationInterfaceElementDeclaration";
     "AnnotationInterfaceElementModifier"; "DefaultValue"; "Annotation";
     "NormalAnnotation"; "ElementValuePairList"; "ElementValuePair";
     "ElementValue"; "ElementValueArrayInitializer"; "ElementValueList";
     "MarkerAnnotation"; "SingleElementAnnotation"]
| arrays =>
    ["ArrayInitializer"; "VariableInitializerList"]
| statements =>
    ["Block"; "BlockStatements"; "BlockStatement";
     "LocalClassOrInterfaceDeclaration";
     "LocalVariableDeclarationStatement"; "LocalVariableDeclaration";
     "LocalVariableType"; "Statement"; "StatementNoShortIf";
     "StatementWithoutTrailingSubstatement"; "EmptyStatement";
     "LabeledStatement"; "LabeledStatementNoShortIf";
     "ExpressionStatement"; "StatementExpression"; "IfThenStatement";
     "IfThenElseStatement"; "IfThenElseStatementNoShortIf";
     "AssertStatement"; "SwitchStatement"; "SwitchBlock"; "SwitchRule";
     "SwitchBlockStatementGroup"; "SwitchLabel"; "CaseConstant";
     "CasePattern"; "Guard"; "WhileStatement"; "WhileStatementNoShortIf";
     "DoStatement"; "ForStatement"; "ForStatementNoShortIf";
     "BasicForStatement"; "BasicForStatementNoShortIf"; "ForInit";
     "ForUpdate"; "StatementExpressionList"; "EnhancedForStatement";
     "EnhancedForStatementNoShortIf"; "BreakStatement"; "YieldStatement";
     "ContinueStatement"; "ReturnStatement"; "ThrowStatement";
     "SynchronizedStatement"; "TryStatement"; "Catches"; "CatchClause";
     "CatchFormalParameter"; "CatchType"; "Finally";
     "TryWithResourcesStatement"; "ResourceSpecification"; "ResourceList";
     "Resource"; "VariableAccess"; "Pattern"; "TypePattern";
     "RecordPattern"; "ComponentPatternList"; "ComponentPattern";
     "MatchAllPattern"]
| expressions =>
    ["Primary"; "PrimaryNoNewArray"; "ClassLiteral";
     "ClassInstanceCreationExpression";
     "UnqualifiedClassInstanceCreationExpression";
     "ClassOrInterfaceTypeToInstantiate"; "TypeArgumentsOrDiamond";
     "ArrayCreationExpression";
     "ArrayCreationExpressionWithoutInitializer";
     "ArrayCreationExpressionWithInitializer"; "DimExprs"; "DimExpr";
     "ArrayAccess"; "FieldAccess"; "MethodInvocation"; "ArgumentList";
     "MethodReference"; "Expression"; "LambdaExpression";
     "LambdaParameters"; "LambdaParameterList"; "NormalLambdaParameter";
     "LambdaParameterType"; "ConciseLambdaParameter"; "LambdaBody";
     "AssignmentExpression"; "Assignment"; "LeftHandSide";
     "AssignmentOperator"; "ConditionalExpression";
     "ConditionalOrExpression"; "ConditionalAndExpression";
     "InclusiveOrExpression"; "ExclusiveOrExpression"; "AndExpression";
     "EqualityExpression"; "RelationalExpression"; "InstanceofExpression";
     "ShiftExpression"; "AdditiveExpression"; "MultiplicativeExpression";
     "UnaryExpression"; "PreIncrementExpression"; "PreDecrementExpression";
     "UnaryExpressionNotPlusMinus"; "PostfixExpression";
     "PostIncrementExpression"; "PostDecrementExpression";
     "CastExpression"; "SwitchExpression"]
end.

Section WithLibrary.
Variable lib : RR.Library.

Local Abbreviation Diagram := (Java21.Diagram lib).
Local Abbreviation Sequence := (Java21.Sequence lib).
Local Abbreviation Choice := (Java21.Choice lib).
Local Abbreviation Optional := (Java21.Optional lib).
Local Abbreviation OneOrMore := (Java21.OneOrMore lib).
Local Abbreviation ZeroOrMore := (Java21.ZeroOrMore lib).
Local Abbreviation Comment := (Java21.Comment lib).
Local Abbreviation T := (Java21.T lib).
Local Abbreviation NT := (Java21.NT lib).
Local Abbreviation chain := (Java21.chain lib).

(** Grammar rules (diagram factories): [const rules = new Map()], followed
by one [rules.set(name, () => ...)] per rule, in this order. *)
Definition registrations : list (string * DiagramFactory) := [
(* §3 Lexical Structure *)
("Identifier", fun _ =>
Diagram [
  Sequence [
    NT "IdentifierChars";
    Comment [str "but not ReservedKeyword, BooleanLiteral, or NullLiteral"]]]);
("IdentifierChars", fun _ =>
Diagram [Sequence [NT "JavaLetter"; ZeroOrMore [NT "JavaLetterOrDigit"]]]);
("JavaLetter", fun _ =>
Diagram [Comment [str "any Unicode character that is a 'Java letter'"]]);
("JavaLetterOrDigit", fun _ =>
Diagram [Comment [str "any Unicode character that is a 'Java letter-or-digit'"]]);
("TypeIdentifier", fun _ =>
Diagram [
  Sequence [
    NT "Identifier";
    Comment [str "but not permits, record, sealed, var, or yield"]]]);
("UnqualifiedMethodIdentifier", fun _ =>
Diagram [Sequence [NT "Identifier"; Comment [str "but not yield"]]]);
("Literal", fun _ =>
Diagram [
  Choice [
    num 0;
    NT "IntegerLiteral";
    NT "FloatingPointLiteral";
    NT "BooleanLiteral";
    NT "CharacterLiteral";
    NT "StringLiteral";
    NT "TextBlock";
    NT "NullLiteral"]]);
(* §4 Types, Values, and Variables *)
("Type", fun _ =>
Diagram [Choice [num 0; NT "PrimitiveType"; NT "ReferenceType"]]);
("PrimitiveType", fun _ =>
Diagram [
  Choice [
    num 0;
    Sequence [ZeroOrMore [NT "Annotation"]; NT "NumericType"];
    Sequence [ZeroOrMore [NT "Annotation"]; T "boolean"]]]);
("NumericType", fun _ =>
Diagram [Choice [num 0; NT "IntegralType"; NT "FloatingPointType"]]);
("IntegralType", fun _ =>
Diagram [Choice [num 0; T "byte"; T "short"; T "int"; T "long"; T "char"]]);
("FloatingPointType", fun _ =>
Diagram [Choice [num 0; T "float"; T "double"]]);
("ReferenceType", fun _ =>
Diagram [
  Choice [num 0; NT "ClassOrInterfaceType"; NT "TypeVariable"; NT "ArrayType"]]);
("ClassOrInterfaceType", fun _ =>
Diagram [Choice [num 0; NT "ClassType"; NT "InterfaceType"]]);
("ClassType", fun _ =>
Diagram [
  Choice [
    num 0;
    Sequence [
      ZeroOrMore [NT "Annotation"];
      NT "TypeIdentifier";
      Optional [NT "TypeArguments"]];
    Sequence [
      NT "PackageName";
      T ".";
      ZeroOrMore [NT "Annotation"];
      NT "TypeIdentifier";
      Optional [NT "TypeArguments"]];
    Sequence [
      NT "ClassOrInterfaceType";
      T ".";
      ZeroOrMore [NT "Annotation"];
      NT "TypeIdentifier";
      Optional [NT "TypeArguments"]]]]);
("InterfaceType", fun _ =>
Diagram [NT "ClassType"]);
("TypeVariable", fun _ =>
Diagram [Sequence [ZeroOrMore [NT "Annotation"]; NT "TypeIdentifier"]]);
("ArrayType", fun _ =>
Diagram [
  Choice [
    num 0;
    Sequence [NT "PrimitiveType"; NT "Dims"];
    Sequence [NT "ClassOrInterfaceType"; NT "Dims"];
    Sequence [NT "TypeVariable"; NT "Dims"]]]);
("Dims", fun _ =>
Diagram [OneOrMore [Sequence [ZeroOrMore [NT "Annotation"]; T "["; T "]"]]]);
("TypeParameter", fun _ =>
Diagram [
  Sequence [
    ZeroOrMore [NT "TypeParameterModifier"];
    NT "TypeIdentifier";
    Optional [NT "TypeBound"]]]);
("TypeParameterModifier", fun _ =>
Diagram [NT "Annotation"]);
("TypeBound", fun _ =>
Diagram [
  Choice [
    num 0;
    Sequence [T "extends"; NT "TypeVariable"];
    Sequence [
      T "extends";
      NT "ClassOrInterfaceType";
      ZeroOrMore [NT "AdditionalBound"]]]]);
("AdditionalBound", fun _ =>
Diagram [Sequence [T "&"; NT "InterfaceType"]]);
("TypeArguments", fun _ =>
Diagram [Sequence [T "<"; NT "TypeArgumentList"; T ">"]]);
("TypeArgumentList", fun _ =>
Diagram [
  Sequence [NT "TypeArgument"; ZeroOrMore [Sequence [T ","; NT "TypeArgument"]]]]);
("TypeArgument", fun _ =>
Diagram [Choice [num 0; NT "ReferenceType"; NT "Wildcard"]]);
("Wildcard", fun _ =>
Diagram [
  Sequence [ZeroOrMore [NT "Annotation"]; T "?"; Optional [NT "WildcardBounds"]]]);
("WildcardBounds", fun _ =>
Diagram [
  Choice [
    num 0;
    Sequence [T "extends"; NT "ReferenceType"];
    Sequence [T "super"; NT "ReferenceType"]]]);
(* §6 Names *)
("ModuleName", fun _ =>
Diagram [Sequence [NT "Identifier"; ZeroOrMore [Sequence [T "."; NT "Identifier"]]]]);
("PackageName", fun _ =>
Diagram [Sequence [NT "Identifier"; ZeroOrMore [Sequence [T "."; NT "Identifier"]]]]);
("TypeName", fun _ =>
Diagram [
  Choice [
    num 0;
    NT "TypeIdentifier";
    Sequence [NT "PackageOrTypeName"; T "."; NT "TypeIdentifier"]]]);
("ExpressionName", fun _ =>
Diagram [
  Choice [
    num 0;
    NT "Identifier";
    Sequence [NT "AmbiguousName"; T "."; NT "Identifier"]]]);
("MethodName", fun _ =>
Diagram [NT "UnqualifiedMethodIdentifier"]);
("PackageOrTypeName", fun _ =>
Diagram [Sequence [NT "Identifier"; ZeroOrMore [Sequence [T "."; NT "Identifier"]]]]);
("AmbiguousName", fun _ =>
Diagram [Sequence [NT "Identifier"; ZeroOrMore [Sequence [T "."; NT "Identifier"]]]]);
(* §7 Packages and Modules *)
("CompilationUnit", fun _ =>
Diagram [Choice [num 0; NT "OrdinaryCompilationUnit"; NT "ModularCompilationUnit"]]);
("OrdinaryCompilationUnit", fun _ =>
Diagram [
  Sequence [
    Optional [NT "PackageDeclaration"];
    ZeroOrMore [NT "ImportDeclaration"];
    ZeroOrMore [NT "TopLevelClassOrInterfaceDeclaration"]]]);
("ModularCompilationUnit", fun _ =>
Diagram [Sequence [ZeroOrMore [NT "ImportDeclaration"]; NT "ModuleDeclaration"]]);
("PackageDeclaration", fun _ =>
Diagram [
  Sequence [
    ZeroOrMore [NT "PackageModifier"];
    T "package";
    NT "Identifier";
    ZeroOrMore [Sequence [T "."; NT "Identifier"]];
    T ";"]]);
("PackageModifier", fun _ =>
Diagram [NT "Annotation"]);
("ImportDeclaration", fun _ =>
Diagram [
  Choice [
    num 0;
    NT "SingleTypeImportDeclaration";
    NT "TypeImportOnDemandDeclaration";
    NT "SingleStaticImportDeclaration";
    NT "StaticImportOnDemandDeclaration"]]);
("SingleTypeImportDeclaration", fun _ =>
Diagram [Sequence [T "import"; NT "TypeName"; T ";"]]);
("TypeImportOnDemandDeclaration", fun _ =>
Diagram [Sequence [T "import"; NT "PackageOrTypeName"; T "."; T "*"; T ";"]]);
("SingleStaticImportDeclaration", fun _ =>
Diagram [
  Sequence [T "import"; T "static"; NT "TypeName"; T "."; NT "Identifier"; T ";"]]);
("StaticImportOnDemandDeclaration", fun _ =>
Diagram [Sequence [T "import"; T "static"; NT "TypeName"; T "."; T "*"; T ";"]]);
("TopLevelClassOrInterfaceDeclaration", fun _ =>
Diagram [Choice [num 0; NT "ClassDeclaration"; NT "InterfaceDeclaration"; T ";"]]);
("ModuleDeclaration", fun _ =>
Diagram [
  Sequence [
    ZeroOrMore [NT "Annotation"];
    Optional [T "open"];
    T "module";
    NT "Identifier";
    ZeroOrMore [Sequence [T "."; NT "Identifier"]];
    T "{";
    ZeroOrMore [NT "ModuleDirective"];
    T "}"]]);
("ModuleDirective", fun _ =>
Diagram [
  Choice [
    num 0;
    Sequence [
      T "requires";
      ZeroOrMore [NT "RequiresModifier"];
      NT "ModuleName";
      T ";"];
    Sequence [
      T "exports";
      NT "PackageName";
      Optional [
        Sequence [
          T "to";
          NT "ModuleName";
          ZeroOrMore [Sequence [T ","; NT "ModuleName"]]]];
      T ";"];
    Sequence [
      T "opens";
      NT "PackageName";
      Optional [
        Sequence [
          T "to";
          NT "ModuleName";
          ZeroOrMore [Sequence [T ","; NT "ModuleName"]]]];
      T ";"];
    Sequence [T "uses"; NT "TypeName"; T ";"];
    Sequence [
      T "provides";
      NT "TypeName";
      T "with";
      NT "TypeName";
      ZeroOrMore [Sequence [T ","; NT "TypeName"]];
      T ";"]]]);
("RequiresModifier", fun _ =>
Diagram [Choice [num 0; T "transitive"; T "static"]]);
(* §8 Classes *)
("ClassDeclaration", fun _ =>
Diagram [
  Choice [
    num 0;
    NT "NormalClassDeclaration";
    NT "EnumDeclaration";
    NT "RecordDeclaration"]]);
("NormalClassDeclaration", fun _ =>
Diagram [
  Sequence [
    ZeroOrMore [NT "ClassModifier"];
    T "class";
    NT "TypeIdentifier";
    Optional [NT "TypeParameters"];
    Optional [NT "ClassExtends"];
    Optional [NT "ClassImplements"];
    Optional [NT "ClassPermits"];
    NT "ClassBody"]]);
("ClassModifier", fun _ =>
Diagram [
  Choice [
    num 0;
    NT "Annotation";
    T "public";
    T "protected";
    T "private";
    T "abstract";
    T "static";
    T "final";
    T "sealed";
    T "non-sealed";
    T "strictfp"]]);
("TypeParameters", fun _ =>
Diagram [Sequence [T "<"; NT "TypeParameterList"; T ">"]]);
("TypeParameterList", fun _ =>
Diagram [
  Sequence [NT "TypeParameter"; ZeroOrMore [Sequence [T ","; NT "TypeParameter"]]]]);
("ClassExtends", fun _ =>
Diagram [Sequence [T "extends"; NT "ClassType"]]);
("ClassImplements", fun _ =>
Diagram [Sequence [T "implements"; NT "InterfaceTypeList"]]);
("InterfaceTypeList", fun _ =>
Diagram [
  Sequence [NT "InterfaceType"; ZeroOrMore [Sequence [T ","; NT "InterfaceType"]]]]);
("ClassPermits", fun _ =>
Diagram [
  Sequence [
    T "permits";
    NT "TypeName";
    ZeroOrMore [Sequence [T ","; NT "TypeName"]]]]);
("ClassBody", fun _ =>
Diagram [Sequence [T "{"; ZeroOrMore [NT "ClassBodyDeclaration"]; T "}"]]);
("ClassBodyDeclaration", fun _ =>
Diagram [
  Choice [
    num 0;
    NT "ClassMemberDeclaration";
    NT "InstanceInitializer";
    NT "StaticInitializer";
    NT "ConstructorDeclaration"]]);
("ClassMemberDeclaration", fun _ =>
Diagram [
  Choice [
    num 0;
    NT "FieldDeclaration";
    NT "MethodDeclaration";
    NT "ClassDeclaration";
    NT "InterfaceDeclaration";
    T ";"]]);
("FieldDeclaration", fun _ =>
Diagram [
  Sequence [
    ZeroOrMore [NT "FieldModifier"];
    NT "UnannType";
    NT "VariableDeclaratorList";
    T ";"]]);
("FieldModifier", fun _ =>
Diagram [
  Choice [
    num 0;
    NT "Annotation";
    T "public";
    T "protected";
    T "private";
    T "static";
    T "final";
    T "transient";
    T "volatile"]]);
("VariableDeclaratorList", fun _ =>
Diagram [
  Sequence [
    NT "VariableDeclarator";
    ZeroOrMore [Sequence [T ","; NT "VariableDeclarator"]]]]);
("VariableDeclarator", fun _ =>
Diagram [
  Sequence [
    NT "VariableDeclaratorId";
    Optional [Sequence [T "="; NT "VariableInitializer"]]]]);
("VariableDeclaratorId", fun _ =>
Diagram [Choice [num 0; Sequence [NT "Identifier"; Optional [NT "Dims"]]; T "_"]]);
("VariableInitializer", fun _ =>
Diagram [Choice [num 0; NT "Expression"; NT "ArrayInitializer"]]);
("UnannType", fun _ =>
Diagram [Choice [num 0; NT "UnannPrimitiveType"; NT "UnannReferenceType"]]);
("UnannPrimitiveType", fun _ =>
Diagram [Choice [num 0; NT "NumericType"; T "boolean"]]);
("UnannReferenceType", fun _ =>
Diagram [
  Choice [
    num 0;
    NT "UnannClassOrInterfaceType";
    NT "UnannTypeVariable";
    NT "UnannArrayType"]]);
("UnannClassOrInterfaceType", fun _ =>
Diagram [Choice [num 0; NT "UnannClassType"; NT "UnannInterfaceType"]]);
("UnannClassType", fun _ =>
Diagram [
  Choice [
    num 0;
    Sequence [NT "TypeIdentifier"; Optional [NT "TypeArguments"]];
    Sequence [
      NT "PackageName";
      T ".";
      ZeroOrMore [NT "Annotation"];
      NT "TypeIdentifier";
      Optional [NT "TypeArguments"]];
    Sequence [
      NT "UnannClassOrInterfaceType";
      T ".";
      ZeroOrMore [NT "Annotation"];
      NT "TypeIdentifier";
      Optional [NT "TypeArguments"]]]]);
("UnannInterfaceType", fun _ =>
Diagram [NT "UnannClassType"]);
("UnannTypeVariable", fun _ =>
Diagram [NT "TypeIdentifier"]);
("UnannArrayType", fun _ =>
Diagram [
  Choice [
    num 0;
    Sequence [NT "UnannPrimitiveType"; NT "Dims"];
    Sequence [NT "UnannClassOrInterfaceType"; NT "Dims"];
    Sequence [NT "UnannTypeVariable"; NT "Dims"]]]);
("MethodDeclaration", fun _ =>
Diagram [
  Sequence [ZeroOrMore [NT "MethodModifier"]; NT "MethodHeader"; NT "MethodBody"]]);
("MethodModifier", fun _ =>
Diagram [
  Choice [
    num 0;
    NT "Annotation";
    T "public";
    T "protected";
    T "private";
    T "abstract";
    T "static";
    T "final";
    T "synchronized";
    T "native";
    T "strictfp"]]);
("MethodHeader", fun _ =>
Diagram [
  Choice [
    num 0;
    Sequence [NT "Result"; NT "MethodDeclarator"; Optional [NT "Throws"]];
    Sequence [
      NT "TypeParameters";
      ZeroOrMore [NT "Annotation"];
      NT "Result";
      NT "MethodDeclarator";
      Optional [NT "Throws"]]]]);
("Result", fun _ =>
Diagram [Choice [num 0; NT "UnannType"; T "void"]]);
("MethodDeclarator", fun _ =>
Diagram [
  Sequence [
    NT "Identifier";
    T "(";
    Optional [Sequence [NT "ReceiverParameter"; T ","]];
    Optional [NT "FormalParameterList"];
    T ")";
    Optional [NT "Dims"]]]);
("ReceiverParameter", fun _ =>
Diagram [
  Sequence [
    ZeroOrMore [NT "Annotation"];
    NT "UnannType";
    Optional [Sequence [NT "Identifier"; T "."]];
    T "this"]]);
("FormalParameterList", fun _ =>
Diagram [
  Sequence [
    NT "FormalParameter";
    ZeroOrMore [Sequence [T ","; NT "FormalParameter"]]]]);
("FormalParameter", fun _ =>
Diagram [
  Choice [
    num 0;
    Sequence [
      ZeroOrMore [NT "VariableModifier"];
      NT "UnannType";
      NT "VariableDeclaratorId"];
    NT "VariableArityParameter"]]);
("VariableArityParameter", fun _ =>
Diagram [
  Sequence [
    ZeroOrMore [NT "VariableModifier"];
    NT "UnannType";
    ZeroOrMore [NT "Annotation"];
    T "...";
    NT "Identifier"]]);
("VariableModifier", fun _ =>
Diagram [Choice [num 0; NT "Annotation"; T "final"]]);
("Throws", fun _ =>
Diagram [Sequence [T "throws"; NT "ExceptionTypeList"]]);
("ExceptionTypeList", fun _ =>
Diagram [
  Sequence [NT "ExceptionType"; ZeroOrMore [Sequence [T ","; NT "ExceptionType"]]]]);
("ExceptionType", fun _ =>
Diagram [Choice [num 0; NT "ClassType"; NT "TypeVariable"]]);
("MethodBody", fun _ =>
Diagram [Choice [num 0; NT "Block"; T ";"]]);
("InstanceInitializer", fun _ =>
Diagram [NT "Block"]);
("StaticInitializer", fun _ =>
Diagram [Sequence [T "static"; NT "Block"]]);
("ConstructorDeclaration", fun _ =>
Diagram [
  Sequence [
    ZeroOrMore [NT "ConstructorModifier"];
    NT "ConstructorDeclarator";
    Optional [NT "Throws"];
    NT "ConstructorBody"]]);
("ConstructorModifier", fun _ =>
Diagram [Choice [num 0; NT "Annotation"; T "public"; T "protected"; T "private"]]);
("ConstructorDeclarator", fun _ =>
Diagram [
  Sequence [
    Optional [NT "TypeParameters"];
    NT "SimpleTypeName";
    T "(";
    Optional [Sequence [NT "ReceiverParameter"; T ","]];
    Optional [NT "FormalParameterList"];
    T ")"]]);
("SimpleTypeName", fun _ =>
Diagram [NT "TypeIdentifier"]);
("ConstructorBody", fun _ =>
Diagram [
  Choice [
    num 0;
    Sequence [
      T "{";
      Optional [NT "BlockStatements"];
      NT "ConstructorInvocation";
      Optional [NT "BlockStatements"];
      T "}"];
    Sequence [T "{"; Optional [NT "BlockStatements"]; T "}"]]]);
("ConstructorInvocation", fun _ =>
Diagram [
  Choice [
    num 0;
    Sequence [
      Optional [NT "TypeArguments"];
      T "this";
      T "(";
      Optional [NT "ArgumentList"];
      T ")";
      T ";"];
    Sequence [
      Optional [NT "TypeArguments"];
      T "super";
      T "(";
      Optional [NT "ArgumentList"];
      T ")";
      T ";"];
    Sequence [
      NT "ExpressionName";
      T ".";
      Optional [NT "TypeArguments"];
      T "super";
      T "(";
      Optional [NT "ArgumentList"];
      T ")";
      T ";"];
    Sequence [
      NT "Primary";
      T ".";
      Optional [NT "TypeArguments"];
      T "super";
      T "(";
      Optional [NT "ArgumentList"];
      T ")";
      T ";"]]]);
("EnumDeclaration", fun _ =>
Diagram [
  Sequence [
    ZeroOrMore [NT "ClassModifier"];
    T "enum";
    NT "TypeIdentifier";
    Optional [NT "ClassImplements"];
    NT "EnumBody"]]);
("EnumBody", fun _ =>
Diagram [
  Sequence [
    T "{";
    Optional [NT "EnumConstantList"];
    Optional [T ","];
    Optional [NT "EnumBodyDeclarations"];
    T "}"]]);
("EnumConstantList", fun _ =>
Diagram [
  Sequence [NT "EnumConstant"; ZeroOrMore [Sequence [T ","; NT "EnumConstant"]]]]);
("EnumConstant", fun _ =>
Diagram [
  Sequence [
    ZeroOrMore [NT "EnumConstantModifier"];
    NT "Identifier";
    Optional [Sequence [T "("; Optional [NT "ArgumentList"]; T ")"]];
    Optional [NT "ClassBody"]]]);
("EnumConstantModifier", fun _ =>
Diagram [NT "Annotation"]);
("EnumBodyDeclarations", fun _ =>
Diagram [Sequence [T ";"; ZeroOrMore [NT "ClassBodyDeclaration"]]]);
("RecordDeclaration", fun _ =>
Diagram [
  Sequence [
    ZeroOrMore [NT "ClassModifier"];
    T "record";
    NT "TypeIdentifier";
    Optional [NT "TypeParameters"];
    NT "RecordHeader";
    Optional [NT "ClassImplements"];
    NT "RecordBody"]]);
("RecordHeader", fun _ =>
Diagram [Sequence [T "("; Optional [NT "RecordComponentList"]; T ")"]]);
("RecordComponentList", fun _ =>
Diagram [
  Sequence [
    NT "RecordComponent";
    ZeroOrMore [Sequence [T ","; NT "RecordComponent"]]]]);
("RecordComponent", fun _ =>
Diagram [
  Choice [
    num 0;
    Sequence [
      ZeroOrMore [NT "RecordComponentModifier"];
      NT "UnannType";
      NT "Identifier"];
    NT "VariableArityRecordComponent"]]);
("VariableArityRecordComponent", fun _ =>
Diagram [
  Sequence [
    ZeroOrMore [NT "RecordComponentModifier"];
    NT "UnannType";
    ZeroOrMore [NT "Annotation"];
    T "...";
    NT "Identifier"]]);
("RecordComponentModifier", fun _ =>
Diagram [NT "Annotation"]);
("RecordBody", fun _ =>
Diagram [Sequence [T "{"; ZeroOrMore [NT "RecordBodyDeclaration"]; T "}"]]);
("RecordBodyDeclaration", fun _ =>
Diagram [
  Choice [num 0; NT "ClassBodyDeclaration"; NT "CompactConstructorDeclaration"]]);
("CompactConstructorDeclaration", fun _ =>
Diagram [
  Sequence [
    ZeroOrMore [NT "ConstructorModifier"];
    NT "SimpleTypeName";
    NT "ConstructorBody"]]);
(* §9 Interfaces *)
("InterfaceDeclaration", fun _ =>
Diagram [
  Choice [
    num 0;
    NT "NormalInterfaceDeclaration";
    NT "AnnotationInterfaceDeclaration"]]);
("NormalInterfaceDeclaration", fun _ =>
Diagram [
  Sequence [
    ZeroOrMore [NT "InterfaceModifier"];
    T "interface";
    NT "TypeIdentifier";
    Optional [NT "TypeParameters"];
    Optional [NT "InterfaceExtends"];
    Optional [NT "InterfacePermits"];
    NT "InterfaceBody"]]);
("InterfaceModifier", fun _ =>
Diagram [
  Choice [
    num 0;
    NT "Annotation";
    T "public";
    T "protected";
    T "private";
    T "abstract";
    T "static";
    T "sealed";
    T "non-sealed";
    T "strictfp"]]);
("InterfaceExtends", fun _ =>
Diagram [Sequence [T "extends"; NT "InterfaceTypeList"]]);
("InterfacePermits", fun _ =>
Diagram [
  Sequence [
    T "permits";
    NT "TypeName";
    ZeroOrMore [Sequence [T ","; NT "TypeName"]]]]);
("InterfaceBody", fun _ =>
Diagram [Sequence [T "{"; ZeroOrMore [NT "InterfaceMemberDeclaration"]; T "}"]]);
("InterfaceMemberDeclaration", fun _ =>
Diagram [
  Choice [
    num 0;
    NT "ConstantDeclaration";
    NT "InterfaceMethodDeclaration";
    NT "ClassDeclaration";
    NT "InterfaceDeclaration";
    T ";"]]);
("ConstantDeclaration", fun _ =>
Diagram [
  Sequence [
    ZeroOrMore [NT "ConstantModifier"];
    NT "UnannType";
    NT "VariableDeclaratorList";
    T ";"]]);
("ConstantModifier", fun _ =>
Diagram [Choice [num 0; NT "Annotation"; T "public"; T "static"; T "final"]]);
("InterfaceMethodDeclaration", fun _ =>
Diagram [
  Sequence [
    ZeroOrMore [NT "InterfaceMethodModifier"];
    NT "MethodHeader";
    NT "MethodBody"]]);
("InterfaceMethodModifier", fun _ =>
Diagram [
  Choice [
    num 0;
    NT "Annotation";
    T "public";
    T "private";
    T "abstract";
    T "default";
    T "static";
    T "strictfp"]]);
("AnnotationInterfaceDeclaration", fun _ =>
Diagram [
  Sequence [
    ZeroOrMore [NT "InterfaceModifier"];
    T "@";
    T "interface";
    NT "TypeIdentifier";
    NT "AnnotationInterfaceBody"]]);
("AnnotationInterfaceBody", fun _ =>
Diagram [
  Sequence [T "{"; ZeroOrMore [NT "AnnotationInterfaceMemberDeclaration"]; T "}"]]);
("AnnotationInterfaceMemberDeclaration", fun _ =>
Diagram [
  Choice [
    num 0;
    NT "AnnotationInterfaceElementDeclaration";
    NT "ConstantDeclaration";
    NT "ClassDeclaration";
    NT "InterfaceDeclaration";
    T ";"]]);
("AnnotationInterfaceElementDeclaration", fun _ =>
Diagram [
  Sequence [
    ZeroOrMore [NT "AnnotationInterfaceElementModifier"];
    NT "UnannType";
    NT "Identifier";
    T "(";
    T ")";
    Optional [NT "Dims"];
    Optional [NT "DefaultValue"];
    T ";"]]);
("AnnotationInterfaceElementModifier", fun _ =>
Diagram [Choice [num 0; NT "Annotation"; T "public"; T "abstract"]]);
("DefaultValue", fun _ =>
Diagram [Sequence [T "default"; NT "ElementValue"]]);
("Annotation", fun _ =>
Diagram [
  Choice [
    num 0;
    NT "NormalAnnotation";
    NT "MarkerAnnotation";
    NT "SingleElementAnnotation"]]);
("NormalAnnotation", fun _ =>
Diagram [
  Sequence [
    T "@";
    NT "TypeName";
    T "(";
    Optional [NT "ElementValuePairList"];
    T ")"]]);
("ElementValuePairList", fun _ =>
Diagram [
  Sequence [
    NT "ElementValuePair";
    ZeroOrMore [Sequence [T ","; NT "ElementValuePair"]]]]);
("ElementValuePair", fun _ =>
Diagram [Sequence [NT "Identifier"; T "="; NT "ElementValue"]]);
("ElementValue", fun _ =>
Diagram [
  Choice [
    num 0;
    NT "ConditionalExpression";
    NT "ElementValueArrayInitializer";
    NT "Annotation"]]);
("ElementValueArrayInitializer", fun _ =>
Diagram [
  Sequence [T "{"; Optional [NT "ElementValueList"]; Optional [T ","]; T "}"]]);
("ElementValueList", fun _ =>
Diagram [
  Sequence [NT "ElementValue"; ZeroOrMore [Sequence [T ","; NT "ElementValue"]]]]);
("MarkerAnnotation", fun _ =>
Diagram [Sequence [T "@"; NT "TypeName"]]);
("SingleElementAnnotation", fun _ =>
Diagram [Sequence [T "@"; NT "TypeName"; T "("; NT "ElementValue"; T ")"]]);
(* §10 Arrays *)
("ArrayInitializer", fun _ =>
Diagram [
  Sequence [T "{"; Optional [NT "VariableInitializerList"]; Optional [T ","]; T "}"]]);
("VariableInitializerList", fun _ =>
Diagram [
  Sequence [
    NT "VariableInitializer";
    ZeroOrMore [Sequence [T ","; NT "VariableInitializer"]]]]);
(* §14 Blocks, Statements, and Patterns *)
("Block", fun _ =>
Diagram [Sequence [T "{"; Optional [NT "BlockStatements"]; T "}"]]);
("BlockStatements", fun _ =>
Diagram [OneOrMore [NT "BlockStatement"]]);
("BlockStatement", fun _ =>
Diagram [
  Choice [
    num 0;
    NT "LocalClassOrInterfaceDeclaration";
    NT "LocalVariableDeclarationStatement";
    NT "Statement"]]);
("LocalClassOrInterfaceDeclaration", fun _ =>
Diagram [Choice [num 0; NT "ClassDeclaration"; NT "NormalInterfaceDeclaration"]]);
("LocalVariableDeclarationStatement", fun _ =>
Diagram [Sequence [NT "LocalVariableDeclaration"; T ";"]]);
("LocalVariableDeclaration", fun _ =>
Diagram [
  Sequence [
    ZeroOrMore [NT "VariableModifier"];
    NT "LocalVariableType";
    NT "VariableDeclaratorList"]]);
("LocalVariableType", fun _ =>
Diagram [Choice [num 0; NT "UnannType"; T "var"]]);
("Statement", fun _ =>
Diagram [
  Choice [
    num 0;
    NT "StatementWithoutTrailingSubstatement";
    NT "LabeledStatement";
    NT "IfThenStatement";
    NT "IfThenElseStatement";
    NT "WhileStatement";
    NT "ForStatement"]]);
("StatementNoShortIf", fun _ =>
Diagram [
  Choice [
    num 0;
    NT "StatementWithoutTrailingSubstatement";
    NT "LabeledStatementNoShortIf";
    NT "IfThenElseStatementNoShortIf";
    NT "WhileStatementNoShortIf";
    NT "ForStatementNoShortIf"]]);
("StatementWithoutTrailingSubstatement", fun _ =>
Diagram [
  Choice [
    num 0;
    NT "Block";
    NT "EmptyStatement";
    NT "ExpressionStatement";
    NT "AssertStatement";
    NT "SwitchStatement";
    NT "DoStatement";
    NT "BreakStatement";
    NT "ContinueStatement";
    NT "ReturnStatement";
    NT "SynchronizedStatement";
    NT "ThrowStatement";
    NT "TryStatement";
    NT "YieldStatement"]]);
("EmptyStatement", fun _ =>
Diagram [T ";"]);
("LabeledStatement", fun _ =>
Diagram [Sequence [NT "Identifier"; T ":"; NT "Statement"]]);
("LabeledStatementNoShortIf", fun _ =>
Diagram [Sequence [NT "Identifier"; T ":"; NT "StatementNoShortIf"]]);
("ExpressionStatement", fun _ =>
Diagram [Sequence [NT "StatementExpression"; T ";"]]);
("StatementExpression", fun _ =>
Diagram [
  Choice [
    num 0;
    NT "Assignment";
    NT "PreIncrementExpression";
    NT "PreDecrementExpression";
    NT "PostIncrementExpression";
    NT "PostDecrementExpression";
    NT "MethodInvocation";
    NT "ClassInstanceCreationExpression"]]);
("IfThenStatement", fun _ =>
Diagram [Sequence [T "if"; T "("; NT "Expression"; T ")"; NT "Statement"]]);
("IfThenElseStatement", fun _ =>
Diagram [
  Sequence [
    T "if";
    T "(";
    NT "Expression";
    T ")";
    NT "StatementNoShortIf";
    T "else";
    NT "Statement"]]);
("IfThenElseStatementNoShortIf", fun _ =>
Diagram [
  Sequence [
    T "if";
    T "(";
    NT "Expression";
    T ")";
    NT "StatementNoShortIf";
    T "else";
    NT "StatementNoShortIf"]]);
("AssertStatement", fun _ =>
Diagram [
  Choice [
    num 0;
    Sequence [T "assert"; NT "Expression"; T ";"];
    Sequence [T "assert"; NT "Expression"; T ":"; NT "Expression"; T ";"]]]);
("SwitchStatement", fun _ =>
Diagram [Sequence [T "switch"; T "("; NT "Expression"; T ")"; NT "SwitchBlock"]]);
("SwitchBlock", fun _ =>
Diagram [
  Choice [
    num 0;
    Sequence [T "{"; OneOrMore [NT "SwitchRule"]; T "}"];
    Sequence [
      T "{";
      ZeroOrMore [NT "SwitchBlockStatementGroup"];
      ZeroOrMore [Sequence [NT "SwitchLabel"; T ":"]];
      T "}"]]]);
("SwitchRule", fun _ =>
Diagram [
  Choice [
    num 0;
    Sequence [NT "SwitchLabel"; T "->"; NT "Expression"; T ";"];
    Sequence [NT "SwitchLabel"; T "->"; NT "Block"];
    Sequence [NT "SwitchLabel"; T "->"; NT "ThrowStatement"]]]);
("SwitchBlockStatementGroup", fun _ =>
Diagram [
  Sequence [
    NT "SwitchLabel";
    T ":";
    ZeroOrMore [Sequence [NT "SwitchLabel"; T ":"]];
    NT "BlockStatements"]]);
("SwitchLabel", fun _ =>
Diagram [
  Choice [
    num 0;
    Sequence [
      T "case";
      NT "CaseConstant";
      ZeroOrMore [Sequence [T ","; NT "CaseConstant"]]];
    Sequence [T "case"; T "null"; Optional [Sequence [T ","; T "default"]]];
    Sequence [
      T "case";
      NT "CasePattern";
      ZeroOrMore [Sequence [T ","; NT "CasePattern"]];
      Optional [NT "Guard"]];
    T "default"]]);
("CaseConstant", fun _ =>
Diagram [NT "ConditionalExpression"]);
("CasePattern", fun _ =>
Diagram [NT "Pattern"]);
("Guard", fun _ =>
Diagram [Sequence [T "when"; NT "Expression"]]);
("WhileStatement", fun _ =>
Diagram [Sequence [T "while"; T "("; NT "Expression"; T ")"; NT "Statement"]]);
("WhileStatementNoShortIf", fun _ =>
Diagram [
  Sequence [T "while"; T "("; NT "Expression"; T ")"; NT "StatementNoShortIf"]]);
("DoStatement", fun _ =>
Diagram [
  Sequence [T "do"; NT "Statement"; T "while"; T "("; NT "Expression"; T ")"; T ";"]]);
("ForStatement", fun _ =>
Diagram [Choice [num 0; NT "BasicForStatement"; NT "EnhancedForStatement"]]);
("ForStatementNoShortIf", fun _ =>
Diagram [
  Choice [
    num 0;
    NT "BasicForStatementNoShortIf";
    NT "EnhancedForStatementNoShortIf"]]);
("BasicForStatement", fun _ =>
Diagram [
  Sequence [
    T "for";
    T "(";
    Optional [NT "ForInit"];
    T ";";
    Optional [NT "Expression"];
    T ";";
    Optional [NT "ForUpdate"];
    T ")";
    NT "Statement"]]);
("BasicForStatementNoShortIf", fun _ =>
Diagram [
  Sequence [
    T "for";
    T "(";
    Optional [NT "ForInit"];
    T ";";
    Optional [NT "Expression"];
    T ";";
    Optional [NT "ForUpdate"];
    T ")";
    NT "StatementNoShortIf"]]);
("ForInit", fun _ =>
Diagram [
  Choice [num 0; NT "StatementExpressionList"; NT "LocalVariableDeclaration"]]);
("ForUpdate", fun _ =>
Diagram [NT "StatementExpressionList"]);
("StatementExpressionList", fun _ =>
Diagram [
  Sequence [
    NT "StatementExpression";
    ZeroOrMore [Sequence [T ","; NT "StatementExpression"]]]]);
("EnhancedForStatement", fun _ =>
Diagram [
  Sequence [
    T "for";
    T "(";
    NT "LocalVariableDeclaration";
    T ":";
    NT "Expression";
    T ")";
    NT "Statement"]]);
("EnhancedForStatementNoShortIf", fun _ =>
Diagram [
  Sequence [
    T "for";
    T "(";
    NT "LocalVariableDeclaration";
    T ":";
    NT "Expression";
    T ")";
    NT "StatementNoShortIf"]]);
("BreakStatement", fun _ =>
Diagram [Sequence [T "break"; Optional [NT "Identifier"]; T ";"]]);
("YieldStatement", fun _ =>
Diagram [Sequence [T "yield"; NT "Expression"; T ";"]]);
("ContinueStatement", fun _ =>
Diagram [Sequence [T "continue"; Optional [NT "Identifier"]; T ";"]]);
("ReturnStatement", fun _ =>
Diagram [Sequence [T "return"; Optional [NT "Expression"]; T ";"]]);
("ThrowStatement", fun _ =>
Diagram [Sequence [T "throw"; NT "Expression"; T ";"]]);
("SynchronizedStatement", fun _ =>
Diagram [Sequence [T "synchronized"; T "("; NT "Expression"; T ")"; NT "Block"]]);
("TryStatement", fun _ =>
Diagram [
  Choice [
    num 0;
    Sequence [T "try"; NT "Block"; NT "Catches"];
    Sequence [T "try"; NT "Block"; Optional [NT "Catches"]; NT "Finally"];
    NT "TryWithResourcesStatement"]]);
("Catches", fun _ =>
Diagram [OneOrMore [NT "CatchClause"]]);
("CatchClause", fun _ =>
Diagram [Sequence [T "catch"; T "("; NT "CatchFormalParameter"; T ")"; NT "Block"]]);
("CatchFormalParameter", fun _ =>
Diagram [
  Sequence [
    ZeroOrMore [NT "VariableModifier"];
    NT "CatchType";
    NT "VariableDeclaratorId"]]);
("CatchType", fun _ =>
Diagram [
  Sequence [NT "UnannClassType"; ZeroOrMore [Sequence [T "|"; NT "ClassType"]]]]);
("Finally", fun _ =>
Diagram [Sequence [T "finally"; NT "Block"]]);
("TryWithResourcesStatement", fun _ =>
Diagram [
  Sequence [
    T "try";
    NT "ResourceSpecification";
    NT "Block";
    Optional [NT "Catches"];
    Optional [NT "Finally"]]]);
("ResourceSpecification", fun _ =>
Diagram [Sequence [T "("; NT "ResourceList"; Optional [T ";"]; T ")"]]);
("ResourceList", fun _ =>
Diagram [Sequence [NT "Resource"; ZeroOrMore [Sequence [T ";"; NT "Resource"]]]]);
("Resource", fun _ =>
Diagram [Choice [num 0; NT "LocalVariableDeclaration"; NT "VariableAccess"]]);
("VariableAccess", fun _ =>
Diagram [Choice [num 0; NT "ExpressionName"; NT "FieldAccess"]]);
("Pattern", fun _ =>
Diagram [Choice [num 0; NT "TypePattern"; NT "RecordPattern"]]);
("TypePattern", fun _ =>
Diagram [NT "LocalVariableDeclaration"]);
("RecordPattern", fun _ =>
Diagram [
  Sequence [NT "ReferenceType"; T "("; Optional [NT "ComponentPatternList"]; T ")"]]);
("ComponentPatternList", fun _ =>
Diagram [
  Sequence [
    NT "ComponentPattern";
    ZeroOrMore [Sequence [T ","; NT "ComponentPattern"]]]]);
("ComponentPattern", fun _ =>
Diagram [Choice [num 0; NT "Pattern"; NT "MatchAllPattern"]]);
("MatchAllPattern", fun _ =>
Diagram [T "_"]);
(* §15 Expressions *)
("Primary", fun _ =>
Diagram [Choice [num 0; NT "PrimaryNoNewArray"; NT "ArrayCreationExpression"]]);
("PrimaryNoNewArray", fun _ =>
Diagram [
  Choice [
    num 0;
    NT "Literal";
    NT "ClassLiteral";
    T "this";
    Sequence [NT "TypeName"; T "."; T "this"];
    Sequence [T "("; NT "Expression"; T ")"];
    NT "ClassInstanceCreationExpression";
    NT "FieldAccess";
    NT "ArrayAccess";
    NT "MethodInvocation";
    NT "MethodReference"]]);
("ClassLiteral", fun _ =>
Diagram [
  Choice [
    num 0;
    Sequence [NT "TypeName"; ZeroOrMore [Sequence [T "["; T "]"]]; T "."; T "class"];
    Sequence [
      NT "NumericType";
      ZeroOrMore [Sequence [T "["; T "]"]];
      T ".";
      T "class"];
    Sequence [T "boolean"; ZeroOrMore [Sequence [T "["; T "]"]]; T "."; T "class"];
    Sequence [T "void"; T "."; T "class"]]]);
("ClassInstanceCreationExpression", fun _ =>
Diagram [
  Choice [
    num 0;
    NT "UnqualifiedClassInstanceCreationExpression";
    Sequence [
      NT "ExpressionName";
      T ".";
      NT "UnqualifiedClassInstanceCreationExpression"];
    Sequence [NT "Primary"; T "."; NT "UnqualifiedClassInstanceCreationExpression"]]]);
("UnqualifiedClassInstanceCreationExpression", fun _ =>
Diagram [
  Sequence [
    T "new";
    Optional [NT "TypeArguments"];
    NT "ClassOrInterfaceTypeToInstantiate";
    T "(";
    Optional [NT "ArgumentList"];
    T ")";
    Optional [NT "ClassBody"]]]);
("ClassOrInterfaceTypeToInstantiate", fun _ =>
Diagram [
  Sequence [
    ZeroOrMore [NT "Annotation"];
    NT "Identifier";
    ZeroOrMore [Sequence [T "."; ZeroOrMore [NT "Annotation"]; NT "Identifier"]];
    Optional [NT "TypeArgumentsOrDiamond"]]]);
("TypeArgumentsOrDiamond", fun _ =>
Diagram [Choice [num 0; NT "TypeArguments"; Sequence [T "<"; T ">"]]]);
("ArrayCreationExpression", fun _ =>
Diagram [
  Choice [
    num 0;
    NT "ArrayCreationExpressionWithoutInitializer";
    NT "ArrayCreationExpressionWithInitializer"]]);
("ArrayCreationExpressionWithoutInitializer", fun _ =>
Diagram [
  Choice [
    num 0;
    Sequence [T "new"; NT "PrimitiveType"; NT "DimExprs"; Optional [NT "Dims"]];
    Sequence [
      T "new";
      NT "ClassOrInterfaceType";
      NT "DimExprs";
      Optional [NT "Dims"]]]]);
("ArrayCreationExpressionWithInitializer", fun _ =>
Diagram [
  Choice [
    num 0;
    Sequence [T "new"; NT "PrimitiveType"; NT "Dims"; NT "ArrayInitializer"];
    Sequence [T "new"; NT "ClassOrInterfaceType"; NT "Dims"; NT "ArrayInitializer"]]]);
("DimExprs", fun _ =>
Diagram [OneOrMore [NT "DimExpr"]]);
("DimExpr", fun _ =>
Diagram [Sequence [ZeroOrMore [NT "Annotation"]; T "["; NT "Expression"; T "]"]]);
("ArrayAccess", fun _ =>
Diagram [
  Choice [
    num 0;
    Sequence [NT "ExpressionName"; T "["; NT "Expression"; T "]"];
    Sequence [NT "PrimaryNoNewArray"; T "["; NT "Expression"; T "]"];
    Sequence [
      NT "ArrayCreationExpressionWithInitializer";
      T "[";
      NT "Expression";
      T "]"]]]);
("FieldAccess", fun _ =>
Diagram [
  Choice [
    num 0;
    Sequence [NT "Primary"; T "."; NT "Identifier"];
    Sequence [T "super"; T "."; NT "Identifier"];
    Sequence [NT "TypeName"; T "."; T "super"; T "."; NT "Identifier"]]]);
("MethodInvocation", fun _ =>
Diagram [
  Choice [
    num 0;
    Sequence [NT "MethodName"; T "("; Optional [NT "ArgumentList"]; T ")"];
    Sequence [
      NT "TypeName";
      T ".";
      Optional [NT "TypeArguments"];
      NT "Identifier";
      T "(";
      Optional [NT "ArgumentList"];
      T ")"];
    Sequence [
      NT "ExpressionName";
      T ".";
      Optional [NT "TypeArguments"];
      NT "Identifier";
      T "(";
      Optional [NT "ArgumentList"];
      T ")"];
    Sequence [
      NT "Primary";
      T ".";
      Optional [NT "TypeArguments"];
      NT "Identifier";
      T "(";
      Optional [NT "ArgumentList"];
      T ")"];
    Sequence [
      T "super";
      T ".";
      Optional [NT "TypeArguments"];
      NT "Identifier";
      T "(";
      Optional [NT "ArgumentList"];
      T ")"];
    Sequence [
      NT "TypeName";
      T ".";
      T "super";
      T ".";
      Optional [NT "TypeArguments"];
      NT "Identifier";
      T "(";
      Optional [NT "ArgumentList"];
      T ")"]]]);
("ArgumentList", fun _ =>
Diagram [Sequence [NT "Expression"; ZeroOrMore [Sequence [T ","; NT "Expression"]]]]);
("MethodReference", fun _ =>
Diagram [
  Choice [
    num 0;
    Sequence [
      NT "ExpressionName";
      T "::";
      Optional [NT "TypeArguments"];
      NT "Identifier"];
    Sequence [NT "Primary"; T "::"; Optional [NT "TypeArguments"]; NT "Identifier"];
    Sequence [
      NT "ReferenceType";
      T "::";
      Optional [NT "TypeArguments"];
      NT "Identifier"];
    Sequence [T "super"; T "::"; Optional [NT "TypeArguments"]; NT "Identifier"];
    Sequence [
      NT "TypeName";
      T ".";
      T "super";
      T "::";
      Optional [NT "TypeArguments"];
      NT "Identifier"];
    Sequence [NT "ClassType"; T "::"; Optional [NT "TypeArguments"]; T "new"];
    Sequence [NT "ArrayType"; T "::"; T "new"]]]);
("Expression", fun _ =>
Diagram [Choice [num 0; NT "LambdaExpression"; NT "AssignmentExpression"]]);
("LambdaExpression", fun _ =>
Diagram [Sequence [NT "LambdaParameters"; T "->"; NT "LambdaBody"]]);
("LambdaParameters", fun _ =>
Diagram [
  Choice [
    num 0;
    Sequence [T "("; Optional [NT "LambdaParameterList"]; T ")"];
    NT "ConciseLambdaParameter"]]);
("LambdaParameterList", fun _ =>
Diagram [
  Choice [
    num 0;
    Sequence [
      NT "NormalLambdaParameter";
      ZeroOrMore [Sequence [T ","; NT "NormalLambdaParameter"]]];
    Sequence [
      NT "ConciseLambdaParameter";
      ZeroOrMore [Sequence [T ","; NT "ConciseLambdaParameter"]]]]]);
("NormalLambdaParameter", fun _ =>
Diagram [
  Choice [
    num 0;
    Sequence [
      ZeroOrMore [NT "VariableModifier"];
      NT "LambdaParameterType";
      NT "VariableDeclaratorId"];
    NT "VariableArityParameter"]]);
("LambdaParameterType", fun _ =>
Diagram [Choice [num 0; NT "UnannType"; T "var"]]);
("ConciseLambdaParameter", fun _ =>
Diagram [Choice [num 0; NT "Identifier"; T "_"]]);
("LambdaBody", fun _ =>
Diagram [Choice [num 0; NT "Expression"; NT "Block"]]);
("AssignmentExpression", fun _ =>
Diagram [Choice [num 0; NT "ConditionalExpression"; NT "Assignment"]]);
("Assignment", fun _ =>
Diagram [Sequence [NT "LeftHandSide"; NT "AssignmentOperator"; NT "Expression"]]);
("LeftHandSide", fun _ =>
Diagram [Choice [num 0; NT "ExpressionName"; NT "FieldAccess"; NT "ArrayAccess"]]);
("AssignmentOperator", fun _ =>
Diagram [
  Choice [
    num 0;
    T "=";
    T "*=";
    T "/=";
    T "%=";
    T "+=";
    T "-=";
    T "<<=";
    T ">>=";
    T ">>>=";
    T "&=";
    T "^=";
    T "|="]]);
("ConditionalExpression", fun _ =>
Diagram [
  Choice [
    num 0;
    NT "ConditionalOrExpression";
    Sequence [
      NT "ConditionalOrExpression";
      T "?";
      NT "Expression";
      T ":";
      NT "ConditionalExpression"];
    Sequence [
      NT "ConditionalOrExpression";
      T "?";
      NT "Expression";
      T ":";
      NT "LambdaExpression"]]]);
("ConditionalOrExpression", fun _ =>
Diagram [chain "ConditionalAndExpression" ["||"]]);
("ConditionalAndExpression", fun _ =>
Diagram [chain "InclusiveOrExpression" ["&&"]]);
("InclusiveOrExpression", fun _ =>
Diagram [chain "ExclusiveOrExpression" ["|"]]);
("ExclusiveOrExpression", fun _ =>
Diagram [chain "AndExpression" ["^"]]);
("AndExpression", fun _ =>
Diagram [chain "EqualityExpression" ["&"]]);
("EqualityExpression", fun _ =>
Diagram [chain "RelationalExpression" ["=="; "!="]]);
("RelationalExpression", fun _ =>
Diagram [
  Choice [
    num 0;
    chain "ShiftExpression" ["<"; ">"; "<="; ">="];
    NT "InstanceofExpression"]]);
("InstanceofExpression", fun _ =>
Diagram [
  Choice [
    num 0;
    Sequence [NT "RelationalExpression"; T "instanceof"; NT "ReferenceType"];
    Sequence [NT "RelationalExpression"; T "instanceof"; NT "Pattern"]]]);
("ShiftExpression", fun _ =>
Diagram [chain "AdditiveExpression" ["<<"; ">>"; ">>>"]]);
("AdditiveExpression", fun _ =>
Diagram [chain "MultiplicativeExpression" ["+"; "-"]]);
("MultiplicativeExpression", fun _ =>
Diagram [chain "UnaryExpression" ["*"; "/"; "%"]]);
("UnaryExpression", fun _ =>
Diagram [
  Choice [
    num 0;
    NT "PreIncrementExpression";
    NT "PreDecrementExpression";
    Sequence [T "+"; NT "UnaryExpression"];
    Sequence [T "-"; NT "UnaryExpression"];
    NT "UnaryExpressionNotPlusMinus"]]);
("PreIncrementExpression", fun _ =>
Diagram [Sequence [T "++"; NT "UnaryExpression"]]);
("PreDecrementExpression", fun _ =>
Diagram [Sequence [T "--"; NT "UnaryExpression"]]);
("UnaryExpressionNotPlusMinus", fun _ =>
Diagram [
  Choice [
    num 0;
    NT "PostfixExpression";
    Sequence [T "~"; NT "UnaryExpression"];
    Sequence [T "!"; NT "UnaryExpression"];
    NT "CastExpression";
    NT "SwitchExpression"]]);
("PostfixExpression", fun _ =>
Diagram [
  Choice [
    num 0;
    NT "Primary";
    NT "ExpressionName";
    NT "PostIncrementExpression";
    NT "PostDecrementExpression"]]);
("PostIncrementExpression", fun _ =>
Diagram [Sequence [NT "PostfixExpression"; T "++"]]);
("PostDecrementExpression", fun _ =>
Diagram [Sequence [NT "PostfixExpression"; T "--"]]);
("CastExpression", fun _ =>
Diagram [
  Choice [
    num 0;
    Sequence [T "("; NT "PrimitiveType"; T ")"; NT "UnaryExpression"];
    Sequence [
      T "(";
      NT "ReferenceType";
      ZeroOrMore [NT "AdditionalBound"];
      T ")";
      NT "UnaryExpressionNotPlusMinus"];
    Sequence [
      T "(";
      NT "ReferenceType";
      ZeroOrMore [NT "AdditionalBound"];
      T ")";
      NT "LambdaExpression"]]]);
("SwitchExpression", fun _ =>
Diagram [Sequence [T "switch"; T "("; NT "Expression"; T ")"; NT "SwitchBlock"]])
].

Definition rules : JsMap.t DiagramFactory :=
fold_left (fun m r => JsMap.set m (fst r) (snd r)) registrations JsMap.empty.

(** Expose safe accessors for React UI. *)
Definition getRuleFactory (name : string) : option DiagramFactory :=
JsMap.get rules name.

Definition createRuleDiagram (name : string) : M RR.Val :=
Java21.createRuleDiagram lib rules name.

End WithLibrary.

End Java21Registry.

(* ================================================================== *)
(** ** src/features/grammar/ebnfDefinitions.ts: the accessor           *)
(* ================================================================== *)

Module EbnfAccess.

(** What [EBNF_DEFINITIONS[name]] finds: the text stored under an own key,
  or no own key (then the expression is [undefined], or a member
  inherited from [Object.prototype] when the name is one of those). *)
Inductive Lookup :=
| OwnText (text : string)
| NotOwn.

(** Gets the EBNF definition for a given rule name. *)
Definition getEbnfDefinition (name : string) : Lookup :=
match JsMap.get Ebnf.EBNF_DEFINITIONS name with
| Some text => OwnText text
| None => NotOwn
end.

(** What [EBNF_DEFINITIONS[name]] is when [name] is no own key: the object
  is an object literal, so the lookup goes on to [Object.prototype], where
  [__proto__] gives that prototype object itself, the names of its
  methods give functions, and any other name gives [undefined]. *)
Inductive Inherited :=
| NoMember
| FunctionMember
| PrototypeObject.

Definition objectPrototypeMethods : list string :=
["constructor"; "hasOwnProperty"; "isPrototypeOf"; "propertyIsEnumerable";
 "toLocaleString"; "toString"; "valueOf"; "__defineGetter__";
 "__defineSetter__"; "__lookupGetter__"; "__lookupSetter__"].

Definition inherited (name : string) : Inherited :=
if String.eqb name "__proto__" then PrototypeObject
else if existsb (String.eqb name) objectPrototypeMethods then FunctionMember
else NoMember.

End EbnfAccess.

(* ================================================================== *)
(** ** src/components/RuleDiagram.tsx and RuleList.tsx: what is rendered *)
(* ================================================================== *)

Module Page.

(** React refuses an object that is no element as a child: rendering it
  throws an [Error] (its message starts with these words). *)
Definition invalidChild : Thrown :=
Error "Objects are not valid as a React child".

(** One [<div className="rule">]: its [id], its heading, the markup put into
  the [svgwrap] element, and the text inside [<pre>] when the [<details>]
  block is rendered. *)
Record RuleView := mkRuleView {
elementId : string;
heading : string;
svgHtml : string;
ebnfBlock : option string
}.

(** [{ebnf && (<details ...><pre ...>{ebnf}</pre></details>)}]: a falsy
  [ebnf] (undefined, or an empty text) renders no block; a text is the
  content of [<pre>]; a function as a child renders nothing inside
  [<pre>]; the prototype object as a child makes React throw. *)
Definition renderEbnf (name : string) : M (option string) :=
match EbnfAccess.getEbnfDefinition name with
| EbnfAccess.OwnText text =>
    ret (if JsString.isEmpty text then None else Some text)
| EbnfAccess.NotOwn =>
    match EbnfAccess.inherited name with
    | EbnfAccess.NoMember => ret None
    | EbnfAccess.FunctionMember => ret (Some EmptyString)
    | EbnfAccess.PrototypeObject => throw invalidChild
    end
end.

(** The component [RuleDiagram] of the Java 25 application: the [svg] memo
  is computed first, then the [ebnf] memo, then the element is rendered. *)
Definition RuleDiagram (lib : RR.Library) (name : string) : M RuleView :=
svg <- RuleDiagram.svg lib name ;;
block <- renderEbnf name ;;
ret (mkRuleView ("rule-" ++ name) name svg block).

(** [names.map((name) => <RuleDiagram key={name} name={name} />)]: the
  children are rendered in order, and what one of them throws ends the
  rendering. *)
Fixpoint RuleList (lib : RR.Library) (names : list string) : M (list RuleView) :=
match names with
| [] => ret []
| name :: names' =>
    v <- RuleDiagram lib name ;;
    vs <- RuleList lib names' ;;
    ret (v :: vs)
end.

(** The same two components in the older application: no EBNF block, and
  the registry of javaGrammar.ts. *)
Definition RuleDiagram21 (lib : RR.Library) (name : string) : M (string * string * string) :=
svg <- RuleDiagram.svg21 lib (Java21Registry.rules lib) name ;;
ret ("rule-" ++ name, name, svg).

Fixpoint RuleList21 (lib : RR.Library) (names : list string)
: M (list (string * string * string)) :=
match names with
| [] => ret []
| name :: names' =>
    v <- RuleDiagram21 lib name ;;
    vs <- RuleList21 lib names' ;;
    ret (v :: vs)
end.

End Page.

(* ================================================================== *)
(** ** src/app/App.tsx (Java 25): sections, expansion state, main view *)
(* ================================================================== *)

Module App25.
Import JsString.
Import Java25.

(** A [SectionId] is the string literal of its name. *)
Definition sectionName (s : SectionId) : string :=
match s with
| lexical => "lexical" | types => "types" | names => "names"
| packages => "packages" | classes => "classes"
| interfaces => "interfaces" | arrays => "arrays"
| statements => "statements" | expressions => "expressions"
end.

(** [Set.prototype.delete]. *)
Definition Set_delete (s : JsSet.t) (x : string) : JsSet.t :=
filter (fun y => negb (String.eqb x y)) s.

(** [useState(() => new Set([SECTION_ORDER[0]]))]. *)
Definition initialExpanded : JsSet.t :=
JsSet.addAll JsSet.empty (map sectionName (firstn 1 SECTION_ORDER)).

(** The updater of [toggleSection]:
<<
  const next = new Set(prev);
  if (next.has(sectionId)) next.delete(sectionId); else next.add(sectionId);
  return next;
>> *)
Definition toggleSection (sectionId : SectionId) (prev : JsSet.t) : JsSet.t :=
if JsSet.has prev (sectionName sectionId)
then Set_delete prev (sectionName sectionId)
else JsSet.add prev (sectionName sectionId).

(** [new Set(SECTION_ORDER)] and [new Set()]. *)
Definition expandAll : JsSet.t :=
JsSet.addAll JsSet.empty (map sectionName SECTION_ORDER).

Definition collapseAll : JsSet.t := JsSet.empty.

(** [for (const s of SECTION_ORDER) out[s] = filterNames(SECTION_RULES[s])]. *)
Definition filteredBySection (query : string) (s : SectionId) : list string :=
App.filterNames query (SECTION_RULES s).

(** [query.trim().length > 0]. *)
Definition hasFilterQuery (query : string) : bool :=
(0 <? String.length (trim query))%nat.

(** One [<section>] of [<main>]: its [id], the title, the rule count shown
  in the header, [aria-expanded], and the names given to [RuleList] when
  the content is rendered. *)
Record SectionView := mkSectionView {
sectionId : string;
title : string;
ruleCount : nat;
ariaExpanded : bool;
ruleList : option (list string)
}.

(** The body of [SECTION_ORDER.map((s) => ...)] in [<main>]; [None] is the
  [return null] of an empty section while filtering. *)
Definition renderSection (query : string) (expandedSections : JsSet.t)
(s : SectionId) : option SectionView :=
let ruleCount := List.length (filteredBySection query s) in
let isExpanded :=
  if hasFilterQuery query then (0 <? ruleCount)%nat
  else JsSet.has expandedSections (sectionName s) in
if hasFilterQuery query && (ruleCount =? 0)%nat then None
else Some (mkSectionView (sectionName s) (SECTION_TITLES s) ruleCount isExpanded
             (if isExpanded then Some (filteredBySection query s) else None)).

Definition renderMain (query : string) (expandedSections : JsSet.t)
: list (option SectionView) :=
map (renderSection query expandedSections) SECTION_ORDER.

(** The links of [<nav>]: [href] and text. *)
Definition renderNav : list (string * string) :=
map (fun s => ("#" ++ sectionName s, SECTION_TITLES s)) SECTION_ORDER.

(** The names a rendered section hands to its [RuleList]. *)
Definition listed (v : option SectionView) : list string :=
match v with
| Some (mkSectionView _ _ _ _ (Some l)) => l
| _ => []
end.

(** The rule names that reach a [RuleList], in page order. *)
Definition renderedNames (query : string) (expandedSections : JsSet.t)
: list string :=
flat_map listed (renderMain query expandedSections).

End App25.

(* ================================================================== *)
(** ** src/app/App.tsx (older version): every section, always          *)
(* ================================================================== *)

Module App21.
Import Java21Registry.

Definition sectionName (s : SectionId) : string :=
match s with
| lexical => "lexical" | types => "types" | names => "names"
| packages => "packages" | classes => "classes"
| interfaces => "interfaces" | arrays => "arrays"
| statements => "statements" | expressions => "expressions"
end.

Definition filteredBySection (query : string) (s : SectionId) : list string :=
App.filterNames query (SECTION_RULES s).

(** One [<section>]: its [id], the heading and the names given to
  [RuleList]. *)
Definition renderMain (query : string) : list (string * string * list string) :=
map (fun s => (sectionName s, SECTION_TITLES s, filteredBySection query s))
  SECTION_ORDER.

End App21.

(* ================================================================== *)
(** ** What the package draws                                          *)
(* ================================================================== *)

Module Drawing.
Import RR.

(** Characters that markup shows as they are: the package escapes some
    punctuation, never letters, digits or spaces. *)
Definition plainChar (c : ascii) : bool :=
  let n := nat_of_ascii c in
  ((48 <=? n)%nat && (n <=? 57)%nat)
  || ((65 <=? n)%nat && (n <=? 90)%nat)
  || ((97 <=? n)%nat && (n <=? 122)%nat)
  || (n =? 32)%nat.

Definition plain (text : string) : bool := allChars plainChar text.

(** The texts of the leaves of a tree, left to right. *)
Fixpoint texts (v : Val) : list string :=
  match v with
  | VNode Terminal [VString text] => [text]
  | VNode NonTerminal [VString text] => [text]
  | VNode Comment [VString text] => [text]
  | VNode _ args => flat_map texts args
  | _ => []
  end.

(** A further point of the contract: the markup of a diagram shows every
    plain text of its leaves as it is. *)
Definition ShowsPlainText (lib : Library) : Prop :=
  forall args text,
    In text (flat_map texts args) -> plain text = true ->
    exists markup,
      Contract.markupOf (toSVG lib Diagram args) (toString lib Diagram args)
      = Some markup
      /\ JsString.Contains markup text.

End Drawing.

(* ================================================================== *)
(** ** The package with a state of its own                             *)
(* ================================================================== *)

(** The embedding above takes the package as functions of the arguments.
    A JavaScript package may keep state between invocations (counters,
    caches, the document it draws into).  Here every operation of the
    package sees that state and leaves a new one, and the code of
    java25Grammar.ts, RuleDiagram.tsx and diagramToSvg.ts is threaded
    through it, invocation by invocation. *)
Module Stateful.
Import JsString.
Import RR.

(** The package: the source text of each export, what calling and
    constructing an export does, and what the members [toSVG] and
    [toString] of a node yield when [diagramToSvgString] uses them. *)
Record Package (St : Type) := mkPackage {
  source : Kind -> string;
  call : Kind -> list Val -> St -> St * Result Val;
  construct : Kind -> list Val -> St -> St * Result Val;
  members : Kind -> list Val -> St -> St * (Member SvgValue * Member string)
}.
Arguments mkPackage {St} source call construct members.
Arguments source {St} p k.
Arguments call {St} p k args s.
Arguments construct {St} p k args s.
Arguments members {St} p k args s.

(** A computation over the state of the package: the state it leaves, the
    invocations it made and its result. *)
Definition MS (St A : Type) : Type := St -> St * M A.

Section WithState.
Context {St : Type}.

Definition retS {A} (a : A) : MS St A := fun s => (s, ret a).

Definition throwS {A} (e : Thrown) : MS St A := fun s => (s, throw e).

Definition bindS {A B} (m : MS St A) (f : A -> MS St B) : MS St B :=
  fun s =>
    match m s with
    | (s1, (l, Ok a)) =>
        match f a s1 with
        | (s2, (l', r)) => (s2, ((l ++ l')%list, r))
        end
    | (s1, (l, Throw e)) => (s1, (l, Throw e))
    end.

(** [try { m } catch (e) { h e }]. *)
Definition try_catchS {A} (m : MS St A) (h : Thrown -> MS St A) : MS St A :=
  fun s =>
    match m s with
    | (s1, (l, Ok a)) => (s1, (l, Ok a))
    | (s1, (l, Throw e)) =>
        match h e s1 with
        | (s2, (l', r)) => (s2, ((l ++ l')%list, r))
        end
    end.

(** Argument expressions are evaluated left to right before a call. *)
Fixpoint evalArgs (es : list (MS St Val)) : MS St (list Val) :=
  match es with
  | [] => retS []
  | e :: es' =>
      bindS e (fun v => bindS (evalArgs es') (fun vs => retS (v :: vs)))
  end.

Definition apply_ (f : list Val -> MS St Val) (es : list (MS St Val)) : MS St Val :=
  bindS (evalArgs es) f.

Definition str (s : string) : MS St Val := retS (VString s).
Definition num (n : Z) : MS St Val := retS (VNumber n).

Definition Factory := unit -> MS St Val.

(** The invocations and the result of a computation do not depend on the
    state it starts from. *)
Definition StateFree {A} (m : MS St A) : Prop :=
  forall s s', snd (m s) = snd (m s').

(** An argument expression invokes the package, or is a plain value. *)
Definition Invokes (m : MS St Val) : Prop :=
  (forall s, trace (snd (m s)) <> []) \/ exists v, forall s, m s = (s, ret v).

Variable pkg : Package St.

Definition invokeCall (k : Kind) (args : list Val) : MS St Val :=
  fun s => let (s', r) := call pkg k args s in (s', ([Called k args], r)).

Definition invokeNew (k : Kind) (args : list Val) : MS St Val :=
  fun s => let (s', r) := construct pkg k args s in (s', ([Constructed k args], r)).

(** [rr] of java25Grammar.ts. *)
Definition rr (fn : Kind) (args : list Val) : MS St Val :=
  if Java25.startsWithClass (source pkg fn) then invokeNew fn args
  else
    try_catchS (invokeCall fn args)
      (fun err =>
         let msg := errorText err in
         if Java25.mustBeConstructed msg then invokeNew fn args else throwS err).

Definition D items := apply_ (rr Diagram) items.
Definition Seq items := apply_ (rr Sequence) items.
Definition Ch items := apply_ (rr Choice) items.
Definition Opt items := apply_ (rr Optional) items.
Definition OOM items := apply_ (rr OneOrMore) items.
Definition ZOM items := apply_ (rr ZeroOrMore) items.
Definition Stk items := apply_ (rr Stack) items.
Definition Cmt (text : string) rest := apply_ (rr Comment) (str text :: rest).
Definition T (text : string) rest := apply_ (rr Terminal) (str text :: rest).
Definition NT (text : string) rest := apply_ (rr NonTerminal) (str text :: rest).

(** The diagram factory map of java25Grammar.ts, rule by rule as above. *)
Definition registrations : list (string * Factory) := [
  (* §3 Lexical Structure *)
  ("Identifier", fun _ =>
    D [
      Seq [
        NT "IdentifierChars" [];
        Cmt "but not ReservedKeyword, BooleanLiteral, or NullLiteral" []]]);
  ("IdentifierChars", fun _ =>
    D [Seq [NT "JavaLetter" []; ZOM [NT "JavaLetterOrDigit" []]]]);
  ("JavaLetter", fun _ =>
    D [Cmt "any Unicode character that is a Java letter" []]);
  ("JavaLetterOrDigit", fun _ =>
    D [Cmt "any Unicode character that is a Java letter-or-digit" []]);
  ("TypeIdentifier", fun _ =>
    D [
      Seq [
        NT "Identifier" [];
        Cmt "but not permits, record, sealed, var, or yield" []]]);
  ("UnqualifiedMethodIdentifier", fun _ =>
    D [Seq [NT "Identifier" []; Cmt "but not yield" []]]);
  ("Literal", fun _ =>
    D [
      Ch [
        num 0;
        NT "IntegerLiteral" [];
        NT "FloatingPointLiteral" [];
        NT "BooleanLiteral" [];
        NT "CharacterLiteral" [];
        NT "StringLiteral" [];
        NT "TextBlock" [];
        NT "NullLiteral" []]]);
  (* §4 Types, Values, and Variables *)
  ("Type", fun _ =>
    D [Ch [num 0; NT "PrimitiveType" []; NT "ReferenceType" []]]);
  ("PrimitiveType", fun _ =>
    D [
      Ch [
        num 0;
        Seq [ZOM [NT "Annotation" []]; NT "NumericType" []];
        Seq [ZOM [NT "Annotation" []]; T "boolean" []]]]);
  ("NumericType", fun _ =>
    D [Ch [num 0; NT "IntegralType" []; NT "FloatingPointType" []]]);
  ("IntegralType", fun _ =>
    D [Ch [num 0; T "byte" []; T "short" []; T "int" []; T "long" []; T "char" []]]);
  ("FloatingPointType", fun _ =>
    D [Ch [num 0; T "float" []; T "double" []]]);
  ("ReferenceType", fun _ =>
    D [
      Ch [
        num 0;
        NT "ClassOrInterfaceType" [];
        NT "TypeVariable" [];
        NT "ArrayType" []]]);
  ("ClassOrInterfaceType", fun _ =>
    D [Ch [num 0; NT "ClassType" []; NT "InterfaceType" []]]);
  ("ClassType", fun _ =>
    D [
      Ch [
        num 0;
        Seq [
          ZOM [NT "Annotation" []];
          NT "TypeIdentifier" [];
          Opt [NT "TypeArguments" []]];
        Seq [
          NT "PackageName" [];
          T "." [];
          ZOM [NT "Annotation" []];
          NT "TypeIdentifier" [];
          Opt [NT "TypeArguments" []]];
        Seq [
          NT "ClassOrInterfaceType" [];
          T "." [];
          ZOM [NT "Annotation" []];
          NT "TypeIdentifier" [];
          Opt [NT "TypeArguments" []]]]]);
  ("InterfaceType", fun _ =>
    D [NT "ClassType" []]);
  ("TypeVariable", fun _ =>
    D [Seq [ZOM [NT "Annotation" []]; NT "TypeIdentifier" []]]);
  ("ArrayType", fun _ =>
    D [
      Ch [
        num 0;
        Seq [NT "PrimitiveType" []; NT "Dims" []];
        Seq [NT "ClassOrInterfaceType" []; NT "Dims" []];
        Seq [NT "TypeVariable" []; NT "Dims" []]]]);
  ("Dims", fun _ =>
    D [OOM [Seq [ZOM [NT "Annotation" []]; T "[" []; T "]" []]]]);
  ("TypeParameter", fun _ =>
    D [
      Seq [
        ZOM [NT "TypeParameterModifier" []];
        NT "TypeIdentifier" [];
        Opt [NT "TypeBound" []]]]);
  ("TypeParameterModifier", fun _ =>
    D [NT "Annotation" []]);
  ("TypeBound", fun _ =>
    D [
      Ch [
        num 0;
        Seq [T "extends" []; NT "TypeVariable" []];
        Seq [
          T "extends" [];
          NT "ClassOrInterfaceType" [];
          ZOM [NT "AdditionalBound" []]]]]);
  ("AdditionalBound", fun _ =>
    D [Seq [T "&" []; NT "InterfaceType" []]]);
  ("TypeArguments", fun _ =>
    D [Seq [T "<" []; NT "TypeArgumentList" []; T ">" []]]);
  ("TypeArgumentList", fun _ =>
    D [Seq [NT "TypeArgument" []; ZOM [Seq [T "," []; NT "TypeArgument" []]]]]);
  ("TypeArgument", fun _ =>
    D [Ch [num 0; NT "ReferenceType" []; NT "Wildcard" []]]);
  ("Wildcard", fun _ =>
    D [Seq [ZOM [NT "Annotation" []]; T "?" []; Opt [NT "WildcardBounds" []]]]);
  ("WildcardBounds", fun _ =>
    D [
      Ch [
        num 0;
        Seq [T "extends" []; NT "ReferenceType" []];
        Seq [T "super" []; NT "ReferenceType" []]]]);
  (* §6 Names *)
  ("ModuleName", fun _ =>
    D [Seq [NT "Identifier" []; ZOM [Seq [T "." []; NT "Identifier" []]]]]);
  ("PackageName", fun _ =>
    D [Seq [NT "Identifier" []; ZOM [Seq [T "." []; NT "Identifier" []]]]]);
  ("TypeName", fun _ =>
    D [
      Ch [
        num 0;
        NT "TypeIdentifier" [];
        Seq [NT "PackageOrTypeName" []; T "." []; NT "TypeIdentifier" []]]]);
  ("ExpressionName", fun _ =>
    D [
      Ch [
        num 0;
        NT "Identifier" [];
        Seq [NT "AmbiguousName" []; T "." []; NT "Identifier" []]]]);
  ("MethodName", fun _ =>
    D [NT "UnqualifiedMethodIdentifier" []]);
  ("PackageOrTypeName", fun _ =>
    D [Seq [NT "Identifier" []; ZOM [Seq [T "." []; NT "Identifier" []]]]]);
  ("AmbiguousName", fun _ =>
    D [Seq [NT "Identifier" []; ZOM [Seq [T "." []; NT "Identifier" []]]]]);
  (* §7 Packages and Modules *)
  ("CompilationUnit", fun _ =>
    D [
      Ch [
        num 0;
        NT "OrdinaryCompilationUnit" [];
        NT "CompactCompilationUnit" [];
        NT "ModularCompilationUnit" []]]);
  ("OrdinaryCompilationUnit", fun _ =>
    D [
      Seq [
        Opt [NT "PackageDeclaration" []];
        ZOM [NT "ImportDeclaration" []];
        ZOM [NT "TopLevelClassOrInterfaceDeclaration" []]]]);
  ("ModularCompilationUnit", fun _ =>
    D [Seq [ZOM [NT "ImportDeclaration" []]; NT "ModuleDeclaration" []]]);
  ("PackageDeclaration", fun _ =>
    D [
      Seq [
        ZOM [NT "PackageModifier" []];
        T "package" [];
        NT "Identifier" [];
        ZOM [Seq [T "." []; NT "Identifier" []]];
        T ";" []]]);
  ("PackageModifier", fun _ =>
    D [NT "Annotation" []]);
  ("ImportDeclaration", fun _ =>
    D [
      Ch [
        num 0;
        NT "SingleTypeImportDeclaration" [];
        NT "TypeImportOnDemandDeclaration" [];
        NT "SingleStaticImportDeclaration" [];
        NT "StaticImportOnDemandDeclaration" [];
        NT "SingleModuleImportDeclaration" []]]);
  ("SingleTypeImportDeclaration", fun _ =>
    D [Seq [T "import" []; NT "TypeName" []; T ";" []]]);
  ("TypeImportOnDemandDeclaration", fun _ =>
    D [Seq [T "import" []; NT "PackageOrTypeName" []; T "." []; T "*" []; T ";" []]]);
  ("SingleStaticImportDeclaration", fun _ =>
    D [
      Seq [
        T "import" [];
        T "static" [];
        NT "TypeName" [];
        T "." [];
        NT "Identifier" [];
        T ";" []]]);
  ("StaticImportOnDemandDeclaration", fun _ =>
    D [
      Seq [
        T "import" [];
        T "static" [];
        NT "TypeName" [];
        T "." [];
        T "*" [];
        T ";" []]]);
  ("SingleModuleImportDeclaration", fun _ =>
    D [Seq [T "import" []; T "module" []; NT "ModuleName" []; T ";" []]]);
  ("TopLevelClassOrInterfaceDeclaration", fun _ =>
    D [Ch [num 0; NT "ClassDeclaration" []; NT "InterfaceDeclaration" []; T ";" []]]);
  ("ModuleDeclaration", fun _ =>
    D [
      Seq [
        ZOM [NT "Annotation" []];
        Opt [T "open" []];
        T "module" [];
        NT "Identifier" [];
        ZOM [Seq [T "." []; NT "Identifier" []]];
        T "{" [];
        ZOM [NT "ModuleDirective" []];
        T "}" []]]);
  ("ModuleDirective", fun _ =>
    D [
      Ch [
        num 0;
        Seq [
          T "requires" [];
          ZOM [NT "RequiresModifier" []];
          NT "ModuleName" [];
          T ";" []];
        Seq [
          T "exports" [];
          NT "PackageName" [];
          Opt [
            Seq [
              T "to" [];
              NT "ModuleName" [];
              ZOM [Seq [T "," []; NT "ModuleName" []]]]];
          T ";" []];
        Seq [
          T "opens" [];
          NT "PackageName" [];
          Opt [
            Seq [
              T "to" [];
              NT "ModuleName" [];
              ZOM [Seq [T "," []; NT "ModuleName" []]]]];
          T ";" []];
        Seq [T "uses" []; NT "TypeName" []; T ";" []];
        Seq [
          T "provides" [];
          NT "TypeName" [];
          T "with" [];
          NT "TypeName" [];
          ZOM [Seq [T "," []; NT "TypeName" []]];
          T ";" []]]]);
  ("RequiresModifier", fun _ =>
    D [Ch [num 0; T "transitive" []; T "static" []]]);
  (* §8 Classes *)
  ("ClassDeclaration", fun _ =>
    D [
      Ch [
        num 0;
        NT "NormalClassDeclaration" [];
        NT "EnumDeclaration" [];
        NT "RecordDeclaration" []]]);
  ("NormalClassDeclaration", fun _ =>
    D [
      Seq [
        ZOM [NT "ClassModifier" []];
        T "class" [];
        NT "TypeIdentifier" [];
        Opt [NT "TypeParameters" []];
        Opt [NT "ClassExtends" []];
        Opt [NT "ClassImplements" []];
        Opt [NT "ClassPermits" []];
        NT "ClassBody" []]]);
  ("ClassModifier", fun _ =>
    D [
      Ch [
        num 0;
        NT "Annotation" [];
        T "public" [];
        T "protected" [];
        T "private" [];
        T "abstract" [];
        T "static" [];
        T "final" [];
        T "sealed" [];
        T "non-sealed" [];
        T "strictfp" []]]);
  ("TypeParameters", fun _ =>
    D [Seq [T "<" []; NT "TypeParameterList" []; T ">" []]]);
  ("TypeParameterList", fun _ =>
    D [Seq [NT "TypeParameter" []; ZOM [Seq [T "," []; NT "TypeParameter" []]]]]);
  ("ClassExtends", fun _ =>
    D [Seq [T "extends" []; NT "ClassType" []]]);
  ("ClassImplements", fun _ =>
    D [Seq [T "implements" []; NT "InterfaceTypeList" []]]);
  ("InterfaceTypeList", fun _ =>
    D [Seq [NT "InterfaceType" []; ZOM [Seq [T "," []; NT "InterfaceType" []]]]]);
  ("ClassPermits", fun _ =>
    D [
      Seq [T "permits" []; NT "TypeName" []; ZOM [Seq [T "," []; NT "TypeName" []]]]]);
  ("ClassBody", fun _ =>
    D [Seq [T "{" []; ZOM [NT "ClassBodyDeclaration" []]; T "}" []]]);
  ("ClassBodyDeclaration", fun _ =>
    D [
      Ch [
        num 0;
        NT "ClassMemberDeclaration" [];
        NT "InstanceInitializer" [];
        NT "StaticInitializer" [];
        NT "ConstructorDeclaration" []]]);
  ("ClassMemberDeclaration", fun _ =>
    D [
      Ch [
        num 0;
        NT "FieldDeclaration" [];
        NT "MethodDeclaration" [];
        NT "ClassDeclaration" [];
        NT "InterfaceDeclaration" [];
        T ";" []]]);
  ("FieldDeclaration", fun _ =>
    D [
      Seq [
        ZOM [NT "FieldModifier" []];
        NT "UnannType" [];
        NT "VariableDeclaratorList" [];
        T ";" []]]);
  ("FieldModifier", fun _ =>
    D [
      Ch [
        num 0;
        NT "Annotation" [];
        T "public" [];
        T "protected" [];
        T "private" [];
        T "static" [];
        T "final" [];
        T "transient" [];
        T "volatile" []]]);
  ("VariableDeclaratorList", fun _ =>
    D [
      Seq [
        NT "VariableDeclarator" [];
        ZOM [Seq [T "," []; NT "VariableDeclarator" []]]]]);
  ("VariableDeclarator", fun _ =>
    D [
      Seq [
        NT "VariableDeclaratorId" [];
        Opt [Seq [T "=" []; NT "VariableInitializer" []]]]]);
  ("VariableDeclaratorId", fun _ =>
    D [Ch [num 0; Seq [NT "Identifier" []; Opt [NT "Dims" []]]; T "_" []]]);
  ("VariableInitializer", fun _ =>
    D [Ch [num 0; NT "Expression" []; NT "ArrayInitializer" []]]);
  ("UnannType", fun _ =>
    D [Ch [num 0; NT "UnannPrimitiveType" []; NT "UnannReferenceType" []]]);
  ("UnannPrimitiveType", fun _ =>
    D [Ch [num 0; NT "NumericType" []; T "boolean" []]]);
  ("UnannReferenceType", fun _ =>
    D [
      Ch [
        num 0;
        NT "UnannClassOrInterfaceType" [];
        NT "UnannTypeVariable" [];
        NT "UnannArrayType" []]]);
  ("UnannClassOrInterfaceType", fun _ =>
    D [Ch [num 0; NT "UnannClassType" []; NT "UnannInterfaceType" []]]);
  ("UnannClassType", fun _ =>
    D [
      Ch [
        num 0;
        Seq [NT "TypeIdentifier" []; Opt [NT "TypeArguments" []]];
        Seq [
          NT "PackageName" [];
          T "." [];
          ZOM [NT "Annotation" []];
          NT "TypeIdentifier" [];
          Opt [NT "TypeArguments" []]];
        Seq [
          NT "UnannClassOrInterfaceType" [];
          T "." [];
          ZOM [NT "Annotation" []];
          NT "TypeIdentifier" [];
          Opt [NT "TypeArguments" []]]]]);
  ("UnannInterfaceType", fun _ =>
    D [NT "UnannClassType" []]);
  ("UnannTypeVariable", fun _ =>
    D [NT "TypeIdentifier" []]);
  ("UnannArrayType", fun _ =>
    D [
      Ch [
        num 0;
        Seq [NT "UnannPrimitiveType" []; NT "Dims" []];
        Seq [NT "UnannClassOrInterfaceType" []; NT "Dims" []];
        Seq [NT "UnannTypeVariable" []; NT "Dims" []]]]);
  ("MethodDeclaration", fun _ =>
    D [Seq [ZOM [NT "MethodModifier" []]; NT "MethodHeader" []; NT "MethodBody" []]]);
  ("MethodModifier", fun _ =>
    D [
      Ch [
        num 0;
        NT "Annotation" [];
        T "public" [];
        T "protected" [];
        T "private" [];
        T "abstract" [];
        T "static" [];
        T "final" [];
        T "synchronized" [];
        T "native" [];
        T "strictfp" []]]);
  ("MethodHeader", fun _ =>
    D [
      Ch [
        num 0;
        Seq [NT "Result" []; NT "MethodDeclarator" []; Opt [NT "Throws" []]];
        Seq [
          NT "TypeParameters" [];
          ZOM [NT "Annotation" []];
          NT "Result" [];
          NT "MethodDeclarator" [];
          Opt [NT "Throws" []]]]]);
  ("Result", fun _ =>
    D [Ch [num 0; NT "UnannType" []; T "void" []]]);
  ("MethodDeclarator", fun _ =>
    D [
      Seq [
        NT "Identifier" [];
        T "(" [];
        Opt [Seq [NT "ReceiverParameter" []; T "," []]];
        Opt [NT "FormalParameterList" []];
        T ")" [];
        Opt [NT "Dims" []]]]);
  ("ReceiverParameter", fun _ =>
    D [
      Seq [
        ZOM [NT "Annotation" []];
        NT "UnannType" [];
        Opt [Seq [NT "Identifier" []; T "." []]];
        T "this" []]]);
  ("FormalParameterList", fun _ =>
    D [Seq [NT "FormalParameter" []; ZOM [Seq [T "," []; NT "FormalParameter" []]]]]);
  ("FormalParameter", fun _ =>
    D [
      Ch [
        num 0;
        Seq [
          ZOM [NT "VariableModifier" []];
          NT "UnannType" [];
          NT "VariableDeclaratorId" []];
        NT "VariableArityParameter" []]]);
  ("VariableArityParameter", fun _ =>
    D [
      Seq [
        ZOM [NT "VariableModifier" []];
        NT "UnannType" [];
        ZOM [NT "Annotation" []];
        T "..." [];
        NT "Identifier" []]]);
  ("VariableModifier", fun _ =>
    D [Ch [num 0; NT "Annotation" []; T "final" []]]);
  ("Throws", fun _ =>
    D [Seq [T "throws" []; NT "ExceptionTypeList" []]]);
  ("ExceptionTypeList", fun _ =>
    D [Seq [NT "ExceptionType" []; ZOM [Seq [T "," []; NT "ExceptionType" []]]]]);
  ("ExceptionType", fun _ =>
    D [Ch [num 0; NT "ClassType" []; NT "TypeVariable" []]]);
  ("MethodBody", fun _ =>
    D [Ch [num 0; NT "Block" []; T ";" []]]);
  ("InstanceInitializer", fun _ =>
    D [NT "Block" []]);
  ("StaticInitializer", fun _ =>
    D [Seq [T "static" []; NT "Block" []]]);
  ("ConstructorDeclaration", fun _ =>
    D [
      Seq [
        ZOM [NT "ConstructorModifier" []];
        NT "ConstructorDeclarator" [];
        Opt [NT "Throws" []];
        NT "ConstructorBody" []]]);
  ("ConstructorModifier", fun _ =>
    D [
      Ch [
        num 0;
        NT "Annotation" [];
        T "public" [];
        T "protected" [];
        T "private" []]]);
  ("ConstructorDeclarator", fun _ =>
    D [
      Seq [
        Opt [NT "TypeParameters" []];
        NT "SimpleTypeName" [];
        T "(" [];
        Opt [Seq [NT "ReceiverParameter" []; T "," []]];
        Opt [NT "FormalParameterList" []];
        T ")" []]]);
  ("SimpleTypeName", fun _ =>
    D [NT "TypeIdentifier" []]);
  ("ConstructorBody", fun _ =>
    D [
      Ch [
        num 0;
        Seq [
          T "{" [];
          Opt [NT "BlockStatements" []];
          NT "ConstructorInvocation" [];
          Opt [NT "BlockStatements" []];
          T "}" []];
        Seq [T "{" []; Opt [NT "BlockStatements" []]; T "}" []]]]);
  ("ConstructorInvocation", fun _ =>
    D [
      Ch [
        num 0;
        Seq [
          Opt [NT "TypeArguments" []];
          T "this" [];
          T "(" [];
          Opt [NT "ArgumentList" []];
          T ")" [];
          T ";" []];
        Seq [
          Opt [NT "TypeArguments" []];
          T "super" [];
          T "(" [];
          Opt [NT "ArgumentList" []];
          T ")" [];
          T ";" []];
        Seq [
          NT "ExpressionName" [];
          T "." [];
          Opt [NT "TypeArguments" []];
          T "super" [];
          T "(" [];
          Opt [NT "ArgumentList" []];
          T ")" [];
          T ";" []];
        Seq [
          NT "Primary" [];
          T "." [];
          Opt [NT "TypeArguments" []];
          T "super" [];
          T "(" [];
          Opt [NT "ArgumentList" []];
          T ")" [];
          T ";" []]]]);
  ("EnumDeclaration", fun _ =>
    D [
      Seq [
        ZOM [NT "ClassModifier" []];
        T "enum" [];
        NT "TypeIdentifier" [];
        Opt [NT "ClassImplements" []];
        NT "EnumBody" []]]);
  ("EnumBody", fun _ =>
    D [
      Seq [
        T "{" [];
        Opt [NT "EnumConstantList" []];
        Opt [T "," []];
        Opt [NT "EnumBodyDeclarations" []];
        T "}" []]]);
  ("EnumConstantList", fun _ =>
    D [Seq [NT "EnumConstant" []; ZOM [Seq [T "," []; NT "EnumConstant" []]]]]);
  ("EnumConstant", fun _ =>
    D [
      Seq [
        ZOM [NT "EnumConstantModifier" []];
        NT "Identifier" [];
        Opt [Seq [T "(" []; Opt [NT "ArgumentList" []]; T ")" []]];
        Opt [NT "ClassBody" []]]]);
  ("EnumConstantModifier", fun _ =>
    D [NT "Annotation" []]);
  ("EnumBodyDeclarations", fun _ =>
    D [Seq [T ";" []; ZOM [NT "ClassBodyDeclaration" []]]]);
  ("RecordDeclaration", fun _ =>
    D [
      Seq [
        ZOM [NT "ClassModifier" []];
        T "record" [];
        NT "TypeIdentifier" [];
        Opt [NT "TypeParameters" []];
        NT "RecordHeader" [];
        Opt [NT "ClassImplements" []];
        NT "RecordBody" []]]);
  ("RecordHeader", fun _ =>
    D [Seq [T "(" []; Opt [NT "RecordComponentList" []]; T ")" []]]);
  ("RecordComponentList", fun _ =>
    D [Seq [NT "RecordComponent" []; ZOM [Seq [T "," []; NT "RecordComponent" []]]]]);
  ("RecordComponent", fun _ =>
    D [
      Ch [
        num 0;
        Seq [
          ZOM [NT "RecordComponentModifier" []];
          NT "UnannType" [];
          NT "Identifier" []];
        NT "VariableArityRecordComponent" []]]);
  ("VariableArityRecordComponent", fun _ =>
    D [
      Seq [
        ZOM [NT "RecordComponentModifier" []];
        NT "UnannType" [];
        ZOM [NT "Annotation" []];
        T "..." [];
        NT "Identifier" []]]);
  ("RecordComponentModifier", fun _ =>
    D [NT "Annotation" []]);
  ("RecordBody", fun _ =>
    D [Seq [T "{" []; ZOM [NT "RecordBodyDeclaration" []]; T "}" []]]);
  ("RecordBodyDeclaration", fun _ =>
    D [
      Ch [
        num 0;
        NT "ClassBodyDeclaration" [];
        NT "CompactConstructorDeclaration" []]]);
  ("CompactConstructorDeclaration", fun _ =>
    D [
      Seq [
        ZOM [NT "ConstructorModifier" []];
        NT "SimpleTypeName" [];
        NT "ConstructorBody" []]]);
  (* §9 Interfaces *)
  ("InterfaceDeclaration", fun _ =>
    D [
      Ch [
        num 0;
        NT "NormalInterfaceDeclaration" [];
        NT "AnnotationInterfaceDeclaration" []]]);
  ("NormalInterfaceDeclaration", fun _ =>
    D [
      Seq [
        ZOM [NT "InterfaceModifier" []];
        T "interface" [];
        NT "TypeIdentifier" [];
        Opt [NT "TypeParameters" []];
        Opt [NT "InterfaceExtends" []];
        Opt [NT "InterfacePermits" []];
        NT "InterfaceBody" []]]);
  ("InterfaceModifier", fun _ =>
    D [
      Ch [
        num 0;
        NT "Annotation" [];
        T "public" [];
        T "protected" [];
        T "private" [];
        T "abstract" [];
        T "static" [];
        T "sealed" [];
        T "non-sealed" [];
        T "strictfp" []]]);
  ("InterfaceExtends", fun _ =>
    D [Seq [T "extends" []; NT "InterfaceTypeList" []]]);
  ("InterfacePermits", fun _ =>
    D [
      Seq [T "permits" []; NT "TypeName" []; ZOM [Seq [T "," []; NT "TypeName" []]]]]);
  ("InterfaceBody", fun _ =>
    D [Seq [T "{" []; ZOM [NT "InterfaceMemberDeclaration" []]; T "}" []]]);
  ("InterfaceMemberDeclaration", fun _ =>
    D [
      Ch [
        num 0;
        NT "ConstantDeclaration" [];
        NT "InterfaceMethodDeclaration" [];
        NT "ClassDeclaration" [];
        NT "InterfaceDeclaration" [];
        T ";" []]]);
  ("ConstantDeclaration", fun _ =>
    D [
      Seq [
        ZOM [NT "ConstantModifier" []];
        NT "UnannType" [];
        NT "VariableDeclaratorList" [];
        T ";" []]]);
  ("ConstantModifier", fun _ =>
    D [Ch [num 0; NT "Annotation" []; T "public" []; T "static" []; T "final" []]]);
  ("InterfaceMethodDeclaration", fun _ =>
    D [
      Seq [
        ZOM [NT "InterfaceMethodModifier" []];
        NT "MethodHeader" [];
        NT "MethodBody" []]]);
  ("InterfaceMethodModifier", fun _ =>
    D [
      Ch [
        num 0;
        NT "Annotation" [];
        T "public" [];
        T "private" [];
        T "abstract" [];
        T "default" [];
        T "static" [];
        T "strictfp" []]]);
  ("AnnotationInterfaceDeclaration", fun _ =>
    D [
      Seq [
        ZOM [NT "InterfaceModifier" []];
        T "@" [];
        T "interface" [];
        NT "TypeIdentifier" [];
        NT "AnnotationInterfaceBody" []]]);
  ("AnnotationInterfaceBody", fun _ =>
    D [Seq [T "{" []; ZOM [NT "AnnotationInterfaceMemberDeclaration" []]; T "}" []]]);
  ("AnnotationInterfaceMemberDeclaration", fun _ =>
    D [
      Ch [
        num 0;
        NT "AnnotationInterfaceElementDeclaration" [];
        NT "ConstantDeclaration" [];
        NT "ClassDeclaration" [];
        NT "InterfaceDeclaration" [];
        T ";" []]]);
  ("AnnotationInterfaceElementDeclaration", fun _ =>
    D [
      Seq [
        ZOM [NT "AnnotationInterfaceElementModifier" []];
        NT "UnannType" [];
        NT "Identifier" [];
        T "(" [];
        T ")" [];
        Opt [NT "Dims" []];
        Opt [NT "DefaultValue" []];
        T ";" []]]);
  ("AnnotationInterfaceElementModifier", fun _ =>
    D [Ch [num 0; NT "Annotation" []; T "public" []; T "abstract" []]]);
  ("DefaultValue", fun _ =>
    D [Seq [T "default" []; NT "ElementValue" []]]);
  ("Annotation", fun _ =>
    D [
      Ch [
        num 0;
        NT "NormalAnnotation" [];
        NT "MarkerAnnotation" [];
        NT "SingleElementAnnotation" []]]);
  ("NormalAnnotation", fun _ =>
    D [
      Seq [
        T "@" [];
        NT "TypeName" [];
        T "(" [];
        Opt [NT "ElementValuePairList" []];
        T ")" []]]);
  ("ElementValuePairList", fun _ =>
    D [
      Seq [NT "ElementValuePair" []; ZOM [Seq [T "," []; NT "ElementValuePair" []]]]]);
  ("ElementValuePair", fun _ =>
    D [Seq [NT "Identifier" []; T "=" []; NT "ElementValue" []]]);
  ("ElementValue", fun _ =>
    D [
      Ch [
        num 0;
        NT "ConditionalExpression" [];
        NT "ElementValueArrayInitializer" [];
        NT "Annotation" []]]);
  ("ElementValueArrayInitializer", fun _ =>
    D [Seq [T "{" []; Opt [NT "ElementValueList" []]; Opt [T "," []]; T "}" []]]);
  ("ElementValueList", fun _ =>
    D [Seq [NT "ElementValue" []; ZOM [Seq [T "," []; NT "ElementValue" []]]]]);
  ("MarkerAnnotation", fun _ =>
    D [Seq [T "@" []; NT "TypeName" []]]);
  ("SingleElementAnnotation", fun _ =>
    D [Seq [T "@" []; NT "TypeName" []; T "(" []; NT "ElementValue" []; T ")" []]]);
  (* §10 Arrays *)
  ("ArrayInitializer", fun _ =>
    D [
      Seq [
        T "{" [];
        Opt [NT "VariableInitializerList" []];
        Opt [T "," []];
        T "}" []]]);
  ("VariableInitializerList", fun _ =>
    D [
      Seq [
        NT "VariableInitializer" [];
        ZOM [Seq [T "," []; NT "VariableInitializer" []]]]]);
  (* §14 Blocks, Statements, and Patterns *)
  ("Block", fun _ =>
    D [Seq [T "{" []; Opt [NT "BlockStatements" []]; T "}" []]]);
  ("BlockStatements", fun _ =>
    D [OOM [NT "BlockStatement" []]]);
  ("BlockStatement", fun _ =>
    D [
      Ch [
        num 0;
        NT "LocalClassOrInterfaceDeclaration" [];
        NT "LocalVariableDeclarationStatement" [];
        NT "Statement" []]]);
  ("LocalClassOrInterfaceDeclaration", fun _ =>
    D [Ch [num 0; NT "ClassDeclaration" []; NT "NormalInterfaceDeclaration" []]]);
  ("LocalVariableDeclarationStatement", fun _ =>
    D [Seq [NT "LocalVariableDeclaration" []; T ";" []]]);
  ("LocalVariableDeclaration", fun _ =>
    D [
      Seq [
        ZOM [NT "VariableModifier" []];
        NT "LocalVariableType" [];
        NT "VariableDeclaratorList" []]]);
  ("LocalVariableType", fun _ =>
    D [Ch [num 0; NT "UnannType" []; T "var" []]]);
  ("Statement", fun _ =>
    D [
      Ch [
        num 0;
        NT "StatementWithoutTrailingSubstatement" [];
        NT "LabeledStatement" [];
        NT "IfThenStatement" [];
        NT "IfThenElseStatement" [];
        NT "WhileStatement" [];
        NT "ForStatement" []]]);
  ("StatementNoShortIf", fun _ =>
    D [
      Ch [
        num 0;
        NT "StatementWithoutTrailingSubstatement" [];
        NT "LabeledStatementNoShortIf" [];
        NT "IfThenElseStatementNoShortIf" [];
        NT "WhileStatementNoShortIf" [];
        NT "ForStatementNoShortIf" []]]);
  ("StatementWithoutTrailingSubstatement", fun _ =>
    D [
      Ch [
        num 0;
        NT "Block" [];
        NT "EmptyStatement" [];
        NT "ExpressionStatement" [];
        NT "AssertStatement" [];
        NT "SwitchStatement" [];
        NT "DoStatement" [];
        NT "BreakStatement" [];
        NT "ContinueStatement" [];
        NT "ReturnStatement" [];
        NT "SynchronizedStatement" [];
        NT "ThrowStatement" [];
        NT "TryStatement" [];
        NT "YieldStatement" []]]);
  ("EmptyStatement", fun _ =>
    D [T ";" []]);
  ("LabeledStatement", fun _ =>
    D [Seq [NT "Identifier" []; T ":" []; NT "Statement" []]]);
  ("LabeledStatementNoShortIf", fun _ =>
    D [Seq [NT "Identifier" []; T ":" []; NT "StatementNoShortIf" []]]);
  ("ExpressionStatement", fun _ =>
    D [Seq [NT "StatementExpression" []; T ";" []]]);
  ("StatementExpression", fun _ =>
    D [
      Ch [
        num 0;
        NT "Assignment" [];
        NT "PreIncrementExpression" [];
        NT "PreDecrementExpression" [];
        NT "PostIncrementExpression" [];
        NT "PostDecrementExpression" [];
        NT "MethodInvocation" [];
        NT "ClassInstanceCreationExpression" []]]);
  ("IfThenStatement", fun _ =>
    D [Seq [T "if" []; T "(" []; NT "Expression" []; T ")" []; NT "Statement" []]]);
  ("IfThenElseStatement", fun _ =>
    D [
      Seq [
        T "if" [];
        T "(" [];
        NT "Expression" [];
        T ")" [];
        NT "StatementNoShortIf" [];
        T "else" [];
        NT "Statement" []]]);
  ("IfThenElseStatementNoShortIf", fun _ =>
    D [
      Seq [
        T "if" [];
        T "(" [];
        NT "Expression" [];
        T ")" [];
        NT "StatementNoShortIf" [];
        T "else" [];
        NT "StatementNoShortIf" []]]);
  ("AssertStatement", fun _ =>
    D [
      Ch [
        num 0;
        Seq [T "assert" []; NT "Expression" []; T ";" []];
        Seq [
          T "assert" [];
          NT "Expression" [];
          T ":" [];
          NT "Expression" [];
          T ";" []]]]);
  ("SwitchStatement", fun _ =>
    D [
      Seq [
        T "switch" [];
        T "(" [];
        NT "Expression" [];
        T ")" [];
        NT "SwitchBlock" []]]);
  ("SwitchBlock", fun _ =>
    D [
      Ch [
        num 0;
        Seq [T "{" []; OOM [NT "SwitchRule" []]; T "}" []];
        Seq [
          T "{" [];
          ZOM [NT "SwitchBlockStatementGroup" []];
          ZOM [Seq [NT "SwitchLabel" []; T ":" []]];
          T "}" []]]]);
  ("SwitchRule", fun _ =>
    D [
      Ch [
        num 0;
        Seq [NT "SwitchLabel" []; T "->" []; NT "Expression" []; T ";" []];
        Seq [NT "SwitchLabel" []; T "->" []; NT "Block" []];
        Seq [NT "SwitchLabel" []; T "->" []; NT "ThrowStatement" []]]]);
  ("SwitchBlockStatementGroup", fun _ =>
    D [
      Seq [
        NT "SwitchLabel" [];
        T ":" [];
        ZOM [Seq [NT "SwitchLabel" []; T ":" []]];
        NT "BlockStatements" []]]);
  ("SwitchLabel", fun _ =>
    D [
      Ch [
        num 0;
        Seq [
          T "case" [];
          NT "CaseConstant" [];
          ZOM [Seq [T "," []; NT "CaseConstant" []]]];
        Seq [T "case" []; T "null" []; Opt [Seq [T "," []; T "default" []]]];
        Seq [
          T "case" [];
          NT "CasePattern" [];
          ZOM [Seq [T "," []; NT "CasePattern" []]];
          Opt [NT "Guard" []]];
        T "default" []]]);
  ("CaseConstant", fun _ =>
    D [NT "ConditionalExpression" []]);
  ("CasePattern", fun _ =>
    D [NT "Pattern" []]);
  ("Guard", fun _ =>
    D [Seq [T "when" []; NT "Expression" []]]);
  ("WhileStatement", fun _ =>
    D [
      Seq [T "while" []; T "(" []; NT "Expression" []; T ")" []; NT "Statement" []]]);
  ("WhileStatementNoShortIf", fun _ =>
    D [
      Seq [
        T "while" [];
        T "(" [];
        NT "Expression" [];
        T ")" [];
        NT "StatementNoShortIf" []]]);
  ("DoStatement", fun _ =>
    D [
      Seq [
        T "do" [];
        NT "Statement" [];
        T "while" [];
        T "(" [];
        NT "Expression" [];
        T ")" [];
        T ";" []]]);
  ("ForStatement", fun _ =>
    D [Ch [num 0; NT "BasicForStatement" []; NT "EnhancedForStatement" []]]);
  ("ForStatementNoShortIf", fun _ =>
    D [
      Ch [
        num 0;
        NT "BasicForStatementNoShortIf" [];
        NT "EnhancedForStatementNoShortIf" []]]);
  ("BasicForStatement", fun _ =>
    D [
      Seq [
        T "for" [];
        T "(" [];
        Opt [NT "ForInit" []];
        T ";" [];
        Opt [NT "Expression" []];
        T ";" [];
        Opt [NT "ForUpdate" []];
        T ")" [];
        NT "Statement" []]]);
  ("BasicForStatementNoShortIf", fun _ =>
    D [
      Seq [
        T "for" [];
        T "(" [];
        Opt [NT "ForInit" []];
        T ";" [];
        Opt [NT "Expression" []];
        T ";" [];
        Opt [NT "ForUpdate" []];
        T ")" [];
        NT "StatementNoShortIf" []]]);
  ("ForInit", fun _ =>
    D [
      Ch [num 0; NT "StatementExpressionList" []; NT "LocalVariableDeclaration" []]]);
  ("ForUpdate", fun _ =>
    D [NT "StatementExpressionList" []]);
  ("StatementExpressionList", fun _ =>
    D [
      Seq [
        NT "StatementExpression" [];
        ZOM [Seq [T "," []; NT "StatementExpression" []]]]]);
  ("EnhancedForStatement", fun _ =>
    D [
      Seq [
        T "for" [];
        T "(" [];
        NT "LocalVariableDeclaration" [];
        T ":" [];
        NT "Expression" [];
        T ")" [];
        NT "Statement" []]]);
  ("EnhancedForStatementNoShortIf", fun _ =>
    D [
      Seq [
        T "for" [];
        T "(" [];
        NT "LocalVariableDeclaration" [];
        T ":" [];
        NT "Expression" [];
        T ")" [];
        NT "StatementNoShortIf" []]]);
  ("BreakStatement", fun _ =>
    D [Seq [T "break" []; Opt [NT "Identifier" []]; T ";" []]]);
  ("YieldStatement", fun _ =>
    D [Seq [T "yield" []; NT "Expression" []; T ";" []]]);
  ("ContinueStatement", fun _ =>
    D [Seq [T "continue" []; Opt [NT "Identifier" []]; T ";" []]]);
  ("ReturnStatement", fun _ =>
    D [Seq [T "return" []; Opt [NT "Expression" []]; T ";" []]]);
  ("ThrowStatement", fun _ =>
    D [Seq [T "throw" []; NT "Expression" []; T ";" []]]);
  ("SynchronizedStatement", fun _ =>
    D [
      Seq [
        T "synchronized" [];
        T "(" [];
        NT "Expression" [];
        T ")" [];
        NT "Block" []]]);
  ("TryStatement", fun _ =>
    D [
      Ch [
        num 0;
        Seq [T "try" []; NT "Block" []; NT "Catches" []];
        Seq [T "try" []; NT "Block" []; Opt [NT "Catches" []]; NT "Finally" []];
        NT "TryWithResourcesStatement" []]]);
  ("Catches", fun _ =>
    D [OOM [NT "CatchClause" []]]);
  ("CatchClause", fun _ =>
    D [
      Seq [
        T "catch" [];
        T "(" [];
        NT "CatchFormalParameter" [];
        T ")" [];
        NT "Block" []]]);
  ("CatchFormalParameter", fun _ =>
    D [
      Seq [
        ZOM [NT "VariableModifier" []];
        NT "CatchType" [];
        NT "VariableDeclaratorId" []]]);
  ("CatchType", fun _ =>
    D [Seq [NT "UnannClassType" []; ZOM [Seq [T "|" []; NT "ClassType" []]]]]);
  ("Finally", fun _ =>
    D [Seq [T "finally" []; NT "Block" []]]);
  ("TryWithResourcesStatement", fun _ =>
    D [
      Seq [
        T "try" [];
        NT "ResourceSpecification" [];
        NT "Block" [];
        Opt [NT "Catches" []];
        Opt [NT "Finally" []]]]);
  ("ResourceSpecification", fun _ =>
    D [Seq [T "(" []; NT "ResourceList" []; Opt [T ";" []]; T ")" []]]);
  ("ResourceList", fun _ =>
    D [Seq [NT "Resource" []; ZOM [Seq [T ";" []; NT "Resource" []]]]]);
  ("Resource", fun _ =>
    D [Ch [num 0; NT "LocalVariableDeclaration" []; NT "VariableAccess" []]]);
  ("VariableAccess", fun _ =>
    D [Ch [num 0; NT "ExpressionName" []; NT "FieldAccess" []]]);
  ("Pattern", fun _ =>
    D [Ch [num 0; NT "TypePattern" []; NT "RecordPattern" []]]);
  ("TypePattern", fun _ =>
    D [NT "LocalVariableDeclaration" []]);
  ("RecordPattern", fun _ =>
    D [
      Seq [
        NT "ReferenceType" [];
        T "(" [];
        Opt [NT "ComponentPatternList" []];
        T ")" []]]);
  ("ComponentPatternList", fun _ =>
    D [
      Seq [NT "ComponentPattern" []; ZOM [Seq [T "," []; NT "ComponentPattern" []]]]]);
  ("ComponentPattern", fun _ =>
    D [Ch [num 0; NT "Pattern" []; NT "MatchAllPattern" []]]);
  ("MatchAllPattern", fun _ =>
    D [T "_" []]);
  (* §15 Expressions *)
  ("Primary", fun _ =>
    D [Ch [num 0; NT "PrimaryNoNewArray" []; NT "ArrayCreationExpression" []]]);
  ("PrimaryNoNewArray", fun _ =>
    D [
      Ch [
        num 0;
        NT "Literal" [];
        NT "ClassLiteral" [];
        T "this" [];
        Seq [NT "TypeName" []; T "." []; T "this" []];
        Seq [T "(" []; NT "Expression" []; T ")" []];
        NT "ClassInstanceCreationExpression" [];
        NT "FieldAccess" [];
        NT "ArrayAccess" [];
        NT "MethodInvocation" [];
        NT "MethodReference" []]]);
  ("ClassLiteral", fun _ =>
    D [
      Ch [
        num 0;
        Seq [
          NT "TypeName" [];
          ZOM [Seq [T "[" []; T "]" []]];
          T "." [];
          T "class" []];
        Seq [
          NT "NumericType" [];
          ZOM [Seq [T "[" []; T "]" []]];
          T "." [];
          T "class" []];
        Seq [T "boolean" []; ZOM [Seq [T "[" []; T "]" []]]; T "." []; T "class" []];
        Seq [T "void" []; T "." []; T "class" []]]]);
  ("ClassInstanceCreationExpression", fun _ =>
    D [
      Ch [
        num 0;
        NT "UnqualifiedClassInstanceCreationExpression" [];
        Seq [
          NT "ExpressionName" [];
          T "." [];
          NT "UnqualifiedClassInstanceCreationExpression" []];
        Seq [
          NT "Primary" [];
          T "." [];
          NT "UnqualifiedClassInstanceCreationExpression" []]]]);
  ("UnqualifiedClassInstanceCreationExpression", fun _ =>
    D [
      Seq [
        T "new" [];
        Opt [NT "TypeArguments" []];
        NT "ClassOrInterfaceTypeToInstantiate" [];
        T "(" [];
        Opt [NT "ArgumentList" []];
        T ")" [];
        Opt [NT "ClassBody" []]]]);
  ("ClassOrInterfaceTypeToInstantiate", fun _ =>
    D [
      Seq [
        ZOM [NT "Annotation" []];
        NT "Identifier" [];
        ZOM [Seq [T "." []; ZOM [NT "Annotation" []]; NT "Identifier" []]];
        Opt [NT "TypeArgumentsOrDiamond" []]]]);
  ("TypeArgumentsOrDiamond", fun _ =>
    D [Ch [num 0; NT "TypeArguments" []; Seq [T "<" []; T ">" []]]]);
  ("ArrayCreationExpression", fun _ =>
    D [
      Ch [
        num 0;
        NT "ArrayCreationExpressionWithoutInitializer" [];
        NT "ArrayCreationExpressionWithInitializer" []]]);
  ("ArrayCreationExpressionWithoutInitializer", fun _ =>
    D [
      Ch [
        num 0;
        Seq [
          T "new" [];
          NT "PrimitiveType" [];
          NT "DimExprs" [];
          Opt [NT "Dims" []]];
        Seq [
          T "new" [];
          NT "ClassOrInterfaceType" [];
          NT "DimExprs" [];
          Opt [NT "Dims" []]]]]);
  ("ArrayCreationExpressionWithInitializer", fun _ =>
    D [
      Ch [
        num 0;
        Seq [
          T "new" [];
          NT "PrimitiveType" [];
          NT "Dims" [];
          NT "ArrayInitializer" []];
        Seq [
          T "new" [];
          NT "ClassOrInterfaceType" [];
          NT "Dims" [];
          NT "ArrayInitializer" []]]]);
  ("DimExprs", fun _ =>
    D [OOM [NT "DimExpr" []]]);
  ("DimExpr", fun _ =>
    D [Seq [ZOM [NT "Annotation" []]; T "[" []; NT "Expression" []; T "]" []]]);
  ("ArrayAccess", fun _ =>
    D [
      Ch [
        num 0;
        Seq [NT "ExpressionName" []; T "[" []; NT "Expression" []; T "]" []];
        Seq [NT "PrimaryNoNewArray" []; T "[" []; NT "Expression" []; T "]" []];
        Seq [
          NT "ArrayCreationExpressionWithInitializer" [];
          T "[" [];
          NT "Expression" [];
          T "]" []]]]);
  ("FieldAccess", fun _ =>
    D [
      Ch [
        num 0;
        Seq [NT "Primary" []; T "." []; NT "Identifier" []];
        Seq [T "super" []; T "." []; NT "Identifier" []];
        Seq [NT "TypeName" []; T "." []; T "super" []; T "." []; NT "Identifier" []]]]);
  ("MethodInvocation", fun _ =>
    D [
      Ch [
        num 0;
        Seq [NT "MethodName" []; T "(" []; Opt [NT "ArgumentList" []]; T ")" []];
        Seq [
          NT "TypeName" [];
          T "." [];
          Opt [NT "TypeArguments" []];
          NT "Identifier" [];
          T "(" [];
          Opt [NT "ArgumentList" []];
          T ")" []];
        Seq [
          NT "ExpressionName" [];
          T "." [];
          Opt [NT "TypeArguments" []];
          NT "Identifier" [];
          T "(" [];
          Opt [NT "ArgumentList" []];
          T ")" []];
        Seq [
          NT "Primary" [];
          T "." [];
          Opt [NT "TypeArguments" []];
          NT "Identifier" [];
          T "(" [];
          Opt [NT "ArgumentList" []];
          T ")" []];
        Seq [
          T "super" [];
          T "." [];
          Opt [NT "TypeArguments" []];
          NT "Identifier" [];
          T "(" [];
          Opt [NT "ArgumentList" []];
          T ")" []];
        Seq [
          NT "TypeName" [];
          T "." [];
          T "super" [];
          T "." [];
          Opt [NT "TypeArguments" []];
          NT "Identifier" [];
          T "(" [];
          Opt [NT "ArgumentList" []];
          T ")" []]]]);
  ("ArgumentList", fun _ =>
    D [Seq [NT "Expression" []; ZOM [Seq [T "," []; NT "Expression" []]]]]);
  ("MethodReference", fun _ =>
    D [
      Ch [
        num 0;
        Seq [
          NT "ExpressionName" [];
          T "::" [];
          Opt [NT "TypeArguments" []];
          NT "Identifier" []];
        Seq [
          NT "Primary" [];
          T "::" [];
          Opt [NT "TypeArguments" []];
          NT "Identifier" []];
        Seq [
          NT "ReferenceType" [];
          T "::" [];
          Opt [NT "TypeArguments" []];
          NT "Identifier" []];
        Seq [
          T "super" [];
          T "::" [];
          Opt [NT "TypeArguments" []];
          NT "Identifier" []];
        Seq [
          NT "TypeName" [];
          T "." [];
          T "super" [];
          T "::" [];
          Opt [NT "TypeArguments" []];
          NT "Identifier" []];
        Seq [NT "ClassType" []; T "::" []; Opt [NT "TypeArguments" []]; T "new" []];
        Seq [NT "ArrayType" []; T "::" []; T "new" []]]]);
  ("Expression", fun _ =>
    D [Ch [num 0; NT "LambdaExpression" []; NT "AssignmentExpression" []]]);
  ("LambdaExpression", fun _ =>
    D [Seq [NT "LambdaParameters" []; T "->" []; NT "LambdaBody" []]]);
  ("LambdaParameters", fun _ =>
    D [
      Ch [
        num 0;
        Seq [T "(" []; Opt [NT "LambdaParameterList" []]; T ")" []];
        NT "ConciseLambdaParameter" []]]);
  ("LambdaParameterList", fun _ =>
    D [
      Ch [
        num 0;
        Seq [
          NT "NormalLambdaParameter" [];
          ZOM [Seq [T "," []; NT "NormalLambdaParameter" []]]];
        Seq [
          NT "ConciseLambdaParameter" [];
          ZOM [Seq [T "," []; NT "ConciseLambdaParameter" []]]]]]);
  ("NormalLambdaParameter", fun _ =>
    D [
      Ch [
        num 0;
        Seq [
          ZOM [NT "VariableModifier" []];
          NT "LambdaParameterType" [];
          NT "VariableDeclaratorId" []];
        NT "VariableArityParameter" []]]);
  ("LambdaParameterType", fun _ =>
    D [Ch [num 0; NT "UnannType" []; T "var" []]]);
  ("ConciseLambdaParameter", fun _ =>
    D [Ch [num 0; NT "Identifier" []; T "_" []]]);
  ("LambdaBody", fun _ =>
    D [Ch [num 0; NT "Expression" []; NT "Block" []]]);
  ("AssignmentExpression", fun _ =>
    D [Ch [num 0; NT "ConditionalExpression" []; NT "Assignment" []]]);
  ("Assignment", fun _ =>
    D [Seq [NT "LeftHandSide" []; NT "AssignmentOperator" []; NT "Expression" []]]);
  ("LeftHandSide", fun _ =>
    D [Ch [num 0; NT "ExpressionName" []; NT "FieldAccess" []; NT "ArrayAccess" []]]);
  ("AssignmentOperator", fun _ =>
    D [
      Ch [
        num 0;
        T "=" [];
        T "*=" [];
        T "/=" [];
        T "%=" [];
        T "+=" [];
        T "-=" [];
        T "<<=" [];
        T ">>=" [];
        T ">>>=" [];
        T "&=" [];
        T "^=" [];
        T "|=" []]]);
  ("ConditionalExpression", fun _ =>
    D [
      Ch [
        num 0;
        NT "ConditionalOrExpression" [];
        Seq [
          NT "ConditionalOrExpression" [];
          T "?" [];
          NT "Expression" [];
          T ":" [];
          NT "ConditionalExpression" []];
        Seq [
          NT "ConditionalOrExpression" [];
          T "?" [];
          NT "Expression" [];
          T ":" [];
          NT "LambdaExpression" []]]]);
  ("ConditionalOrExpression", fun _ =>
    D [
      Seq [
        NT "ConditionalAndExpression" [];
        ZOM [Seq [T "||" []; NT "ConditionalAndExpression" []]]]]);
  ("ConditionalAndExpression", fun _ =>
    D [
      Seq [
        NT "InclusiveOrExpression" [];
        ZOM [Seq [T "&&" []; NT "InclusiveOrExpression" []]]]]);
  ("InclusiveOrExpression", fun _ =>
    D [
      Seq [
        NT "ExclusiveOrExpression" [];
        ZOM [Seq [T "|" []; NT "ExclusiveOrExpression" []]]]]);
  ("ExclusiveOrExpression", fun _ =>
    D [Seq [NT "AndExpression" []; ZOM [Seq [T "^" []; NT "AndExpression" []]]]]);
  ("AndExpression", fun _ =>
    D [
      Seq [
        NT "EqualityExpression" [];
        ZOM [Seq [T "&" []; NT "EqualityExpression" []]]]]);
  ("EqualityExpression", fun _ =>
    D [
      Seq [
        NT "RelationalExpression" [];
        ZOM [
          Ch [
            num 0;
            Seq [T "==" []; NT "RelationalExpression" []];
            Seq [T "!=" []; NT "RelationalExpression" []]]]]]);
  ("RelationalExpression", fun _ =>
    D [
      Ch [
        num 0;
        NT "ShiftExpression" [];
        Seq [NT "RelationalExpression" []; T "<" []; NT "ShiftExpression" []];
        Seq [NT "RelationalExpression" []; T ">" []; NT "ShiftExpression" []];
        Seq [NT "RelationalExpression" []; T "<=" []; NT "ShiftExpression" []];
        Seq [NT "RelationalExpression" []; T ">=" []; NT "ShiftExpression" []];
        NT "InstanceofExpression" []]]);
  ("InstanceofExpression", fun _ =>
    D [
      Ch [
        num 0;
        Seq [NT "RelationalExpression" []; T "instanceof" []; NT "ReferenceType" []];
        Seq [NT "RelationalExpression" []; T "instanceof" []; NT "Pattern" []]]]);
  ("ShiftExpression", fun _ =>
    D [
      Seq [
        NT "AdditiveExpression" [];
        ZOM [
          Ch [
            num 0;
            Seq [T "<<" []; NT "AdditiveExpression" []];
            Seq [T ">>" []; NT "AdditiveExpression" []];
            Seq [T ">>>" []; NT "AdditiveExpression" []]]]]]);
  ("AdditiveExpression", fun _ =>
    D [
      Seq [
        NT "MultiplicativeExpression" [];
        ZOM [
          Ch [
            num 0;
            Seq [T "+" []; NT "MultiplicativeExpression" []];
            Seq [T "-" []; NT "MultiplicativeExpression" []]]]]]);
  ("MultiplicativeExpression", fun _ =>
    D [
      Seq [
        NT "UnaryExpression" [];
        ZOM [
          Ch [
            num 0;
            Seq [T "*" []; NT "UnaryExpression" []];
            Seq [T "/" []; NT "UnaryExpression" []];
            Seq [T "%" []; NT "UnaryExpression" []]]]]]);
  ("UnaryExpression", fun _ =>
    D [
      Ch [
        num 0;
        NT "PreIncrementExpression" [];
        NT "PreDecrementExpression" [];
        Seq [T "+" []; NT "UnaryExpression" []];
        Seq [T "-" []; NT "UnaryExpression" []];
        NT "UnaryExpressionNotPlusMinus" []]]);
  ("PreIncrementExpression", fun _ =>
    D [Seq [T "++" []; NT "UnaryExpression" []]]);
  ("PreDecrementExpression", fun _ =>
    D [Seq [T "--" []; NT "UnaryExpression" []]]);
  ("UnaryExpressionNotPlusMinus", fun _ =>
    D [
      Ch [
        num 0;
        NT "PostfixExpression" [];
        Seq [T "~" []; NT "UnaryExpression" []];
        Seq [T "!" []; NT "UnaryExpression" []];
        NT "CastExpression" [];
        NT "SwitchExpression" []]]);
  ("PostfixExpression", fun _ =>
    D [
      Ch [
        num 0;
        NT "Primary" [];
        NT "ExpressionName" [];
        NT "PostIncrementExpression" [];
        NT "PostDecrementExpression" []]]);
  ("PostIncrementExpression", fun _ =>
    D [Seq [NT "PostfixExpression" []; T "++" []]]);
  ("PostDecrementExpression", fun _ =>
    D [Seq [NT "PostfixExpression" []; T "--" []]]);
  ("CastExpression", fun _ =>
    D [
      Ch [
        num 0;
        Seq [T "(" []; NT "PrimitiveType" []; T ")" []; NT "UnaryExpression" []];
        Seq [
          T "(" [];
          NT "ReferenceType" [];
          ZOM [NT "AdditionalBound" []];
          T ")" [];
          NT "UnaryExpressionNotPlusMinus" []];
        Seq [
          T "(" [];
          NT "ReferenceType" [];
          ZOM [NT "AdditionalBound" []];
          T ")" [];
          NT "LambdaExpression" []]]]);
  ("SwitchExpression", fun _ =>
    D [
      Seq [
        T "switch" [];
        T "(" [];
        NT "Expression" [];
        T ")" [];
        NT "SwitchBlock" []]])
].

Definition rules : JsMap.t Factory :=
  fold_left (fun m r => JsMap.set m (fst r) (snd r)) registrations JsMap.empty.

(** [createRuleDiagram] of java25Grammar.ts. *)
Definition createRuleDiagram (name : string) : MS St Val :=
  match JsMap.get rules name with
  | Some factory => factory tt
  | None => retS VUndefined
  end.

Definition getDiagramRuleNames : list string := JsMap.keys rules.

(** [diagramToSvgString(diagram)] on what the grammar module returned: the
    members of a node are those the package yields in its present state. *)
Definition serialize (diagram : Val) : MS St string :=
  fun s =>
    match diagram with
    | VUndefined => (s, lift (DiagramToSvg.diagramToSvgString DiagramToSvg.Falsy))
    | VNumber n =>
        (s, lift (DiagramToSvg.diagramToSvgString
                    (if (n =? 0)%Z then DiagramToSvg.Falsy
                     else DiagramToSvg.Truthy DiagramToSvg.NoFunction
                            (DiagramToSvg.Function
                               (DiagramToSvg.Yields (DiagramToSvg.numberToString n))))))
    | VString text =>
        (s, lift (DiagramToSvg.diagramToSvgString
                    (if isEmpty text then DiagramToSvg.Falsy
                     else DiagramToSvg.Truthy DiagramToSvg.NoFunction
                            (DiagramToSvg.Function (DiagramToSvg.Yields text)))))
    | VNode k args =>
        let (s', m) := members pkg k args s in
        (s', lift (DiagramToSvg.diagramToSvgString
                     (DiagramToSvg.node (fst m) (snd m))))
    end.

(** The [svg] memo of RuleDiagram.tsx. *)
Definition svg (name : string) : MS St string :=
  bindS (createRuleDiagram name) serialize.

(** What the package returns does not depend on its state. *)
Definition Deterministic : Prop :=
  (forall k args s s', snd (call pkg k args s) = snd (call pkg k args s'))
  /\ (forall k args s s', snd (construct pkg k args s) = snd (construct pkg k args s'))
  /\ (forall k args s s', snd (members pkg k args s) = snd (members pkg k args s')).

End WithState.

(** A computation over a package without state does what a computation of
    the first embedding does. *)
Definition Same {A} (m : MS unit A) (p : M A) : Prop :=
  forall s, m s = (s, p).

(** A package without state: a [Library]. *)
Definition stateless (lib : Library) : Package unit :=
  mkPackage
    (fun k => RR.source (export lib k))
    (fun k args s => (s, RR.call (export lib k) args))
    (fun k args s => (s, RR.construct (export lib k) args))
    (fun k args s => (s, (toSVG lib k args, toString lib k args))).


(** A package that numbers its drawings: the markup of a node carries the
    number of invocations made before. *)
Definition numbering (lib : Library) : Package nat :=
  mkPackage
    (fun k => RR.source (export lib k))
    (fun k args n => (S n, RR.call (export lib k) args))
    (fun k args n => (S n, RR.construct (export lib k) args))
    (fun k args n =>
       (S n,
        (Method (Ok (SvgString ("<svg id=" ++ DiagramToSvg.numberToString (Z.of_nat n)
                                  ++ ">"))),
         NotAFunction))).

End Stateful.

(* ================================================================== *)
(** ** A package whose constructors fail                               *)
(* ================================================================== *)

(** An instance of the package outside the contract: every export throws,
    called or constructed. *)
Module BrokenPackage.
Import RR.

Definition failure : Thrown := Error "boom".

Definition library : Library :=
mkLibrary
  (fun k => mkCallee ("function " ++ kindName k ++ "(...items) { }")
              (fun _ => Throw failure)
              (fun _ => Throw failure))
  (fun _ _ => NotAFunction)
  (fun _ _ => NotAFunction).

End BrokenPackage.

(* ================================================================== *)
(** ** Shape of the diagram trees                                      *)
(* ================================================================== *)

Module Tree.
Import RR.

(** A subtree as the grammar modules write them: leaves carry one non-empty
  text; [Optional] and the two repetitions wrap one subtree; [Sequence]
  and [Stack] hold subtrees only; a [Choice] holds its default index,
  which selects one of its alternatives, and then subtrees only; and no
  [Diagram] occurs below the root. *)
Fixpoint subtree (v : Val) : bool :=
match v with
| VNode k args =>
    match k with
    | Terminal | NonTerminal | Comment =>
        match args with
        | [VString text] => negb (JsString.isEmpty text)
        | _ => false
        end
    | Optional | OneOrMore | ZeroOrMore =>
        match args with
        | [item] => subtree item
        | _ => false
        end
    | Sequence | Stack => forallb subtree args
    | Choice =>
        match args with
        | VNumber i :: items =>
            Contract.validArgs Choice args && forallb subtree items
        | _ => false
        end
    | Diagram => false
    end
| _ => false
end.

(** A completed diagram: a [Diagram] root over exactly one subtree. *)
Definition diagram (v : Val) : bool :=
match v with
| VNode Diagram [root] => subtree root
| _ => false
end.

(** The labels of the [NonTerminal] nodes of a tree, left to right. *)
Fixpoint nonTerminals (v : Val) : list string :=
match v with
| VNode NonTerminal [VString label] => [label]
| VNode _ args => flat_map nonTerminals args
| _ => []
end.

(** The labels of the Java 25 diagrams that name no registered rule: the
  seven lexical literals, and [CompactCompilationUnit]. *)
Definition unregisteredLabels : list string :=
["IntegerLiteral"; "FloatingPointLiteral"; "BooleanLiteral";
 "CharacterLiteral"; "StringLiteral"; "TextBlock"; "NullLiteral";
 "CompactCompilationUnit"].

(** The rules that the two grammar modules draw differently. *)
Definition redrawnRules : list string :=
["JavaLetter"; "JavaLetterOrDigit"; "CompilationUnit"; "ImportDeclaration";
 "ConditionalOrExpression"; "ConditionalAndExpression";
 "InclusiveOrExpression"; "ExclusiveOrExpression"; "AndExpression";
 "EqualityExpression"; "RelationalExpression"; "ShiftExpression";
 "AdditiveExpression"; "MultiplicativeExpression"].

End Tree.

(* ================================================================== *)
(** ** Checks that compute                                             *)
(* ================================================================== *)

(** No string occurs twice in [l]. *)
Fixpoint distinct (l : list string) : bool :=
  match l with
  | [] => true
  | x :: l' => negb (existsb (String.eqb x) l') && distinct l'
  end.

(** Equality of values, decided. *)
Fixpoint Val_eqb (a b : RR.Val) : bool :=
  match a, b with
  | RR.VUndefined, RR.VUndefined => true
  | RR.VNumber m, RR.VNumber n => (m =? n)%Z
  | RR.VString s, RR.VString t => String.eqb s t
  | RR.VNode k args, RR.VNode k' args' =>
      String.eqb (RR.kindName k) (RR.kindName k')
      && (fix all2 (l l' : list RR.Val) : bool :=
            match l, l' with
            | [], [] => true
            | x :: r, y :: r' => Val_eqb x y && all2 r r'
            | _, _ => false
            end) args args'
  | _, _ => false
  end.

(** The tree a computation ends in, when it ends in one. *)
Definition built (m : M RR.Val) : RR.Val :=
  match outcome m with
  | Ok v => v
  | Throw _ => RR.VUndefined
  end.

(** Two registrations agree: the same name, and factories that build the
    same [Diagram]. *)
Definition Agree (r1 r2 : string * DiagramFactory) : Prop :=
  fst r1 = fst r2
  /\ exists root,
       Builds (snd r1 tt) (RR.VNode RR.Diagram root)
       /\ Builds (snd r2 tt) (RR.VNode RR.Diagram root).

(* ================================================================== *)
(** * Properties                                                       *)
(* ================================================================== *)

(** ** Strings *)

Section StringFacts.
Import JsString.

Lemma prefix_app (p s : string) :
  String.prefix p s = true <-> exists b, s = p ++ b.
Proof.
  revert s; induction p as [|c p IH]; intros s.
  - split; [intros _; now exists s | intros _; destruct s; reflexivity].
  - destruct s as [|d s]; simpl.
    + split; [discriminate | intros [b Hb]; discriminate].
    + destruct (ascii_dec c d) as [->|Hne].
      * rewrite IH. split; intros [b Hb]; exists b.
        -- now rewrite Hb.
        -- now injection Hb.
      * split; [discriminate | intros [b Hb]; injection Hb; congruence].
Qed.

Lemma includes_Contains (s sub : string) :
  includes s sub = true <-> Contains s sub.
Proof.
  unfold Contains.
  induction s as [|c s IH]; cbn [includes].
  - rewrite orb_false_r, prefix_app. split.
    + intros [b Hb]. now exists "", b.
    + intros [a [b Hab]]. destruct a; simpl in Hab.
      * now exists b.
      * discriminate.
  - rewrite orb_true_iff, prefix_app, IH. split.
    + intros [[b Hb] | [a [b Hab]]].
      * now exists "", b.
      * exists (String c a), b. simpl. now rewrite Hab.
    + intros [a [b Hab]]. destruct a as [|c' a]; simpl in Hab.
      * left. now exists b.
      * right. exists a, b. now injection Hab.
Qed.

Lemma includes_empty (s : string) : includes s "" = true.
Proof. destruct s; reflexivity. Qed.

Lemma append_empty_r (s : string) : s ++ "" = s.
Proof. induction s as [|c s IH]; simpl; [reflexivity | now rewrite IH]. Qed.

Lemma isEmpty_true (s : string) : isEmpty s = true <-> s = "".
Proof. destruct s; simpl; split; congruence. Qed.

(** [trim] removes a run of white space at each end, and all of it. *)

Lemma trimStart_spec (s : string) :
  exists a, s = a ++ trimStart s
            /\ allChars isWhiteSpace a = true
            /\ startsWith isWhiteSpace (trimStart s) = false.
Proof.
  induction s as [|c s [a [E [Ha Hs]]]]; simpl.
  - now exists "".
  - destruct (isWhiteSpace c) eqn:Hc.
    + exists (String c a). simpl. rewrite Hc, Ha, <- E. auto.
    + exists "". simpl. auto.
Qed.

Lemma endsWith_cons (p : ascii -> bool) (c : ascii) (s : string) :
  s <> "" -> endsWith p (String c s) = endsWith p s.
Proof. destruct s; [congruence | reflexivity]. Qed.

Lemma trimEnd_spec (s : string) :
  exists b, s = trimEnd s ++ b
            /\ allChars isWhiteSpace b = true
            /\ endsWith isWhiteSpace (trimEnd s) = false.
Proof.
  induction s as [|c s [b [E [Hb He]]]]; simpl.
  - now exists "".
  - destruct (trimEnd s) as [|d r] eqn:Hr.
    + simpl in E. subst b. destruct (isWhiteSpace c) eqn:Hc.
      * exists (String c s). simpl. rewrite Hc, Hb. auto.
      * exists s. simpl. rewrite Hc. auto.
    + exists b. rewrite E. split; [reflexivity|]. split; [exact Hb|].
      rewrite endsWith_cons by discriminate. exact He.
Qed.

Lemma trimEnd_starts (s : string) :
  startsWith isWhiteSpace s = false ->
  startsWith isWhiteSpace (trimEnd s) = false.
Proof.
  destruct s as [|c s]; simpl; [reflexivity|]. intros Hc.
  destruct (trimEnd s); [rewrite Hc|]; simpl; auto.
Qed.

Lemma append_assoc (a b c : string) : (a ++ b) ++ c = a ++ (b ++ c).
Proof. induction a as [|x a IH]; simpl; [reflexivity | now rewrite IH]. Qed.

Lemma trim_spec (s : string) :
  exists a b,
    s = a ++ trim s ++ b
    /\ allChars isWhiteSpace a = true
    /\ allChars isWhiteSpace b = true
    /\ startsWith isWhiteSpace (trim s) = false
    /\ endsWith isWhiteSpace (trim s) = false.
Proof.
  destruct (trimStart_spec s) as [a [Ea [Ha Hs]]].
  destruct (trimEnd_spec (trimStart s)) as [b [Eb [Hb He]]].
  exists a, b. unfold trim. rewrite <- Eb, <- Ea.
  repeat split; auto. now apply trimEnd_starts.
Qed.

End StringFacts.

(** ** Section filter (C6) *)

Section SectionFilter.
Import JsString.

Lemma filter_all {A} (f : A -> bool) (l : list A) :
  (forall x, In x l -> f x = true) -> filter f l = l.
Proof.
  induction l as [|a l IH]; simpl; intros H; [reflexivity|].
  rewrite (H a (or_introl eq_refl)). f_equal. apply IH. intros; apply H; now right.
Qed.

(** C6, as the code has it: the query is trimmed before it is lowered, and
    the names kept are those whose lowercase form contains that trimmed,
    lowered query, in their original order; the empty query keeps every
    name. *)
Theorem filterNames_trimmed_query (query : string) (names : list string) :
  let q := toLowerCase (trim query) in
  App.filterNames query names
    = filter (fun n => includes (toLowerCase n) q) names
  /\ (forall n, In n (App.filterNames query names)
                <-> In n names /\ Contains (toLowerCase n) q)
  /\ App.filterNames "" names = names.
Proof.
  intros q.
  assert (E : App.filterNames query names
              = filter (fun n => includes (toLowerCase n) q) names).
  { unfold App.filterNames. fold q.
    destruct (isEmpty q) eqn:Hq; [|reflexivity].
    apply isEmpty_true in Hq. rewrite Hq.
    symmetry. apply filter_all. intros; apply includes_empty. }
  split; [exact E | split].
  - intros n. rewrite E, filter_In, includes_Contains. reflexivity.
  - reflexivity.
Qed.

(** C6 as stated fails on a query with surrounding white space: the code
    matches on the trimmed query. *)
Lemma filterNames_untrimmed_counterexample :
  App.filterNames " type" ["TypeName"; "Foo"] = ["TypeName"]
  /\ filter (fun n => includes (toLowerCase n) (toLowerCase " type"))
       ["TypeName"; "Foo"] = [].
Proof. split; reflexivity. Qed.

End SectionFilter.

(** ** Coverage verifier (C1) *)

Section CoverageFacts.
Import Coverage.

Lemma JsSet_has_In (s : JsSet.t) (x : string) :
  JsSet.has s x = true <-> In x s.
Proof.
  unfold JsSet.has. rewrite existsb_exists. split.
  - intros [y [Hy Heq]]. apply String.eqb_eq in Heq. now subst.
  - intros H. exists x. split; [assumption | apply String.eqb_refl].
Qed.

Lemma Array_sort_In (l : list string) (x : string) :
  In x (Array_sort l) <-> In x l.
Proof.
  unfold Array_sort. split; intros H.
  - eapply Permutation_in; [apply Permutation_sym, StringSort.Permuted_sort | exact H].
  - eapply Permutation_in; [apply StringSort.Permuted_sort | exact H].
Qed.

Lemma Array_sort_nil (l : list string) : Array_sort l = [] <-> l = [].
Proof.
  split; intros H.
  - apply Permutation_nil. rewrite <- H. apply Permutation_sym, StringSort.Permuted_sort.
  - subst. reflexivity.
Qed.

Lemma ascii_compare_le_trans (a b c : ascii) :
  Ascii.compare a b <> Gt -> Ascii.compare b c <> Gt ->
  Ascii.compare a c <> Gt
  /\ (Ascii.compare a c = Eq -> Ascii.compare a b = Eq /\ Ascii.compare b c = Eq).
Proof.
  unfold Ascii.compare.
  rewrite !N.compare_gt_iff, !N.compare_eq_iff. lia.
Qed.

Lemma string_compare_le_trans (a b c : string) :
  String.compare a b <> Gt -> String.compare b c <> Gt ->
  String.compare a c <> Gt.
Proof.
  revert b c. induction a as [|x a IH]; intros [|y b] [|z c]; simpl;
    try congruence.
  intros Hab Hbc.
  destruct (ascii_compare_le_trans x y z) as [Hle Heq].
  - destruct (Ascii.compare x y); congruence.
  - destruct (Ascii.compare y z); congruence.
  - destruct (Ascii.compare x z) eqn:Exz; [|congruence|congruence].
    destruct (Heq eq_refl) as [Exy Eyz]. rewrite Exy in Hab. rewrite Eyz in Hbc.
    now apply (IH b c).
Qed.

Lemma leb_trans : Transitive (fun x y : string => is_true (String.leb x y)).
Proof.
  intros a b c. unfold is_true, String.leb. intros Hab Hbc.
  pose proof (string_compare_le_trans a b c) as H.
  destruct (String.compare a b); try discriminate;
    destruct (String.compare b c); try discriminate;
    destruct (String.compare a c); try reflexivity;
    exfalso; apply H; congruence.
Qed.

Lemma Array_sort_sorted (l : list string) : LexSorted (Array_sort l).
Proof. apply StringSort.StronglySorted_sort, leb_trans. Qed.

Lemma nil_iff_no_element {A} (l : list A) : l = [] <-> forall x, ~ In x l.
Proof.
  split.
  - intros -> x [].
  - destruct l as [|a l]; [reflexivity|]. intros H. destruct (H a). now left.
Qed.

Lemma missingEbnf_In (A B : JsSet.t) (r : string) :
  In r (missingEbnf A B) <-> In r A /\ ~ In r B.
Proof.
  unfold missingEbnf, JsSet.values.
  rewrite Array_sort_In, filter_In, negb_true_iff, <- not_true_iff_false, JsSet_has_In.
  reflexivity.
Qed.

Lemma missingDiagram_In (A B : JsSet.t) (r : string) :
  In r (missingDiagram A B) <-> In r B /\ ~ In r A.
Proof.
  unfold missingDiagram, JsSet.values.
  rewrite Array_sort_In, filter_In, negb_true_iff, <- not_true_iff_false, JsSet_has_In.
  reflexivity.
Qed.

Lemma In_string_dec (x : string) (l : list string) : In x l \/ ~ In x l.
Proof. destruct (in_dec string_dec x l); [now left | now right]. Qed.

Lemma no_mismatch_iff_same_keys (A B : JsSet.t) :
  missingEbnf A B = [] /\ missingDiagram A B = []
  <-> (forall r, In r A <-> In r B).
Proof.
  rewrite !nil_iff_no_element. split.
  - intros [H1 H2] r. specialize (H1 r). specialize (H2 r).
    rewrite missingEbnf_In in H1. rewrite missingDiagram_In in H2.
    destruct (In_string_dec r A), (In_string_dec r B); tauto.
  - intros H. split; intros r.
    + rewrite missingEbnf_In, (H r). tauto.
    + rewrite missingDiagram_In, (H r). tauto.
Qed.

Lemma report_exitCode (A B : JsSet.t) :
  exitCode (report A B)
  = match missingEbnf A B, missingDiagram A B with
    | [], [] => 0%Z
    | _, _ => 1%Z
    end.
Proof.
  unfold report.
  destruct (missingEbnf A B), (missingDiagram A B); reflexivity.
Qed.

Lemma main_exitCode (readFileSync : string -> Result string) (g e : string) :
  readFileSync grammarPath = Ok g ->
  readFileSync ebnfPath = Ok e ->
  exitCode (main readFileSync)
  = exitCode (report (extractDiagramRules g) (extractEbnfRules e)).
Proof. intros Hg He. unfold main. rewrite Hg, He. reflexivity. Qed.

End CoverageFacts.

(** C1 (coverage symmetry).  For the two key sets the verifier works on:
    both difference lists are empty exactly when the sets are equal; each
    list holds exactly the names of one set missing from the other, sorted
    lexicographically; the exit code is 0 exactly when both lists are empty
    and 1 otherwise, and then the report is the two lines of a passed check;
    and with the diagram set holding just the key A and the EBNF entry
    removed, missingEbnf is [A], missingDiagram is empty and the exit code
    is 1. *)
Theorem coverage_symmetry (diagramRules ebnfRules : JsSet.t) :
  let missingEbnf := Coverage.missingEbnf diagramRules ebnfRules in
  let missingDiagram := Coverage.missingDiagram diagramRules ebnfRules in
  let code := Coverage.exitCode (Coverage.report diagramRules ebnfRules) in
  ((missingEbnf = [] /\ missingDiagram = [])
     <-> (forall r, In r diagramRules <-> In r ebnfRules))
  /\ (forall r, In r missingEbnf <-> In r diagramRules /\ ~ In r ebnfRules)
  /\ (forall r, In r missingDiagram <-> In r ebnfRules /\ ~ In r diagramRules)
  /\ LexSorted missingEbnf
  /\ LexSorted missingDiagram
  /\ (code = 0%Z <-> (missingEbnf = [] /\ missingDiagram = []))
  /\ (code = 1%Z <-> ~ (missingEbnf = [] /\ missingDiagram = []))
  /\ (missingEbnf = [] /\ missingDiagram = [] ->
      Coverage.output (Coverage.report diagramRules ebnfRules)
      = [Coverage.Log "✅ Grammar coverage check PASSED";
         Coverage.Log ("   All rules have matching diagram factories and EBNF definitions."
                         ++ Coverage.nl)])
  /\ (forall readFileSync g e,
        readFileSync Coverage.grammarPath = Ok g ->
        readFileSync Coverage.ebnfPath = Ok e ->
        diagramRules = Coverage.extractDiagramRules g ->
        ebnfRules = Coverage.extractEbnfRules e ->
        Coverage.exitCode (Coverage.main readFileSync) = code)
  /\ (Coverage.missingEbnf ["A"] ["A"] = []
      /\ Coverage.missingDiagram ["A"] ["A"] = []
      /\ Coverage.exitCode (Coverage.report ["A"] ["A"]) = 0%Z)
  /\ (Coverage.missingEbnf ["A"] [] = ["A"]
      /\ Coverage.missingDiagram ["A"] [] = []
      /\ Coverage.exitCode (Coverage.report ["A"] []) = 1%Z).
Proof.
  intros mE mD code.
  assert (Hcode : code = match mE, mD with [], [] => 0%Z | _, _ => 1%Z end)
    by apply report_exitCode.
  split; [apply no_mismatch_iff_same_keys|].
  split; [intro; apply missingEbnf_In|].
  split; [intro; apply missingDiagram_In|].
  split; [apply Array_sort_sorted|].
  split; [apply Array_sort_sorted|].
  split; [|split; [|split; [|split]]].
  - rewrite Hcode. destruct mE, mD; split; try discriminate; intuition discriminate.
  - rewrite Hcode. destruct mE, mD; split; try discriminate; intuition (try discriminate).
  - intros [H1 H2]. subst mE mD. unfold Coverage.report. rewrite H1, H2. reflexivity.
  - intros fs g e Hg He -> ->. apply (main_exitCode fs g e Hg He).
  - repeat split; reflexivity.
Qed.

(** The scenario again, from the two texts through [main]. *)
Lemma scenario_through_main :
  Coverage.extractDiagramRules Scenario.grammar_ts = ["A"]
  /\ Coverage.extractEbnfRules Scenario.ebnf_ts = ["A"]
  /\ Coverage.exitCode
       (Coverage.main (Scenario.files Scenario.grammar_ts Scenario.ebnf_ts)) = 0%Z
  /\ Coverage.extractEbnfRules Scenario.ebnf_without_A_ts = []
  /\ Coverage.main (Scenario.files Scenario.grammar_ts Scenario.ebnf_without_A_ts)
     = Coverage.mkRun
         [Coverage.Log ("🔍 Checking grammar coverage..." ++ Coverage.nl);
          Coverage.Log "📊 Found 1 diagram rules in java25Grammar.ts";
          Coverage.Log "📝 Found 0 EBNF definitions in ebnfDefinitions.ts";
          Coverage.Log "";
          Coverage.Log "⚠️  Rules with DIAGRAM but NO EBNF definition:";
          Coverage.Log "   - A";
          Coverage.Log "";
          Coverage.Log "❌ Grammar coverage check FAILED";
          Coverage.Log
            ("   Please ensure every rule has both a diagram factory and EBNF definition."
               ++ Coverage.nl)]
         1.
Proof. repeat split; vm_compute; reflexivity. Qed.

(** ** The computation monad *)

Section MonadFacts.
Context {A B : Type}.

Lemma outcome_bind (m : M A) (f : A -> M B) (a : A) :
  outcome m = Ok a -> outcome (bind m f) = outcome (f a).
Proof.
  destruct m as [l [x|e]]; simpl; intros H; [|discriminate].
  injection H as ->. unfold bind. destruct (f a); reflexivity.
Qed.

Lemma trace_bind_ok (m : M A) (f : A -> M B) (a : A) :
  outcome m = Ok a -> trace (bind m f) = (trace m ++ trace (f a))%list.
Proof.
  destruct m as [l [x|e]]; simpl; intros H; [|discriminate].
  injection H as ->. unfold bind. destruct (f a); reflexivity.
Qed.

Lemma trace_bind_throw (m : M A) (f : A -> M B) (e : Thrown) :
  outcome m = Throw e -> trace (bind m f) = trace m.
Proof.
  destruct m as [l [x|e']]; simpl; intros H; [discriminate|reflexivity].
Qed.

Lemma trace_bind_prefix (m : M A) (f : A -> M B) :
  exists l, trace (bind m f) = (trace m ++ l)%list.
Proof.
  destruct m as [l [x|e]]; simpl.
  - unfold bind. destruct (f x) as [l' r]. now exists l'.
  - exists []. now rewrite app_nil_r.
Qed.

End MonadFacts.

Lemma evalArgs_builds (es : list (M RR.Val)) (vs : list RR.Val) :
  Forall2 Builds es vs -> outcome (evalArgs es) = Ok vs.
Proof.
  induction 1 as [|e v es vs He _ IH]; [reflexivity|].
  simpl. rewrite (outcome_bind _ _ _ He), (outcome_bind _ _ _ IH). reflexivity.
Qed.

Lemma apply_builds (f : list RR.Val -> M RR.Val) es vs :
  Forall2 Builds es vs -> outcome (apply_ f es) = outcome (f vs).
Proof.
  intros H. unfold apply_. now rewrite (outcome_bind _ _ _ (evalArgs_builds _ _ H)).
Qed.

Lemma builds_str (s : string) : Builds (str s) (RR.VString s).
Proof. reflexivity. Qed.

Lemma builds_num (n : Z) : Builds (num n) (RR.VNumber n).
Proof. reflexivity. Qed.

(** ** The wrappers under the package contract *)

Section Wrappers.
Import RR Contract.
Variable lib : Library.
Hypothesis shape : EitherShape lib.

Lemma classCallMessage_without_new (k : Kind) :
  JsString.includes (classCallMessage k) "without 'new'" = true.
Proof. destruct k; reflexivity. Qed.

Lemma callOrNew_builds (k : Kind) (args : list Val) :
  validArgs k args = true ->
  outcome (Java21.callOrNew lib k args) = Ok (VNode k args).
Proof.
  intros Hv. unfold Java21.callOrNew, invokeCall, invokeNew, try_catch.
  destruct (shape k) as [[_ Hc] | [_ Hc Hn]].
  - now rewrite (Hc _ Hv).
  - rewrite Hc. unfold Java21.withoutNew, TypeError. cbn [isTypeError message andb].
    rewrite classCallMessage_without_new. cbn. now rewrite (Hn _ Hv).
Qed.

Lemma rr_builds (k : Kind) (args : list Val) :
  validArgs k args = true ->
  outcome (Java25.rr lib k args) = Ok (VNode k args).
Proof.
  intros Hv. unfold Java25.rr, invokeCall, invokeNew, try_catch.
  destruct (shape k) as [[Hs Hc] | [Hs Hc Hn]]; rewrite Hs.
  - now rewrite (Hc _ Hv).
  - simpl. now rewrite (Hn _ Hv).
Qed.

Lemma node21_builds (k : Kind) es vs :
  Forall2 Builds es vs -> validArgs k vs = true ->
  Builds (apply_ (Java21.callOrNew lib k) es) (VNode k vs).
Proof.
  intros H Hv. unfold Builds. rewrite (apply_builds _ _ _ H).
  now apply callOrNew_builds.
Qed.

Lemma node_builds (k : Kind) es vs :
  Forall2 Builds es vs -> validArgs k vs = true ->
  Builds (apply_ (Java25.rr lib k) es) (VNode k vs).
Proof.
  intros H Hv. unfold Builds. rewrite (apply_builds _ _ _ H).
  now apply rr_builds.
Qed.

Lemma map_T_builds (ops : list string) :
  Forall2 Builds (map (Java21.T lib) ops) (map DiagramNode.Terminal ops).
Proof.
  induction ops as [|op ops IH]; simpl; constructor; [|exact IH].
  apply node21_builds; [|reflexivity].
  constructor; [apply builds_str | constructor].
Qed.

Lemma chain_builds (R : string) (ops : list string) :
  ops <> [] ->
  outcome (Java21.chain lib R ops)
  = Ok (DiagramNode.Sequence
          [DiagramNode.NonTerminal R;
           DiagramNode.ZeroOrMore
             (DiagramNode.Sequence
                [DiagramNode.Choice 0 (map DiagramNode.Terminal ops);
                 DiagramNode.NonTerminal R])]).
Proof.
  intros Hops.
  assert (HNT : Builds (Java21.NT lib R) (DiagramNode.NonTerminal R)).
  { apply node21_builds; [|reflexivity].
    constructor; [apply builds_str | constructor]. }
  assert (HCh : Builds (Java21.Choice lib (num 0 :: map (Java21.T lib) ops))
                  (DiagramNode.Choice 0 (map DiagramNode.Terminal ops))).
  { apply node21_builds.
    - constructor; [apply builds_num | apply map_T_builds].
    - simpl. rewrite length_map. destruct ops; [contradiction|].
      apply Z.ltb_lt. simpl List.length. lia. }
  apply node21_builds; [|reflexivity].
  constructor; [exact HNT|]. constructor; [|constructor].
  apply node21_builds; [|reflexivity].
  constructor; [|constructor].
  apply node21_builds; [|reflexivity].
  constructor; [exact HCh|]. constructor; [exact HNT | constructor].
Qed.

End Wrappers.

Section Packages.
Import RR Contract.

Lemma functions_shape : EitherShape Packages.functions.
Proof.
  intros k. left. split.
  - destruct k; reflexivity.
  - intros args Hv. simpl. now rewrite Hv.
Qed.

Lemma classes_shape : EitherShape Packages.classes.
Proof.
  intros k. right. split.
  - destruct k; reflexivity.
  - reflexivity.
  - intros args Hv. simpl. now rewrite Hv.
Qed.
End Packages.

(** C5 (precedence chain).  With the package in either of its shapes, for
    every base rule name R and every non-empty list of operator tokens, chain
    returns Sequence(NonTerminal(R), ZeroOrMore(Sequence(Choice(0,
    Terminal(op1), ..., Terminal(opn)), NonTerminal(R)))). *)
Theorem chain_is_precedence_chain
  (lib : RR.Library) (R : string) (ops : list string) :
  Contract.EitherShape lib ->
  ops <> [] ->
  outcome (Java21.chain lib R ops)
  = Ok (DiagramNode.Sequence
          [DiagramNode.NonTerminal R;
           DiagramNode.ZeroOrMore
             (DiagramNode.Sequence
                [DiagramNode.Choice 0 (map DiagramNode.Terminal ops);
                 DiagramNode.NonTerminal R])]).
Proof. intros Hs Hops. now apply chain_builds. Qed.

Lemma chain_is_precedence_chain_witness :
  outcome (Java21.chain Packages.classes "AdditiveExpression" ["<<"; ">>"; ">>>"])
  = Ok (DiagramNode.Sequence
          [DiagramNode.NonTerminal "AdditiveExpression";
           DiagramNode.ZeroOrMore
             (DiagramNode.Sequence
                [DiagramNode.Choice 0
                   [DiagramNode.Terminal "<<"; DiagramNode.Terminal ">>";
                    DiagramNode.Terminal ">>>"];
                 DiagramNode.NonTerminal "AdditiveExpression"])]).
Proof.
  apply (chain_is_precedence_chain Packages.classes "AdditiveExpression"
           ["<<"; ">>"; ">>>"]).
  - exact classes_shape.
  - discriminate.
Defined.

(** ** Render adapter (C7) *)

(** C7, as the code has it.  For every node-kind constructor and argument
    list: callOrNew (javaGrammar.ts) first calls the constructor directly and
    retries it with new, on the same arguments, exactly when the call throws
    a TypeError whose message contains the words without 'new'; rr
    (java25Grammar.ts) uses new at once, with no call, when the source text
    of the constructor starts with the word class, and otherwise calls it
    directly and retries with new exactly when the thrown message contains
    one of its three signatures; every other failure propagates unchanged;
    and each module routes all ten constructors through its wrapper. *)
Theorem adapter_call_then_new
  (lib : RR.Library) (k : RR.Kind) (args : list RR.Val) :
  let fn := RR.export lib k in
  Java21.callOrNew lib k args
    = match RR.call fn args with
      | Ok v => ([Called k args], Ok v)
      | Throw e =>
          if isTypeError e
             && match message e with
                | Some m => JsString.includes m "without 'new'"
                | None => false
                end
          then ([Called k args; Constructed k args], RR.construct fn args)
          else ([Called k args], Throw e)
      end
  /\ Java25.rr lib k args
    = (if Java25.__isClass fn
       then ([Constructed k args], RR.construct fn args)
       else match RR.call fn args with
            | Ok v => ([Called k args], Ok v)
            | Throw e =>
                if JsString.includes (errorText e) "without 'new'"
                   || JsString.includes (errorText e) "Class constructor"
                   || JsString.includes (errorText e) "Cannot call a class as a function"
                then ([Called k args; Constructed k args], RR.construct fn args)
                else ([Called k args], Throw e)
            end)
  /\ (forall items,
        Java21.wrapper lib k items
        = (values <- evalArgs items ;; Java21.callOrNew lib k values))
  /\ (forall items,
        Java25.wrapper lib k items
        = (values <- evalArgs items ;; Java25.rr lib k values))
  /\ (forall text rest,
        Java25.T lib text rest = Java25.wrapper lib RR.Terminal (str text :: rest)
        /\ Java25.NT lib text rest = Java25.wrapper lib RR.NonTerminal (str text :: rest)
        /\ Java25.Cmt lib text rest = Java25.wrapper lib RR.Comment (str text :: rest))
  /\ (forall s,
        Java21.T lib s = Java21.wrapper lib RR.Terminal [str s]
        /\ Java21.NT lib s = Java21.wrapper lib RR.NonTerminal [str s]).
Proof.
  intros fn. repeat split.
  - unfold Java21.callOrNew, try_catch, invokeCall, invokeNew, Java21.withoutNew.
    fold fn. destruct (RR.call fn args) as [v|e]; [reflexivity|].
    destruct (isTypeError e && _); reflexivity.
  - unfold Java25.rr, try_catch, invokeCall, invokeNew, Java25.mustBeConstructed.
    fold fn. destruct (Java25.__isClass fn); [reflexivity|].
    destruct (RR.call fn args) as [v|e]; [reflexivity|].
    destruct (_ || _); reflexivity.
  - destruct k; reflexivity.
  - destruct k; reflexivity.
Qed.

(** C7 as stated fails for rr: on a constructor that is an ES class there is
    no direct call at all, the only invocation is the one with new. *)
Lemma rr_constructs_without_calling :
  Java25.rr Packages.classes RR.Diagram []
  = ([Constructed RR.Diagram []], Ok (RR.VNode RR.Diagram []))
  /\ RR.call (RR.export Packages.classes RR.Diagram) []
     = Throw (TypeError "Class constructor Diagram cannot be invoked without 'new'")
  /\ Java21.callOrNew Packages.classes RR.Diagram []
     = ([Called RR.Diagram []; Constructed RR.Diagram []],
        Ok (RR.VNode RR.Diagram [])).
Proof. repeat split. Qed.

(** ** Serialization (C4) *)

Section Serialization.
Import RR DiagramToSvg.

Lemma renderError_embeds (e : Thrown) :
  JsString.Contains (renderError e) (errorText e).
Proof. exists "<!-- Render error: ", " -->". reflexivity. Qed.

(** The function throws from its [catch] block and from nowhere else. *)
Lemma diagramToSvgString_throws (diagram : JsAny) (raised : Thrown) :
  diagramToSvgString diagram = Throw raised
  <-> exists toSVG toString,
        diagram = Truthy toSVG toString
        /\ tryBody toSVG toString = Fails (Unprintable raised).
Proof.
  split.
  - destruct diagram as [|a b]; simpl; [discriminate|].
    intros H. exists a, b. split; [reflexivity|].
    destruct (tryBody a b) as [svg|[e|r]]; simpl in H; try discriminate H.
    now injection H as ->.
  - intros [a [b [-> H]]]. simpl. now rewrite H.
Qed.

(** What the members of a node of the package throw can be printed, so a
    node is always serialized. *)
Lemma tryBody_node (a : Member SvgValue) (b : Member string) :
  (exists svg, tryBody (slot svgOf a) (slot (fun text => text) b) = Yields svg)
  \/ (exists e, tryBody (slot svgOf a) (slot (fun text => text) b)
                = Fails (Printable e)).
Proof.
  destruct a as [|[[svg|[html|] [xml|e]|]|e]|e]; simpl; eauto.
  destruct b as [|[text|e]|e]; simpl; eauto.
Qed.

Lemma diagramToSvgString_node_returns (a : Member SvgValue) (b : Member string) :
  exists s, diagramToSvgString (node a b) = Ok s.
Proof.
  unfold node, diagramToSvgString.
  destruct (tryBody_node a b) as [[svg ->] | [e ->]]; simpl; eauto.
Qed.

Lemma diagramToSvgString_returns (lib : Library) (v : Val) :
  exists s, diagramToSvgString (view lib v) = Ok s.
Proof.
  destruct v as [|n|t|k args]; simpl.
  - eauto.
  - destruct (n =? 0)%Z; simpl; eauto.
  - destruct (JsString.isEmpty t); simpl; eauto.
  - apply diagramToSvgString_node_returns.
Qed.

Lemma diagramToSvgString_markup (a : Member SvgValue) (b : Member string) (s : string) :
  Contract.markupOf a b = Some s -> diagramToSvgString (node a b) = Ok s.
Proof.
  intros H.
  destruct a as [|[[svg|[html|] [xml|e]|]|e]|e]; simpl in *;
    try discriminate; try (injection H as ->; reflexivity).
  destruct b as [|[text|e]|e]; simpl in *;
    try discriminate; injection H as ->; reflexivity.
Qed.
End Serialization.

(** C4.  diagramToSvgString is not total.  When the value thrown while the
    markup is produced is one whose text cannot be built (an object made by
    Object.create(null), or one whose message is a Symbol), the catch block
    throws in turn, and the function throws: that is its only way to throw.
    Everywhere else it returns a string: the empty-diagram comment for a
    falsy input (undefined, 0, the empty string); a render-error comment that
    embeds the message for whatever else is thrown by reading or calling
    toSVG or toString, by the test for a node, by reading outerHTML or by the
    serializer; a diagnostic comment of its own for a toSVG result that is
    neither a string nor a node and for an input with neither toSVG nor
    toString; and otherwise the markup handed over, as it is. *)
Theorem diagramToSvgString_throws_from_catch :
  DiagramToSvg.diagramToSvgString
    (DiagramToSvg.Truthy
       (DiagramToSvg.Function
          (DiagramToSvg.Fails
             (DiagramToSvg.Unprintable
                (TypeError "Cannot convert object to primitive value"))))
       DiagramToSvg.NoFunction)
  = Throw (TypeError "Cannot convert object to primitive value")
  /\ (forall diagram raised,
        DiagramToSvg.diagramToSvgString diagram = Throw raised
        <-> exists toSVG toString,
              diagram = DiagramToSvg.Truthy toSVG toString
              /\ DiagramToSvg.tryBody toSVG toString
                 = DiagramToSvg.Fails (DiagramToSvg.Unprintable raised))
  /\ DiagramToSvg.diagramToSvgString DiagramToSvg.Falsy
     = Ok "<!-- empty diagram -->"
  /\ (forall lib,
        DiagramToSvg.view lib RR.VUndefined = DiagramToSvg.Falsy
        /\ DiagramToSvg.view lib (RR.VString "") = DiagramToSvg.Falsy
        /\ DiagramToSvg.view lib (RR.VNumber 0) = DiagramToSvg.Falsy)
  /\ (forall toSVG toString e,
        DiagramToSvg.tryBody toSVG toString
        = DiagramToSvg.Fails (DiagramToSvg.Printable e) ->
        DiagramToSvg.diagramToSvgString (DiagramToSvg.Truthy toSVG toString)
        = Ok ("<!-- Render error: " ++ errorText e ++ " -->")
        /\ JsString.Contains ("<!-- Render error: " ++ errorText e ++ " -->")
             (errorText e))
  /\ (forall toString outerHTML serialized c,
        DiagramToSvg.tryBody (DiagramToSvg.Function (DiagramToSvg.Fails c)) toString
        = DiagramToSvg.Fails c
        /\ DiagramToSvg.tryBody (DiagramToSvg.Trap c) toString = DiagramToSvg.Fails c
        /\ DiagramToSvg.tryBody
             (DiagramToSvg.Function (DiagramToSvg.Yields (DiagramToSvg.SvgTrap c)))
             toString
           = DiagramToSvg.Fails c
        /\ DiagramToSvg.tryBody
             (DiagramToSvg.Function
                (DiagramToSvg.Yields
                   (DiagramToSvg.SvgNode (DiagramToSvg.Fails c) serialized)))
             toString
           = DiagramToSvg.Fails c
        /\ DiagramToSvg.tryBody
             (DiagramToSvg.Function
                (DiagramToSvg.Yields
                   (DiagramToSvg.SvgNode (DiagramToSvg.Yields None)
                      (DiagramToSvg.Fails c))))
             toString
           = DiagramToSvg.Fails c
        /\ DiagramToSvg.tryBody
             (DiagramToSvg.Function
                (DiagramToSvg.Yields
                   (DiagramToSvg.SvgNode (DiagramToSvg.Yields (Some outerHTML))
                      (DiagramToSvg.Fails c))))
             toString
           = DiagramToSvg.Yields outerHTML
        /\ DiagramToSvg.tryBody DiagramToSvg.NoFunction
             (DiagramToSvg.Function (DiagramToSvg.Fails c))
           = DiagramToSvg.Fails c
        /\ DiagramToSvg.tryBody DiagramToSvg.NoFunction (DiagramToSvg.Trap c)
           = DiagramToSvg.Fails c)
  /\ (forall toString,
        DiagramToSvg.diagramToSvgString
          (DiagramToSvg.Truthy
             (DiagramToSvg.Function (DiagramToSvg.Yields DiagramToSvg.SvgElse))
             toString)
        = Ok "<!-- toSVG() returned unexpected value -->")
  /\ DiagramToSvg.diagramToSvgString
       (DiagramToSvg.Truthy DiagramToSvg.NoFunction DiagramToSvg.NoFunction)
     = Ok "<!-- Diagram does not support toSVG/toString -->"
  /\ (forall toSVG toString s,
        Contract.markupOf toSVG toString = Some s ->
        DiagramToSvg.diagramToSvgString (DiagramToSvg.node toSVG toString) = Ok s).
Proof.
  split; [reflexivity|].
  split; [apply diagramToSvgString_throws|].
  split; [reflexivity|].
  split; [intros lib; repeat split|].
  split.
  { intros a b e H. simpl. rewrite H. split; [reflexivity|].
    apply renderError_embeds. }
  split; [intros; repeat split|].
  split; [reflexivity|].
  split; [reflexivity|].
  apply diagramToSvgString_markup.
Qed.
(** ** The registry *)

Section MapFacts.
Context {V : Type}.

Lemma get_set (m : JsMap.t V) (k k' : string) (v : V) :
  JsMap.get (JsMap.set m k v) k'
  = if String.eqb k' k then Some v else JsMap.get m k'.
Proof.
  induction m as [|[k0 v0] m IH]; simpl.
  - reflexivity.
  - destruct (String.eqb k k0) eqn:E; simpl.
    + apply String.eqb_eq in E. subst k0.
      destruct (String.eqb k' k); reflexivity.
    + rewrite IH. destruct (String.eqb k' k0) eqn:E'; [|reflexivity].
      apply String.eqb_eq in E'. subst k0.
      rewrite String.eqb_sym in E. now rewrite E.
Qed.

Lemma get_fold_set (l : list (string * V)) (m : JsMap.t V) (k : string) (v : V) :
  JsMap.get (fold_left (fun m r => JsMap.set m (fst r) (snd r)) l m) k = Some v ->
  In (k, v) l \/ JsMap.get m k = Some v.
Proof.
  revert m; induction l as [|[k0 v0] l IH]; simpl; intros m H.
  - now right.
  - destruct (IH _ H) as [Hin | Hget].
    + left. now right.
    + rewrite get_set in Hget. destruct (String.eqb k k0) eqn:E.
      * apply String.eqb_eq in E. injection Hget as ->. subst. left. now left.
      * now right.
Qed.

Lemma has_get (m : JsMap.t V) (k : string) :
  JsMap.has m k = true <-> exists v, JsMap.get m k = Some v.
Proof.
  unfold JsMap.has. destruct (JsMap.get m k) as [v|].
  - split; eauto.
  - split; [discriminate | intros [v Hv]; discriminate].
Qed.

Lemma has_get_none (m : JsMap.t V) (k : string) :
  JsMap.has m k = false <-> JsMap.get m k = None.
Proof.
  unfold JsMap.has. destruct (JsMap.get m k) as [v|]; split; congruence.
Qed.
End MapFacts.

Section Registry.
Import RR Contract Java25.
Variable lib : Library.

Lemma registered (P : DiagramFactory -> Prop) :
  Forall (fun r => P (snd r)) (registrations lib) ->
  forall name factory,
    JsMap.get (rules lib) name = Some factory -> P factory.
Proof.
  intros HP name factory H. unfold rules in H.
  apply get_fold_set in H. destruct H as [H | H]; [|discriminate].
  rewrite Forall_forall in HP. exact (HP _ H).
Qed.

Section UnderContract.
Hypothesis shape : EitherShape lib.

Ltac build :=
  lazymatch goal with
  | |- Builds (str _) _ => apply builds_str
  | |- Builds (num _) _ => apply builds_num
  | |- Builds _ _ =>
      eapply (node_builds lib shape); [build_args | reflexivity]
  end
with build_args :=
  lazymatch goal with
  | |- Forall2 _ [] _ => apply Forall2_nil
  | |- Forall2 _ (_ :: _) _ => apply Forall2_cons; [build | build_args]
  end.

Lemma registrations_build :
  Forall (fun r => exists root, Builds (snd r tt) (VNode Diagram root))
    (registrations lib).
Proof.
  unfold registrations.
  repeat (apply Forall_cons; [cbn [snd]; eexists; build|]).
  apply Forall_nil.
Qed.

Lemma createRuleDiagram_builds (name : string) :
  JsMap.has (rules lib) name = true ->
  exists root, outcome (createRuleDiagram lib name) = Ok (VNode Diagram root).
Proof.
  intros H. apply has_get in H. destruct H as [factory Hf].
  unfold createRuleDiagram. rewrite Hf.
  exact (registered (fun f => exists root, Builds (f tt) (VNode Diagram root))
           registrations_build _ _ Hf).
Qed.
End UnderContract.

(** Every factory invokes the package: nothing is handed out from a store. *)

Lemma rr_emits (k : Kind) (args : list Val) : trace (rr lib k args) <> [].
Proof.
  unfold rr, invokeNew, invokeCall, try_catch.
  destruct (__isClass (export lib k)); [discriminate|].
  destruct (call (export lib k) args) as [v|e]; [discriminate|].
  destruct (mustBeConstructed (errorText e)); discriminate.
Qed.

Lemma bind_ret {A B} (a : A) (f : A -> M B) : bind (ret a) f = f a.
Proof. unfold bind, ret. destruct (f a); reflexivity. Qed.

Lemma bind_emits {A B} (m : M A) (f : A -> M B) :
  trace m <> [] -> trace (bind m f) <> [].
Proof.
  intros H. destruct (trace_bind_prefix m f) as [l Hl]. rewrite Hl.
  destruct (trace m); [contradiction | discriminate].
Qed.

Lemma evalArgs_audible (es : list (M Val)) :
  Forall Audible es ->
  trace (evalArgs es) <> [] \/ exists vs, evalArgs es = ret vs.
Proof.
  induction 1 as [|e es [He | [v ->]] _ IH]; cbn [evalArgs].
  - right. now exists [].
  - left. now apply bind_emits.
  - rewrite bind_ret. destruct IH as [IH | [vs IH]].
    + left. now apply bind_emits.
    + right. exists (v :: vs). rewrite IH, bind_ret. reflexivity.
Qed.

Lemma node_emits (k : Kind) (es : list (M Val)) :
  Forall Audible es -> trace (apply_ (rr lib k) es) <> [].
Proof.
  intros H. unfold apply_.
  destruct (evalArgs_audible es H) as [He | [vs He]].
  - now apply bind_emits.
  - rewrite He, bind_ret. apply rr_emits.
Qed.

Ltac audible :=
  lazymatch goal with
  | |- Audible (str _) => right; eexists; reflexivity
  | |- Audible (num _) => right; eexists; reflexivity
  | |- Audible _ => left; apply node_emits; audible_args
  end
with audible_args :=
  lazymatch goal with
  | |- Forall _ [] => apply Forall_nil
  | |- Forall _ (_ :: _) => apply Forall_cons; [audible | audible_args]
  end.

Lemma registrations_emit :
  Forall (fun r => trace (snd r tt) <> []) (registrations lib).
Proof.
  unfold registrations.
  repeat (apply Forall_cons; [cbn [snd]; apply node_emits; audible_args|]).
  apply Forall_nil.
Qed.

Lemma createRuleDiagram_emits (name : string) :
  JsMap.has (rules lib) name = true ->
  trace (createRuleDiagram lib name) <> [].
Proof.
  intros H. apply has_get in H. destruct H as [factory Hf].
  unfold createRuleDiagram. rewrite Hf.
  exact (registered (fun f => trace (f tt) <> []) registrations_emit _ _ Hf).
Qed.

Lemma section_rules_have_factories (s : SectionId) :
  forallb (JsMap.has (rules lib)) (SECTION_RULES s) = true.
Proof. destruct s; vm_compute; reflexivity. Qed.

End Registry.

Section KeysFacts.
Context {V : Type}.

Lemma keys_has (m : JsMap.t V) (k : string) :
  In k (JsMap.keys m) <-> JsMap.has m k = true.
Proof.
  unfold JsMap.has, JsMap.keys.
  induction m as [|[k0 v0] m IH]; simpl.
  - split; [contradiction | discriminate].
  - destruct (String.eqb k k0) eqn:E.
    + apply String.eqb_eq in E. subst. split; auto.
    + rewrite <- IH. split; [intros [H|H]; [|exact H] | now right].
      subst. now rewrite String.eqb_refl in E.
Qed.
End KeysFacts.

Section Rendering.
Import RR Contract DiagramToSvg.

Lemma markup_not_empty (a : Member SvgValue) (b : Member string) (s : string) :
  markupOf a b <> Some "" ->
  diagramToSvgString (node a b) = Ok s -> s <> "".
Proof.
  intros Hne H Hs. subst s. apply Hne. clear Hne. unfold node in H.
  destruct a as [|[[svg|[html|] [xml|e]|]|e]|e]; simpl in *; try discriminate;
    try (injection H as ->; reflexivity).
  destruct b as [|[text|e]|e]; simpl in *; try discriminate.
  injection H as ->; reflexivity.
Qed.

Lemma svg_of_node (lib : Library) (name : string) (k : Kind) (args : list Val) :
  outcome (Java25.createRuleDiagram lib name) = Ok (VNode k args) ->
  outcome (RuleDiagram.svg lib name)
  = diagramToSvgString (node (toSVG lib k args) (toString lib k args)).
Proof.
  intros H. unfold RuleDiagram.svg. rewrite (outcome_bind _ _ _ H). reflexivity.
Qed.

Lemma functions_markup : MarkupNotEmpty Packages.functions.
Proof. intros args. simpl. discriminate. Qed.

Lemma classes_markup : MarkupNotEmpty Packages.classes.
Proof. intros args. simpl. discriminate. Qed.

End Rendering.

(** C3 (closure).  With the package in either of its shapes, and its diagrams
    never serializing to the empty string, createRuleDiagram followed by
    diagramToSvgString returns a non-empty string, and throws nothing, for
    every rule name of the registry. *)
Theorem registered_rules_render (lib : RR.Library) (name : string) :
  Contract.EitherShape lib ->
  Contract.MarkupNotEmpty lib ->
  In name (Java25.getDiagramRuleNames lib) ->
  exists s, outcome (RuleDiagram.svg lib name) = Ok s /\ s <> "".
Proof.
  intros shape markup Hin.
  apply keys_has in Hin.
  destruct (createRuleDiagram_builds lib shape name Hin) as [root Hroot].
  pose proof (svg_of_node lib name _ _ Hroot) as E.
  destruct (diagramToSvgString_node_returns
              (RR.toSVG lib RR.Diagram root) (RR.toString lib RR.Diagram root))
    as [s Hs].
  exists s. split; [congruence|].
  exact (markup_not_empty _ _ s (markup root) Hs).
Qed.

Lemma registered_rules_render_witness :
  exists s,
    outcome (RuleDiagram.svg Packages.classes "ClassDeclaration") = Ok s /\ s <> "".
Proof.
  apply (registered_rules_render Packages.classes "ClassDeclaration").
  - exact classes_shape.
  - exact classes_markup.
  - apply keys_has. vm_compute. reflexivity.
Defined.

(** C10 (section index).  Every rule name listed in a section of
    SECTION_RULES has a factory in the registry, so createRuleDiagram runs
    that factory and does not take the branch that returns undefined. *)
Theorem section_rules_are_registered
  (lib : RR.Library) (s : Java25.SectionId) (name : string) :
  In name (Java25.SECTION_RULES s) ->
  In name (Java25.getDiagramRuleNames lib)
  /\ exists factory,
       JsMap.get (Java25.rules lib) name = Some factory
       /\ Java25.createRuleDiagram lib name = factory tt.
Proof.
  intros Hin.
  pose proof (section_rules_have_factories lib s) as H.
  rewrite forallb_forall in H. specialize (H _ Hin).
  split; [now apply keys_has|].
  apply has_get in H. destruct H as [factory Hf].
  exists factory. split; [exact Hf|].
  unfold Java25.createRuleDiagram. now rewrite Hf.
Qed.

Lemma section_rules_are_registered_witness :
  In "SwitchExpression" (Java25.getDiagramRuleNames Packages.functions)
  /\ exists factory,
       JsMap.get (Java25.rules Packages.functions) "SwitchExpression" = Some factory
       /\ Java25.createRuleDiagram Packages.functions "SwitchExpression" = factory tt.
Proof.
  apply (section_rules_are_registered Packages.functions Java25.expressions
           "SwitchExpression").
  apply (in_or_app (removelast (Java25.SECTION_RULES Java25.expressions)) ["SwitchExpression"]).
  right. left. reflexivity.
Defined.

(** ** An unknown rule name (C2) *)

Section PlainText.
Import RR JsString Drawing.

Lemma Contains_self (s : string) : Contains s s.
Proof. exists "", "". now rewrite append_empty_r. Qed.

Lemma Contains_inside (a s b sub : string) :
  Contains s sub -> Contains (a ++ s ++ b) sub.
Proof.
  intros [x [y ->]]. exists (a ++ x), (y ++ b). now rewrite !append_assoc.
Qed.

Lemma Contains_tail (s a b : string) : Contains s (a ++ b) -> Contains s b.
Proof.
  intros [x [y ->]]. exists (x ++ a), y. now rewrite !append_assoc.
Qed.

Lemma allChars_app (p : ascii -> bool) (a b : string) :
  allChars p (a ++ b) = allChars p a && allChars p b.
Proof.
  induction a as [|c a IH]; simpl; [reflexivity|].
  now rewrite IH, andb_assoc.
Qed.

Lemma texts_cases (k : Kind) (args : list Val) (text : string) :
  In text (texts (VNode k args)) ->
  In text (flat_map texts args) \/ args = [VString text].
Proof.
  destruct k; simpl; try (intros H; left; exact H);
    destruct args as [|[|n|t|k' args'] [|b r]]; simpl;
    try (intros H; left; exact H);
    intros [<- | []]; right; reflexivity.
Qed.

(** The stand-in drawing of [Packages] shows every leaf text. *)
Lemma markup_shows : forall (v : Val) (text : string),
  In text (texts v) -> Contains (Packages.markup v) text.
Proof.
  fix IH 1. intros [|n|t|k args] text H; try contradiction.
  apply texts_cases in H.
  assert (C : Contains (fold_right (fun a acc => Packages.markup a ++ acc) "" args)
                text).
  { destruct H as [H | ->].
    - clear k. induction args as [|a r IHr]; simpl in H; [contradiction|].
      apply in_app_or in H. cbn [fold_right]. destruct H as [H | H].
      + apply (Contains_inside "" _ _ text (IH a text H)).
      + destruct (IHr H) as [x [y E]]. rewrite E.
        exists (Packages.markup a ++ x), y. now rewrite !append_assoc.
    - simpl. rewrite append_empty_r. apply Contains_self. }
  destruct C as [x [y E]]. cbn [Packages.markup]. rewrite E.
  exists (("<" ++ kindName k ++ ">") ++ x), (y ++ "</" ++ kindName k ++ ">").
  now rewrite !append_assoc.
Qed.

Lemma functions_show_text : ShowsPlainText Packages.functions.
Proof.
  intros args text H _. eexists. split; [reflexivity|].
  apply (markup_shows (VNode Diagram args)).
  destruct args as [|a r]; [contradiction|]. exact H.
Qed.

Lemma classes_show_text : ShowsPlainText Packages.classes.
Proof.
  intros args text H _. eexists. split; [reflexivity|].
  apply (markup_shows (VNode Diagram args)).
  destruct args as [|a r]; [contradiction|]. exact H.
Qed.

Lemma placeholder_plain (name : string) :
  plain ("No factory defined for " ++ name) = plain name.
Proof. unfold plain. now rewrite allChars_app. Qed.

End PlainText.

(** C2, as the code has it.  For a rule name without a factory, nothing is
    thrown in either module.  The Java 25 module returns undefined and the
    serialization is the fixed comment for an empty diagram, whatever the
    name is, with no invocation of the package.  The older module
    javaGrammar.ts builds Diagram(Comment(No factory defined for NAME)) and
    its serialization is the markup of that diagram: with a package that
    shows plain text as it is, the markup contains the rule name, for every
    name made of letters, digits and spaces. *)
Theorem unknown_rule_placeholder (lib : RR.Library) (name : string) :
  JsMap.has (Java25.rules lib) name = false ->
  Java25.createRuleDiagram lib name = ret RR.VUndefined
  /\ RuleDiagram.svg lib name = ret "<!-- empty diagram -->"
  /\ (forall rules21 : JsMap.t DiagramFactory,
        JsMap.has rules21 name = false ->
        Contract.EitherShape lib ->
        outcome (Java21.createRuleDiagram lib rules21 name)
        = Ok (DiagramNode.Diagram
                (DiagramNode.Comment ("No factory defined for " ++ name)))
        /\ (exists s, outcome (RuleDiagram.svg21 lib rules21 name) = Ok s)
        /\ (Drawing.ShowsPlainText lib ->
            Drawing.plain name = true ->
            exists s,
              outcome (RuleDiagram.svg21 lib rules21 name) = Ok s
              /\ JsString.Contains s name)).
Proof.
  intros H. apply has_get_none in H.
  assert (E : Java25.createRuleDiagram lib name = ret RR.VUndefined).
  { unfold Java25.createRuleDiagram. now rewrite H. }
  split; [exact E|]. split.
  { unfold RuleDiagram.svg. rewrite E. reflexivity. }
  intros rules21 H21 shape. apply has_get_none in H21.
  assert (B : outcome (Java21.createRuleDiagram lib rules21 name)
              = Ok (DiagramNode.Diagram
                      (DiagramNode.Comment ("No factory defined for " ++ name)))).
  { unfold Java21.createRuleDiagram. rewrite H21.
    apply (node21_builds lib shape); [|reflexivity].
    constructor; [|constructor].
    apply (node21_builds lib shape); [|reflexivity].
    constructor; [apply builds_str | constructor]. }
  split; [exact B|].
  unfold RuleDiagram.svg21. rewrite (outcome_bind _ _ _ B). split.
  { apply diagramToSvgString_returns. }
  intros shows Hplain.
  destruct (shows [DiagramNode.Comment ("No factory defined for " ++ name)]
              ("No factory defined for " ++ name)) as [markup [Hm Hc]].
  { simpl. now left. }
  { now rewrite placeholder_plain. }
  exists markup. split.
  - exact (diagramToSvgString_markup _ _ _ Hm).
  - exact (Contains_tail _ _ _ Hc).
Qed.

Lemma unknown_rule_placeholder_witness :
  Java25.createRuleDiagram Packages.classes "NoSuchRule" = ret RR.VUndefined
  /\ RuleDiagram.svg Packages.classes "NoSuchRule" = ret "<!-- empty diagram -->"
  /\ exists s,
       outcome (RuleDiagram.svg21 Packages.classes
                  (Java21Registry.rules Packages.classes) "NoSuchRule") = Ok s
       /\ JsString.Contains s "NoSuchRule".
Proof.
  assert (H25 : JsMap.has (Java25.rules Packages.classes) "NoSuchRule" = false)
    by (vm_compute; reflexivity).
  assert (H21 : JsMap.has (Java21Registry.rules Packages.classes) "NoSuchRule" = false)
    by (vm_compute; reflexivity).
  destruct (unknown_rule_placeholder Packages.classes "NoSuchRule" H25)
    as [A [B C]].
  split; [exact A|]. split; [exact B|].
  destruct (C (Java21Registry.rules Packages.classes) H21 classes_shape)
    as [_ [_ S]].
  exact (S classes_show_text eq_refl).
Defined.

(** C2 as stated fails on the Java 25 registry: the placeholder returned for
    an unknown rule name is the fixed comment for an empty diagram, in which
    the rule name does not occur. *)
Lemma unknown_rule_name_not_in_placeholder :
  JsMap.has (Java25.rules Packages.functions) "NoSuchRule" = false
  /\ RuleDiagram.svg Packages.functions "NoSuchRule"
     = ([], Ok "<!-- empty diagram -->")
  /\ JsString.includes "<!-- empty diagram -->" "NoSuchRule" = false.
Proof. repeat split; vm_compute; reflexivity. Qed.


(** ** The two patterns of the coverage tool *)

Section Patterns.
Import JsString Coverage.

Lemma literal_spec (lit s r : string) :
  literal lit s = Some r <-> s = lit ++ r.
Proof.
  revert s. induction lit as [|a lit IH]; intros s; simpl.
  - split; congruence.
  - destruct s as [|b s]; [split; discriminate|].
    destruct (Ascii.eqb a b) eqn:E.
    + apply Ascii.eqb_eq in E. subst b. rewrite IH. split; congruence.
    + apply Ascii.eqb_neq in E. split; [discriminate | congruence].
Qed.

Lemma quote_not_space (q : ascii) : isQuote q = true -> isWhiteSpace q = false.
Proof.
  unfold isQuote. rewrite orb_true_iff, !Ascii.eqb_eq. intros [-> | ->]; reflexivity.
Qed.

Lemma whiteSpaces_spec (s : string) :
  exists ws, s = ws ++ snd (whiteSpaces s)
             /\ String.length ws = fst (whiteSpaces s)
             /\ allChars isWhiteSpace ws = true
             /\ startsWith isWhiteSpace (snd (whiteSpaces s)) = false.
Proof.
  induction s as [|c s [ws [E [L [A S]]]]]; simpl.
  - now exists "".
  - destruct (isWhiteSpace c) eqn:Hc.
    + destruct (whiteSpaces s) as [n r]. simpl in *.
      exists (String c ws). simpl. rewrite Hc, A, L, <- E. auto.
    + exists "". simpl. auto.
Qed.

Lemma whiteSpaces_app (ws r : string) :
  allChars isWhiteSpace ws = true ->
  startsWith isWhiteSpace r = false ->
  whiteSpaces (ws ++ r) = (String.length ws, r).
Proof.
  intros A S. induction ws as [|c ws IH]; simpl in *.
  - destruct r as [|d r]; [reflexivity|]. simpl in *. now rewrite S.
  - apply andb_true_iff in A. destruct A as [Hc A].
    rewrite Hc, (IH A). reflexivity.
Qed.

Lemma nonQuotes_spec (s : string) :
  s = fst (nonQuotes s) ++ snd (nonQuotes s)
  /\ allChars (fun c => negb (isQuote c)) (fst (nonQuotes s)) = true
  /\ startsWith (fun c => negb (isQuote c)) (snd (nonQuotes s)) = false.
Proof.
  induction s as [|c s [E [A S]]]; simpl.
  - auto.
  - destruct (isQuote c) eqn:Hc; simpl.
    + rewrite Hc. auto.
    + destruct (nonQuotes s) as [run r]. simpl in *.
      rewrite Hc, A, <- E. auto.
Qed.

Lemma nonQuotes_app (name : string) (q : ascii) (r : string) :
  allChars (fun c => negb (isQuote c)) name = true ->
  isQuote q = true ->
  nonQuotes (name ++ String q r) = (name, String q r).
Proof.
  intros A Hq. induction name as [|c name IH]; simpl in *.
  - now rewrite Hq.
  - apply andb_true_iff in A. destruct A as [Hc A].
    apply negb_true_iff in Hc. rewrite Hc, (IH A). reflexivity.
Qed.

(** [quotedName] succeeds exactly on the texts of the shape [QuotedAt]. *)
Lemma quotedName_spec (s name : string) (n : nat) (r : string) :
  quotedName s = Some (name, n, r) <-> QuotedAt s name n r.
Proof.
  unfold quotedName, QuotedAt. split.
  - destruct (whiteSpaces_spec s) as [ws [E [L [A S]]]].
    destruct (whiteSpaces s) as [k r0]. simpl in *.
    destruct r0 as [|q r1]; [discriminate|].
    destruct (isQuote q) eqn:Hq; [|discriminate].
    destruct (nonQuotes_spec r1) as [E1 [A1 S1]].
    destruct (nonQuotes r1) as [run r2]. simpl in *.
    destruct run as [|c run]; [discriminate|].
    destruct r2 as [|q' r3]; [discriminate|].
    destruct (isQuote q') eqn:Hq'; [|discriminate].
    intros H. injection H as <- <- <-.
    exists ws, q, q'. rewrite E, E1, L. simpl String.length.
    repeat split; auto. discriminate.
  - intros [ws [q [q' [E [A [Hq [Hq' [Hne [An ->]]]]]]]]]. subst s.
    rewrite (whiteSpaces_app ws _ A) by (simpl; now apply quote_not_space).
    rewrite Hq, (nonQuotes_app name q' r An Hq'), Hq'.
    destruct name; [congruence | reflexivity].
Qed.

(** One attempt of the pattern of [extractDiagramRules]. *)
Lemma diagramRulePattern_spec (lineStart : bool) (s name : string) (n : nat) :
  diagramRulePattern lineStart s = Some (name, n)
  <-> exists m r s', s = "rules.set(" ++ s' /\ QuotedAt s' name m r /\ n = 10 + m.
Proof.
  unfold diagramRulePattern. split.
  - destruct (literal "rules.set(" s) as [s'|] eqn:El; [|discriminate].
    apply literal_spec in El.
    destruct (quotedName s') as [[[name' m] r]|] eqn:Eq; [|discriminate].
    apply quotedName_spec in Eq. intros H. injection H as <- <-.
    now exists m, r, s'.
  - intros [m [r [s' [-> [Hq ->]]]]].
    apply quotedName_spec in Hq.
    assert (El : literal "rules.set(" ("rules.set(" ++ s') = Some s')
      by now apply literal_spec.
    rewrite El, Hq. reflexivity.
Qed.

(** One attempt of the pattern of [extractEbnfRules]. *)
Lemma ebnfRulePattern_spec (lineStart : bool) (s name : string) (n : nat) :
  ebnfRulePattern lineStart s = Some (name, n)
  <-> lineStart = true
      /\ exists m r ws r',
           QuotedAt s name m r
           /\ r = ws ++ String ":" r'
           /\ allChars isWhiteSpace ws = true
           /\ n = m + String.length ws + 1.
Proof.
  unfold ebnfRulePattern. split.
  - destruct lineStart; [|discriminate].
    destruct (quotedName s) as [[[name' m] r]|] eqn:Eq; [|discriminate].
    apply quotedName_spec in Eq.
    destruct (whiteSpaces_spec r) as [ws [E [L [A S]]]].
    destruct (whiteSpaces r) as [k r0]. simpl in *.
    destruct r0 as [|c r']; [discriminate|].
    destruct (Ascii.eqb c ":") eqn:Ec.
    + apply Ascii.eqb_eq in Ec. subst c. intros H. injection H as <- <-.
      split; [reflexivity|]. exists m, r, ws, r'. rewrite L. auto.
    + apply Ascii.eqb_neq in Ec. intros H. exfalso.
      destruct c as [[] [] [] [] [] [] [] []]; try discriminate H.
      now apply Ec.
  - intros [-> [m [r [ws [r' [Hq [-> [A ->]]]]]]]].
    apply quotedName_spec in Hq. rewrite Hq.
    rewrite (whiteSpaces_app ws _ A) by reflexivity. reflexivity.
Qed.

End Patterns.

(** ** Text scan against the key sets (C8) *)

Section TextScan.

Lemma scanned_diagram_rules (lib : RR.Library) :
  Coverage.extractDiagramRules SourceText.java25Grammar_ts
  = JsMap.keys (Java25.rules lib).
Proof. vm_compute. reflexivity. Qed.

Lemma scanned_ebnf_rules :
  Coverage.extractEbnfRules SourceText.ebnfDefinitions_ts
  = JsMap.keys Ebnf.EBNF_DEFINITIONS.
Proof. vm_compute. reflexivity. Qed.

Lemma coverage_passes :
  Coverage.exitCode (Coverage.main SourceText.readFileSync) = 0%Z.
Proof. vm_compute. reflexivity. Qed.

End TextScan.

(** C8.  On the sources of the repository, the rule names the coverage tool
    extracts from the text of java25Grammar.ts are exactly the keys of the
    rule registry, and the names it extracts from the text of
    ebnfDefinitions.ts are exactly the keys of the EBNF store; both even come
    in the order of the stores. *)
Theorem text_scan_collects_key_sets (lib : RR.Library) :
  Coverage.extractDiagramRules SourceText.java25Grammar_ts
  = JsMap.keys (Java25.rules lib)
  /\ Coverage.extractEbnfRules SourceText.ebnfDefinitions_ts
     = JsMap.keys Ebnf.EBNF_DEFINITIONS
  /\ (forall name,
        In name (Coverage.extractDiagramRules SourceText.java25Grammar_ts)
        <-> JsMap.has (Java25.rules lib) name = true)
  /\ (forall name,
        In name (Coverage.extractEbnfRules SourceText.ebnfDefinitions_ts)
        <-> JsMap.has Ebnf.EBNF_DEFINITIONS name = true).
Proof.
  split; [exact (scanned_diagram_rules lib)|].
  split; [exact scanned_ebnf_rules|].
  split; intros name.
  - rewrite (scanned_diagram_rules lib). apply keys_has.
  - rewrite scanned_ebnf_rules. apply keys_has.
Qed.

(* ================================================================== *)
(** * Further properties                                               *)
(* ================================================================== *)

(** ** The coverage tool: what the scan finds *)

Section ScanFacts.
Import JsString Coverage.

Lemma add_In (s : JsSet.t) (x y : string) :
  In y (JsSet.add s x) <-> In y s \/ y = x.
Proof.
  unfold JsSet.add. destruct (JsSet.has s x) eqn:H.
  - apply JsSet_has_In in H. split; [auto | intros [?| ->]; auto].
  - rewrite in_app_iff. simpl. intuition.
Qed.

Lemma addAll_In (xs : list string) (s : JsSet.t) (y : string) :
  In y (JsSet.addAll s xs) <-> In y s \/ In y xs.
Proof.
  unfold JsSet.addAll. revert s.
  induction xs as [|x xs IH]; intros s; simpl.
  - tauto.
  - rewrite IH, add_In. intuition.
Qed.

Lemma add_NoDup (s : JsSet.t) (x : string) : NoDup s -> NoDup (JsSet.add s x).
Proof.
  intros H. unfold JsSet.add. destruct (JsSet.has s x) eqn:E; [exact H|].
  apply NoDup_app; [exact H | repeat constructor; intros [] |].
  intros y Hy [<-|[]].
  apply JsSet_has_In in Hy. congruence.
Qed.

Lemma addAll_NoDup (xs : list string) (s : JsSet.t) :
  NoDup s -> NoDup (JsSet.addAll s xs).
Proof.
  unfold JsSet.addAll. revert s.
  induction xs as [|x xs IH]; intros s H; simpl; [exact H|].
  apply IH, add_NoDup, H.
Qed.

Lemma extractDiagramRules_NoDup (content : string) :
  NoDup (extractDiagramRules content).
Proof. apply addAll_NoDup. constructor. Qed.

Lemma extractEbnfRules_NoDup (content : string) :
  NoDup (extractEbnfRules content).
Proof. apply addAll_NoDup. constructor. Qed.

(** Where a match of the loop starts: [before] is what precedes it, and
    the pattern saw the start of a line exactly when [before] is empty (and
    the scan started at one) or ends in a line terminator. *)
Lemma execAll_sound (re : bool -> string -> option (string * nat)) (name : string) :
  forall (s : string) (skip : nat) (lineStart : bool),
    In name (execAll re skip lineStart s) ->
    exists before after len,
      s = before ++ after
      /\ re (if isEmpty before then lineStart
             else endsWith isLineTerminator before) after
         = Some (name, len).
Proof.
  induction s as [|c s IH]; intros skip lineStart H; simpl in H; [contradiction|].
  assert (Tail : forall k, In name (execAll re k (isLineTerminator c) s) ->
            exists before after len,
              String c s = before ++ after
              /\ re (if isEmpty before then lineStart
                     else endsWith isLineTerminator before) after
                 = Some (name, len)).
  { intros k Hk. destruct (IH _ _ Hk) as [before [after [len [E R]]]].
    exists (String c before), after, len. split; [simpl; now rewrite E|].
    destruct before as [|d before]; simpl in *; exact R. }
  destruct skip as [|k]; [|exact (Tail _ H)].
  destruct (re lineStart (String c s)) as [[nm len]|] eqn:R; [|exact (Tail _ H)].
  destruct H as [<- | H]; [|exact (Tail _ H)].
  exists "", (String c s), len. split; [reflexivity | exact R].
Qed.

End ScanFacts.

(** X1.  Every name that extractDiagramRules returns stands in the text
    right after the words rules.set( and optional white space, between two
    quotes; so it is never empty and never contains a quote. *)
Theorem extracted_diagram_rule_occurs (content name : string) :
  In name (Coverage.extractDiagramRules content) ->
  (exists before after len rest,
     content = before ++ "rules.set(" ++ after
     /\ QuotedAt after name len rest)
  /\ name <> ""
  /\ allChars (fun c => negb (Coverage.isQuote c)) name = true.
Proof.
  intros H. apply addAll_In in H. destruct H as [[] | H].
  apply execAll_sound in H. destruct H as [before [after [len [E R]]]].
  apply diagramRulePattern_spec in R. destruct R as [m [r [s' [-> [Q ->]]]]].
  split; [now exists before, s', m, r|].
  destruct Q as [ws [q [q' [_ [_ [_ [_ [Hne [Hq _]]]]]]]]]. auto.
Qed.

Lemma extracted_diagram_rule_occurs_witness :
  (exists before after len rest,
     Scenario.grammar_ts = before ++ "rules.set(" ++ after
     /\ QuotedAt after "A" len rest)
  /\ "A" <> ""
  /\ allChars (fun c => negb (Coverage.isQuote c)) "A" = true.
Proof.
  apply (extracted_diagram_rule_occurs Scenario.grammar_ts "A").
  vm_compute. left. reflexivity.
Defined.

(** X2.  Every name that extractEbnfRules returns stands in the text at the
    start of a line (or of the text), after optional white space, between
    two quotes, and is followed by optional white space and a colon. *)
Theorem extracted_ebnf_rule_occurs (content name : string) :
  In name (Coverage.extractEbnfRules content) ->
  exists before after len rest ws rest',
    content = before ++ after
    /\ (before = "" \/ endsWith Coverage.isLineTerminator before = true)
    /\ QuotedAt after name len rest
    /\ rest = ws ++ String ":" rest'
    /\ allChars JsString.isWhiteSpace ws = true.
Proof.
  intros H. apply addAll_In in H. destruct H as [[] | H].
  apply execAll_sound in H. destruct H as [before [after [len [E R]]]].
  apply ebnfRulePattern_spec in R.
  destruct R as [Hb [m [r [ws [r' [Q [Er [Hws _]]]]]]]].
  exists before, after, m, r, ws, r'. repeat split; auto.
  destruct before; [now left | now right].
Qed.

Lemma extracted_ebnf_rule_occurs_witness :
  exists before after len rest ws rest',
    Scenario.ebnf_ts = before ++ after
    /\ (before = "" \/ endsWith Coverage.isLineTerminator before = true)
    /\ QuotedAt after "A" len rest
    /\ rest = ws ++ String ":" rest'
    /\ allChars JsString.isWhiteSpace ws = true.
Proof.
  apply (extracted_ebnf_rule_occurs Scenario.ebnf_ts "A").
  vm_compute. left. reflexivity.
Defined.

(** ** The coverage tool: exit code and report *)

Section ReportFacts.
Import Coverage.

Lemma prepend_exitCode (ls : list Line) (r : Run) :
  exitCode (prepend ls r) = exitCode r.
Proof. reflexivity. Qed.

Lemma report_exitCode_cases (A B : JsSet.t) :
  exitCode (report A B) = 0%Z \/ exitCode (report A B) = 1%Z.
Proof.
  rewrite report_exitCode. destruct (missingEbnf A B), (missingDiagram A B); auto.
Qed.

Lemma report_exitCode_zero (A B : JsSet.t) :
  exitCode (report A B) = 0%Z <-> (forall r, In r A <-> In r B).
Proof.
  rewrite <- no_mismatch_iff_same_keys, report_exitCode.
  destruct (missingEbnf A B), (missingDiagram A B); split;
    try discriminate; intuition discriminate.
Qed.

(** A sorted list is determined by its elements. *)
Lemma sorted_unique (l1 l2 : list string) :
  LexSorted l1 -> LexSorted l2 -> Permutation l1 l2 -> l1 = l2.
Proof.
  unfold LexSorted. revert l2.
  induction l1 as [|a l1 IH]; intros l2 S1 S2 P.
  - now apply Permutation_nil in P.
  - destruct l2 as [|b l2].
    + apply Permutation_sym, Permutation_nil in P. discriminate.
    + apply StronglySorted_inv in S1. destruct S1 as [S1 F1].
      apply StronglySorted_inv in S2. destruct S2 as [S2 F2].
      rewrite Forall_forall in F1, F2.
      assert (E : a = b).
      { assert (Ha : In a (b :: l2))
          by (eapply Permutation_in; [exact P | now left]).
        assert (Hb : In b (a :: l1))
          by (eapply Permutation_in; [apply Permutation_sym, P | now left]).
        destruct Ha as [Ha|Ha]; [now symmetry|].
        destruct Hb as [Hb|Hb]; [exact Hb|].
        apply String.leb_antisym; [apply F1, Hb | apply F2, Ha]. }
      subst b. f_equal. apply IH; auto.
      now apply Permutation_cons_inv in P.
Qed.

Lemma sort_same_elements (l1 l2 : list string) :
  NoDup l1 -> NoDup l2 -> (forall x, In x l1 <-> In x l2) ->
  Array_sort l1 = Array_sort l2.
Proof.
  intros N1 N2 H. apply sorted_unique; try apply Array_sort_sorted.
  unfold Array_sort.
  eapply Permutation_trans; [apply Permutation_sym, StringSort.Permuted_sort|].
  eapply Permutation_trans; [|apply StringSort.Permuted_sort].
  now apply NoDup_Permutation.
Qed.

Lemma missing_same (A A' B B' : JsSet.t) :
  NoDup A -> NoDup A' ->
  (forall r, In r A <-> In r A') -> (forall r, In r B <-> In r B') ->
  Array_sort (filter (fun r => negb (JsSet.has B r)) A)
  = Array_sort (filter (fun r => negb (JsSet.has B' r)) A').
Proof.
  intros NA NA' HA HB.
  apply sort_same_elements; try now apply NoDup_filter.
  intros x. rewrite !filter_In, !negb_true_iff, <- !not_true_iff_false,
    !JsSet_has_In, HA, HB. reflexivity.
Qed.

Lemma Array_sort_NoDup (l : list string) : NoDup l -> NoDup (Array_sort l).
Proof.
  intros H. eapply Permutation_NoDup; [apply StringSort.Permuted_sort | exact H].
Qed.

End ReportFacts.

(** X3.  The exit code of main is 0 or 1, and it is 0 exactly when both files
    could be read and the names extracted from the two texts form the same
    set. *)
Theorem main_exit_code_meaning (readFileSync : string -> Result string) :
  (Coverage.exitCode (Coverage.main readFileSync) = 0%Z
   \/ Coverage.exitCode (Coverage.main readFileSync) = 1%Z)
  /\ (Coverage.exitCode (Coverage.main readFileSync) = 0%Z
      <-> exists grammar ebnf,
            readFileSync Coverage.grammarPath = Ok grammar
            /\ readFileSync Coverage.ebnfPath = Ok ebnf
            /\ forall r, In r (Coverage.extractDiagramRules grammar)
                         <-> In r (Coverage.extractEbnfRules ebnf)).
Proof.
  unfold Coverage.main.
  destruct (readFileSync Coverage.grammarPath) as [g|eg].
  - destruct (readFileSync Coverage.ebnfPath) as [e|ee].
    + rewrite !prepend_exitCode. split; [apply report_exitCode_cases|].
      rewrite report_exitCode_zero. split.
      * intros H. now exists g, e.
      * intros [g' [e' [Hg [He H]]]]. injection Hg as <-. injection He as <-. exact H.
    + split; [now right|]. split; [discriminate|].
      intros [g' [e' [_ [He _]]]]. discriminate.
  - split; [now right|]. split; [discriminate|].
    intros [g' [e' [Hg _]]]. discriminate.
Qed.

(** X4.  The report depends on the two key sets only, not on the order in
    which the names were met: key sets with the same elements give the same
    two difference lists and the same run. *)
Theorem report_ignores_order (A A' B B' : JsSet.t) :
  NoDup A -> NoDup A' -> NoDup B -> NoDup B' ->
  (forall r, In r A <-> In r A') ->
  (forall r, In r B <-> In r B') ->
  Coverage.missingEbnf A B = Coverage.missingEbnf A' B'
  /\ Coverage.missingDiagram A B = Coverage.missingDiagram A' B'
  /\ Coverage.report A B = Coverage.report A' B'.
Proof.
  intros NA NA' NB NB' HA HB.
  assert (E1 : Coverage.missingEbnf A B = Coverage.missingEbnf A' B')
    by now apply missing_same.
  assert (E2 : Coverage.missingDiagram A B = Coverage.missingDiagram A' B')
    by now apply missing_same.
  split; [exact E1|]. split; [exact E2|].
  unfold Coverage.report. now rewrite E1, E2.
Qed.

Lemma report_ignores_order_witness :
  Coverage.missingEbnf ["B"; "A"] ["C"] = Coverage.missingEbnf ["A"; "B"] ["C"]
  /\ Coverage.missingDiagram ["B"; "A"] ["C"] = Coverage.missingDiagram ["A"; "B"] ["C"]
  /\ Coverage.report ["B"; "A"] ["C"] = Coverage.report ["A"; "B"] ["C"].
Proof.
  apply (report_ignores_order ["B"; "A"] ["A"; "B"] ["C"] ["C"]).
  - repeat constructor; simpl; intuition discriminate.
  - repeat constructor; simpl; intuition discriminate.
  - repeat constructor; simpl; intuition discriminate.
  - repeat constructor; simpl; intuition discriminate.
  - intros r. simpl. tauto.
  - intros r. reflexivity.
Defined.

(** X5.  Whatever the two texts are, no name is reported twice: each
    difference list is free of repetitions, and no name is in both. *)
Theorem reported_names_are_distinct (grammar ebnf : string) :
  let diagramRules := Coverage.extractDiagramRules grammar in
  let ebnfRules := Coverage.extractEbnfRules ebnf in
  NoDup (Coverage.missingEbnf diagramRules ebnfRules)
  /\ NoDup (Coverage.missingDiagram diagramRules ebnfRules)
  /\ (forall r, In r (Coverage.missingEbnf diagramRules ebnfRules) ->
                ~ In r (Coverage.missingDiagram diagramRules ebnfRules)).
Proof.
  intros A B. split; [|split].
  - apply Array_sort_NoDup, NoDup_filter, extractDiagramRules_NoDup.
  - apply Array_sort_NoDup, NoDup_filter, extractEbnfRules_NoDup.
  - intros r. rewrite missingEbnf_In, missingDiagram_In. tauto.
Qed.

(** ** The registries: no rule is registered twice *)

Section DistinctKeys.

Lemma distinct_NoDup (l : list string) : distinct l = true -> NoDup l.
Proof.
  induction l as [|x l IH]; simpl; intros H; constructor.
  - apply andb_true_iff in H. destruct H as [H _].
    apply negb_true_iff in H. intros Hin.
    assert (existsb (String.eqb x) l = true); [|congruence].
    apply existsb_exists. exists x. split; [exact Hin | apply String.eqb_refl].
  - apply IH. apply andb_true_iff in H. tauto.
Qed.

Context {V : Type}.

Lemma get_not_In (m : JsMap.t V) (k : string) :
  ~ In k (JsMap.keys m) -> JsMap.get m k = None.
Proof.
  intros H. apply has_get_none. rewrite <- not_true_iff_false.
  now rewrite <- keys_has.
Qed.

Lemma set_fresh (m : JsMap.t V) (k : string) (v : V) :
  ~ In k (JsMap.keys m) -> JsMap.set m k v = (m ++ [(k, v)])%list.
Proof.
  induction m as [|[k0 v0] m IH]; simpl; intros H; [reflexivity|].
  destruct (String.eqb k k0) eqn:E.
  - apply String.eqb_eq in E. subst. tauto.
  - rewrite IH; tauto.
Qed.

Lemma fold_set_distinct (l : list (string * V)) (m : JsMap.t V) :
  NoDup (JsMap.keys (m ++ l)%list) ->
  fold_left (fun m r => JsMap.set m (fst r) (snd r)) l m = (m ++ l)%list.
Proof.
  revert m. induction l as [|[k v] l IH]; intros m H; simpl.
  - now rewrite app_nil_r.
  - rewrite set_fresh.
    + rewrite IH; rewrite <- app_assoc; [reflexivity | exact H].
    + unfold JsMap.keys in *. rewrite map_app in H. simpl in H.
      apply NoDup_remove_2 in H. intros Hin. apply H.
      apply in_or_app. now left.
Qed.

Lemma get_In_distinct (m : JsMap.t V) (k : string) (v : V) :
  NoDup (JsMap.keys m) -> In (k, v) m -> JsMap.get m k = Some v.
Proof.
  induction m as [|[k0 v0] m IH]; simpl; intros N H; [contradiction|].
  apply NoDup_cons_iff in N. destruct N as [N0 N].
  destruct H as [H | H].
  - injection H as -> ->. now rewrite String.eqb_refl.
  - destruct (String.eqb k k0) eqn:E; [|now apply IH].
    apply String.eqb_eq in E. subst k0. exfalso. apply N0.
    change k with (fst (k, v)). now apply in_map.
Qed.

End DistinctKeys.

Section Registries.
Variable lib : RR.Library.

Lemma java25_keys_distinct : NoDup (map fst (Java25.registrations lib)).
Proof. apply distinct_NoDup. vm_compute. reflexivity. Qed.

Lemma java25_rules_eq : Java25.rules lib = Java25.registrations lib.
Proof.
  unfold Java25.rules. apply (fold_set_distinct _ []). exact java25_keys_distinct.
Qed.

Lemma java21_keys_distinct : NoDup (map fst (Java21Registry.registrations lib)).
Proof. apply distinct_NoDup. vm_compute. reflexivity. Qed.

Lemma java21_rules_eq : Java21Registry.rules lib = Java21Registry.registrations lib.
Proof.
  unfold Java21Registry.rules. apply (fold_set_distinct _ []).
  exact java21_keys_distinct.
Qed.

Lemma java25_sections_disjoint (s1 s2 : Java25.SectionId) :
  s1 = s2
  \/ forallb (fun n => negb (existsb (String.eqb n) (Java25.SECTION_RULES s2)))
       (Java25.SECTION_RULES s1) = true.
Proof.
  destruct s1, s2; try (left; reflexivity); right; vm_compute; reflexivity.
Qed.

Lemma java21_sections_disjoint (s1 s2 : Java21Registry.SectionId) :
  s1 = s2
  \/ forallb (fun n => negb (existsb (String.eqb n) (Java21Registry.SECTION_RULES s2)))
       (Java21Registry.SECTION_RULES s1) = true.
Proof.
  destruct s1, s2; try (left; reflexivity); right; vm_compute; reflexivity.
Qed.

Lemma disjoint_check (l1 l2 : list string) (x : string) :
  forallb (fun n => negb (existsb (String.eqb n) l2)) l1 = true ->
  In x l1 -> In x l2 -> False.
Proof.
  intros H H1 H2. rewrite forallb_forall in H. specialize (H _ H1).
  apply negb_true_iff in H.
  assert (existsb (String.eqb x) l2 = true); [|congruence].
  apply existsb_exists. exists x. split; [exact H2 | apply String.eqb_refl].
Qed.

End Registries.

(** X6.  No rule of java25Grammar.ts is registered twice: the map holds the
    253 registrations as they were made, in source order, under pairwise
    distinct names, and createRuleDiagram runs, for each registered name, the
    factory registered with it. *)
Theorem registry_keeps_every_registration (lib : RR.Library) :
  Java25.rules lib = Java25.registrations lib
  /\ NoDup (Java25.getDiagramRuleNames lib)
  /\ List.length (Java25.getDiagramRuleNames lib) = 253
  /\ (forall name factory,
        In (name, factory) (Java25.registrations lib) ->
        Java25.createRuleDiagram lib name = factory tt).
Proof.
  pose proof (java25_rules_eq lib) as E.
  pose proof (java25_keys_distinct lib) as N.
  split; [exact E|].
  unfold Java25.getDiagramRuleNames, JsMap.keys. rewrite E.
  split; [exact N|]. split; [vm_compute; reflexivity|].
  intros name factory H. unfold Java25.createRuleDiagram. rewrite E.
  now rewrite (get_In_distinct _ _ _ N H).
Qed.

(** X7.  The section index of java25Grammar.ts is a partition of the
    registry: the sections, taken in SECTION_ORDER, list exactly the
    registered names, in registration order; SECTION_ORDER has every section
    once; and no name is in two sections. *)
Theorem sections_partition_registry (lib : RR.Library) :
  flat_map Java25.SECTION_RULES Java25.SECTION_ORDER
  = Java25.getDiagramRuleNames lib
  /\ NoDup Java25.SECTION_ORDER
  /\ (forall s, In s Java25.SECTION_ORDER)
  /\ (forall name,
        In name (Java25.getDiagramRuleNames lib)
        <-> exists s, In name (Java25.SECTION_RULES s))
  /\ (forall s1 s2 name,
        In name (Java25.SECTION_RULES s1) ->
        In name (Java25.SECTION_RULES s2) -> s1 = s2).
Proof.
  assert (E : flat_map Java25.SECTION_RULES Java25.SECTION_ORDER
              = Java25.getDiagramRuleNames lib) by (vm_compute; reflexivity).
  assert (A : forall s, In s Java25.SECTION_ORDER)
    by (intros s; destruct s; simpl; tauto).
  split; [exact E|]. split; [|split; [exact A|split]].
  - repeat constructor; simpl; intuition discriminate.
  - intros name. rewrite <- E, in_flat_map. split.
    + intros [s [_ H]]. now exists s.
    + intros [s H]. exists s. auto.
  - intros s1 s2 name H1 H2.
    destruct (java25_sections_disjoint s1 s2) as [? | D]; [assumption|].
    destruct (disjoint_check _ _ _ D H1 H2).
Qed.

(** ** The trees do not depend on the shape of the package *)

(** [node] is [node_builds] or [node21_builds] at a library and its contract. *)
Ltac build_by node :=
  lazymatch goal with
  | |- Builds (str _) _ => apply builds_str
  | |- Builds (num _) _ => apply builds_num
  | |- Builds _ _ => eapply node; [build_args_by node | reflexivity]
  end
with build_args_by node :=
  lazymatch goal with
  | |- Forall2 _ [] _ => apply Forall2_nil
  | |- Forall2 _ (_ :: _) _ =>
      apply Forall2_cons; [build_by node | build_args_by node]
  | |- Forall2 _ (map _ _) _ => cbn [map]; build_args_by node
  end.

Section TwoLibraries.
Import RR Contract.
Variables lib1 lib2 : Library.
Hypothesis shape1 : EitherShape lib1.
Hypothesis shape2 : EitherShape lib2.

Lemma java25_registrations_agree :
  Forall2 Agree (Java25.registrations lib1) (Java25.registrations lib2).
Proof.
  unfold Java25.registrations.
  repeat (apply Forall2_cons;
          [split; [reflexivity|]; cbn [snd]; eexists; split;
           [build_by (node_builds lib1 shape1)
           |build_by (node_builds lib2 shape2)]|]).
  apply Forall2_nil.
Qed.

Lemma java21_registrations_agree :
  Forall2 Agree (Java21Registry.registrations lib1)
    (Java21Registry.registrations lib2).
Proof.
  unfold Java21Registry.registrations.
  repeat (apply Forall2_cons;
          [split; [reflexivity|]; cbn [snd]; eexists; split;
           [build_by (node21_builds lib1 shape1)
           |build_by (node21_builds lib2 shape2)]|]).
  apply Forall2_nil.
Qed.

Lemma agree_get (l1 l2 : list (string * DiagramFactory)) (name : string) :
  Forall2 Agree l1 l2 ->
  match JsMap.get l1 name, JsMap.get l2 name with
  | Some f1, Some f2 =>
      exists root, Builds (f1 tt) (VNode Diagram root)
                   /\ Builds (f2 tt) (VNode Diagram root)
  | None, None => True
  | _, _ => False
  end.
Proof.
  induction 1 as [|[k1 f1] [k2 f2] l1 l2 [Hk Hv] _ IH]; simpl; [exact I|].
  simpl in Hk. subst k2. destruct (String.eqb name k1); [exact Hv | exact IH].
Qed.

Lemma java25_same_tree (name : string) :
  outcome (Java25.createRuleDiagram lib1 name)
  = outcome (Java25.createRuleDiagram lib2 name)
  /\ (JsMap.has (Java25.rules lib1) name = true ->
      exists root,
        outcome (Java25.createRuleDiagram lib1 name) = Ok (VNode Diagram root)).
Proof.
  pose proof (agree_get _ _ name java25_registrations_agree) as H.
  unfold Java25.createRuleDiagram, JsMap.has.
  rewrite (java25_rules_eq lib1), (java25_rules_eq lib2).
  destruct (JsMap.get (Java25.registrations lib1) name) as [f1|];
    destruct (JsMap.get (Java25.registrations lib2) name) as [f2|];
    try contradiction.
  - destruct H as [root [H1 H2]]. unfold Builds in *. rewrite H1, H2.
    split; [reflexivity | intros _; now exists root].
  - split; [reflexivity | discriminate].
Qed.

Lemma java21_same_tree (name : string) :
  JsMap.has (Java21Registry.rules lib1) name = true ->
  outcome (Java21Registry.createRuleDiagram lib1 name)
  = outcome (Java21Registry.createRuleDiagram lib2 name)
  /\ exists root,
       outcome (Java21Registry.createRuleDiagram lib1 name)
       = Ok (VNode Diagram root).
Proof.
  pose proof (agree_get _ _ name java21_registrations_agree) as H.
  unfold Java21Registry.createRuleDiagram, Java21.createRuleDiagram, JsMap.has.
  rewrite (java21_rules_eq lib1), (java21_rules_eq lib2).
  destruct (JsMap.get (Java21Registry.registrations lib1) name) as [f1|];
    destruct (JsMap.get (Java21Registry.registrations lib2) name) as [f2|];
    try contradiction; [|discriminate].
  destruct H as [root [H1 H2]]. unfold Builds in *. rewrite H1, H2.
  intros _. split; [reflexivity | now exists root].
Qed.

End TwoLibraries.

(** X8.  The adapter hides the shape of the package: whether its exports are
    factory functions or ES classes, createRuleDiagram of java25Grammar.ts
    returns the same value for every name, a Diagram node for a registered
    name and undefined for any other. *)
Theorem tree_independent_of_package_shape
  (lib1 lib2 : RR.Library) (name : string) :
  Contract.EitherShape lib1 ->
  Contract.EitherShape lib2 ->
  outcome (Java25.createRuleDiagram lib1 name)
  = outcome (Java25.createRuleDiagram lib2 name)
  /\ (In name (Java25.getDiagramRuleNames lib1) ->
      exists root,
        outcome (Java25.createRuleDiagram lib1 name)
        = Ok (RR.VNode RR.Diagram root))
  /\ (~ In name (Java25.getDiagramRuleNames lib1) ->
      outcome (Java25.createRuleDiagram lib1 name) = Ok RR.VUndefined).
Proof.
  intros shape1 shape2.
  destruct (java25_same_tree lib1 lib2 shape1 shape2 name) as [E R].
  split; [exact E|]. split.
  - intros Hin. apply R. now apply keys_has.
  - intros Hn. unfold Java25.createRuleDiagram.
    now rewrite (get_not_In _ _ Hn).
Qed.

Lemma tree_independent_of_package_shape_witness :
  outcome (Java25.createRuleDiagram Packages.functions "Block")
  = outcome (Java25.createRuleDiagram Packages.classes "Block")
  /\ (In "Block" (Java25.getDiagramRuleNames Packages.functions) ->
      exists root,
        outcome (Java25.createRuleDiagram Packages.functions "Block")
        = Ok (RR.VNode RR.Diagram root))
  /\ (~ In "Block" (Java25.getDiagramRuleNames Packages.functions) ->
      outcome (Java25.createRuleDiagram Packages.functions "Block")
      = Ok RR.VUndefined).
Proof.
  apply (tree_independent_of_package_shape Packages.functions Packages.classes
           "Block").
  - exact functions_shape.
  - exact classes_shape.
Defined.

(** ** The trees of the registered rules *)

Section TreeFacts.
Import RR Contract.

Lemma java25_keys_same (lib : Library) :
  Java25.getDiagramRuleNames lib = Java25.getDiagramRuleNames Packages.functions.
Proof. vm_compute. reflexivity. Qed.

Lemma java21_keys_same (lib : Library) :
  JsMap.keys (Java21Registry.rules lib)
  = JsMap.keys (Java21Registry.rules Packages.functions).
Proof. vm_compute. reflexivity. Qed.

Lemma built_outcome (m : M Val) (v : Val) : outcome m = Ok v -> built m = v.
Proof. unfold built. now intros ->. Qed.

(** Under the contract, what a module builds for a name is what it builds
    with the package of factory functions. *)
Lemma java25_built (lib : Library) (name : string) :
  EitherShape lib ->
  outcome (Java25.createRuleDiagram lib name)
  = Ok (built (Java25.createRuleDiagram Packages.functions name)).
Proof.
  intros shape.
  destruct (java25_same_tree lib Packages.functions shape functions_shape name)
    as [E R].
  destruct (JsMap.has (Java25.rules lib) name) eqn:H.
  - destruct (R eq_refl) as [root Hr]. rewrite Hr. rewrite Hr in E.
    now rewrite (built_outcome _ _ (eq_sym E)).
  - apply has_get_none in H.
    assert (H' : JsMap.get (Java25.rules Packages.functions) name = None).
    { apply get_not_In. intros Hin.
      change (In name (Java25.getDiagramRuleNames Packages.functions)) in Hin.
      rewrite <- (java25_keys_same lib) in Hin.
      apply keys_has in Hin. apply has_get in Hin.
      destruct Hin as [f Hf]. congruence. }
    unfold Java25.createRuleDiagram. rewrite H, H'. reflexivity.
Qed.

Lemma java21_built (lib : Library) (name : string) :
  EitherShape lib ->
  In name (JsMap.keys (Java21Registry.rules lib)) ->
  outcome (Java21Registry.createRuleDiagram lib name)
  = Ok (built (Java21Registry.createRuleDiagram Packages.functions name)).
Proof.
  intros shape Hin. apply keys_has in Hin.
  destruct (java21_same_tree lib Packages.functions shape functions_shape name Hin)
    as [E [root Hr]].
  rewrite Hr. rewrite Hr in E. now rewrite (built_outcome _ _ (eq_sym E)).
Qed.

Lemma get_Some_In {V} (m : JsMap.t V) (k : string) (v : V) :
  JsMap.get m k = Some v -> In (k, v) m.
Proof.
  induction m as [|[k0 v0] m IH]; simpl; [discriminate|].
  destruct (String.eqb k k0) eqn:E.
  - apply String.eqb_eq in E. intros H. injection H as ->. subst. now left.
  - intros H. right. now apply IH.
Qed.

Lemma java25_registered_factory (name : string) :
  In name (Java25.getDiagramRuleNames Packages.functions) ->
  exists factory,
    In (name, factory) (Java25.registrations Packages.functions)
    /\ Java25.createRuleDiagram Packages.functions name = factory tt.
Proof.
  intros Hin. apply keys_has in Hin. apply has_get in Hin.
  destruct Hin as [f Hf]. exists f. split.
  - apply get_Some_In. now rewrite <- java25_rules_eq.
  - unfold Java25.createRuleDiagram. now rewrite Hf.
Qed.

Lemma java21_registered_factory (name : string) :
  In name (JsMap.keys (Java21Registry.rules Packages.functions)) ->
  exists factory,
    In (name, factory) (Java21Registry.registrations Packages.functions)
    /\ Java21Registry.createRuleDiagram Packages.functions name = factory tt.
Proof.
  intros Hin. apply keys_has in Hin. apply has_get in Hin.
  destruct Hin as [f Hf]. exists f. split.
  - apply get_Some_In. now rewrite <- java21_rules_eq.
  - unfold Java21Registry.createRuleDiagram, Java21.createRuleDiagram.
    now rewrite Hf.
Qed.

Lemma java25_trees_checked :
  forallb
    (fun r =>
       Tree.diagram (built (snd r tt))
       && forallb
            (fun label =>
               existsb (String.eqb label)
                 (map fst (Java25.registrations Packages.functions))
               || existsb (String.eqb label) Tree.unregisteredLabels)
            (Tree.nonTerminals (built (snd r tt))))
    (Java25.registrations Packages.functions) = true.
Proof. vm_compute. reflexivity. Qed.

Lemma unregisteredLabels_checked :
  forallb
    (fun label =>
       negb (existsb (String.eqb label)
               (map fst (Java25.registrations Packages.functions)))
       && existsb
            (fun r =>
               existsb (String.eqb label) (Tree.nonTerminals (built (snd r tt))))
            (Java25.registrations Packages.functions))
    Tree.unregisteredLabels = true.
Proof. vm_compute. reflexivity. Qed.

Lemma java21_trees_checked :
  forallb (fun r => Tree.diagram (built (snd r tt)))
    (Java21Registry.registrations Packages.functions) = true.
Proof. vm_compute. reflexivity. Qed.

Lemma existsb_eqb_In (x : string) (l : list string) :
  existsb (String.eqb x) l = true <-> In x l.
Proof.
  rewrite existsb_exists. split.
  - intros [y [Hy E]]. apply String.eqb_eq in E. now subst.
  - intros H. exists x. split; [exact H | apply String.eqb_refl].
Qed.

Lemma java25_keys_registrations (lib : Library) :
  Java25.getDiagramRuleNames lib
  = map fst (Java25.registrations Packages.functions).
Proof. vm_compute. reflexivity. Qed.

(** What the check says about one registered name. *)
Lemma java25_tree_facts (name : string) :
  In name (Java25.getDiagramRuleNames Packages.functions) ->
  let tree := built (Java25.createRuleDiagram Packages.functions name) in
  Tree.diagram tree = true
  /\ forall label,
       In label (Tree.nonTerminals tree) ->
       In label (map fst (Java25.registrations Packages.functions))
       \/ In label Tree.unregisteredLabels.
Proof.
  intros Hin. destruct (java25_registered_factory name Hin) as [f [Hf E]].
  rewrite E. pose proof java25_trees_checked as C.
  rewrite forallb_forall in C. specialize (C _ Hf). cbn [snd] in C.
  apply andb_true_iff in C. destruct C as [C1 C2].
  split; [exact C1|]. intros label Hl.
  rewrite forallb_forall in C2. specialize (C2 _ Hl).
  apply orb_true_iff in C2. rewrite !existsb_eqb_In in C2. exact C2.
Qed.

End TreeFacts.

(** X9.  Under the contract of the package, every registered rule of
    java25Grammar.ts builds a completed diagram: a Diagram root over one
    subtree, with no second Diagram below it, a Choice whose default index
    selects one of its alternatives, one subtree under each Optional and
    repetition, and one non-empty text in each leaf. *)
Theorem registered_trees_are_diagrams (lib : RR.Library) (name : string) :
  Contract.EitherShape lib ->
  In name (Java25.getDiagramRuleNames lib) ->
  exists tree,
    outcome (Java25.createRuleDiagram lib name) = Ok tree
    /\ Tree.diagram tree = true.
Proof.
  intros shape Hin. rewrite java25_keys_same in Hin.
  exists (built (Java25.createRuleDiagram Packages.functions name)).
  split; [apply java25_built; exact shape|].
  exact (proj1 (java25_tree_facts name Hin)).
Qed.

Lemma registered_trees_are_diagrams_witness :
  exists tree,
    outcome (Java25.createRuleDiagram Packages.classes "MethodDeclaration") = Ok tree
    /\ Tree.diagram tree = true.
Proof.
  apply (registered_trees_are_diagrams Packages.classes "MethodDeclaration").
  - exact classes_shape.
  - apply keys_has. vm_compute. reflexivity.
Defined.

(** X10.  Every NonTerminal label in a diagram of java25Grammar.ts names a
    registered rule, except eight labels: the seven lexical literals and
    CompactCompilationUnit; each of the eight is unregistered and does occur
    in a diagram. *)
Theorem nonterminal_labels_resolve (lib : RR.Library) (name : string) (tree : RR.Val) :
  Contract.EitherShape lib ->
  outcome (Java25.createRuleDiagram lib name) = Ok tree ->
  (forall label,
     In label (Tree.nonTerminals tree) ->
     In label (Java25.getDiagramRuleNames lib)
     \/ In label Tree.unregisteredLabels)
  /\ (forall label,
        In label Tree.unregisteredLabels ->
        ~ In label (Java25.getDiagramRuleNames lib)
        /\ exists rule tree',
             outcome (Java25.createRuleDiagram lib rule) = Ok tree'
             /\ In label (Tree.nonTerminals tree')).
Proof.
  intros shape H. rewrite (java25_built lib name shape) in H. injection H as <-.
  rewrite (java25_keys_registrations lib).
  split.
  - intros label Hl.
    destruct (in_dec string_dec name (Java25.getDiagramRuleNames Packages.functions))
      as [Hn | Hn].
    + exact (proj2 (java25_tree_facts name Hn) label Hl).
    + unfold Java25.createRuleDiagram in Hl.
      rewrite (get_not_In _ _ Hn) in Hl. contradiction.
  - intros label Hl.
    pose proof unregisteredLabels_checked as C. rewrite forallb_forall in C.
    specialize (C _ Hl). apply andb_true_iff in C. destruct C as [C1 C2].
    split.
    + intros Hin. apply existsb_eqb_In in Hin. rewrite Hin in C1.
      exact (Bool.diff_false_true C1).
    + apply existsb_exists in C2. destruct C2 as [[rule f] [Hr Hf]].
      cbn [snd] in Hf. apply existsb_eqb_In in Hf.
      exists rule, (built (f tt)). split; [|exact Hf].
      rewrite (java25_built lib rule shape). f_equal. f_equal.
      unfold Java25.createRuleDiagram. rewrite (java25_rules_eq Packages.functions).
      rewrite (get_In_distinct _ _ _ (java25_keys_distinct Packages.functions) Hr).
      reflexivity.
Qed.

Lemma nonterminal_labels_resolve_witness :
  (forall label,
     In label (Tree.nonTerminals
                 (DiagramNode.Diagram
                    (DiagramNode.Choice 0
                       [DiagramNode.NonTerminal "PrimitiveType";
                        DiagramNode.NonTerminal "ReferenceType"]))) ->
     In label (Java25.getDiagramRuleNames Packages.functions)
     \/ In label Tree.unregisteredLabels)
  /\ (forall label,
        In label Tree.unregisteredLabels ->
        ~ In label (Java25.getDiagramRuleNames Packages.functions)
        /\ exists rule tree',
             outcome (Java25.createRuleDiagram Packages.functions rule) = Ok tree'
             /\ In label (Tree.nonTerminals tree')).
Proof.
  apply (nonterminal_labels_resolve Packages.functions "Type").
  - exact functions_shape.
  - vm_compute. reflexivity.
Defined.

(** ** The older grammar module, and what the newer one changed *)

Section Legacy.
Import RR Contract.

Lemma java21_keys_registrations (lib : Library) :
  JsMap.keys (Java21Registry.rules lib)
  = map fst (Java21Registry.registrations Packages.functions).
Proof. vm_compute. reflexivity. Qed.

Lemma placeholder_builds (lib : Library) (name : string) :
  EitherShape lib ->
  Builds
    (Java21.Diagram lib
       [Java21.Comment lib [str ("No factory defined for " ++ name)]])
    (DiagramNode.Diagram
       (DiagramNode.Comment ("No factory defined for " ++ name))).
Proof.
  intros shape. build_by (node21_builds lib shape).
Qed.

Lemma Val_eqb_eq : forall a b : Val, Val_eqb a b = true -> a = b.
Proof.
  fix IH 1.
  intros [|n|s|k args] [|n'|s'|k' args']; simpl; try discriminate.
  - reflexivity.
  - intros H. apply Z.eqb_eq in H. now subst.
  - intros H. apply String.eqb_eq in H. now subst.
  - intros H. apply andb_true_iff in H. destruct H as [Hk Hargs].
    assert (k = k') as <-.
    { destruct k, k'; try reflexivity; discriminate Hk. }
    f_equal. clear Hk. revert args' Hargs.
    induction args as [|x r IHr]; intros [|y r'] H; try discriminate.
    + reflexivity.
    + apply andb_true_iff in H. destruct H as [Hx Hr].
      f_equal; [exact (IH x y Hx) | exact (IHr r' Hr)].
Qed.

(** The comparison of the two registries, computed with the package of
    factory functions. *)
Lemma registries_compared :
  forallb
    (fun r21 =>
       match JsMap.get (Java25.registrations Packages.functions) (fst r21) with
       | Some factory25 =>
           existsb (String.eqb (fst r21)) Tree.redrawnRules
           || Val_eqb (built (factory25 tt)) (built (snd r21 tt))
       | None => false
       end)
    (Java21Registry.registrations Packages.functions) = true.
Proof. vm_compute. reflexivity. Qed.

Lemma redrawn_compared :
  forallb
    (fun name =>
       match JsMap.get (Java25.registrations Packages.functions) name,
             JsMap.get (Java21Registry.registrations Packages.functions) name with
       | Some factory25, Some factory21 =>
           negb (Val_eqb (built (factory25 tt)) (built (factory21 tt)))
       | _, _ => false
       end)
    Tree.redrawnRules = true.
Proof. vm_compute. reflexivity. Qed.

Lemma added_compared :
  filter
    (fun name =>
       negb (existsb (String.eqb name)
               (map fst (Java21Registry.registrations Packages.functions))))
    (map fst (Java25.registrations Packages.functions))
  = ["SingleModuleImportDeclaration"].
Proof. vm_compute. reflexivity. Qed.

Lemma Val_eqb_refl : forall a : Val, Val_eqb a a = true.
Proof.
  fix IH 1. intros [|n|s|k args]; simpl.
  - reflexivity.
  - apply Z.eqb_refl.
  - apply String.eqb_refl.
  - rewrite String.eqb_refl. simpl.
    induction args as [|x r IHr]; [reflexivity|].
    now rewrite (IH x), IHr.
Qed.

End Legacy.

(** X11.  The section index of javaGrammar.ts is a partition of its
    registry: no rule is registered twice, the 252 registrations are kept
    in source order, and the sections, taken in SECTION_ORDER, list exactly
    the registered names, none of them in two sections. *)
Theorem legacy_sections_partition_registry (lib : RR.Library) :
  Java21Registry.rules lib = Java21Registry.registrations lib
  /\ NoDup (JsMap.keys (Java21Registry.rules lib))
  /\ List.length (JsMap.keys (Java21Registry.rules lib)) = 252
  /\ flat_map Java21Registry.SECTION_RULES Java21Registry.SECTION_ORDER
     = JsMap.keys (Java21Registry.rules lib)
  /\ (forall name s,
        In name (Java21Registry.SECTION_RULES s) ->
        exists factory, Java21Registry.getRuleFactory lib name = Some factory)
  /\ (forall s1 s2 name,
        In name (Java21Registry.SECTION_RULES s1) ->
        In name (Java21Registry.SECTION_RULES s2) -> s1 = s2).
Proof.
  pose proof (java21_rules_eq lib) as E.
  pose proof (java21_keys_distinct lib) as N.
  assert (F : flat_map Java21Registry.SECTION_RULES Java21Registry.SECTION_ORDER
              = JsMap.keys (Java21Registry.rules lib)) by (vm_compute; reflexivity).
  split; [exact E|]. split; [unfold JsMap.keys; rewrite E; exact N|].
  split; [vm_compute; reflexivity|]. split; [exact F|]. split.
  - intros name s H. unfold Java21Registry.getRuleFactory.
    apply has_get. apply keys_has. rewrite <- F. apply in_flat_map.
    exists s. split; [destruct s; simpl; tauto | exact H].
  - intros s1 s2 name H1 H2.
    destruct (java21_sections_disjoint s1 s2) as [? | D]; [assumption|].
    destruct (disjoint_check _ _ _ D H1 H2).
Qed.

(** X12.  Under the contract of the package, createRuleDiagram of
    javaGrammar.ts returns a completed diagram for every name whatever:
    the registered tree for a registered name, and for any other name the
    placeholder, which is a diagram too. *)
Theorem legacy_diagram_for_every_name (lib : RR.Library) (name : string) :
  Contract.EitherShape lib ->
  exists tree,
    outcome (Java21Registry.createRuleDiagram lib name) = Ok tree
    /\ Tree.diagram tree = true
    /\ (Java21Registry.getRuleFactory lib name = None ->
        tree = DiagramNode.Diagram
                 (DiagramNode.Comment ("No factory defined for " ++ name))).
Proof.
  intros shape.
  destruct (in_dec string_dec name (JsMap.keys (Java21Registry.rules lib)))
    as [Hin | Hout].
  - exists (built (Java21Registry.createRuleDiagram Packages.functions name)).
    split; [apply java21_built; assumption|]. split.
    + rewrite java21_keys_registrations in Hin.
      rewrite <- (java21_keys_registrations Packages.functions) in Hin.
      destruct (java21_registered_factory name Hin) as [f [Hf E]].
      rewrite E. pose proof java21_trees_checked as C.
      rewrite forallb_forall in C. exact (C _ Hf).
    + intros Hnone. apply keys_has in Hin. apply has_get in Hin.
      destruct Hin as [f Hf]. unfold Java21Registry.getRuleFactory in Hnone.
      rewrite Hnone in Hf. discriminate Hf.
  - exists (DiagramNode.Diagram
              (DiagramNode.Comment ("No factory defined for " ++ name))).
    split; [|split; [reflexivity | intros _; reflexivity]].
    unfold Java21Registry.createRuleDiagram, Java21.createRuleDiagram.
    rewrite (get_not_In _ _ Hout). now apply placeholder_builds.
Qed.

Lemma legacy_diagram_for_every_name_witness :
  exists tree,
    outcome (Java21Registry.createRuleDiagram Packages.classes "NoSuchRule") = Ok tree
    /\ Tree.diagram tree = true
    /\ (Java21Registry.getRuleFactory Packages.classes "NoSuchRule" = None ->
        tree = DiagramNode.Diagram
                 (DiagramNode.Comment ("No factory defined for " ++ "NoSuchRule"))).
Proof.
  apply (legacy_diagram_for_every_name Packages.classes "NoSuchRule").
  exact classes_shape.
Defined.

(** X13.  java25Grammar.ts keeps every rule of javaGrammar.ts and adds one,
    SingleModuleImportDeclaration.  Under the contract of the package the two
    modules build the same tree for every rule of the older one, except for
    fourteen rules, which the newer module draws differently. *)
Theorem java25_extends_legacy (lib : RR.Library) (name : string) :
  Contract.EitherShape lib ->
  (In name (JsMap.keys (Java21Registry.rules lib)) ->
   In name (Java25.getDiagramRuleNames lib)
   /\ (In name Tree.redrawnRules
       <-> outcome (Java25.createRuleDiagram lib name)
           <> outcome (Java21Registry.createRuleDiagram lib name)))
  /\ (In name (Java25.getDiagramRuleNames lib) ->
      In name (JsMap.keys (Java21Registry.rules lib))
      \/ name = "SingleModuleImportDeclaration").
Proof.
  intros shape. split.
  - intros Hin.
    rewrite (java21_built lib name shape Hin), (java25_built lib name shape).
    rewrite java21_keys_registrations in Hin.
    pose proof Hin as Hin'.
    rewrite <- (java21_keys_registrations Packages.functions) in Hin'.
    destruct (java21_registered_factory name Hin') as [f21 [Hf21 E21]].
    pose proof registries_compared as C. rewrite forallb_forall in C.
    specialize (C _ Hf21). cbn [fst snd] in C.
    destruct (JsMap.get (Java25.registrations Packages.functions) name)
      as [f25|] eqn:G25; [|discriminate C].
    assert (E25 : Java25.createRuleDiagram Packages.functions name = f25 tt).
    { unfold Java25.createRuleDiagram.
      rewrite (java25_rules_eq Packages.functions). now rewrite G25. }
    split.
    + rewrite java25_keys_registrations.
      apply get_Some_In in G25.
      change name with (fst (name, f25)). now apply in_map.
    + rewrite E25, E21. split.
      * intros Hr. pose proof redrawn_compared as R.
        rewrite forallb_forall in R. specialize (R _ Hr). rewrite G25 in R.
        rewrite (get_In_distinct _ _ _ (java21_keys_distinct Packages.functions) Hf21)
          in R.
        intros Heq. injection Heq as Heq. rewrite Heq in R.
        rewrite Val_eqb_refl in R. discriminate R.
      * intros Hne.
        destruct (in_dec string_dec name Tree.redrawnRules) as [Hr | Hr];
          [exact Hr|].
        exfalso. apply Hne. f_equal.
        apply orb_true_iff in C. destruct C as [C | C].
        -- apply existsb_eqb_In in C. contradiction.
        -- now apply Val_eqb_eq.
  - intros Hin. rewrite java25_keys_registrations in Hin.
    rewrite java21_keys_registrations.
    destruct (in_dec string_dec name
                (map fst (Java21Registry.registrations Packages.functions)))
      as [H21 | H21]; [now left | right].
    assert (F : In name ["SingleModuleImportDeclaration"]).
    { rewrite <- added_compared. apply filter_In. split; [exact Hin|].
      apply negb_true_iff. apply not_true_iff_false.
      intros H. apply existsb_eqb_In in H. contradiction. }
    destruct F as [F | []]. now symmetry.
Qed.

Lemma java25_extends_legacy_witness :
  (In "Block" (JsMap.keys (Java21Registry.rules Packages.classes)) ->
   In "Block" (Java25.getDiagramRuleNames Packages.classes)
   /\ (In "Block" Tree.redrawnRules
       <-> outcome (Java25.createRuleDiagram Packages.classes "Block")
           <> outcome (Java21Registry.createRuleDiagram Packages.classes "Block")))
  /\ (In "Block" (Java25.getDiagramRuleNames Packages.classes) ->
      In "Block" (JsMap.keys (Java21Registry.rules Packages.classes))
      \/ "Block" = "SingleModuleImportDeclaration").
Proof.
  apply (java25_extends_legacy Packages.classes "Block").
  exact classes_shape.
Defined.

(** ** The filter of the page *)

Section FilterFacts.
Import JsString.

Lemma lowerChar_space (c : ascii) : isWhiteSpace (lowerChar c) = isWhiteSpace c.
Proof. destruct c as [[] [] [] [] [] [] [] []]; vm_compute; reflexivity. Qed.

Lemma lowerChar_idem (c : ascii) : lowerChar (lowerChar c) = lowerChar c.
Proof. destruct c as [[] [] [] [] [] [] [] []]; vm_compute; reflexivity. Qed.

Lemma toLowerCase_app (a b : string) :
  toLowerCase (a ++ b) = toLowerCase a ++ toLowerCase b.
Proof. induction a as [|c a IH]; simpl; [reflexivity | now rewrite IH]. Qed.

Lemma toLowerCase_idem (s : string) : toLowerCase (toLowerCase s) = toLowerCase s.
Proof.
  induction s as [|c s IH]; simpl; [reflexivity|].
  now rewrite lowerChar_idem, IH.
Qed.

Lemma toLowerCase_trimStart (s : string) :
  toLowerCase (trimStart s) = trimStart (toLowerCase s).
Proof.
  induction s as [|c s IH]; simpl; [reflexivity|].
  rewrite lowerChar_space. destruct (isWhiteSpace c); [exact IH | reflexivity].
Qed.

Lemma toLowerCase_trimEnd (s : string) :
  toLowerCase (trimEnd s) = trimEnd (toLowerCase s).
Proof.
  induction s as [|c s IH]; simpl; [reflexivity|].
  rewrite <- IH, lowerChar_space.
  destruct (trimEnd s); simpl; [destruct (isWhiteSpace c)|]; reflexivity.
Qed.

Lemma toLowerCase_trim (s : string) :
  toLowerCase (trim s) = trim (toLowerCase s).
Proof. unfold trim. now rewrite toLowerCase_trimEnd, toLowerCase_trimStart. Qed.

Lemma Contains_trans (s t u : string) :
  Contains s t -> Contains t u -> Contains s u.
Proof.
  intros [a [b ->]] [c [d ->]]. exists (a ++ c), (d ++ b).
  now rewrite !append_assoc.
Qed.

Lemma Contains_toLowerCase (s t : string) :
  Contains s t -> Contains (toLowerCase s) (toLowerCase t).
Proof.
  intros [a [b ->]]. exists (toLowerCase a), (toLowerCase b).
  now rewrite !toLowerCase_app.
Qed.

Lemma trim_Contains (s : string) : Contains s (trim s).
Proof. destruct (trim_spec s) as [a [b [E _]]]. now exists a, b. Qed.

(** White space in front of a string that starts otherwise is all that
    [trimStart] takes. *)
Lemma trimStart_keeps (u z : string) :
  startsWith isWhiteSpace z = false -> z <> "" ->
  exists u', trimStart (u ++ z) = u' ++ z.
Proof.
  intros Hs Hz. induction u as [|d u [u' IH]].
  - exists "". destruct z as [|c z]; [congruence|]. simpl in *. now rewrite Hs.
  - simpl. destruct (isWhiteSpace d); [now exists u' | now exists (String d u)].
Qed.

Lemma endsWith_app (p : ascii -> bool) (u z : string) :
  z <> "" -> endsWith p (u ++ z) = endsWith p z.
Proof.
  intros Hz. induction u as [|d u IH]; [reflexivity|].
  change (String d u ++ z) with (String d (u ++ z)).
  rewrite endsWith_cons; [exact IH|]. destruct u; simpl; [exact Hz | discriminate].
Qed.

(** And [trimEnd] takes nothing of a string that ends otherwise. *)
Lemma trimEnd_keeps (z w : string) :
  endsWith isWhiteSpace z = false -> z <> "" ->
  exists w', trimEnd (z ++ w) = z ++ w'.
Proof.
  induction z as [|c z IH]; intros He Hz; [congruence|].
  destruct z as [|c' z].
  - simpl in He. simpl. destruct (trimEnd w) as [|e r]; [|now exists (String e r)].
    rewrite He. now exists "".
  - rewrite endsWith_cons in He by discriminate.
    destruct (IH He) as [w' E]; [discriminate|].
    change (String c (String c' z) ++ w) with (String c (String c' z ++ w)).
    cbn [trimEnd]. rewrite E. now exists w'.
Qed.

Lemma trim_Contains_mono (q' q : string) :
  Contains q' q -> Contains (trim q') (trim q).
Proof.
  intros [x [y ->]].
  destruct (trim_spec q) as [a [b [E [_ [_ [Hs He]]]]]].
  destruct (trim q) as [|c core] eqn:Hcore.
  - exists "", (trim (x ++ q ++ y)). reflexivity.
  - set (z := String c core) in *.
    assert (Hz : z <> "") by discriminate.
    rewrite E.
    replace (x ++ (a ++ z ++ b) ++ y) with ((x ++ a) ++ z ++ (b ++ y))
      by now rewrite !append_assoc.
    unfold trim.
    assert (Hs' : startsWith isWhiteSpace (z ++ b ++ y) = false) by exact Hs.
    destruct (trimStart_keeps (x ++ a) (z ++ b ++ y) Hs') as [u' Eu];
      [discriminate|].
    rewrite Eu. rewrite <- (append_assoc u' z (b ++ y)).
    destruct (trimEnd_keeps (u' ++ z) (b ++ y)) as [w' Ew].
    + now rewrite endsWith_app.
    + destruct u'; discriminate.
    + rewrite Ew. exists u', w'. now rewrite append_assoc.
Qed.

Lemma trimStart_space (a s : string) :
  allChars isWhiteSpace a = true -> trimStart (a ++ s) = trimStart s.
Proof.
  induction a as [|c a IH]; simpl; [reflexivity|].
  intros H. apply andb_true_iff in H. destruct H as [Hc Ha].
  rewrite Hc. now apply IH.
Qed.

Lemma trimEnd_space (s b : string) :
  allChars isWhiteSpace b = true -> trimEnd (s ++ b) = trimEnd s.
Proof.
  intros Hb. induction s as [|c s IH].
  - simpl. induction b as [|d b IHb]; [reflexivity|].
    simpl in Hb. apply andb_true_iff in Hb. destruct Hb as [Hd Hb].
    simpl. rewrite (IHb Hb). now rewrite Hd.
  - change (String c s ++ b) with (String c (s ++ b)). cbn [trimEnd].
    now rewrite IH.
Qed.

Lemma trimStart_app_space (s b : string) :
  allChars isWhiteSpace b = true ->
  trimEnd (trimStart (s ++ b)) = trimEnd (trimStart s).
Proof.
  intros Hb. induction s as [|c s IH].
  - simpl. rewrite <- (append_empty_r b) at 1.
    rewrite (trimStart_space b "" Hb). reflexivity.
  - change (String c s ++ b) with (String c (s ++ b)). cbn [trimStart].
    destruct (isWhiteSpace c); [exact IH|].
    change (String c (s ++ b)) with (String c s ++ b).
    now apply trimEnd_space.
Qed.

Lemma trim_space (a q b : string) :
  allChars isWhiteSpace a = true -> allChars isWhiteSpace b = true ->
  trim (a ++ q ++ b) = trim q.
Proof.
  intros Ha Hb. unfold trim. rewrite (trimStart_space a _ Ha).
  now apply trimStart_app_space.
Qed.

(** [filterNames] is a filter, also for the empty query. *)
Lemma filterNames_filter (query : string) (names : list string) :
  App.filterNames query names
  = filter (fun n => includes (toLowerCase n) (toLowerCase (trim query))) names.
Proof.
  unfold App.filterNames.
  destruct (isEmpty (toLowerCase (trim query))) eqn:Hq; [|reflexivity].
  apply isEmpty_true in Hq. rewrite Hq.
  symmetry. apply filter_all. intros; apply includes_empty.
Qed.

Lemma filterNames_In (query : string) (names : list string) (n : string) :
  In n (App.filterNames query names)
  <-> In n names /\ Contains (toLowerCase n) (toLowerCase (trim query)).
Proof. now rewrite filterNames_filter, filter_In, includes_Contains. Qed.

Lemma filterNames_same_key (q1 q2 : string) (names : list string) :
  toLowerCase (trim q1) = toLowerCase (trim q2) ->
  App.filterNames q1 names = App.filterNames q2 names.
Proof. intros E. unfold App.filterNames. now rewrite E. Qed.

End FilterFacts.

(** X14.  filterNames looks at the query through trim and toLowerCase only:
    white space around the query and the case of its letters change nothing
    in the result. *)
Theorem filterNames_ignores_case_and_margin
  (before query after : string) (names : list string) :
  allChars JsString.isWhiteSpace before = true ->
  allChars JsString.isWhiteSpace after = true ->
  App.filterNames (before ++ query ++ after) names = App.filterNames query names
  /\ App.filterNames (JsString.toLowerCase query) names
     = App.filterNames query names.
Proof.
  intros Ha Hb. split; apply filterNames_same_key.
  - now rewrite trim_space.
  - now rewrite <- toLowerCase_trim, toLowerCase_idem.
Qed.

Lemma filterNames_ignores_case_and_margin_witness :
  App.filterNames ("  " ++ "TYPE" ++ " ") ["TypeName"; "Block"]
  = App.filterNames "TYPE" ["TypeName"; "Block"]
  /\ App.filterNames (JsString.toLowerCase "TYPE") ["TypeName"; "Block"]
     = App.filterNames "TYPE" ["TypeName"; "Block"].
Proof.
  apply (filterNames_ignores_case_and_margin "  " "TYPE" " " ["TypeName"; "Block"]);
    reflexivity.
Defined.

(** X15.  A longer query never shows more: when a query contains another
    one, every name it keeps is kept by the other one too. *)
Theorem filterNames_narrows (longer query : string) (names : list string) :
  JsString.Contains longer query ->
  incl (App.filterNames longer names) (App.filterNames query names).
Proof.
  intros H n Hn. apply filterNames_In in Hn. apply filterNames_In.
  destruct Hn as [Hin Hc]. split; [exact Hin|].
  apply (Contains_trans _ _ _ Hc). apply Contains_toLowerCase.
  now apply trim_Contains_mono.
Qed.

Lemma filterNames_narrows_witness :
  incl (App.filterNames "class d" ["ClassDeclaration"; "ClassBody"])
       (App.filterNames "ass " ["ClassDeclaration"; "ClassBody"]).
Proof.
  apply (filterNames_narrows "class d" "ass " ["ClassDeclaration"; "ClassBody"]).
  exists "cl", "d". reflexivity.
Defined.

(** X16.  Every name of the list is found by any part of itself, in whatever
    case the part is typed; in particular by its own full text. *)
Theorem filterNames_finds_by_part (query name : string) (names : list string) :
  In name names ->
  JsString.Contains (JsString.toLowerCase name) (JsString.toLowerCase query) ->
  In name (App.filterNames query names).
Proof.
  intros Hin Hc. apply filterNames_In. split; [exact Hin|].
  apply (Contains_trans _ _ _ Hc). apply Contains_toLowerCase.
  apply trim_Contains.
Qed.

Lemma filterNames_finds_by_part_witness :
  In "MethodDeclaration"
    (App.filterNames "DECL" ["Block"; "MethodDeclaration"]).
Proof.
  apply (filterNames_finds_by_part "DECL" "MethodDeclaration"
           ["Block"; "MethodDeclaration"]).
  - simpl. tauto.
  - exists "method", "aration". reflexivity.
Defined.

(** ** The page of the Java 25 application *)

Section PageFacts.
Import JsString App25.

Lemma sectionName_inj (s t : Java25.SectionId) :
  sectionName s = sectionName t -> s = t.
Proof. destruct s, t; simpl; intros H; try reflexivity; discriminate H. Qed.

Lemma bool_eq_iff (a b : bool) : (a = true <-> b = true) -> a = b.
Proof. destruct a, b; intuition congruence. Qed.

Lemma Set_delete_In (s : JsSet.t) (x y : string) :
  In y (Set_delete s x) <-> In y s /\ y <> x.
Proof.
  unfold Set_delete. rewrite filter_In, negb_true_iff.
  split; intros [H1 H2]; split; try assumption.
  - intros ->. now rewrite String.eqb_refl in H2.
  - apply String.eqb_neq. congruence.
Qed.

Lemma toggleSection_In (s : Java25.SectionId) (prev : JsSet.t) (y : string) :
  In y (toggleSection s prev)
  <-> (y = sectionName s /\ ~ In y prev) \/ (y <> sectionName s /\ In y prev).
Proof.
  unfold toggleSection. destruct (JsSet.has prev (sectionName s)) eqn:H.
  - apply JsSet_has_In in H. rewrite Set_delete_In. split.
    + intros [H1 H2]. now right.
    + intros [[-> H1] | [H1 H2]]; [contradiction | now split].
  - assert (N : ~ In (sectionName s) prev).
    { intros Hin. apply JsSet_has_In in Hin. congruence. }
    rewrite add_In. split.
    + intros [H1 | ->]; [right | now left]. split; [|exact H1].
      intros ->. contradiction.
    + intros [[-> _] | [_ H1]]; [now right | now left].
Qed.

Lemma hasFilterQuery_false (query : string) :
  hasFilterQuery query = false -> toLowerCase (trim query) = "".
Proof.
  unfold hasFilterQuery. intros H. apply Nat.ltb_ge in H.
  destruct (trim query); [reflexivity | simpl in H; lia].
Qed.

Lemma hasFilterQuery_true (query : string) :
  hasFilterQuery query = true -> isEmpty (toLowerCase (trim query)) = false.
Proof.
  unfold hasFilterQuery. intros H. apply Nat.ltb_lt in H.
  destruct (trim query); [simpl in H; lia | reflexivity].
Qed.

Lemma filterNames_blank (query : string) (names : list string) :
  hasFilterQuery query = false -> App.filterNames query names = names.
Proof.
  intros H. unfold App.filterNames. now rewrite (hasFilterQuery_false _ H).
Qed.

Lemma listed_filtering (query : string) (e : JsSet.t) (s : Java25.SectionId) :
  hasFilterQuery query = true ->
  listed (renderSection query e s) = filteredBySection query s.
Proof.
  intros H. unfold renderSection. rewrite H. cbn [andb].
  destruct (filteredBySection query s) as [|n l]; reflexivity.
Qed.

Lemma listed_blank (query : string) (e : JsSet.t) (s : Java25.SectionId) :
  hasFilterQuery query = false ->
  listed (renderSection query e s)
  = if JsSet.has e (sectionName s) then Java25.SECTION_RULES s else [].
Proof.
  intros H. unfold renderSection, filteredBySection. rewrite H. cbn [andb].
  rewrite (filterNames_blank _ _ H).
  destruct (JsSet.has e (sectionName s)); reflexivity.
Qed.

Lemma renderedNames_listed (query : string) (e : JsSet.t) :
  renderedNames query e
  = flat_map (fun s => listed (renderSection query e s)) Java25.SECTION_ORDER.
Proof.
  unfold renderedNames, renderMain. rewrite flat_map_concat_map, map_map.
  now rewrite <- flat_map_concat_map.
Qed.

Lemma filter_flat_map {A} (f : string -> bool) (g : A -> list string) (l : list A) :
  filter f (flat_map g l) = flat_map (fun x => filter f (g x)) l.
Proof.
  induction l as [|x l IH]; simpl; [reflexivity|].
  now rewrite filter_app, IH.
Qed.

Lemma java25_sections_registry (lib : RR.Library) :
  flat_map Java25.SECTION_RULES Java25.SECTION_ORDER
  = Java25.getDiagramRuleNames lib.
Proof. vm_compute. reflexivity. Qed.

Lemma NoDup_app_disjoint {A} (l1 l2 : list A) (a : A) :
  NoDup (l1 ++ l2) -> In a l1 -> In a l2 -> False.
Proof.
  induction l1 as [|x l1 IH]; simpl; intros N H1 H2; [contradiction|].
  apply NoDup_cons_iff in N. destruct N as [N0 N].
  destruct H1 as [-> | H1]; [|now apply IH].
  apply N0. apply in_or_app. now right.
Qed.

Lemma NoDup_flat_map_part {A} (g h : A -> list string) (l : list A) :
  (forall x, NoDup (g x)) -> (forall x, incl (g x) (h x)) ->
  NoDup (flat_map h l) -> NoDup (flat_map g l).
Proof.
  intros Hg Hi. induction l as [|x l IH]; simpl; intros N; [constructor|].
  apply NoDup_app; [apply Hg | apply IH; now apply NoDup_app_remove_l in N |].
  intros a H1 H2. apply (NoDup_app_disjoint _ _ a N); [now apply Hi|].
  apply in_flat_map in H2. destruct H2 as [y [Hy H2]].
  apply in_flat_map. exists y. split; [exact Hy | now apply Hi].
Qed.

Lemma java25_section_distinct (s : Java25.SectionId) :
  NoDup (Java25.SECTION_RULES s).
Proof. apply distinct_NoDup. destruct s; vm_compute; reflexivity. Qed.

Lemma listed_part (query : string) (e : JsSet.t) (s : Java25.SectionId) :
  NoDup (listed (renderSection query e s))
  /\ incl (listed (renderSection query e s)) (Java25.SECTION_RULES s).
Proof.
  destruct (hasFilterQuery query) eqn:H.
  - rewrite (listed_filtering _ _ _ H). unfold filteredBySection.
    rewrite filterNames_filter. split.
    + apply NoDup_filter, java25_section_distinct.
    + intros n Hn. now apply filter_In in Hn.
  - rewrite (listed_blank _ _ _ H).
    destruct (JsSet.has e (sectionName s)).
    + split; [apply java25_section_distinct | apply incl_refl].
    + split; [constructor | intros n []].
Qed.

Lemma ebnf_keys (lib : RR.Library) :
  JsMap.keys Ebnf.EBNF_DEFINITIONS = Java25.getDiagramRuleNames lib.
Proof. vm_compute. reflexivity. Qed.

Lemma ebnf_headed :
  forallb (fun entry => String.prefix (fst entry ++ ":") (snd entry))
    Ebnf.EBNF_DEFINITIONS = true.
Proof. vm_compute. reflexivity. Qed.

End PageFacts.

(** X17.  toggleSection flips the membership of the one section it is given
    and leaves every other section as it was; toggling the same section
    twice restores the membership of every section; and a state without
    repetition stays without repetition. *)
Theorem toggleSection_flips_one (s : Java25.SectionId) (prev : JsSet.t) :
  JsSet.has (App25.toggleSection s prev) (App25.sectionName s)
  = negb (JsSet.has prev (App25.sectionName s))
  /\ (forall t, t <> s ->
        JsSet.has (App25.toggleSection s prev) (App25.sectionName t)
        = JsSet.has prev (App25.sectionName t))
  /\ (forall t,
        JsSet.has (App25.toggleSection s (App25.toggleSection s prev))
          (App25.sectionName t)
        = JsSet.has prev (App25.sectionName t))
  /\ (NoDup prev -> NoDup (App25.toggleSection s prev)).
Proof.
  assert (One : JsSet.has (App25.toggleSection s prev) (App25.sectionName s)
                = negb (JsSet.has prev (App25.sectionName s))).
  { apply bool_eq_iff. rewrite negb_true_iff, <- not_true_iff_false.
    rewrite !JsSet_has_In, toggleSection_In. tauto. }
  assert (Other : forall p t, t <> s ->
            JsSet.has (App25.toggleSection s p) (App25.sectionName t)
            = JsSet.has p (App25.sectionName t)).
  { intros p t Hts. apply bool_eq_iff. rewrite !JsSet_has_In, toggleSection_In.
    assert (App25.sectionName t <> App25.sectionName s)
      by (intros E; apply Hts; now apply sectionName_inj).
    tauto. }
  split; [exact One|]. split; [apply Other|]. split.
  - intros t. apply bool_eq_iff. rewrite !JsSet_has_In, !toggleSection_In.
    destruct (string_dec (App25.sectionName t) (App25.sectionName s));
      destruct (in_dec string_dec (App25.sectionName t) prev); tauto.
  - intros N. unfold App25.toggleSection.
    destruct (JsSet.has prev (App25.sectionName s)).
    + apply NoDup_filter, N.
    + apply add_NoDup, N.
Qed.

(** X18.  While a filter is typed, the expansion state plays no part: the
    sections shown are exactly those with a match, each is expanded and
    lists its matches, and the names on the page are the matches of the
    whole registry, in registration order. *)
Theorem filtering_shows_all_matches
  (lib : RR.Library) (query : string) (expandedSections : JsSet.t) :
  App25.hasFilterQuery query = true ->
  App25.renderedNames query expandedSections
  = App.filterNames query (Java25.getDiagramRuleNames lib)
  /\ (forall s,
        App25.renderSection query expandedSections s = None
        <-> App25.filteredBySection query s = [])
  /\ (forall s view,
        App25.renderSection query expandedSections s = Some view ->
        App25.ariaExpanded view = true
        /\ App25.ruleList view = Some (App25.filteredBySection query s)
        /\ App25.ruleCount view = List.length (App25.filteredBySection query s)).
Proof.
  intros H. split; [|split].
  - rewrite renderedNames_listed.
    rewrite (flat_map_ext _ _ (fun s => listed_filtering query expandedSections s H)).
    unfold App25.filteredBySection.
    rewrite <- (java25_sections_registry lib), filterNames_filter, filter_flat_map.
    apply flat_map_ext. intros s. apply filterNames_filter.
  - intros s. unfold App25.renderSection. rewrite H. cbn [andb].
    destruct (App25.filteredBySection query s); simpl; split;
      intros E; try reflexivity; discriminate E.
  - intros s view. unfold App25.renderSection. rewrite H. cbn [andb].
    destruct (App25.filteredBySection query s) as [|n l]; simpl;
      intros E; [discriminate E|].
    injection E as <-. repeat split.
Qed.

Lemma filtering_shows_all_matches_witness :
  App25.renderedNames "wildcard" App25.collapseAll
  = App.filterNames "wildcard" (Java25.getDiagramRuleNames Packages.functions)
  /\ (forall s,
        App25.renderSection "wildcard" App25.collapseAll s = None
        <-> App25.filteredBySection "wildcard" s = [])
  /\ (forall s view,
        App25.renderSection "wildcard" App25.collapseAll s = Some view ->
        App25.ariaExpanded view = true
        /\ App25.ruleList view = Some (App25.filteredBySection "wildcard" s)
        /\ App25.ruleCount view
           = List.length (App25.filteredBySection "wildcard" s)).
Proof.
  apply (filtering_shows_all_matches Packages.functions "wildcard" App25.collapseAll).
  reflexivity.
Defined.

(** X19.  With no filter (the query is empty or blank) all nine sections
    are shown, each with its full rule count, and a section lists its rules
    exactly when the expansion state holds it: after Expand All the page
    lists the whole registry in order, after Collapse All it lists no rule,
    and at the start it lists the lexical section alone. *)
Theorem unfiltered_shows_expanded_sections
  (lib : RR.Library) (query : string) (expandedSections : JsSet.t) :
  App25.hasFilterQuery query = false ->
  (forall s,
     App25.renderSection query expandedSections s
     = Some (App25.mkSectionView (App25.sectionName s) (Java25.SECTION_TITLES s)
               (List.length (Java25.SECTION_RULES s))
               (JsSet.has expandedSections (App25.sectionName s))
               (if JsSet.has expandedSections (App25.sectionName s)
                then Some (Java25.SECTION_RULES s) else None)))
  /\ App25.renderedNames query App25.expandAll = Java25.getDiagramRuleNames lib
  /\ App25.renderedNames query App25.collapseAll = []
  /\ App25.renderedNames query App25.initialExpanded
     = Java25.SECTION_RULES Java25.lexical.
Proof.
  intros H.
  assert (R : forall e,
            App25.renderedNames query e
            = flat_map (fun s => if JsSet.has e (App25.sectionName s)
                                 then Java25.SECTION_RULES s else [])
                Java25.SECTION_ORDER).
  { intros e. rewrite renderedNames_listed. apply flat_map_ext.
    intros s. now apply listed_blank. }
  split; [|split; [|split]].
  - intros s. unfold App25.renderSection, App25.filteredBySection.
    rewrite H. cbn [andb]. rewrite (filterNames_blank _ _ H).
    destruct (JsSet.has expandedSections (App25.sectionName s)); reflexivity.
  - rewrite R. vm_compute. reflexivity.
  - rewrite R. reflexivity.
  - rewrite R. vm_compute. reflexivity.
Qed.

Lemma unfiltered_shows_expanded_sections_witness :
  (forall s,
     App25.renderSection "  " ["types"] s
     = Some (App25.mkSectionView (App25.sectionName s) (Java25.SECTION_TITLES s)
               (List.length (Java25.SECTION_RULES s))
               (JsSet.has ["types"] (App25.sectionName s))
               (if JsSet.has ["types"] (App25.sectionName s)
                then Some (Java25.SECTION_RULES s) else None)))
  /\ App25.renderedNames "  " App25.expandAll
     = Java25.getDiagramRuleNames Packages.functions
  /\ App25.renderedNames "  " App25.collapseAll = []
  /\ App25.renderedNames "  " App25.initialExpanded
     = Java25.SECTION_RULES Java25.lexical.
Proof.
  apply (unfiltered_shows_expanded_sections Packages.functions "  " ["types"]).
  reflexivity.
Defined.

(** X20.  Whatever the query and the expansion state, no rule is on the page
    twice, so the element ids rule-NAME and the keys of the list items are
    unique; and every rule on the page has a diagram factory and an EBNF
    text of its own. *)
Theorem page_rules_are_distinct_and_defined
  (lib : RR.Library) (query : string) (expandedSections : JsSet.t) :
  NoDup (App25.renderedNames query expandedSections)
  /\ (forall s view names,
        App25.renderSection query expandedSections s = Some view ->
        App25.ruleList view = Some names -> NoDup names)
  /\ (forall name,
        In name (App25.renderedNames query expandedSections) ->
        JsMap.has (Java25.rules lib) name = true
        /\ exists text, EbnfAccess.getEbnfDefinition name = EbnfAccess.OwnText text).
Proof.
  assert (Sub : incl (App25.renderedNames query expandedSections)
                  (Java25.getDiagramRuleNames lib)).
  { rewrite renderedNames_listed, <- (java25_sections_registry lib).
    intros n Hn. apply in_flat_map in Hn. destruct Hn as [s [Hs Hn]].
    apply in_flat_map. exists s. split; [exact Hs|].
    now apply (proj2 (listed_part query expandedSections s)). }
  split; [|split].
  - rewrite renderedNames_listed.
    apply (NoDup_flat_map_part _ Java25.SECTION_RULES).
    + intros s. apply listed_part.
    + intros s. apply listed_part.
    + rewrite (java25_sections_registry lib).
      unfold Java25.getDiagramRuleNames, JsMap.keys. rewrite java25_rules_eq.
      apply java25_keys_distinct.
  - intros s view names Hv Hl.
    pose proof (proj1 (listed_part query expandedSections s)) as N.
    rewrite Hv in N. destruct view as [i t c x l]. simpl in Hl. subst l.
    exact N.
  - intros name Hn. apply Sub in Hn. split; [now apply keys_has|].
    rewrite <- (ebnf_keys lib) in Hn. apply keys_has, has_get in Hn.
    destruct Hn as [text Ht]. exists text.
    unfold EbnfAccess.getEbnfDefinition. now rewrite Ht.
Qed.

(** X21.  The EBNF store has a text for exactly the registered rules, under
    the same names in the same order, and each text is headed by its own
    rule name followed by a colon; for any other name getEbnfDefinition
    finds no own entry. *)
Theorem ebnf_texts_match_registry (lib : RR.Library) (name : string) :
  Ebnf.getEbnfRuleNames = Java25.getDiagramRuleNames lib
  /\ (JsMap.has (Java25.rules lib) name = true ->
      exists rest,
        EbnfAccess.getEbnfDefinition name
        = EbnfAccess.OwnText (name ++ ":" ++ rest))
  /\ (JsMap.has (Java25.rules lib) name = false ->
      EbnfAccess.getEbnfDefinition name = EbnfAccess.NotOwn).
Proof.
  pose proof (ebnf_keys lib) as K. split; [exact K|]. split.
  - intros H. apply keys_has in H.
    change (In name (Java25.getDiagramRuleNames lib)) in H.
    rewrite <- K in H. apply keys_has, has_get in H. destruct H as [text Ht].
    unfold EbnfAccess.getEbnfDefinition. rewrite Ht.
    pose proof ebnf_headed as C. rewrite forallb_forall in C.
    specialize (C _ (get_Some_In _ _ _ Ht)). cbn [fst snd] in C.
    apply prefix_app in C. destruct C as [rest ->]. exists rest.
    now rewrite append_assoc.
  - intros H. unfold EbnfAccess.getEbnfDefinition.
    rewrite get_not_In; [reflexivity|]. rewrite K.
    intros Hin. apply keys_has in Hin. congruence.
Qed.

(** ** The components: a list of rules is rendered rule by rule *)

Section ComponentFacts.
Import RR Contract DiagramToSvg.

Lemma outcome_bind_throw {A B} (m : M A) (f : A -> M B) (e : Thrown) :
  outcome m = Throw e -> outcome (bind m f) = Throw e.
Proof.
  destruct m as [l [x|e']]; simpl; intros H; [discriminate H|].
  now injection H as ->.
Qed.

Lemma svg_returns (lib : Library) (name : string) :
  EitherShape lib -> exists s, outcome (RuleDiagram.svg lib name) = Ok s.
Proof.
  intros shape. unfold RuleDiagram.svg.
  rewrite (outcome_bind _ _ _ (java25_built lib name shape)).
  apply diagramToSvgString_returns.
Qed.

Lemma svg_throws (lib : Library) (name : string) (e : Thrown) :
  outcome (Java25.createRuleDiagram lib name) = Throw e ->
  outcome (RuleDiagram.svg lib name) = Throw e
  /\ trace (RuleDiagram.svg lib name) = trace (Java25.createRuleDiagram lib name).
Proof.
  intros H. unfold RuleDiagram.svg.
  destruct (Java25.createRuleDiagram lib name) as [l [v|e']]; simpl in H;
    [discriminate H|].
  injection H as ->. split; reflexivity.
Qed.

(** The EBNF block: only the name [__proto__] makes it throw. *)
Lemma renderEbnf_proto : Page.renderEbnf "__proto__" = throw Page.invalidChild.
Proof. vm_compute. reflexivity. Qed.

Lemma renderEbnf_other (name : string) :
  name <> "__proto__" -> exists block, Page.renderEbnf name = ret block.
Proof.
  intros H. unfold Page.renderEbnf, EbnfAccess.inherited.
  apply String.eqb_neq in H. rewrite H.
  destruct (EbnfAccess.getEbnfDefinition name); [eauto|].
  destruct (existsb _ _); eauto.
Qed.

Lemma renderEbnf_cases (name : string) :
  (exists block, Page.renderEbnf name = ret block)
  \/ Page.renderEbnf name = throw Page.invalidChild.
Proof.
  destruct (string_dec name "__proto__") as [-> | H].
  - right. apply renderEbnf_proto.
  - left. now apply renderEbnf_other.
Qed.

Lemma RuleDiagram_outcome (lib : Library) (name s : string) (block : option string) :
  outcome (RuleDiagram.svg lib name) = Ok s ->
  Page.renderEbnf name = ret block ->
  outcome (Page.RuleDiagram lib name)
  = Ok (Page.mkRuleView ("rule-" ++ name) name s block)
  /\ trace (Page.RuleDiagram lib name) = trace (RuleDiagram.svg lib name).
Proof.
  intros H E. unfold Page.RuleDiagram. rewrite E. split.
  - rewrite (outcome_bind _ _ _ H). reflexivity.
  - rewrite (trace_bind_ok _ _ _ H). apply app_nil_r.
Qed.

Lemma RuleDiagram_refused (lib : Library) (s : string) :
  outcome (RuleDiagram.svg lib "__proto__") = Ok s ->
  outcome (Page.RuleDiagram lib "__proto__") = Throw Page.invalidChild.
Proof.
  intros H. unfold Page.RuleDiagram. rewrite renderEbnf_proto.
  rewrite (outcome_bind _ _ _ H). reflexivity.
Qed.

Lemma RuleDiagram_throws (lib : Library) (name : string) (e : Thrown) :
  outcome (RuleDiagram.svg lib name) = Throw e ->
  outcome (Page.RuleDiagram lib name) = Throw e
  /\ trace (Page.RuleDiagram lib name) = trace (RuleDiagram.svg lib name).
Proof.
  intros H. unfold Page.RuleDiagram.
  destruct (RuleDiagram.svg lib name) as [l [v|e']]; simpl in H;
    [discriminate H|].
  injection H as ->. split; reflexivity.
Qed.

(** A rule that is rendered has invoked the package for its markup only. *)
Lemma RuleDiagram_rendered (lib : Library) (name : string) (v : Page.RuleView) :
  outcome (Page.RuleDiagram lib name) = Ok v ->
  trace (Page.RuleDiagram lib name) = trace (RuleDiagram.svg lib name).
Proof.
  unfold Page.RuleDiagram.
  destruct (RuleDiagram.svg lib name) as [l [s|e]] eqn:Es; [|discriminate].
  destruct (renderEbnf_cases name) as [[block ->] | ->]; [|discriminate].
  intros _. cbn. now rewrite !app_nil_r.
Qed.

(** A list whose rules all serialize, without the name [__proto__], is
    rendered whole, in order. *)
Lemma RuleList_renders (lib : Library) (names : list string) :
  Forall (fun n => exists s, outcome (RuleDiagram.svg lib n) = Ok s) names ->
  ~ In "__proto__" names ->
  exists views,
    outcome (Page.RuleList lib names) = Ok views
    /\ Forall2
         (fun n v =>
            v = Page.mkRuleView ("rule-" ++ n) n (Page.svgHtml v) (Page.ebnfBlock v)
            /\ outcome (RuleDiagram.svg lib n) = Ok (Page.svgHtml v)
            /\ Page.renderEbnf n = ret (Page.ebnfBlock v))
         names views
    /\ trace (Page.RuleList lib names)
       = flat_map (fun n => trace (RuleDiagram.svg lib n)) names.
Proof.
  induction 1 as [|n names [s Hs] _ IH]; intros Hp.
  - exists []. repeat split. constructor.
  - destruct IH as [views [Ho [Hv Ht]]]; [intros Hin; apply Hp; now right|].
    destruct (renderEbnf_other n) as [block Hb];
      [intros ->; apply Hp; now left|].
    destruct (RuleDiagram_outcome lib n s block Hs Hb) as [Ho1 Ht1].
    exists (Page.mkRuleView ("rule-" ++ n) n s block :: views).
    cbn [Page.RuleList flat_map]. split; [|split].
    + rewrite (outcome_bind _ _ _ Ho1), (outcome_bind _ _ _ Ho). reflexivity.
    + constructor; [repeat split; assumption | exact Hv].
    + rewrite (trace_bind_ok _ _ _ Ho1), (trace_bind_ok _ _ _ Ho).
      cbn [trace ret fst]. now rewrite app_nil_r, Ht1, Ht.
Qed.

(** A list that holds the name [__proto__] is not rendered. *)
Lemma RuleList_refused (lib : Library) (names : list string) :
  (forall n, exists s, outcome (RuleDiagram.svg lib n) = Ok s) ->
  In "__proto__" names ->
  outcome (Page.RuleList lib names) = Throw Page.invalidChild.
Proof.
  intros Hs. induction names as [|n names IH]; intros Hin; [contradiction|].
  cbn [Page.RuleList]. destruct (Hs n) as [s Hn].
  destruct (string_dec n "__proto__") as [-> | Hne].
  - apply outcome_bind_throw. now apply (RuleDiagram_refused lib s).
  - destruct (renderEbnf_other n Hne) as [block Hb].
    destruct (RuleDiagram_outcome lib n s block Hn Hb) as [Ho1 _].
    rewrite (outcome_bind _ _ _ Ho1). apply outcome_bind_throw.
    apply IH. destruct Hin as [-> | Hin]; [contradiction | exact Hin].
Qed.

Lemma svg21_returns (lib : Library) (name : string) :
  EitherShape lib ->
  exists s,
    outcome (RuleDiagram.svg21 lib (Java21Registry.rules lib) name) = Ok s.
Proof.
  intros shape. unfold RuleDiagram.svg21.
  assert (T : exists tree,
             outcome (Java21.createRuleDiagram lib (Java21Registry.rules lib) name)
             = Ok tree).
  { destruct (in_dec string_dec name (JsMap.keys (Java21Registry.rules lib)))
      as [Hin | Hout].
    - eexists. exact (java21_built lib name shape Hin).
    - eexists. unfold Java21.createRuleDiagram.
      rewrite (get_not_In _ _ Hout). now apply placeholder_builds. }
  destruct T as [tree Ht]. rewrite (outcome_bind _ _ _ Ht).
  apply diagramToSvgString_returns.
Qed.

Lemma RuleList21_renders (lib : Library) (names : list string) :
  EitherShape lib ->
  exists views,
    outcome (Page.RuleList21 lib names) = Ok views
    /\ map (fun v => fst v) views = map (fun n => ("rule-" ++ n, n)) names.
Proof.
  intros shape. induction names as [|n names [views [Ho Hv]]].
  - now exists [].
  - destruct (svg21_returns lib n shape) as [s Hs].
    exists (("rule-" ++ n, n, s) :: views). cbn [Page.RuleList21 map].
    assert (H1 : outcome (Page.RuleDiagram21 lib n) = Ok ("rule-" ++ n, n, s)).
    { unfold Page.RuleDiagram21. now rewrite (outcome_bind _ _ _ Hs). }
    rewrite (outcome_bind _ _ _ H1), (outcome_bind _ _ _ Ho).
    split; [reflexivity|]. cbn [fst]. now rewrite Hv.
Qed.

End ComponentFacts.

(** X22.  Under the contract of the package RuleList renders every list of
    names that does not hold the name __proto__, whole and in order,
    registered or not: one view per name, with the id rule-NAME, the name as
    heading, the markup that serializing the rule gives and the EBNF block
    of the name; and the package is invoked for the rules one after the
    other, in list order.  A list that holds the name __proto__ is not
    rendered: for that name the lookup in the EBNF store finds the prototype
    object, which React refuses as a child by throwing. *)
Theorem RuleList_renders_every_name (lib : RR.Library) (names : list string) :
  Contract.EitherShape lib ->
  (~ In "__proto__" names ->
   exists views,
     outcome (Page.RuleList lib names) = Ok views
     /\ Forall2
          (fun n v =>
             v = Page.mkRuleView ("rule-" ++ n) n (Page.svgHtml v) (Page.ebnfBlock v)
             /\ outcome (RuleDiagram.svg lib n) = Ok (Page.svgHtml v)
             /\ Page.renderEbnf n = ret (Page.ebnfBlock v))
          names views
     /\ trace (Page.RuleList lib names)
        = flat_map (fun n => trace (RuleDiagram.svg lib n)) names)
  /\ (In "__proto__" names ->
      outcome (Page.RuleList lib names) = Throw Page.invalidChild).
Proof.
  intros shape. split.
  - apply RuleList_renders. apply Forall_forall.
    intros n _. now apply svg_returns.
  - apply RuleList_refused. intros n. now apply svg_returns.
Qed.

Lemma RuleList_renders_every_name_witness :
  (exists views,
     outcome (Page.RuleList Packages.classes ["Block"; "toString"; "NoSuchRule"])
     = Ok views
     /\ map Page.ebnfBlock views
        = [Some ("Block:" ++ String "010"%char "    { [BlockStatements] }");
           Some ""; None])
  /\ outcome (Page.RuleList Packages.classes ["Block"; "__proto__"])
     = Throw Page.invalidChild.
Proof.
  split.
  - destruct (RuleList_renders_every_name Packages.classes
                ["Block"; "toString"; "NoSuchRule"] classes_shape) as [R _].
    destruct R as [views [Ho _]].
    + simpl. intuition discriminate.
    + exists views. split; [exact Ho|].
      vm_compute in Ho. injection Ho as <-. vm_compute. reflexivity.
  - apply (RuleList_renders_every_name Packages.classes ["Block"; "__proto__"]
             classes_shape).
    simpl. tauto.
Defined.

(** X23.  The try block of diagramToSvgString does not cover the factory:
    what createRuleDiagram throws leaves RuleDiagram as it is, and a list
    holding that rule is not rendered; the rules before it, when each of
    them is rendered, have invoked the package, and the rules after it are
    never reached. *)
Theorem factory_failure_ends_the_list
  (lib : RR.Library) (before after : list string) (name : string) (e : Thrown) :
  outcome (Java25.createRuleDiagram lib name) = Throw e ->
  Forall (fun n => exists v, outcome (Page.RuleDiagram lib n) = Ok v) before ->
  outcome (Page.RuleDiagram lib name) = Throw e
  /\ outcome (Page.RuleList lib (before ++ name :: after)) = Throw e
  /\ trace (Page.RuleList lib (before ++ name :: after))
     = (flat_map (fun n => trace (RuleDiagram.svg lib n)) before
        ++ trace (Java25.createRuleDiagram lib name))%list.
Proof.
  intros He Hb.
  destruct (svg_throws lib name e He) as [Hs Hst].
  destruct (RuleDiagram_throws lib name e Hs) as [Hr Hrt].
  split; [exact Hr|].
  induction Hb as [|n before [v Hn] _ [IHo IHt]].
  - cbn [app Page.RuleList flat_map]. split.
    + now apply outcome_bind_throw.
    + rewrite (trace_bind_throw _ _ _ Hr). now rewrite Hrt, Hst.
  - pose proof (RuleDiagram_rendered lib n v Hn) as Ht1.
    cbn [app Page.RuleList flat_map]. split.
    + rewrite (outcome_bind _ _ _ Hn). now apply outcome_bind_throw.
    + rewrite (trace_bind_ok _ _ _ Hn), (trace_bind_throw _ _ _ IHo).
      now rewrite Ht1, IHt, app_assoc.
Qed.

Lemma factory_failure_ends_the_list_witness :
  outcome (Page.RuleDiagram BrokenPackage.library "Block")
  = Throw BrokenPackage.failure
  /\ outcome (Page.RuleList BrokenPackage.library
                (["NoSuchRule"] ++ "Block" :: ["Type"]))
     = Throw BrokenPackage.failure
  /\ trace (Page.RuleList BrokenPackage.library
              (["NoSuchRule"] ++ "Block" :: ["Type"]))
     = (flat_map (fun n => trace (RuleDiagram.svg BrokenPackage.library n))
          ["NoSuchRule"]
        ++ trace (Java25.createRuleDiagram BrokenPackage.library "Block"))%list.
Proof.
  apply (factory_failure_ends_the_list BrokenPackage.library
           ["NoSuchRule"] ["Type"] "Block" BrokenPackage.failure).
  - vm_compute. reflexivity.
  - constructor; [|constructor]. eexists. vm_compute. reflexivity.
Defined.

(** X24.  The older page shows all nine sections whatever the query, also
    those without a match; the names it lists are the matches of its whole
    registry, in registration order, none of them twice; and under the
    contract of the package its RuleList renders every list of names, one
    element rule-NAME per name. *)
Theorem legacy_page_lists_all_matches
  (lib : RR.Library) (query : string) (names : list string) :
  Contract.EitherShape lib ->
  map (fun v => fst v) (App21.renderMain query)
  = map (fun s => (App21.sectionName s, Java21Registry.SECTION_TITLES s))
      Java21Registry.SECTION_ORDER
  /\ flat_map (fun v => snd v) (App21.renderMain query)
     = App.filterNames query (JsMap.keys (Java21Registry.rules lib))
  /\ NoDup (flat_map (fun v => snd v) (App21.renderMain query))
  /\ exists views,
       outcome (Page.RuleList21 lib names) = Ok views
       /\ map (fun v => fst v) views = map (fun n => ("rule-" ++ n, n)) names.
Proof.
  intros shape.
  assert (F : flat_map Java21Registry.SECTION_RULES Java21Registry.SECTION_ORDER
              = JsMap.keys (Java21Registry.rules lib)) by (vm_compute; reflexivity).
  assert (E : flat_map (fun v => snd v) (App21.renderMain query)
              = App.filterNames query (JsMap.keys (Java21Registry.rules lib))).
  { unfold App21.renderMain. rewrite flat_map_concat_map, map_map.
    rewrite <- flat_map_concat_map. cbn [snd]. unfold App21.filteredBySection.
    rewrite <- F, filterNames_filter, filter_flat_map.
    apply flat_map_ext. intros s. apply filterNames_filter. }
  split; [|split; [exact E | split]].
  - unfold App21.renderMain. rewrite map_map. reflexivity.
  - rewrite E, filterNames_filter. apply NoDup_filter.
    unfold JsMap.keys. rewrite java21_rules_eq. apply java21_keys_distinct.
  - now apply RuleList21_renders.
Qed.

Lemma legacy_page_lists_all_matches_witness :
  map (fun v => fst v) (App21.renderMain "lambda")
  = map (fun s => (App21.sectionName s, Java21Registry.SECTION_TITLES s))
      Java21Registry.SECTION_ORDER
  /\ flat_map (fun v => snd v) (App21.renderMain "lambda")
     = App.filterNames "lambda" (JsMap.keys (Java21Registry.rules Packages.functions))
  /\ NoDup (flat_map (fun v => snd v) (App21.renderMain "lambda"))
  /\ exists views,
       outcome (Page.RuleList21 Packages.functions ["Block"]) = Ok views
       /\ map (fun v => fst v) views = map (fun n => ("rule-" ++ n, n)) ["Block"].
Proof.
  apply (legacy_page_lists_all_matches Packages.functions "lambda" ["Block"]).
  exact functions_shape.
Defined.

(** X25.  rr accepts what callOrNew accepts: for a constructor whose source
    text does not start with the word class, whenever callOrNew returns a
    value, rr returns the same value after the same invocations; and every
    error after which callOrNew retries with new makes rr retry too. *)
Theorem rr_extends_callOrNew
  (lib : RR.Library) (k : RR.Kind) (args : list RR.Val) (v : RR.Val) :
  Java25.__isClass (RR.export lib k) = false ->
  outcome (Java21.callOrNew lib k args) = Ok v ->
  Java25.rr lib k args = Java21.callOrNew lib k args
  /\ (forall e, Java21.withoutNew e = true ->
                Java25.mustBeConstructed (errorText e) = true).
Proof.
  intros Hc Hv.
  assert (W : forall e, Java21.withoutNew e = true ->
                        Java25.mustBeConstructed (errorText e) = true).
  { intros e He. unfold Java21.withoutNew in He.
    apply andb_true_iff in He. destruct He as [_ He].
    unfold errorText, Java25.mustBeConstructed.
    destruct (message e) as [m|]; [|discriminate He]. now rewrite He. }
  split; [|exact W].
  unfold Java25.rr, Java21.callOrNew, try_catch, invokeCall in *. rewrite Hc.
  destruct (RR.call (RR.export lib k) args) as [x|e]; [reflexivity|].
  destruct (Java21.withoutNew e) eqn:He.
  - now rewrite (W e He).
  - simpl in Hv. discriminate Hv.
Qed.

Lemma rr_extends_callOrNew_witness :
  Java25.rr Packages.functions RR.Sequence [] 
  = Java21.callOrNew Packages.functions RR.Sequence []
  /\ (forall e, Java21.withoutNew e = true ->
                Java25.mustBeConstructed (errorText e) = true).
Proof.
  apply (rr_extends_callOrNew Packages.functions RR.Sequence []
           (RR.VNode RR.Sequence [])); reflexivity.
Defined.

(** ** What is never consulted, and what the navigation points at *)

(** X26.  diagramToSvgString never falls back: once toSVG is a function,
    toString plays no part in the result, also when toSVG throws or returns
    something unexpected; and an element with an outerHTML is never handed
    to the XMLSerializer.  When toSVG throws, the result is that of the
    catch block alone: the render-error comment, or the exception raised by
    building its text. *)
Theorem toSVG_takes_precedence
  (run : DiagramToSvg.Attempt DiagramToSvg.Svg)
  (toString toString' : DiagramToSvg.Slot string)
  (html : string) (serialized serialized' : DiagramToSvg.Attempt string) :
  DiagramToSvg.diagramToSvgString
    (DiagramToSvg.Truthy (DiagramToSvg.Function run) toString)
  = DiagramToSvg.diagramToSvgString
      (DiagramToSvg.Truthy (DiagramToSvg.Function run) toString')
  /\ DiagramToSvg.diagramToSvgString
       (DiagramToSvg.Truthy
          (DiagramToSvg.Function
             (DiagramToSvg.Yields
                (DiagramToSvg.SvgNode (DiagramToSvg.Yields (Some html)) serialized)))
          toString)
     = DiagramToSvg.diagramToSvgString
         (DiagramToSvg.Truthy
            (DiagramToSvg.Function
               (DiagramToSvg.Yields
                  (DiagramToSvg.SvgNode (DiagramToSvg.Yields (Some html)) serialized')))
            toString')
  /\ (forall c,
        DiagramToSvg.diagramToSvgString
          (DiagramToSvg.Truthy (DiagramToSvg.Function (DiagramToSvg.Fails c))
             (DiagramToSvg.Function (DiagramToSvg.Yields html)))
        = DiagramToSvg.catchBlock c)
  /\ (forall e raised,
        DiagramToSvg.catchBlock (DiagramToSvg.Printable e)
        = Ok (DiagramToSvg.renderError e)
        /\ DiagramToSvg.catchBlock (DiagramToSvg.Unprintable raised) = Throw raised).
Proof.
  split; [|split; [|split]].
  - destruct run as [[svg|[[h|]|c] ser|c|]|c]; reflexivity.
  - reflexivity.
  - reflexivity.
  - intros e raised. split; reflexivity.
Qed.

(** X27.  The navigation always links to all nine sections, but a section
    is on the page only when no filter is typed or the filter matches one
    of its rules: while filtering, the link of a section without a match
    points at an element that is not rendered. *)
Theorem nav_link_target_rendered
  (query : string) (expandedSections : JsSet.t) (s : Java25.SectionId) :
  In ("#" ++ App25.sectionName s, Java25.SECTION_TITLES s) App25.renderNav
  /\ ((exists view,
         App25.renderSection query expandedSections s = Some view
         /\ App25.sectionId view = App25.sectionName s)
      <-> (App25.hasFilterQuery query = false
           \/ App25.filteredBySection query s <> [])).
Proof.
  split.
  - unfold App25.renderNav.
    apply (in_map (fun s => ("#" ++ App25.sectionName s, Java25.SECTION_TITLES s))).
    destruct s; simpl; tauto.
  - unfold App25.renderSection.
    destruct (App25.hasFilterQuery query); cbn [andb].
    + destruct (App25.filteredBySection query s) as [|n l]; simpl.
      * split; [intros [view [H _]]; discriminate H|].
        intros [H | H]; [discriminate H | now destruct H].
      * split; [intros _; right; discriminate|].
        intros _. eexists. split; reflexivity.
    + split; [intros _; now left|].
      intros _. eexists. split; reflexivity.
Qed.

(** ** Rendering twice, with a package that keeps state (C9) *)

Section StateFacts.
Import RR.
Context {St : Type}.

Lemma StateFree_ret {A} (a : A) : Stateful.StateFree (@Stateful.retS St A a).
Proof. intros s s'. reflexivity. Qed.

Lemma StateFree_throw {A} (e : Thrown) : Stateful.StateFree (@Stateful.throwS St A e).
Proof. intros s s'. reflexivity. Qed.

Lemma StateFree_bind {A B} (m : Stateful.MS St A) (f : A -> Stateful.MS St B) :
  Stateful.StateFree m -> (forall a, Stateful.StateFree (f a)) ->
  Stateful.StateFree (Stateful.bindS m f).
Proof.
  intros Hm Hf s s'. unfold Stateful.bindS. specialize (Hm s s').
  destruct (m s) as [s1 [l r]], (m s') as [s1' [l' r']]. simpl in Hm.
  injection Hm as -> ->. destruct r' as [a|e]; [|reflexivity].
  specialize (Hf a s1 s1').
  destruct (f a s1) as [s2 [l2 r2]], (f a s1') as [s2' [l2' r2']].
  simpl in Hf. injection Hf as -> ->. reflexivity.
Qed.

Lemma StateFree_try_catch {A} (m : Stateful.MS St A) (h : Thrown -> Stateful.MS St A) :
  Stateful.StateFree m -> (forall e, Stateful.StateFree (h e)) ->
  Stateful.StateFree (Stateful.try_catchS m h).
Proof.
  intros Hm Hh s s'. unfold Stateful.try_catchS. specialize (Hm s s').
  destruct (m s) as [s1 [l r]], (m s') as [s1' [l' r']]. simpl in Hm.
  injection Hm as -> ->. destruct r' as [a|e]; [reflexivity|].
  specialize (Hh e s1 s1').
  destruct (h e s1) as [s2 [l2 r2]], (h e s1') as [s2' [l2' r2']].
  simpl in Hh. injection Hh as -> ->. reflexivity.
Qed.

Lemma bindS_emits {A B} (m : Stateful.MS St A) (f : A -> Stateful.MS St B) :
  (forall s, trace (snd (m s)) <> []) ->
  forall s, trace (snd (Stateful.bindS m f s)) <> [].
Proof.
  intros H s. unfold Stateful.bindS. specialize (H s).
  destruct (m s) as [s1 [l [a|e]]]; simpl in *.
  - destruct (f a s1) as [s2 [l' r]]. simpl.
    destruct l; [contradiction | discriminate].
  - exact H.
Qed.

Lemma bindS_value {A B} (m : Stateful.MS St A) (f : A -> Stateful.MS St B) (a : A) :
  (forall s, m s = (s, ret a)) -> forall s, Stateful.bindS m f s = f a s.
Proof.
  intros H s. unfold Stateful.bindS. rewrite H. unfold ret.
  destruct (f a s) as [s2 [l' r]]. reflexivity.
Qed.

Variable pkg : Stateful.Package St.

Lemma rr_emits_state (k : Kind) (args : list Val) (s : St) :
  trace (snd (Stateful.rr pkg k args s)) <> [].
Proof.
  unfold Stateful.rr, Stateful.invokeNew, Stateful.invokeCall, Stateful.try_catchS.
  destruct (Java25.startsWithClass (Stateful.source pkg k)).
  - destruct (Stateful.construct pkg k args s). discriminate.
  - destruct (Stateful.call pkg k args s) as [s1 [v|e]]; [discriminate|].
    destruct (Java25.mustBeConstructed (errorText e)).
    + destruct (Stateful.construct pkg k args s1). discriminate.
    + discriminate.
Qed.

Lemma evalArgs_invokes (es : list (Stateful.MS St Val)) :
  Forall Stateful.Invokes es ->
  (forall s, trace (snd (Stateful.evalArgs es s)) <> [])
  \/ exists vs, forall s, Stateful.evalArgs es s = (s, ret vs).
Proof.
  induction 1 as [|e es [He | [v Hv]] _ IH]; cbn [Stateful.evalArgs].
  - right. now exists [].
  - left. now apply bindS_emits.
  - destruct IH as [IH | [vs IH]].
    + left. intros s. rewrite (bindS_value _ _ v Hv). now apply bindS_emits.
    + right. exists (v :: vs). intros s.
      rewrite (bindS_value _ _ v Hv), (bindS_value _ _ vs IH). reflexivity.
Qed.

Lemma node_invokes (k : Kind) (es : list (Stateful.MS St Val)) :
  Forall Stateful.Invokes es ->
  forall s, trace (snd (Stateful.apply_ (Stateful.rr pkg k) es s)) <> [].
Proof.
  intros H s. unfold Stateful.apply_.
  destruct (evalArgs_invokes es H) as [He | [vs He]].
  - now apply bindS_emits.
  - rewrite (bindS_value _ _ vs He). apply rr_emits_state.
Qed.

Hypothesis deterministic : Stateful.Deterministic pkg.

Lemma StateFree_call (k : Kind) (args : list Val) :
  Stateful.StateFree (Stateful.invokeCall pkg k args).
Proof.
  intros s s'. unfold Stateful.invokeCall.
  pose proof (proj1 deterministic k args s s') as H.
  destruct (Stateful.call pkg k args s), (Stateful.call pkg k args s').
  simpl in *. now subst.
Qed.

Lemma StateFree_new (k : Kind) (args : list Val) :
  Stateful.StateFree (Stateful.invokeNew pkg k args).
Proof.
  intros s s'. unfold Stateful.invokeNew.
  pose proof (proj1 (proj2 deterministic) k args s s') as H.
  destruct (Stateful.construct pkg k args s), (Stateful.construct pkg k args s').
  simpl in *. now subst.
Qed.

Lemma StateFree_rr (k : Kind) (args : list Val) :
  Stateful.StateFree (Stateful.rr pkg k args).
Proof.
  unfold Stateful.rr.
  destruct (Java25.startsWithClass (Stateful.source pkg k)); [apply StateFree_new|].
  apply StateFree_try_catch; [apply StateFree_call|].
  intros e. destruct (Java25.mustBeConstructed (errorText e));
    [apply StateFree_new | apply StateFree_throw].
Qed.

Lemma StateFree_evalArgs (es : list (Stateful.MS St Val)) :
  Forall Stateful.StateFree es -> Stateful.StateFree (Stateful.evalArgs es).
Proof.
  induction 1 as [|e es He _ IH]; cbn [Stateful.evalArgs].
  - apply StateFree_ret.
  - apply StateFree_bind; [exact He|]. intros v.
    apply StateFree_bind; [exact IH|]. intros vs. apply StateFree_ret.
Qed.

Lemma StateFree_node (k : Kind) (es : list (Stateful.MS St Val)) :
  Forall Stateful.StateFree es ->
  Stateful.StateFree (Stateful.apply_ (Stateful.rr pkg k) es).
Proof.
  intros H. unfold Stateful.apply_.
  apply StateFree_bind; [now apply StateFree_evalArgs|].
  intros args. apply StateFree_rr.
Qed.


End StateFacts.

Ltac state_free pkg det :=
  lazymatch goal with
  | |- Stateful.StateFree (Stateful.str _) => apply StateFree_ret
  | |- Stateful.StateFree (Stateful.num _) => apply StateFree_ret
  | |- Stateful.StateFree _ => apply (StateFree_node pkg det); state_free_args pkg det
  end
with state_free_args pkg det :=
  lazymatch goal with
  | |- Forall _ [] => apply Forall_nil
  | |- Forall _ (_ :: _) =>
      apply Forall_cons; [state_free pkg det | state_free_args pkg det]
  end.

Ltac invokes pkg :=
  lazymatch goal with
  | |- Stateful.Invokes (Stateful.str _) => right; eexists; intros ?; reflexivity
  | |- Stateful.Invokes (Stateful.num _) => right; eexists; intros ?; reflexivity
  | |- Stateful.Invokes _ => left; apply (node_invokes pkg); invokes_args pkg
  end
with invokes_args pkg :=
  lazymatch goal with
  | |- Forall _ [] => apply Forall_nil
  | |- Forall _ (_ :: _) => apply Forall_cons; [invokes pkg | invokes_args pkg]
  end.

Section StateRegistry.
Import RR.
Context {St : Type}.
Variable pkg : Stateful.Package St.


Hypothesis deterministic : Stateful.Deterministic pkg.


End StateRegistry.

Section StateRendering.
Import RR.
Context {St : Type}.
Variable pkg : Stateful.Package St.



Hypothesis deterministic : Stateful.Deterministic pkg.



End StateRendering.

(** The first embedding is the case of a package without state. *)

Section Stateless.
Import RR.

Lemma Same_ret {A} (a : A) : Stateful.Same (Stateful.retS a) (ret a).
Proof. intros s. reflexivity. Qed.

Lemma Same_bind {A B} (m : Stateful.MS unit A) (f : A -> Stateful.MS unit B)
  (p : M A) (g : A -> M B) :
  Stateful.Same m p -> (forall a, Stateful.Same (f a) (g a)) ->
  Stateful.Same (Stateful.bindS m f) (bind p g).
Proof.
  intros Hm Hf s. unfold Stateful.bindS, bind. rewrite Hm.
  destruct p as [l [a|e]]; [|reflexivity].
  rewrite Hf. destruct (g a) as [l' r]. reflexivity.
Qed.

Variable lib : Library.

Lemma Same_rr (k : Kind) (args : list Val) :
  Stateful.Same (Stateful.rr (Stateful.stateless lib) k args) (Java25.rr lib k args).
Proof.
  intros s. unfold Stateful.rr, Java25.rr, Java25.__isClass. cbn [Stateful.source Stateful.stateless].
  destruct (Java25.startsWithClass (source (export lib k))); [reflexivity|].
  unfold Stateful.try_catchS, try_catch, Stateful.invokeCall, invokeCall.
  cbn [Stateful.call Stateful.stateless].
  destruct (call (export lib k) args) as [v|e]; [reflexivity|].
  destruct (Java25.mustBeConstructed (errorText e)); reflexivity.
Qed.

Lemma Same_evalArgs (es : list (Stateful.MS unit Val)) (ps : list (M Val)) :
  Forall2 Stateful.Same es ps ->
  Stateful.Same (Stateful.evalArgs es) (evalArgs ps).
Proof.
  induction 1 as [|e p es ps He _ IH]; cbn [Stateful.evalArgs evalArgs].
  - apply Same_ret.
  - apply Same_bind; [exact He|]. intros v.
    apply Same_bind; [exact IH|]. intros vs. apply Same_ret.
Qed.

Lemma Same_node (k : Kind) (es : list (Stateful.MS unit Val)) (ps : list (M Val)) :
  Forall2 Stateful.Same es ps ->
  Stateful.Same (Stateful.apply_ (Stateful.rr (Stateful.stateless lib) k) es)
    (apply_ (Java25.rr lib k) ps).
Proof.
  intros H. unfold Stateful.apply_, apply_.
  apply Same_bind; [now apply Same_evalArgs|]. intros args. apply Same_rr.
Qed.

Ltac same :=
  lazymatch goal with
  | |- Stateful.Same (Stateful.str _) _ => apply Same_ret
  | |- Stateful.Same (Stateful.num _) _ => apply Same_ret
  | |- Stateful.Same _ _ => apply Same_node; same_args
  end
with same_args :=
  lazymatch goal with
  | |- Forall2 _ [] _ => apply Forall2_nil
  | |- Forall2 _ (_ :: _) _ => apply Forall2_cons; [same | same_args]
  end.

Lemma registrations_same :
  Forall2 (fun r p => fst r = fst p /\ Stateful.Same (snd r tt) (snd p tt))
    (Stateful.registrations (Stateful.stateless lib)) (Java25.registrations lib).
Proof.
  unfold Stateful.registrations, Java25.registrations.
  repeat (apply Forall2_cons;
          [split; [reflexivity|]; cbn [snd]; apply Same_node; same_args|]).
  apply Forall2_nil.
Qed.

Lemma get_same {V W} (R : V -> W -> Prop)
  (l1 : list (string * V)) (l2 : list (string * W)) (name : string) :
  Forall2 (fun r p => fst r = fst p /\ R (snd r) (snd p)) l1 l2 ->
  match JsMap.get l1 name, JsMap.get l2 name with
  | Some f1, Some f2 => R f1 f2
  | None, None => True
  | _, _ => False
  end.
Proof.
  induction 1 as [|[k1 f1] [k2 f2] l1 l2 [Hk Hv] _ IH]; simpl; [exact I|].
  simpl in Hk. subst k2. destruct (String.eqb name k1); [exact Hv | exact IH].
Qed.

Lemma stateful_keys_distinct {St} (pkg : Stateful.Package St) :
  NoDup (map fst (Stateful.registrations pkg)).
Proof. apply distinct_NoDup. vm_compute. reflexivity. Qed.

Lemma stateful_rules_eq {St} (pkg : Stateful.Package St) :
  Stateful.rules pkg = Stateful.registrations pkg.
Proof.
  unfold Stateful.rules. apply (fold_set_distinct _ []).
  apply stateful_keys_distinct.
Qed.

(** Over a package without state the threaded code is the code of the
    first embedding, rule by rule. *)
Lemma stateless_svg (name : string) :
  Stateful.Same (Stateful.svg (Stateful.stateless lib) name)
    (RuleDiagram.svg lib name).
Proof.
  unfold Stateful.svg, RuleDiagram.svg. apply Same_bind.
  - unfold Stateful.createRuleDiagram, Java25.createRuleDiagram.
    rewrite stateful_rules_eq, (java25_rules_eq lib).
    pose proof (get_same (V := @Stateful.Factory unit) (W := DiagramFactory)
                  (fun f p => Stateful.Same (f tt) (p tt)) _ _ name
                  registrations_same) as H.
    cbv beta in H.
    destruct (JsMap.get (Stateful.registrations (Stateful.stateless lib)) name),
             (JsMap.get (Java25.registrations lib) name);
      try contradiction; [exact H | apply Same_ret].
  - intros [|n|t|k args] s; reflexivity.
Qed.

End Stateless.

Section StatefulPackages.
Import RR.


Lemma stateless_deterministic (lib : Library) :
  Stateful.Deterministic (Stateful.stateless lib).
Proof. repeat split. Qed.

Lemma stateful_keys {St} (pkg : Stateful.Package St) (lib : Library) :
  Stateful.getDiagramRuleNames pkg = Java25.getDiagramRuleNames lib.
Proof. vm_compute. reflexivity. Qed.

(** Without the contract the markup may differ: a package that numbers
    its drawings gives the second one another number. *)
Lemma numbering_renders_differently :
  outcome (snd (Stateful.svg (Stateful.numbering Packages.functions) "JavaLetter" 0))
  = Ok "<svg id=2>"
  /\ outcome
       (snd (Stateful.svg (Stateful.numbering Packages.functions) "JavaLetter"
               (fst (Stateful.svg (Stateful.numbering Packages.functions)
                       "JavaLetter" 0))))
     = Ok "<svg id=5>".
Proof. split; vm_compute; reflexivity. Qed.

End StatefulPackages.


